(** * School manager: entity graph, relational store and their synchronisation

    Shallow embedding of
      - [tkinter_implementation/school.py]          (module [Tk]),
      - [Lab2_.../documented proj/school_management.py] (module [Lab2]),
      - [Lab2_.../documented proj/database_manager.py]  (module [Db]),
    and the properties of the data-consistency layer proved about them.

    Conventions of the embedding.
      - A Python [str] is a [string]; characters are bytes and the helpers
        [lower], [strip] and the character classes treat the ASCII range the
        way Python does (bytes above 127 are left alone).
      - Python objects have identity and are shared: every class has its own
        heap (a list of records, the index is the object's address), the
        lists held by objects and by the system hold addresses, and [x in l]
        and [l.remove(x)] compare addresses, as Python does for classes that
        define no [__eq__].
      - A raised exception is a value of [exn]; a method that may raise
        returns a [result]. *)

From Stdlib Require Import ZArith QArith List Bool Ascii String Lia Permutation.
From stdpp Require Import base list strings sorting gmap.

Set Default Proof Using "Type".

(** ** Python values and exceptions *)

Inductive exn : Type :=
  | ValueError (msg : string)
  | IntegrityError (constraint : string)
  | OverflowError.

Inductive result (A : Type) : Type :=
  | Ok (a : A)
  | Raise (e : exn).
Arguments Ok {A} a.
Arguments Raise {A} e.

Global Instance result_ret : MRet result := λ A a, Ok a.
Global Instance result_bind : MBind result := λ A B k r,
  match r with
  | Ok a => k a
  | Raise e => Raise e
  end.

Definition is_ok {A} (r : result A) : bool :=
  match r with Ok _ => true | Raise _ => false end.

Definition is_value_error {A} (r : result A) : bool :=
  match r with Raise (ValueError _) => true | _ => false end.

(** The values an [age] argument can take: [None], an [int] or a finite
    [float] (as a rational). *)
Inductive pyval : Type :=
  | PyNone
  | PyInt (z : Z)
  | PyFloat (q : Q).

(** ** Python string and list primitives *)

Module Py.

Definition is_upper (c : ascii) : bool :=
  let n := nat_of_ascii c in (65 <=? n) && (n <=? 90).

Definition lower_char (c : ascii) : ascii :=
  if is_upper c then ascii_of_nat (nat_of_ascii c + 32) else c.

(** [str.lower()] *)
Fixpoint lower (s : string) : string :=
  match s with
  | EmptyString => EmptyString
  | String c s' => String (lower_char c) (lower s')
  end.

(** [str.isspace()] on one character: TAB..CR, FS..US and the space. *)
Definition isspace (c : ascii) : bool :=
  let n := nat_of_ascii c in
  ((9 <=? n) && (n <=? 13)) || ((28 <=? n) && (n <=? 32)).

Fixpoint lstrip (s : string) : string :=
  match s with
  | EmptyString => EmptyString
  | String c s' => if isspace c then lstrip s' else s
  end.

Definition rstrip (s : string) : string :=
  String.rev (lstrip (String.rev s)).

(** [str.strip()] *)
Definition strip (s : string) : string := rstrip (lstrip s).

(** [q in s] for two strings: [q] occurs in [s] as a contiguous run. *)
Fixpoint contains (q s : string) : bool :=
  String.prefix q s ||
  match s with
  | EmptyString => false
  | String _ s' => contains q s'
  end.

(** [sep.join(l)] *)
Definition join (sep : string) (l : list string) : string :=
  String.concat sep l.

(** [x in l] for a list of objects (identity comparison). *)
Definition mem (x : nat) (l : list nat) : bool := bool_decide (x ∈ l).

(** [l.remove(x)]: drops the first occurrence. Python raises [ValueError]
    when there is none; every call in the sources is guarded by [x in l]
    or follows a successful search of [l], and the model returns [l]. *)
Fixpoint remove (x : nat) (l : list nat) : list nat :=
  match l with
  | [] => []
  | y :: l' => if decide (x = y) then l' else y :: remove x l'
  end.

(** [if x not in l: l.append(x)] *)
Definition append_new (x : nat) (l : list nat) : list nat :=
  if mem x l then l else l ++ [x].

End Py.

(** ** Regular expressions, as far as the two e-mail patterns need them *)

Module Regex.

Inductive regex : Type :=
  | Void
  | Eps
  | Cls (p : ascii → bool)
  | Cat (r1 r2 : regex)
  | Alt (r1 r2 : regex)
  | Star (r : regex).

(** [r+] and [r{2,}] *)
Definition Plus (r : regex) : regex := Cat r (Star r).
Definition AtLeast2 (r : regex) : regex := Cat r (Cat r (Star r)).

(** [$] outside MULTILINE mode: the end of the string, or just before a
    newline that ends the string. Placed last in a pattern it lets the
    rest of the input be empty or one newline. *)
Definition is_newline (c : ascii) : bool := Nat.eqb (nat_of_ascii c) 10.
Definition Dollar : regex := Alt Eps (Cls is_newline).

Fixpoint nullable (r : regex) : bool :=
  match r with
  | Void => false
  | Eps => true
  | Cls _ => false
  | Cat r1 r2 => nullable r1 && nullable r2
  | Alt r1 r2 => nullable r1 || nullable r2
  | Star _ => true
  end.

Fixpoint deriv (c : ascii) (r : regex) : regex :=
  match r with
  | Void => Void
  | Eps => Void
  | Cls p => if p c then Eps else Void
  | Cat r1 r2 =>
      if nullable r1 then Alt (Cat (deriv c r1) r2) (deriv c r2)
      else Cat (deriv c r1) r2
  | Alt r1 r2 => Alt (deriv c r1) (deriv c r2)
  | Star r1 => Cat (deriv c r1) (Star r1)
  end.

Fixpoint matches (r : regex) (w : list ascii) : bool :=
  match w with
  | [] => nullable r
  | c :: w' => matches (deriv c r) w'
  end.

(** [re.match(r, s) is not None] for a pattern [r] that ends in [$]: a
    backtracking matcher finds a match exactly when one exists. *)
Definition re_match (r : regex) (s : string) : bool :=
  matches r (list_ascii_of_string s).

(** The words of a regular expression. *)
Inductive star (L : list ascii → Prop) : list ascii → Prop :=
  | star_nil : star L []
  | star_app u v : L u → star L v → star L (u ++ v).

Fixpoint lang (r : regex) : list ascii → Prop :=
  match r with
  | Void => λ _, False
  | Eps => λ w, w = []
  | Cls p => λ w, ∃ c, w = [c] ∧ p c = true
  | Cat r1 r2 => λ w, ∃ u v, w = u ++ v ∧ lang r1 u ∧ lang r2 v
  | Alt r1 r2 => λ w, lang r1 w ∨ lang r2 w
  | Star r1 => star (lang r1)
  end.

End Regex.

(** ** [tkinter_implementation/school.py] *)

Module Tk.

(** *** Entities *)

Record Student : Type := mkStudent {
  s_name : string;
  s_age : Z;
  s_email : string;
  studentid : string;
  s_courses : list nat          (* addresses of [Course] objects *)
}.

Record Instructor : Type := mkInstructor {
  i_name : string;
  i_age : Z;
  i_email : string;
  instructorid : string;
  i_courses : list nat          (* addresses of [Course] objects *)
}.

Record Course : Type := mkCourse {
  courseid : string;
  coursename : string;
  c_instructor : option nat;    (* address of an [Instructor], or [None] *)
  c_students : list nat         (* addresses of [Student] objects *)
}.

(** [_email_re = re.compile(r"^[^@\s]+@[^@\s]+\.[^@\s]+$")] *)
Definition not_at_space (c : ascii) : bool :=
  negb (Nat.eqb (nat_of_ascii c) 64) && negb (Py.isspace c).
Definition is_at (c : ascii) : bool := Nat.eqb (nat_of_ascii c) 64.
Definition is_dot (c : ascii) : bool := Nat.eqb (nat_of_ascii c) 46.

Definition _email_re : Regex.regex :=
  Regex.Cat (Regex.Plus (Regex.Cls not_at_space))
 (Regex.Cat (Regex.Cls is_at)
 (Regex.Cat (Regex.Plus (Regex.Cls not_at_space))
 (Regex.Cat (Regex.Cls is_dot)
 (Regex.Cat (Regex.Plus (Regex.Cls not_at_space))
            Regex.Dollar)))).

(** [int(age)] of a float: truncation towards zero. *)
Definition int_of_float (q : Q) : Z := Z.quot (Qnum q) (Zpos (Qden q)).

(** The test [age is None or age < 0] and the conversion [int(age)]. *)
Definition check_age (age : pyval) : result Z :=
  match age with
  | PyNone => Raise (ValueError "age must be >= 0")
  | PyInt z =>
      if (z <? 0)%Z then Raise (ValueError "age must be >= 0") else Ok z
  | PyFloat q =>
      if Qle_bool 0 q then Ok (int_of_float q)
      else Raise (ValueError "age must be >= 0")
  end.

(** [Person.__init__]; the result is [(self.name, self.age, self.email)]. *)
Definition Person_init (name : string) (age : pyval) (email : string)
  : result (string * Z * string) :=
  if decide (name = "") then Raise (ValueError "name must not be empty")
  else
    a ← check_age age;
    if negb (bool_decide (email = "")) && negb (Regex.re_match _email_re email)
    then Raise (ValueError "email format looks wrong")
    else Ok (name, a, email).

(** [Student.__init__] *)
Definition Student_init (name : string) (age : pyval) (email : string)
    (sid : string) : result Student :=
  p ← Person_init name age email;
  if decide (sid = "") then Raise (ValueError "studentid must not be empty")
  else Ok (mkStudent p.1.1 p.1.2 p.2 sid []).

(** [Instructor.__init__] *)
Definition Instructor_init (name : string) (age : pyval) (email : string)
    (iid : string) : result Instructor :=
  p ← Person_init name age email;
  if decide (iid = "") then Raise (ValueError "instructorid must not be empty")
  else Ok (mkInstructor p.1.1 p.1.2 p.2 iid []).

(** [Course.__init__] *)
Definition Course_init (cid cname : string) (instructor : option nat)
  : result Course :=
  if decide (cid = "") then Raise (ValueError "courseid must not be empty")
  else if decide (cname = "") then Raise (ValueError "coursename must not be empty")
  else Ok (mkCourse cid cname instructor []).

(** *** The object heaps and the [SchoolSystem] registry *)

Record State : Type := mkState {
  heap_students : list Student;
  heap_instructors : list Instructor;
  heap_courses : list Course;
  students : list nat;          (* [self.students] *)
  instructors : list nat;       (* [self.instructors] *)
  courses : list nat            (* [self.courses] *)
}.

(** [SchoolSystem()] on a heap without objects. *)
Definition empty : State := mkState [] [] [] [] [] [].

Definition no_student : Student := mkStudent "" 0 "" "" [].
Definition no_instructor : Instructor := mkInstructor "" 0 "" "" [].
Definition no_course : Course := mkCourse "" "" None [].

(** Dereferencing. Python has no dangling reference; an address out of
    the heap reads as an object without content. *)
Definition student_at (st : State) (a : nat) : Student :=
  default no_student (heap_students st !! a).
Definition instructor_at (st : State) (a : nat) : Instructor :=
  default no_instructor (heap_instructors st !! a).
Definition course_at (st : State) (a : nat) : Course :=
  default no_course (heap_courses st !! a).

(** Object creation: the new object gets the next address. *)
Definition new_student (st : State) (o : Student) : nat * State :=
  (length (heap_students st),
   mkState (heap_students st ++ [o]) (heap_instructors st) (heap_courses st)
           (students st) (instructors st) (courses st)).
Definition new_instructor (st : State) (o : Instructor) : nat * State :=
  (length (heap_instructors st),
   mkState (heap_students st) (heap_instructors st ++ [o]) (heap_courses st)
           (students st) (instructors st) (courses st)).
Definition new_course (st : State) (o : Course) : nat * State :=
  (length (heap_courses st),
   mkState (heap_students st) (heap_instructors st) (heap_courses st ++ [o])
           (students st) (instructors st) (courses st)).

(** Attribute assignment on one object. *)
Definition set_s_courses (a : nat) (f : list nat → list nat) (st : State) : State :=
  mkState (alter (λ o, mkStudent (s_name o) (s_age o) (s_email o) (studentid o)
                                 (f (s_courses o))) a (heap_students st))
          (heap_instructors st) (heap_courses st)
          (students st) (instructors st) (courses st).
Definition set_i_courses (a : nat) (f : list nat → list nat) (st : State) : State :=
  mkState (heap_students st)
          (alter (λ o, mkInstructor (i_name o) (i_age o) (i_email o) (instructorid o)
                                    (f (i_courses o))) a (heap_instructors st))
          (heap_courses st)
          (students st) (instructors st) (courses st).
Definition set_c_students (a : nat) (f : list nat → list nat) (st : State) : State :=
  mkState (heap_students st) (heap_instructors st)
          (alter (λ o, mkCourse (courseid o) (coursename o) (c_instructor o)
                                (f (c_students o))) a (heap_courses st))
          (students st) (instructors st) (courses st).
Definition set_c_instructor (a : nat) (i : option nat) (st : State) : State :=
  mkState (heap_students st) (heap_instructors st)
          (alter (λ o, mkCourse (courseid o) (coursename o) i (c_students o))
                 a (heap_courses st))
          (students st) (instructors st) (courses st).
Definition set_students (l : list nat) (st : State) : State :=
  mkState (heap_students st) (heap_instructors st) (heap_courses st)
          l (instructors st) (courses st).
Definition set_instructors (l : list nat) (st : State) : State :=
  mkState (heap_students st) (heap_instructors st) (heap_courses st)
          (students st) l (courses st).
Definition set_courses (l : list nat) (st : State) : State :=
  mkState (heap_students st) (heap_instructors st) (heap_courses st)
          (students st) (instructors st) l.

(** [Student.enroll], [Instructor.take], [Course.addstudent] *)
Definition enroll (s c : nat) (st : State) : State :=
  set_s_courses s (Py.append_new c) st.
Definition take (i c : nat) (st : State) : State :=
  set_i_courses i (Py.append_new c) st.
Definition addstudent_to_course (c s : nat) (st : State) : State :=
  set_c_students c (Py.append_new s) st.

(** *** find *)

Definition findstudent (st : State) (sid : string) : option nat :=
  List.find (λ a, String.eqb (studentid (student_at st a)) sid) (students st).
Definition findinstructor (st : State) (iid : string) : option nat :=
  List.find (λ a, String.eqb (instructorid (instructor_at st a)) iid) (instructors st).
Definition findcourse (st : State) (cid : string) : option nat :=
  List.find (λ a, String.eqb (courseid (course_at st a)) cid) (courses st).

(** *** add / remove *)

(** The argument is the address of the entity object. An object is
    always true in a condition, so [if self.findstudent(..)] tests for
    [None]. *)
Definition addstudent (st : State) (s : nat) : bool * State :=
  match findstudent st (studentid (student_at st s)) with
  | Some _ => (false, st)
  | None => (true, set_students (students st ++ [s]) st)
  end.

Definition addinstructor (st : State) (i : nat) : bool * State :=
  match findinstructor st (instructorid (instructor_at st i)) with
  | Some _ => (false, st)
  | None => (true, set_instructors (instructors st ++ [i]) st)
  end.

Definition addcourse (st : State) (c : nat) : bool * State :=
  match findcourse st (courseid (course_at st c)) with
  | Some _ => (false, st)
  | None => (true, set_courses (courses st ++ [c]) st)
  end.

Definition removestudent (st : State) (sid : string) : bool * State :=
  match findstudent st sid with
  | None => (false, st)
  | Some s =>
      let st1 :=
        fold_left (λ acc c,
                     if Py.mem s (c_students (course_at acc c))
                     then set_c_students c (Py.remove s) acc else acc)
                  (courses st) st in
      (true, set_students (Py.remove s (students st1)) st1)
  end.

Definition removeinstructor (st : State) (iid : string) : bool * State :=
  match findinstructor st iid with
  | None => (false, st)
  | Some i =>
      let st1 :=
        fold_left (λ acc c,
                     if bool_decide (c_instructor (course_at acc c) = Some i)
                     then set_c_instructor c None acc else acc)
                  (courses st) st in
      (true, set_instructors (Py.remove i (instructors st1)) st1)
  end.

Definition removecourse (st : State) (cid : string) : bool * State :=
  match findcourse st cid with
  | None => (false, st)
  | Some c =>
      let st1 :=
        fold_left (λ acc s,
                     if Py.mem c (s_courses (student_at acc s))
                     then set_s_courses s (Py.remove c) acc else acc)
                  (students st) st in
      let st2 :=
        match c_instructor (course_at st1 c) with
        | Some i =>
            if Py.mem c (i_courses (instructor_at st1 i))
            then set_i_courses i (Py.remove c) st1 else st1
        | None => st1
        end in
      (true, set_courses (Py.remove c (courses st2)) st2)
  end.

(** *** relations *)

Definition assign (st : State) (iid cid : string) : bool * State :=
  match findinstructor st iid, findcourse st cid with
  | Some i, Some c =>
      if bool_decide (c_instructor (course_at st c) = Some i) then (false, st)
      else (true, take i c (set_c_instructor c (Some i) st))
  | _, _ => (false, st)
  end.

Definition register (st : State) (sid cid : string) : bool * State :=
  match findstudent st sid, findcourse st cid with
  | Some s, Some c =>
      if Py.mem s (c_students (course_at st c)) then (false, st)
      else (true, enroll s c (addstudent_to_course c s st))
  | _, _ => (false, st)
  end.

(** *** search *)

Definition row : Type := string * string * string * string.

(** [any(q in str(x).lower() for x in fields)] *)
Definition any_contains (q : string) (fields : list string) : bool :=
  existsb (λ x, Py.contains q (Py.lower x)) fields.

Definition student_row (st : State) (a : nat) : row :=
  let s := student_at st a in
  ("Student", s_name s, studentid s,
   Py.join ", " (map (λ c, coursename (course_at st c)) (s_courses s))).

Definition instructor_row (st : State) (a : nat) : row :=
  let i := instructor_at st a in
  ("Instructor", i_name i, instructorid i,
   Py.join ", " (map (λ c, coursename (course_at st c)) (i_courses i))).

(** [c.instructor.name if c.instructor else "None"] *)
Definition inst_name (st : State) (a : nat) : string :=
  match c_instructor (course_at st a) with
  | Some i => i_name (instructor_at st i)
  | None => "None"
  end.

Definition course_row (st : State) (a : nat) : row :=
  let c := course_at st a in
  ("Course", coursename c, courseid c,
   "Instructor: " +:+ inst_name st a +:+ "; Students: " +:+
   Py.join ", " (map (λ s, s_name (student_at st s)) (c_students c))).

Definition student_hit (st : State) (q : string) (a : nat) : bool :=
  let s := student_at st a in
  any_contains q [s_name s; s_email s; studentid s].
Definition instructor_hit (st : State) (q : string) (a : nat) : bool :=
  let i := instructor_at st a in
  any_contains q [i_name i; i_email i; instructorid i].
Definition course_hit (st : State) (q : string) (a : nat) : bool :=
  let c := course_at st a in
  any_contains q [coursename c; courseid c; inst_name st a].

Definition search (st : State) (q : string) : list row :=
  let q := Py.lower (Py.strip q) in
  map (student_row st) (List.filter (student_hit st q) (students st)) ++
  map (instructor_row st) (List.filter (instructor_hit st q) (instructors st)) ++
  map (course_row st) (List.filter (course_hit st q) (courses st)).

End Tk.

(** ** [Lab2_AbdelRahmanElKouche/documented proj/school_management.py] *)

Module Lab2.

(** *** Validators *)

Definition is_digit (c : ascii) : bool :=
  let n := nat_of_ascii c in (48 <=? n) && (n <=? 57).
Definition is_alpha (c : ascii) : bool :=
  let n := nat_of_ascii c in
  ((65 <=? n) && (n <=? 90)) || ((97 <=? n) && (n <=? 122)).
Definition is_alnum (c : ascii) : bool := is_alpha c || is_digit c.

(** [[a-zA-Z0-9._%+-]] *)
Definition local_char (c : ascii) : bool :=
  is_alnum c || existsb (Nat.eqb (nat_of_ascii c)) [46; 95; 37; 43; 45].
(** [[a-zA-Z0-9.-]] *)
Definition domain_char (c : ascii) : bool :=
  is_alnum c || existsb (Nat.eqb (nat_of_ascii c)) [46; 45].
Definition is_at (c : ascii) : bool := Nat.eqb (nat_of_ascii c) 64.
Definition is_dot (c : ascii) : bool := Nat.eqb (nat_of_ascii c) 46.

(** [pattern = r'^[a-zA-Z0-9._%+-]+@[a-zA-Z0-9.-]+\.[a-zA-Z]{2,}$'] *)
Definition pattern : Regex.regex :=
  Regex.Cat (Regex.Plus (Regex.Cls local_char))
 (Regex.Cat (Regex.Cls is_at)
 (Regex.Cat (Regex.Plus (Regex.Cls domain_char))
 (Regex.Cat (Regex.Cls is_dot)
 (Regex.Cat (Regex.AtLeast2 (Regex.Cls is_alpha))
            Regex.Dollar)))).

(** [len(x.strip()) > 0] *)
Definition nonblank (x : string) : bool :=
  negb (bool_decide (Py.strip x = "")).

Definition _validate_name (name : string) : bool := nonblank name.
Definition _validate_age (age : pyval) : bool :=
  match age with
  | PyInt z => (0 <=? z)%Z
  | _ => false
  end.
Definition _validate_email (email : string) : bool :=
  Regex.re_match pattern email.
Definition _validate_student_id (x : string) : bool := nonblank x.
Definition _validate_instructor_id (x : string) : bool := nonblank x.
Definition _validate_course_id (x : string) : bool := nonblank x.
Definition _validate_course_name (x : string) : bool := nonblank x.

(** *** Entities *)

Record Student : Type := mkStudent {
  s_name : string;
  s_age : Z;
  s_email : string;
  student_id : string;
  registered_courses : list nat
}.

Record Instructor : Type := mkInstructor {
  i_name : string;
  i_age : Z;
  i_email : string;
  instructor_id : string;
  assigned_courses : list nat
}.

Record Course : Type := mkCourse {
  course_id : string;
  course_name : string;
  instructor : option nat;
  enrolled_students : list nat
}.

(** The integer held by a value that passed [_validate_age]. *)
Definition as_int (age : pyval) : Z :=
  match age with
  | PyInt z => z
  | _ => 0%Z
  end.

(** [Person.__init__]; the result is [(self.name, self.age, self._email)]. *)
Definition Person_init (name : string) (age : pyval) (email : string)
  : result (string * Z * string) :=
  if negb (_validate_name name)
  then Raise (ValueError "Name must be a non-empty string")
  else if negb (_validate_age age)
  then Raise (ValueError "Age must be a non-negative integer")
  else if negb (_validate_email email)
  then Raise (ValueError "Invalid email format")
  else Ok (name, as_int age, email).

Definition Student_init (name : string) (age : pyval) (email : string)
    (sid : string) : result Student :=
  p ← Person_init name age email;
  if negb (_validate_student_id sid)
  then Raise (ValueError "Student ID must be a non-empty string")
  else Ok (mkStudent p.1.1 p.1.2 p.2 sid []).

Definition Instructor_init (name : string) (age : pyval) (email : string)
    (iid : string) : result Instructor :=
  p ← Person_init name age email;
  if negb (_validate_instructor_id iid)
  then Raise (ValueError "Instructor ID must be a non-empty string")
  else Ok (mkInstructor p.1.1 p.1.2 p.2 iid []).

Definition Course_init (cid cname : string) (inst : option nat)
  : result Course :=
  if negb (_validate_course_id cid)
  then Raise (ValueError "Course ID must be a non-empty string")
  else if negb (_validate_course_name cname)
  then Raise (ValueError "Course name must be a non-empty string")
  else Ok (mkCourse cid cname inst []).

(** *** The object heaps and the [SchoolManagementSystem] registry *)

Record State : Type := mkState {
  heap_students : list Student;
  heap_instructors : list Instructor;
  heap_courses : list Course;
  students : list nat;
  instructors : list nat;
  courses : list nat
}.

Definition empty : State := mkState [] [] [] [] [] [].

Definition no_student : Student := mkStudent "" 0 "" "" [].
Definition no_instructor : Instructor := mkInstructor "" 0 "" "" [].
Definition no_course : Course := mkCourse "" "" None [].

Definition student_at (st : State) (a : nat) : Student :=
  default no_student (heap_students st !! a).
Definition instructor_at (st : State) (a : nat) : Instructor :=
  default no_instructor (heap_instructors st !! a).
Definition course_at (st : State) (a : nat) : Course :=
  default no_course (heap_courses st !! a).

Definition new_student (st : State) (o : Student) : nat * State :=
  (length (heap_students st),
   mkState (heap_students st ++ [o]) (heap_instructors st) (heap_courses st)
           (students st) (instructors st) (courses st)).
Definition new_instructor (st : State) (o : Instructor) : nat * State :=
  (length (heap_instructors st),
   mkState (heap_students st) (heap_instructors st ++ [o]) (heap_courses st)
           (students st) (instructors st) (courses st)).
Definition new_course (st : State) (o : Course) : nat * State :=
  (length (heap_courses st),
   mkState (heap_students st) (heap_instructors st) (heap_courses st ++ [o])
           (students st) (instructors st) (courses st)).

Definition set_registered (a : nat) (f : list nat → list nat) (st : State) : State :=
  mkState (alter (λ o, mkStudent (s_name o) (s_age o) (s_email o) (student_id o)
                                 (f (registered_courses o))) a (heap_students st))
          (heap_instructors st) (heap_courses st)
          (students st) (instructors st) (courses st).
Definition set_assigned (a : nat) (f : list nat → list nat) (st : State) : State :=
  mkState (heap_students st)
          (alter (λ o, mkInstructor (i_name o) (i_age o) (i_email o) (instructor_id o)
                                    (f (assigned_courses o))) a (heap_instructors st))
          (heap_courses st)
          (students st) (instructors st) (courses st).
Definition set_enrolled (a : nat) (f : list nat → list nat) (st : State) : State :=
  mkState (heap_students st) (heap_instructors st)
          (alter (λ o, mkCourse (course_id o) (course_name o) (instructor o)
                                (f (enrolled_students o))) a (heap_courses st))
          (students st) (instructors st) (courses st).
Definition set_instructor (a : nat) (i : option nat) (st : State) : State :=
  mkState (heap_students st) (heap_instructors st)
          (alter (λ o, mkCourse (course_id o) (course_name o) i (enrolled_students o))
                 a (heap_courses st))
          (students st) (instructors st) (courses st).
Definition set_students (l : list nat) (st : State) : State :=
  mkState (heap_students st) (heap_instructors st) (heap_courses st)
          l (instructors st) (courses st).
Definition set_instructors (l : list nat) (st : State) : State :=
  mkState (heap_students st) (heap_instructors st) (heap_courses st)
          (students st) l (courses st).
Definition set_courses (l : list nat) (st : State) : State :=
  mkState (heap_students st) (heap_instructors st) (heap_courses st)
          (students st) (instructors st) l.

(** [Course.add_student] *)
Definition add_student_to_course (c s : nat) (st : State) : State :=
  set_enrolled c (Py.append_new s) st.

(** [Student.register_course]: both sides are linked, and only when the
    course is not yet in the student's list. *)
Definition register_course (s c : nat) (st : State) : State :=
  if Py.mem c (registered_courses (student_at st s)) then st
  else add_student_to_course c s (set_registered s (λ l, l ++ [c]) st).

(** [Instructor.assign_course]: the course's [instructor] is set only
    when the course is not yet in the instructor's list. *)
Definition assign_course (i c : nat) (st : State) : State :=
  if Py.mem c (assigned_courses (instructor_at st i)) then st
  else set_instructor c (Some i) (set_assigned i (λ l, l ++ [c]) st).

(** [add_student], [add_instructor], [add_course]: no test, no result. *)
Definition add_student (st : State) (s : nat) : State :=
  set_students (students st ++ [s]) st.
Definition add_instructor (st : State) (i : nat) : State :=
  set_instructors (instructors st ++ [i]) st.
Definition add_course (st : State) (c : nat) : State :=
  set_courses (courses st ++ [c]) st.

Definition find_student_by_id (st : State) (sid : string) : option nat :=
  List.find (λ a, String.eqb (student_id (student_at st a)) sid) (students st).
Definition find_instructor_by_id (st : State) (iid : string) : option nat :=
  List.find (λ a, String.eqb (instructor_id (instructor_at st a)) iid) (instructors st).
Definition find_course_by_id (st : State) (cid : string) : option nat :=
  List.find (λ a, String.eqb (course_id (course_at st a)) cid) (courses st).

Definition remove_student (st : State) (sid : string) : bool * State :=
  match find_student_by_id st sid with
  | None => (false, st)
  | Some s =>
      let st1 :=
        fold_left (λ acc c,
                     if Py.mem s (enrolled_students (course_at acc c))
                     then set_enrolled c (Py.remove s) acc else acc)
                  (registered_courses (student_at st s)) st in
      (true, set_students (Py.remove s (students st1)) st1)
  end.

Definition remove_instructor (st : State) (iid : string) : bool * State :=
  match find_instructor_by_id st iid with
  | None => (false, st)
  | Some i =>
      let st1 :=
        fold_left (λ acc c, set_instructor c None acc)
                  (assigned_courses (instructor_at st i)) st in
      (true, set_instructors (Py.remove i (instructors st1)) st1)
  end.

Definition remove_course (st : State) (cid : string) : bool * State :=
  match find_course_by_id st cid with
  | None => (false, st)
  | Some c =>
      let st1 :=
        fold_left (λ acc s,
                     if Py.mem c (registered_courses (student_at acc s))
                     then set_registered s (Py.remove c) acc else acc)
                  (enrolled_students (course_at st c)) st in
      let st2 :=
        match instructor (course_at st1 c) with
        | Some i =>
            if Py.mem c (assigned_courses (instructor_at st1 i))
            then set_assigned i (Py.remove c) st1 else st1
        | None => st1
        end in
      (true, set_courses (Py.remove c (courses st2)) st2)
  end.

End Lab2.

(** ** [Lab2_AbdelRahmanElKouche/documented proj/database_manager.py] *)

Module Db.

(** *** The schema of [init_database] *)

(** [students] and [instructors] have the same columns. *)
Record person_rec : Type := mkPerson {
  p_id : string;                (* TEXT PRIMARY KEY *)
  p_name : string;              (* TEXT NOT NULL *)
  p_age : Z;                    (* INTEGER NOT NULL CHECK(age >= 0) *)
  p_email : string;             (* TEXT NOT NULL UNIQUE *)
  p_created_at : Z;
  p_updated_at : Z
}.

Record course_rec : Type := mkCourseRec {
  c_id : string;                (* TEXT PRIMARY KEY *)
  c_name : string;              (* TEXT NOT NULL *)
  c_instructor_id : option string;
      (* REFERENCES instructors ON DELETE SET NULL ON UPDATE CASCADE *)
  c_created_at : Z;
  c_updated_at : Z
}.

Record registration_rec : Type := mkReg {
  r_id : Z;                     (* INTEGER PRIMARY KEY AUTOINCREMENT *)
  r_student_id : string;        (* REFERENCES students ON DELETE CASCADE *)
  r_course_id : string;         (* REFERENCES courses ON DELETE CASCADE *)
  r_registration_date : Z
      (* UNIQUE(student_id, course_id) *)
}.

(** The database file: the four tables in row order, and the counter that
    AUTOINCREMENT keeps in [sqlite_sequence] (it survives the deletion of
    the rows). *)
Record Database : Type := mkDb {
  students : list person_rec;
  instructors : list person_rec;
  courses : list course_rec;
  student_course_registrations : list registration_rec;
  registrations_seq : Z
}.

Definition empty : Database := mkDb [] [] [] [] 0.

Inductive table : Type :=
  | Students | Instructors | Courses | Registrations.

(** *** The data-changing statements the module executes *)

Inductive statement : Type :=
  | DeleteAll (t : table)
  | InsertStudent (id name : string) (age : Z) (email : string)
  | InsertInstructor (id name : string) (age : Z) (email : string)
  | InsertCourse (id name : string) (instructor_id : option string)
  | InsertRegistration (student_id course_id : string)
  | UpdateStudent (id : string) (name : option string) (age : option Z)
                  (email : option string)
  | UpdateInstructor (id : string) (name : option string) (age : option Z)
                     (email : option string)
  | UpdateCourse (id : string) (name : option string)
                 (instructor_id : option string)
  | DeleteStudent (id : string)
  | DeleteInstructor (id : string)
  | DeleteCourse (id : string)
  | DeleteRegistration (student_id course_id : string).

(** A Python [int] is bound as a 64-bit INTEGER; a larger one makes
    [execute] raise [OverflowError]. *)
Definition int64_ok (z : Z) : bool :=
  ((- 2 ^ 63 <=? z) && (z <? 2 ^ 63))%Z.

Definition has_id (id : string) (l : list person_rec) : bool :=
  existsb (λ r, String.eqb (p_id r) id) l.
Definition has_email (e : string) (l : list person_rec) : bool :=
  existsb (λ r, String.eqb (p_email r) e) l.
Definition has_course (id : string) (l : list course_rec) : bool :=
  existsb (λ r, String.eqb (c_id r) id) l.
Definition has_registration (sid cid : string) (l : list registration_rec) : bool :=
  existsb (λ r, String.eqb (r_student_id r) sid && String.eqb (r_course_id r) cid) l.

(** INSERT into [students] or [instructors]. *)
Definition insert_person (tbl : string) (now : Z) (id name : string) (age : Z)
    (email : string) (l : list person_rec) : result (list person_rec) :=
  if negb (int64_ok age) then Raise OverflowError
  else if (age <? 0)%Z then Raise (IntegrityError "CHECK constraint failed: age >= 0")
  else if has_id id l then Raise (IntegrityError ("UNIQUE constraint failed: " +:+ tbl +:+ " id"))
  else if has_email email l then Raise (IntegrityError ("UNIQUE constraint failed: " +:+ tbl +:+ ".email"))
  else Ok (l ++ [mkPerson id name age email now now]).

(** UPDATE of [students] or [instructors] WHERE id = ?; the AFTER UPDATE
    trigger then refreshes [updated_at] of the row. The result carries the
    number of rows matched. *)
Definition update_person_row (now : Z) (name : option string) (age : option Z)
    (email : option string) (r : person_rec) : person_rec :=
  mkPerson (p_id r) (default (p_name r) name) (default (p_age r) age)
           (default (p_email r) email) (p_created_at r) now.

Definition update_person (tbl : string) (now : Z) (id : string)
    (name : option string) (age : option Z) (email : option string)
    (l : list person_rec) : result (nat * list person_rec) :=
  if negb (from_option int64_ok true age) then Raise OverflowError
  else
    let hit r := String.eqb (p_id r) id in
    let l' := map (λ r, if hit r then update_person_row now name age email r else r) l in
    let n := length (List.filter hit l) in
    if Nat.eqb n 0 then Ok (0, l)
    else if (from_option (λ a, a <? 0)%Z false age)
    then Raise (IntegrityError "CHECK constraint failed: age >= 0")
    else if from_option (λ e, 1 <? length (List.filter (λ r, String.eqb (p_email r) e) l')) false email
    then Raise (IntegrityError ("UNIQUE constraint failed: " +:+ tbl +:+ ".email"))
    else Ok (n, l').

Definition update_course_row (now : Z) (name : option string)
    (iid : option string) (r : course_rec) : course_rec :=
  mkCourseRec (c_id r) (default (c_name r) name)
              (match iid with Some i => Some i | None => c_instructor_id r end)
              (c_created_at r) now.

Definition set_students l (db : Database) :=
  mkDb l (instructors db) (courses db) (student_course_registrations db) (registrations_seq db).
Definition set_instructors l (db : Database) :=
  mkDb (students db) l (courses db) (student_course_registrations db) (registrations_seq db).
Definition set_courses l (db : Database) :=
  mkDb (students db) (instructors db) l (student_course_registrations db) (registrations_seq db).
Definition set_registrations l (db : Database) :=
  mkDb (students db) (instructors db) (courses db) l (registrations_seq db).

(** What the referential actions of the schema do when a parent row goes
    away. They run only on a connection that enforces foreign keys. *)
Definition cascade_student (fk : bool) (gone : string → bool) (db : Database) : Database :=
  if fk then
    set_registrations
      (List.filter (λ r, negb (gone (r_student_id r))) (student_course_registrations db)) db
  else db.
Definition cascade_course (fk : bool) (gone : string → bool) (db : Database) : Database :=
  if fk then
    set_registrations
      (List.filter (λ r, negb (gone (r_course_id r))) (student_course_registrations db)) db
  else db.
Definition set_null_instructor (fk : bool) (gone : string → bool) (db : Database) : Database :=
  if fk then
    set_courses
      (map (λ r, match c_instructor_id r with
                 | Some i => if gone i
                             then mkCourseRec (c_id r) (c_name r) None
                                              (c_created_at r) (c_updated_at r)
                             else r
                 | None => r
                 end) (courses db)) db
  else db.

(** One [cursor.execute] of a data-changing statement, on a connection
    whose foreign-key enforcement is [fk], at time [now]. The result is
    [cursor.rowcount] and the new contents, or the exception raised. *)
Definition exec (fk : bool) (now : Z) (s : statement) (db : Database)
  : result (nat * Database) :=
  match s with
  | DeleteAll Registrations =>
      Ok (length (student_course_registrations db), set_registrations [] db)
  | DeleteAll Courses =>
      Ok (length (courses db),
          set_courses [] (cascade_course fk (λ i, has_course i (courses db)) db))
  | DeleteAll Instructors =>
      Ok (length (instructors db),
          set_instructors [] (set_null_instructor fk (λ i, has_id i (instructors db)) db))
  | DeleteAll Students =>
      Ok (length (students db),
          set_students [] (cascade_student fk (λ i, has_id i (students db)) db))
  | InsertStudent id name age email =>
      l ← insert_person "students" now id name age email (students db);
      Ok (1, set_students l db)
  | InsertInstructor id name age email =>
      l ← insert_person "instructors" now id name age email (instructors db);
      Ok (1, set_instructors l db)
  | InsertCourse id name iid =>
      if has_course id (courses db)
      then Raise (IntegrityError "UNIQUE constraint failed: courses.course_id")
      else if fk && from_option (λ i, negb (has_id i (instructors db))) false iid
      then Raise (IntegrityError "FOREIGN KEY constraint failed")
      else Ok (1, set_courses (courses db ++ [mkCourseRec id name iid now now]) db)
  | InsertRegistration sid cid =>
      if has_registration sid cid (student_course_registrations db)
      then Raise (IntegrityError "UNIQUE constraint failed: student_course_registrations.student_id, student_course_registrations.course_id")
      else if fk && (negb (has_id sid (students db)) || negb (has_course cid (courses db)))
      then Raise (IntegrityError "FOREIGN KEY constraint failed")
      else
        let n := (registrations_seq db + 1)%Z in
        Ok (1, mkDb (students db) (instructors db) (courses db)
                    (student_course_registrations db ++ [mkReg n sid cid now]) n)
  | UpdateStudent id name age email =>
      r ← update_person "students" now id name age email (students db);
      Ok (r.1, set_students r.2 db)
  | UpdateInstructor id name age email =>
      r ← update_person "instructors" now id name age email (instructors db);
      Ok (r.1, set_instructors r.2 db)
  | UpdateCourse id name iid =>
      let hit r := String.eqb (c_id r) id in
      let n := length (List.filter hit (courses db)) in
      if Nat.eqb n 0 then Ok (0, db)
      else if fk && from_option (λ i, negb (has_id i (instructors db))) false iid
      then Raise (IntegrityError "FOREIGN KEY constraint failed")
      else Ok (n, set_courses
                    (map (λ r, if hit r then update_course_row now name iid r else r)
                         (courses db)) db)
  | DeleteStudent id =>
      let hit r := String.eqb (p_id r) id in
      let n := length (List.filter hit (students db)) in
      Ok (n, set_students (List.filter (λ r, negb (hit r)) (students db))
               (cascade_student (fk && negb (Nat.eqb n 0)) (String.eqb id) db))
  | DeleteInstructor id =>
      let hit r := String.eqb (p_id r) id in
      let n := length (List.filter hit (instructors db)) in
      Ok (n, set_instructors (List.filter (λ r, negb (hit r)) (instructors db))
               (set_null_instructor (fk && negb (Nat.eqb n 0)) (String.eqb id) db))
  | DeleteCourse id =>
      let hit r := String.eqb (c_id r) id in
      let n := length (List.filter hit (courses db)) in
      Ok (n, set_courses (List.filter (λ r, negb (hit r)) (courses db))
               (cascade_course (fk && negb (Nat.eqb n 0)) (String.eqb id) db))
  | DeleteRegistration sid cid =>
      let hit r := String.eqb (r_student_id r) sid && String.eqb (r_course_id r) cid in
      Ok (length (List.filter hit (student_course_registrations db)),
          set_registrations
            (List.filter (λ r, negb (hit r)) (student_course_registrations db)) db)
  end.

(** A sequence of [execute] calls; the first exception ends it. *)
Fixpoint run (fk : bool) (now : Z) (l : list statement) (db : Database)
  : result Database :=
  match l with
  | [] => Ok db
  | s :: l' => r ← exec fk now s db; run fk now l' r.2
  end.

(** *** Connections *)

(** [sqlite3.connect(self.db_path)]: SQLite leaves foreign-key
    enforcement off on a new connection, and the module never executes
    [PRAGMA foreign_keys = ON]. *)
Definition connect_foreign_keys : bool := false.

(** [with sqlite3.connect(..) as conn: body]: the first data-changing
    statement opens a transaction; leaving the block commits it, leaving
    it with an exception rolls it back and lets the exception through. *)
Definition with_connection {A} (body : bool → Database → result (A * Database))
    (db : Database) : result A * Database :=
  match body connect_foreign_keys db with
  | Ok (a, db') => (Ok a, db')
  | Raise e => (Raise e, db)
  end.

(** [try: ... return v  except ...: return False] *)
Definition or_false (r : result bool * Database) : bool * Database :=
  match r with
  | (Ok b, db) => (b, db)
  | (Raise _, db) => (false, db)
  end.

(** *** Insertion *)

Definition add_student (now : Z) (s : Lab2.Student) (db : Database) : bool * Database :=
  or_false (with_connection (λ fk d,
    r ← exec fk now (InsertStudent (Lab2.student_id s) (Lab2.s_name s)
                                   (Lab2.s_age s) (Lab2.s_email s)) d;
    Ok (true, r.2)) db).

Definition add_instructor (now : Z) (i : Lab2.Instructor) (db : Database) : bool * Database :=
  or_false (with_connection (λ fk d,
    r ← exec fk now (InsertInstructor (Lab2.instructor_id i) (Lab2.i_name i)
                                      (Lab2.i_age i) (Lab2.i_email i)) d;
    Ok (true, r.2)) db).

(** [course.instructor.instructor_id if course.instructor else None] *)
Definition instructor_id_of (g : Lab2.State) (c : Lab2.Course) : option string :=
  (λ i, Lab2.instructor_id (Lab2.instructor_at g i)) <$> Lab2.instructor c.

Definition add_course (now : Z) (g : Lab2.State) (c : Lab2.Course) (db : Database)
  : bool * Database :=
  or_false (with_connection (λ fk d,
    r ← exec fk now (InsertCourse (Lab2.course_id c) (Lab2.course_name c)
                                  (instructor_id_of g c)) d;
    Ok (true, r.2)) db).

Definition register_student_to_course (now : Z) (sid cid : string) (db : Database)
  : bool * Database :=
  or_false (with_connection (λ fk d,
    r ← exec fk now (InsertRegistration sid cid) d;
    Ok (true, r.2)) db).

(** *** Queries *)

Global Instance by_key_dec {A} (f : A → string) :
  RelDecision (λ x y : A, String.le (f x) (f y)).
Proof. intros x y. apply _. Defined.

(** [ORDER BY key]; rows with equal keys keep their row order. *)
Definition order_by {A} (f : A → string) (l : list A) : list A :=
  merge_sort (λ x y, String.le (f x) (f y)) l.

Definition get_all_students (db : Database) : list (string * string * Z * string) :=
  map (λ r, (p_id r, p_name r, p_age r, p_email r)) (order_by p_name (students db)).

Definition get_all_instructors (db : Database) : list (string * string * Z * string) :=
  map (λ r, (p_id r, p_name r, p_age r, p_email r)) (order_by p_name (instructors db)).

(** [courses c LEFT JOIN instructors i ON c.instructor_id = i.instructor_id] *)
Definition left_join_instructor (db : Database) (c : course_rec)
  : list (string * string * option string * option string) :=
  match List.filter (λ i, bool_decide (c_instructor_id c = Some (p_id i))) (instructors db) with
  | [] => [(c_id c, c_name c, None, None)]
  | l => map (λ i, (c_id c, c_name c, Some (p_id i), Some (p_name i))) l
  end.

Definition get_all_courses (db : Database)
  : list (string * string * option string * option string) :=
  flat_map (left_join_instructor db) (order_by c_name (courses db)).

(** [courses c JOIN student_course_registrations scr
     ON c.course_id = scr.course_id WHERE scr.student_id = ?] *)
Definition get_student_courses (db : Database) (sid : string) : list (string * string) :=
  map (λ c, (c_id c, c_name c))
    (order_by c_name
      (flat_map (λ c, flat_map (λ r,
           if String.eqb (c_id c) (r_course_id r) && String.eqb (r_student_id r) sid
           then [c] else []) (student_course_registrations db))
         (courses db))).

(** *** Search *)

(** [f] holds of [t] or of one of its suffixes. *)
Fixpoint any_suffix (f : string → bool) (t : string) : bool :=
  f t ||
  match t with
  | EmptyString => false
  | String _ t' => any_suffix f t'
  end.

(** Two characters that LIKE takes for the same: equal up to the case of
    ASCII letters. *)
Definition like_char (c d : ascii) : bool :=
  Ascii.eqb (Py.lower_char c) (Py.lower_char d).

(** [t LIKE p]: [%] stands for any run of characters, [_] for any one
    character, every other character for itself in either case. *)
Fixpoint like (p t : string) : bool :=
  match p with
  | EmptyString =>
      match t with
      | EmptyString => true
      | String _ _ => false
      end
  | String c p' =>
      if Ascii.eqb c "%" then any_suffix (like p') t
      else
        match t with
        | EmptyString => false
        | String d t' => (Ascii.eqb c "_" || like_char c d) && like p' t'
        end
  end.

(** [search_pattern = f"%{search_term}%"] *)
Definition search_pattern (term : string) : string := "%" +:+ term +:+ "%".

Definition search_students (db : Database) (term : string)
  : list (string * string * Z * string) :=
  map (λ r, (p_id r, p_name r, p_age r, p_email r))
    (order_by p_name
      (List.filter (λ r, like (search_pattern term) (p_name r) ||
                         like (search_pattern term) (p_id r) ||
                         like (search_pattern term) (p_email r)) (students db))).

Definition search_instructors (db : Database) (term : string)
  : list (string * string * Z * string) :=
  map (λ r, (p_id r, p_name r, p_age r, p_email r))
    (order_by p_name
      (List.filter (λ r, like (search_pattern term) (p_name r) ||
                         like (search_pattern term) (p_id r) ||
                         like (search_pattern term) (p_email r)) (instructors db))).

Definition search_courses (db : Database) (term : string)
  : list (string * string * option string * option string) :=
  flat_map (left_join_instructor db)
    (order_by c_name
      (List.filter (λ c, like (search_pattern term) (c_name c) ||
                         like (search_pattern term) (c_id c)) (courses db))).

(** *** Update and deletion *)

Definition update_student (now : Z) (id : string) (name : option string)
    (age : option Z) (email : option string) (db : Database) : bool * Database :=
  or_false (with_connection (λ fk d,
    match name, age, email with
    | None, None, None => Ok (true, d)
    | _, _, _ =>
        r ← exec fk now (UpdateStudent id name age email) d;
        Ok (0 <? r.1, r.2)
    end) db).

Definition update_instructor (now : Z) (id : string) (name : option string)
    (age : option Z) (email : option string) (db : Database) : bool * Database :=
  or_false (with_connection (λ fk d,
    match name, age, email with
    | None, None, None => Ok (true, d)
    | _, _, _ =>
        r ← exec fk now (UpdateInstructor id name age email) d;
        Ok (0 <? r.1, r.2)
    end) db).

Definition update_course (now : Z) (id : string) (name : option string)
    (iid : option string) (db : Database) : bool * Database :=
  or_false (with_connection (λ fk d,
    match name, iid with
    | None, None => Ok (true, d)
    | _, _ =>
        r ← exec fk now (UpdateCourse id name iid) d;
        Ok (0 <? r.1, r.2)
    end) db).

Definition delete_student (now : Z) (id : string) (db : Database) : bool * Database :=
  or_false (with_connection (λ fk d,
    r ← exec fk now (DeleteStudent id) d; Ok (0 <? r.1, r.2)) db).

Definition delete_instructor (now : Z) (id : string) (db : Database) : bool * Database :=
  or_false (with_connection (λ fk d,
    r ← exec fk now (DeleteInstructor id) d; Ok (0 <? r.1, r.2)) db).

Definition delete_course (now : Z) (id : string) (db : Database) : bool * Database :=
  or_false (with_connection (λ fk d,
    r ← exec fk now (DeleteCourse id) d; Ok (0 <? r.1, r.2)) db).

Definition unregister_student_from_course (now : Z) (sid cid : string) (db : Database)
  : bool * Database :=
  or_false (with_connection (λ fk d,
    r ← exec fk now (DeleteRegistration sid cid) d; Ok (0 <? r.1, r.2)) db).

(** *** Synchronisation *)

(** The statements of [sync_system_to_db], in execution order. *)
Definition sync_statements (g : Lab2.State) : list statement :=
  [DeleteAll Registrations; DeleteAll Courses; DeleteAll Instructors; DeleteAll Students]
  ++ map (λ a, let s := Lab2.student_at g a in
               InsertStudent (Lab2.student_id s) (Lab2.s_name s) (Lab2.s_age s)
                             (Lab2.s_email s)) (Lab2.students g)
  ++ map (λ a, let i := Lab2.instructor_at g a in
               InsertInstructor (Lab2.instructor_id i) (Lab2.i_name i) (Lab2.i_age i)
                                (Lab2.i_email i)) (Lab2.instructors g)
  ++ map (λ a, let c := Lab2.course_at g a in
               InsertCourse (Lab2.course_id c) (Lab2.course_name c)
                            (instructor_id_of g c)) (Lab2.courses g)
  ++ flat_map (λ a, let s := Lab2.student_at g a in
                    map (λ c, InsertRegistration (Lab2.student_id s)
                                (Lab2.course_id (Lab2.course_at g c)))
                        (Lab2.registered_courses s)) (Lab2.students g).

Definition sync_system_to_db (now : Z) (g : Lab2.State) (db : Database)
  : bool * Database :=
  or_false (with_connection (λ fk d,
    d' ← run fk now (sync_statements g) d; Ok (true, d')) db).

(** [load_system_from_db]. The constructors validate the rows they are
    given, and their [ValueError] is not caught. *)
Definition load_instructor (st : Lab2.State) (r : string * string * Z * string)
  : result Lab2.State :=
  let '(iid, name, age, email) := r in
  o ← Lab2.Instructor_init name (PyInt age) email iid;
  let (a, st1) := Lab2.new_instructor st o in
  Ok (Lab2.add_instructor st1 a).

Definition load_course (st : Lab2.State)
    (r : string * string * option string * option string) : result Lab2.State :=
  let '(cid, cname, iid, _) := r in
  let inst :=
    match iid with
    | Some i => if bool_decide (i = "") then None else Lab2.find_instructor_by_id st i
    | None => None
    end in
  o ← Lab2.Course_init cid cname inst;
  let (c, st1) := Lab2.new_course st o in
  let st2 := Lab2.add_course st1 c in
  Ok (match inst with
      | Some i => Lab2.assign_course i c st2
      | None => st2
      end).

Definition load_registration (s : nat) (st : Lab2.State) (r : string * string)
  : Lab2.State :=
  match Lab2.find_course_by_id st r.1 with
  | Some c => Lab2.register_course s c st
  | None => st
  end.

Definition load_student (db : Database) (st : Lab2.State)
    (r : string * string * Z * string) : result Lab2.State :=
  let '(sid, name, age, email) := r in
  o ← Lab2.Student_init name (PyInt age) email sid;
  let (s, st1) := Lab2.new_student st o in
  let st2 := Lab2.add_student st1 s in
  Ok (fold_left (load_registration s) (get_student_courses db sid) st2).

(** [for x in rows: st = step(st, x)], stopping at the first exception. *)
Fixpoint for_each {A S} (step : S → A → result S) (l : list A) (st : S) : result S :=
  match l with
  | [] => Ok st
  | x :: l' => st' ← step st x; for_each step l' st'
  end.

Definition load_system_from_db (db : Database) : result Lab2.State :=
  st1 ← for_each load_instructor (get_all_instructors db) Lab2.empty;
  st2 ← for_each load_course (get_all_courses db) st1;
  for_each (load_student db) (get_all_students db) st2.

End Db.

(** ** Vocabulary of the specification *)

(** [q] occurs in [s] as a contiguous run of characters. *)
Definition occurs_in (q s : string) : Prop := ∃ u v, s = u +:+ q +:+ v.

(** A string of white space only (the empty string included). *)
Fixpoint blank (s : string) : bool :=
  match s with
  | EmptyString => true
  | String c s' => Py.isspace c && blank s'
  end.

(** A search term without the wildcards of LIKE. *)
Fixpoint wildcard_free (s : string) : bool :=
  match s with
  | EmptyString => true
  | String c s' => negb (Ascii.eqb c "%") && negb (Ascii.eqb c "_") && wildcard_free s'
  end.

(** Two spaces and a tab. *)
Definition spaces_and_tab : string := String " " (String " " (String "009" "")).

Module TkSpec.
Import Tk.

(** Every address the registry holds is the address of an object. *)
Definition allocated (st : State) : Prop :=
  (∀ a, a ∈ students st → a < length (heap_students st)) ∧
  (∀ a, a ∈ instructors st → a < length (heap_instructors st)) ∧
  (∀ a, a ∈ courses st → a < length (heap_courses st)).

(** The registry holds an entity with the given id. *)
Definition student_known (st : State) (sid : string) : Prop :=
  ∃ a, a ∈ students st ∧ studentid (student_at st a) = sid.
Definition instructor_known (st : State) (iid : string) : Prop :=
  ∃ a, a ∈ instructors st ∧ instructorid (instructor_at st a) = iid.
Definition course_known (st : State) (cid : string) : Prop :=
  ∃ a, a ∈ courses st ∧ courseid (course_at st a) = cid.

(** [st'] differs from [st] at most in the course list of student [s]
    and in the student list of course [c]. *)
Definition same_but_link (s c : nat) (st st' : State) : Prop :=
  students st' = students st ∧
  instructors st' = instructors st ∧
  courses st' = courses st ∧
  heap_instructors st' = heap_instructors st ∧
  length (heap_students st') = length (heap_students st) ∧
  length (heap_courses st') = length (heap_courses st) ∧
  (∀ a, a ≠ s → student_at st' a = student_at st a) ∧
  (∀ a, a ≠ c → course_at st' a = course_at st a) ∧
  s_name (student_at st' s) = s_name (student_at st s) ∧
  s_age (student_at st' s) = s_age (student_at st s) ∧
  s_email (student_at st' s) = s_email (student_at st s) ∧
  studentid (student_at st' s) = studentid (student_at st s) ∧
  courseid (course_at st' c) = courseid (course_at st c) ∧
  coursename (course_at st' c) = coursename (course_at st c) ∧
  c_instructor (course_at st' c) = c_instructor (course_at st c).

(** The graph of the reassignment scenario: two instructors, one course,
    the course assigned to the first and then to the second. *)
Definition two_instructors : State :=
  let '(i1, st) := new_instructor empty (mkInstructor "Ada" 40 "ada@x.com" "I1" []) in
  let st := (addinstructor st i1).2 in
  let '(i2, st) := new_instructor st (mkInstructor "Bob" 41 "bob@x.com" "I2" []) in
  let st := (addinstructor st i2).2 in
  let '(c1, st) := new_course st (mkCourse "C1" "Algorithms" None []) in
  (addcourse st c1).2.

(** The same registry after two more course objects were created (and
    not added): address 1 has the id C1 again, address 2 the new id C3. *)
Definition two_new_courses : State :=
  (new_course (new_course two_instructors (mkCourse "C1" "Logic" None [])).2
              (mkCourse "C3" "Logic" None [])).2.

(** The registry with course C1, instructors I1 and I2, and a student S1. *)
Definition with_student : State :=
  let '(s1, st) := new_student two_instructors (mkStudent "John Doe" 20 "doe@x.com" "S1" []) in
  (addstudent st s1).2.

(** The same registry once I1 ("Ada") teaches C1 ("Algorithms"). *)
Definition ada_teaches : State := (assign with_student "I1" "C1").2.

Definition reassigned : State :=
  (assign (assign two_instructors "I1" "C1").2 "I2" "C1").2.

End TkSpec.

Module Lab2Spec.
Import Lab2.

(** Two students with the same id, added one after the other. *)
Definition s1_ann : Student := mkStudent "Ann" 20 "ann@x.com" "S1" [].
Definition s1_bob : Student := mkStudent "Bob" 21 "bob@x.com" "S1" [].

Definition one_student : State :=
  let '(a, st) := new_student empty s1_ann in add_student st a.

Definition same_id_twice : State :=
  let '(b, st) := new_student one_student s1_bob in add_student st b.

End Lab2Spec.


Module DbSpec.
Import Db.

(** The table a statement inserts into, if it is an INSERT. *)
Definition inserts_into (t : table) (s : statement) : Prop :=
  match s, t with
  | InsertStudent _ _ _ _, Students => True
  | InsertInstructor _ _ _ _, Instructors => True
  | InsertCourse _ _ _, Courses => True
  | InsertRegistration _ _, Registrations => True
  | _, _ => False
  end.

(** A store with student S1, course C1 and the registration of S1 to C1,
    built with the module's own insertions at time 1. *)
Definition registered_store : Database :=
  let db1 := (add_student 1 (Lab2.mkStudent "John Doe" 20 "doe@x.com" "S1" []) empty).2 in
  let db2 := (add_course 1 Lab2.empty (Lab2.mkCourse "C1" "Algorithms" None []) db1).2 in
  (register_student_to_course 1 "S1" "C1" db2).2.

(** A graph with two students that share the e-mail address. *)
Definition shared_email : Lab2.State :=
  let '(a, st) := Lab2.new_student Lab2.empty (Lab2.mkStudent "Ann" 20 "ann@x.com" "S1" []) in
  let st := Lab2.add_student st a in
  let '(b, st) := Lab2.new_student st (Lab2.mkStudent "Bob" 21 "ann@x.com" "S2" []) in
  Lab2.add_student st b.

End DbSpec.


(** The shape [local@domain.tld] of an e-mail address: a non-empty local
    part of [pl] characters, a non-empty domain of [pd] characters, a dot
    and a last part of at least [n] characters of [pt]. As the patterns end
    in [$], one newline may follow. *)
Definition email_shape (pl pd pt : ascii → bool) (n : nat) (e : string) : Prop :=
  ∃ loc dom tld tail,
    list_ascii_of_string e = loc ++ "@"%char :: dom ++ "."%char :: tld ++ tail ∧
    (loc ≠ [] ∧ Forall (λ c, pl c = true) loc) ∧
    (dom ≠ [] ∧ Forall (λ c, pd c = true) dom) ∧
    (n ≤ length tld ∧ Forall (λ c, pt c = true) tld) ∧
    (tail = [] ∨ tail = ["010"%char]).

(** The ages [Person.__init__] of school_management.py accepts (the
    non-negative [int]s), and those of school.py (the non-negative numbers)
    with the value it stores ([int(age)]). *)
Definition nonneg_int (age : pyval) : Prop := ∃ z, age = PyInt z ∧ (0 ≤ z)%Z.

Definition nonneg_number (age : pyval) (stored : Z) : Prop :=
  (age = PyInt stored ∧ (0 ≤ stored)%Z) ∨
  (∃ q, age = PyFloat q ∧ (0 <= q)%Q ∧ stored = Z.quot (Qnum q) (Zpos (Qden q))).


Module SyncSpec.
Import Lab2.

(** The ids and the relationship edges of a graph. *)
Definition student_ids (g : State) : list string :=
  map (λ a, student_id (student_at g a)) (students g).
Definition instructor_ids (g : State) : list string :=
  map (λ a, instructor_id (instructor_at g a)) (instructors g).
Definition course_ids (g : State) : list string :=
  map (λ a, course_id (course_at g a)) (courses g).

(** (student id, course id) for every course in a student's list. *)
Definition registration_edges (g : State) : list (string * string) :=
  flat_map (λ a, map (λ c, (student_id (student_at g a), course_id (course_at g c)))
                     (registered_courses (student_at g a)))
           (students g).

(** (course id, instructor id) for every course that has an instructor. *)
Definition assignment_edges (g : State) : list (string * string) :=
  flat_map (λ c, match instructor (course_at g c) with
                 | Some i => [(course_id (course_at g c),
                               instructor_id (instructor_at g i))]
                 | None => []
                 end)
           (courses g).

(** Two lists with the same elements. *)
Definition same_set {A} (l l' : list A) : Prop := ∀ x, x ∈ l ↔ x ∈ l'.

(** An entity that its constructor accepts. *)
Definition valid_student (s : Student) : Prop :=
  _validate_name (s_name s) = true ∧ (0 ≤ s_age s)%Z ∧
  _validate_email (s_email s) = true ∧ _validate_student_id (student_id s) = true.
Definition valid_instructor (i : Instructor) : Prop :=
  _validate_name (i_name i) = true ∧ (0 ≤ i_age i)%Z ∧
  _validate_email (i_email i) = true ∧ _validate_instructor_id (instructor_id i) = true.
Definition valid_course (c : Course) : Prop :=
  _validate_course_id (course_id c) = true ∧ _validate_course_name (course_name c) = true.

Definition valid_entities (g : State) : Prop :=
  (∀ a, a ∈ students g → valid_student (student_at g a)) ∧
  (∀ a, a ∈ instructors g → valid_instructor (instructor_at g a)) ∧
  (∀ a, a ∈ courses g → valid_course (course_at g a)).

(** The graph meets the constraints of the schema: ids unique within each
    kind, e-mail addresses unique among the students and among the
    instructors, ages that fit a 64-bit INTEGER, and no pair registered
    twice. *)
Definition meets_constraints (g : State) : Prop :=
  NoDup (student_ids g) ∧
  NoDup (map (λ a, s_email (student_at g a)) (students g)) ∧
  (∀ a, a ∈ students g → (s_age (student_at g a) < 2 ^ 63)%Z) ∧
  NoDup (instructor_ids g) ∧
  NoDup (map (λ a, i_email (instructor_at g a)) (instructors g)) ∧
  (∀ a, a ∈ instructors g → (i_age (instructor_at g a) < 2 ^ 63)%Z) ∧
  NoDup (course_ids g) ∧
  NoDup (registration_edges g).

(** Every edge ends at an entity of the graph. *)
Definition closed (g : State) : Prop :=
  (∀ e, e ∈ registration_edges g → e.2 ∈ course_ids g) ∧
  (∀ e, e ∈ assignment_edges g → e.2 ∈ instructor_ids g).

End SyncSpec.


Module StoreSpec.
Import Db.

(** The rows [sync_system_to_db] inserts for the entities of a graph. *)
Definition row_of_student (now : Z) (s : Lab2.Student) : person_rec :=
  mkPerson (Lab2.student_id s) (Lab2.s_name s) (Lab2.s_age s) (Lab2.s_email s) now now.
Definition row_of_instructor (now : Z) (i : Lab2.Instructor) : person_rec :=
  mkPerson (Lab2.instructor_id i) (Lab2.i_name i) (Lab2.i_age i) (Lab2.i_email i) now now.
Definition row_of_course (now : Z) (g : Lab2.State) (c : Lab2.Course) : course_rec :=
  mkCourseRec (Lab2.course_id c) (Lab2.course_name c) (instructor_id_of g c) now now.

(** The pair a registration row stands for. *)
Definition pair_of (r : registration_rec) : string * string :=
  (r_student_id r, r_course_id r).

End StoreSpec.


Module LoadSpec.
Import Lab2.

(** A row of [students] or [instructors], and a row of [courses], that
    the entity constructors accept. *)
Definition valid_person (r : Db.person_rec) : Prop :=
  _validate_name (Db.p_name r) = true ∧ (0 ≤ Db.p_age r)%Z ∧
  _validate_email (Db.p_email r) = true ∧ nonblank (Db.p_id r) = true.
Definition valid_course_rec (r : Db.course_rec) : Prop :=
  nonblank (Db.c_id r) = true ∧ nonblank (Db.c_name r) = true.

(** The store holds rows the constructors accept, and its primary keys
    are unique. *)
Definition loadable (db : Db.Database) : Prop :=
  (∀ r, r ∈ Db.students db → valid_person r) ∧
  (∀ r, r ∈ Db.instructors db → valid_person r) ∧
  (∀ r, r ∈ Db.courses db → valid_course_rec r) ∧
  NoDup (map Db.p_id (Db.instructors db)) ∧
  NoDup (map Db.c_id (Db.courses db)).

(** The objects the loader builds from its rows. *)
Definition instructor_of (r : string * string * Z * string) : Instructor :=
  mkInstructor r.1.1.2 r.1.2 r.2 r.1.1.1 [].

(** The instructor the loader resolves for a row of [get_all_courses]. *)
Definition resolve (st : State) (r : string * string * option string * option string)
  : option nat :=
  match r.1.2 with
  | Some i => if bool_decide (i = "") then None else find_instructor_by_id st i
  | None => None
  end.

(** The instructor id that the LEFT JOIN finds for a course row. *)
Definition joined_id (db : Db.Database) (c : Db.course_rec) : option string :=
  match Db.c_instructor_id c with
  | Some i => if Db.has_id i (Db.instructors db) then Some i else None
  | None => None
  end.

(** What a step of the loader leaves as it was. *)
Definition same_registry (st st' : State) : Prop :=
  students st' = students st ∧ instructors st' = instructors st ∧
  courses st' = courses st.
Definition same_instructor_ids (st st' : State) : Prop :=
  ∀ i, instructor_id (instructor_at st' i) = instructor_id (instructor_at st i).
Definition same_course_heads (st st' : State) : Prop :=
  ∀ c, course_id (course_at st' c) = course_id (course_at st c) ∧
       instructor (course_at st' c) = instructor (course_at st c).

End LoadSpec.


Module Scenario.
Import Lab2.

(** Two students, one instructor, one course taught by the instructor,
    and the first student registered to the course. *)
Definition campus : State :=
  let '(i, st) := new_instructor empty (mkInstructor "Ada" 40 "ada@x.com" "I1" []) in
  let st := add_instructor st i in
  let '(c, st) := new_course st (mkCourse "C1" "Algorithms" (Some i) []) in
  let st := assign_course i c (add_course st c) in
  let '(s1, st) := new_student st (mkStudent "John Doe" 20 "doe@x.com" "S1" []) in
  let st := add_student st s1 in
  let '(s2, st) := new_student st (mkStudent "Jane Roe" 21 "roe@x.com" "S2" []) in
  let st := add_student st s2 in
  register_course s1 c st.

End Scenario.

(** ** [tkinter_implementation/store.py] and the handlers of [apptk.py] *)

Module App.
Import Tk.

(** [SchoolStore.save] writes the registry to the JSON file and leaves
    the registry as it is. Whether the file can be written is not up to
    the program: [written] says so, and when it cannot, [open] raises (an
    [OSError]) and the value is [None]. *)
Definition save (written : bool) (st : State) : option unit * State :=
  (if written then Some tt else None, st).

(** A method of [SchoolStore]: the method of [SchoolSystem], then [save]
    when that returned [True]. The value is [None] when [save] raised; the
    registry is what the system method left. *)
Definition saving (written : bool) (r : bool * State) : option bool * State :=
  let (ok, st) := r in
  if ok then
    match save written st with
    | (Some _, st') => (Some true, st')
    | (None, st') => (None, st')
    end
  else (Some false, st).

Definition store_addstudent (written : bool) (st : State) (s : nat)
  : option bool * State := saving written (addstudent st s).
Definition store_addinstructor (written : bool) (st : State) (i : nat)
  : option bool * State := saving written (addinstructor st i).
Definition store_addcourse (written : bool) (st : State) (c : nat)
  : option bool * State := saving written (addcourse st c).
Definition store_removestudent (written : bool) (st : State) (sid : string)
  : option bool * State := saving written (removestudent st sid).
Definition store_removeinstructor (written : bool) (st : State) (iid : string)
  : option bool * State := saving written (removeinstructor st iid).
Definition store_removecourse (written : bool) (st : State) (cid : string)
  : option bool * State := saving written (removecourse st cid).
Definition store_assigncourse (written : bool) (st : State) (iid cid : string)
  : option bool * State := saving written (assign st iid cid).
Definition store_joincourse (written : bool) (st : State) (sid cid : string)
  : option bool * State := saving written (register st sid cid).

(** [TkApp.addstudent]: the form gives the name, the age already
    converted by [int], the e-mail address and the id. An exception, of
    the constructor or of [save], is shown in a dialog; the registry is
    what the calls before it left. *)
Definition addstudent (name : string) (age : Z) (email sid : string) (written : bool)
    (st : State) : State :=
  match Student_init name (PyInt age) email sid with
  | Raise _ => st
  | Ok o => let (s, st1) := new_student st o in (store_addstudent written st1 s).2
  end.

(** [TkApp.addinstructor] *)
Definition addinstructor (name : string) (age : Z) (email iid : string) (written : bool)
    (st : State) : State :=
  match Instructor_init name (PyInt age) email iid with
  | Raise _ => st
  | Ok o => let (i, st1) := new_instructor st o in (store_addinstructor written st1 i).2
  end.

(** [TkApp.addcourse]: [instid] is the id part of the instructor chosen
    in the form, or the empty string. When the store returned [True] and
    an instructor was found, the handler links the instructor's side and
    saves once more. When [save] raised inside [store.addcourse], the
    course is in the registry and the handler's [except] is reached before
    [inst.take(c)]. *)
Definition addcourse (cid cname instid : string) (written rewritten : bool)
    (st : State) : State :=
  let inst := if decide (instid = "") then None else findinstructor st instid in
  match Course_init cid cname inst with
  | Raise _ => st
  | Ok o =>
      let (c, st1) := new_course st o in
      match store_addcourse written st1 c with
      | (Some true, st2) =>
          match inst with
          | Some i => (save rewritten (take i c st2)).2
          | None => st2
          end
      | (_, st2) => st2
      end
  end.

(** What the user can do in the window: fill in one of the three forms,
    register, assign, or delete the selected row of a table. *)
Inductive action : Type :=
  | AddStudent (name : string) (age : Z) (email sid : string)
  | AddInstructor (name : string) (age : Z) (email iid : string)
  | AddCourse (cid cname instid : string)
  | Register (sid cid : string)
  | Assign (iid cid : string)
  | DeleteStudent (sid : string)
  | DeleteInstructor (iid : string)
  | DeleteCourse (cid : string).

(** An event in the window: what the user does, and whether the JSON
    file can be written when the store saves ([ev_written]) and when
    [TkApp.addcourse] saves once more ([ev_rewritten]). *)
Record event : Type := mkEvent {
  ev_action : action;
  ev_written : bool;
  ev_rewritten : bool
}.

(** An action during which the file can be written. *)
Definition saved (a : action) : event := mkEvent a true true.

Definition handle (e : event) (st : State) : State :=
  match ev_action e with
  | AddStudent name age email sid => addstudent name age email sid (ev_written e) st
  | AddInstructor name age email iid => addinstructor name age email iid (ev_written e) st
  | AddCourse cid cname instid =>
      addcourse cid cname instid (ev_written e) (ev_rewritten e) st
  | Register sid cid => (store_joincourse (ev_written e) st sid cid).2
  | Assign iid cid => (store_assigncourse (ev_written e) st iid cid).2
  | DeleteStudent sid => (store_removestudent (ev_written e) st sid).2
  | DeleteInstructor iid => (store_removeinstructor (ev_written e) st iid).2
  | DeleteCourse cid => (store_removecourse (ev_written e) st cid).2
  end.

(** A session: the events, one after the other. *)
Definition session (l : list event) (st : State) : State :=
  fold_left (λ acc e, handle e acc) l st.

End App.

(** ** The handlers of [tkinter_gui.py] over [SchoolManagementSystem] *)

Module Gui.
Import Lab2.

(** [s.split(sep)[0]]: what comes before the first [sep], or all of [s]
    when [sep] does not occur. *)
Fixpoint before (sep s : string) : string :=
  if String.prefix sep s then EmptyString
  else match s with
       | EmptyString => EmptyString
       | String c s' => String c (before sep s')
       end.

(** The id part of a combo box entry ["<id> - <name>"]. *)
Definition id_of (selection : string) : string := before " - " selection.

(** The entry that [refresh_displays] puts into the combo boxes for an
    entity: [f"{id} - {name}"]. *)
Definition entry (id name : string) : string := id +:+ " - " +:+ name.

(** [SchoolManagementGUI.add_student]: the four fields of the form;
    [age] is the result of [int] on the age field, [None] when [int]
    raises. Every refusal and every exception ends in a dialog and leaves
    the system as it is. *)
Definition add_student (name : string) (age : option Z) (email student_id : string)
    (st : State) : State :=
  let name := Py.strip name in
  match age with
  | None => st
  | Some age =>
      let email := Py.strip email in
      let student_id := Py.strip student_id in
      if negb (forallb (λ x, negb (String.eqb x "")) [name; email; student_id]) then st
      else
        match find_student_by_id st student_id with
        | Some _ => st
        | None =>
            match Student_init name (PyInt age) email student_id with
            | Raise _ => st
            | Ok o => let (s, st1) := new_student st o in Lab2.add_student st1 s
            end
        end
  end.

(** [SchoolManagementGUI.add_instructor] *)
Definition add_instructor (name : string) (age : option Z) (email instructor_id : string)
    (st : State) : State :=
  let name := Py.strip name in
  match age with
  | None => st
  | Some age =>
      let email := Py.strip email in
      let instructor_id := Py.strip instructor_id in
      if negb (forallb (λ x, negb (String.eqb x "")) [name; email; instructor_id]) then st
      else
        match find_instructor_by_id st instructor_id with
        | Some _ => st
        | None =>
            match Instructor_init name (PyInt age) email instructor_id with
            | Raise _ => st
            | Ok o => let (i, st1) := new_instructor st o in Lab2.add_instructor st1 i
            end
        end
  end.

(** [SchoolManagementGUI.add_course]: the course is created with the
    instructor found, enters the registry, and the instructor's side is
    linked by [assign_course]. *)
Definition add_course (course_id course_name instructor_selection : string)
    (st : State) : State :=
  let course_id := Py.strip course_id in
  let course_name := Py.strip course_name in
  if negb (forallb (λ x, negb (String.eqb x "")) [course_id; course_name]) then st
  else
    match find_course_by_id st course_id with
    | Some _ => st
    | None =>
        let inst :=
          if negb (String.eqb instructor_selection "")
             && negb (String.eqb instructor_selection "None")
          then find_instructor_by_id st (id_of instructor_selection)
          else None in
        match Course_init course_id course_name inst with
        | Raise _ => st
        | Ok o =>
            let (c, st1) := new_course st o in
            let st2 := Lab2.add_course st1 c in
            match inst with
            | Some i => assign_course i c st2
            | None => st2
            end
        end
    end.

(** [SchoolManagementGUI.register_student] *)
Definition register_student (student_selection course_selection : string)
    (st : State) : State :=
  if String.eqb student_selection "" || String.eqb course_selection "" then st
  else
    match find_student_by_id st (id_of student_selection),
          find_course_by_id st (id_of course_selection) with
    | Some s, Some c =>
        if Py.mem c (registered_courses (student_at st s)) then st
        else register_course s c st
    | _, _ => st
    end.

(** [SchoolManagementGUI.assign_instructor]: [replace] is the answer to
    the question the handler asks when the course has an instructor; on
    yes the course leaves the list of that instructor first. *)
Definition assign_instructor (instructor_selection course_selection : string)
    (replace : bool) (st : State) : State :=
  if String.eqb instructor_selection "" || String.eqb course_selection "" then st
  else
    match find_instructor_by_id st (id_of instructor_selection),
          find_course_by_id st (id_of course_selection) with
    | Some i, Some c =>
        match instructor (course_at st c) with
        | Some old =>
            if replace then
              let st1 :=
                if Py.mem c (assigned_courses (instructor_at st old))
                then set_assigned old (Py.remove c) st else st in
              assign_course i c st1
            else st
        | None => assign_course i c st
        end
    | _, _ => st
    end.

(** What the user can do in the window: fill in one of the three forms,
    register, assign, or delete the selected row of the table shown (the
    id is read from the row; [sure] is the answer to the confirmation). *)
Inductive action : Type :=
  | AddStudent (name : string) (age : option Z) (email student_id : string)
  | AddInstructor (name : string) (age : option Z) (email instructor_id : string)
  | AddCourse (course_id course_name instructor_selection : string)
  | RegisterStudent (student_selection course_selection : string)
  | AssignInstructor (instructor_selection course_selection : string) (replace : bool)
  | DeleteStudent (student_id : string) (sure : bool)
  | DeleteInstructor (instructor_id : string) (sure : bool)
  | DeleteCourse (course_id : string) (sure : bool).

(** [delete_selected] calls the removal only after a yes. *)
Definition handle (a : action) (st : State) : State :=
  match a with
  | AddStudent name age email sid => add_student name age email sid st
  | AddInstructor name age email iid => add_instructor name age email iid st
  | AddCourse cid cname sel => add_course cid cname sel st
  | RegisterStudent ssel csel => register_student ssel csel st
  | AssignInstructor isel csel replace => assign_instructor isel csel replace st
  | DeleteStudent sid sure => if sure then (remove_student st sid).2 else st
  | DeleteInstructor iid sure => if sure then (remove_instructor st iid).2 else st
  | DeleteCourse cid sure => if sure then (remove_course st cid).2 else st
  end.

(** A session: the actions of the user, one after the other. *)
Definition session (l : list action) (st : State) : State :=
  fold_left (λ acc a, handle a acc) l st.

End Gui.

(** ** [database_manager.py]: the remaining queries *)

Module DbQuery.
Import Db.

(** [students s JOIN student_course_registrations scr
     ON s.student_id = scr.student_id WHERE scr.course_id = ?
     ORDER BY s.name] *)
Definition get_course_students (db : Database) (cid : string) : list (string * string) :=
  map (λ s, (p_id s, p_name s))
    (order_by p_name
      (flat_map (λ s, flat_map (λ r,
           if String.eqb (p_id s) (r_student_id r) && String.eqb (r_course_id r) cid
           then [s] else []) (student_course_registrations db))
         (students db))).

(** [SELECT course_id, course_name FROM courses WHERE instructor_id = ?
     ORDER BY course_name]; a NULL [instructor_id] equals no parameter. *)
Definition get_instructor_courses (db : Database) (iid : string) : list (string * string) :=
  map (λ c, (c_id c, c_name c))
    (order_by c_name
      (List.filter (λ c, bool_decide (c_instructor_id c = Some iid)) (courses db))).

(** [get_database_statistics] *)
Record statistics : Type := mkStatistics {
  total_students : nat;
  total_instructors : nat;
  total_courses : nat;
  total_registrations : nat;
  popular_courses : list (string * nat)
}.

(** [COUNT(scr.student_id)] over the rows that [courses c LEFT JOIN
    student_course_registrations scr ON c.course_id = scr.course_id] gives
    for one course: the registration rows of the course ([student_id] is
    NOT NULL), and 0 for the single NULL row of a course without any. *)
Definition enrollment_count (db : Database) (c : course_rec) : nat :=
  length (List.filter (λ r, String.eqb (c_id c) (r_course_id r))
                      (student_course_registrations db)).

Global Instance by_count_dec : RelDecision (λ x y : string * nat, y.2 ≤ x.2).
Proof. intros x y. apply _. Defined.

(** [GROUP BY c.course_id, c.course_name ORDER BY enrollment_count DESC
    LIMIT 5]. [course_id] is the primary key, so every course row is a
    group of its own. SQL leaves the order of groups with equal counts
    open; here they keep the order of the table. *)
Definition get_database_statistics (db : Database) : statistics :=
  mkStatistics
    (length (students db)) (length (instructors db)) (length (courses db))
    (length (student_course_registrations db))
    (take 5 (merge_sort (λ x y : string * nat, y.2 ≤ x.2)
               (map (λ c, (c_name c, enrollment_count db c)) (courses db)))).

End DbQuery.

(** ** [save_data] and [load_data] of [SchoolManagementSystem] *)

Module Lab2Json.
Import Lab2.

(** The dictionaries that [to_dict] builds and [load_data] reads. The
    model covers the documents in which every entry has these keys, the
    texts are strings and the age is [null] or a number. *)
Record student_dict : Type := mkStudentDict {
  sd_name : string;
  sd_age : pyval;
  sd_email : string;
  sd_student_id : string;
  sd_registered_courses : list string
}.

Record instructor_dict : Type := mkInstructorDict {
  id_name : string;
  id_age : pyval;
  id_email : string;
  id_instructor_id : string;
  id_assigned_courses : list string
}.

Record course_dict : Type := mkCourseDict {
  cd_course_id : string;
  cd_course_name : string;
  cd_instructor_id : option string;
  cd_enrolled_students : list string
}.

Record document : Type := mkDocument {
  doc_students : list student_dict;
  doc_instructors : list instructor_dict;
  doc_courses : list course_dict
}.

(** [Student.to_dict], [Instructor.to_dict], [Course.to_dict] *)
Definition student_to_dict (g : State) (s : Student) : student_dict :=
  mkStudentDict (s_name s) (PyInt (s_age s)) (s_email s) (student_id s)
    (map (λ c, course_id (course_at g c)) (registered_courses s)).

Definition instructor_to_dict (g : State) (i : Instructor) : instructor_dict :=
  mkInstructorDict (i_name i) (PyInt (i_age i)) (i_email i) (instructor_id i)
    (map (λ c, course_id (course_at g c)) (assigned_courses i)).

Definition course_to_dict (g : State) (c : Course) : course_dict :=
  mkCourseDict (course_id c) (course_name c)
    ((λ i, instructor_id (instructor_at g i)) <$> instructor c)
    (map (λ s, student_id (student_at g s)) (enrolled_students c)).

(** [save_data]: the document handed to [json.dump]. The file is
    modelled by the document it holds. *)
Definition save_data (g : State) : document :=
  mkDocument (map (λ a, student_to_dict g (student_at g a)) (students g))
             (map (λ a, instructor_to_dict g (instructor_at g a)) (instructors g))
             (map (λ a, course_to_dict g (course_at g a)) (courses g)).

(** The three loop bodies of [load_data]. *)
Definition load_instructor (st : State) (d : instructor_dict) : result State :=
  o ← Instructor_init (id_name d) (id_age d) (id_email d) (id_instructor_id d);
  let (a, st1) := new_instructor st o in
  Ok (add_instructor st1 a).

Definition load_course (st : State) (d : course_dict) : result State :=
  let inst :=
    match cd_instructor_id d with
    | Some i => if bool_decide (i = "") then None else find_instructor_by_id st i
    | None => None
    end in
  o ← Course_init (cd_course_id d) (cd_course_name d) inst;
  let (c, st1) := new_course st o in
  let st2 := add_course st1 c in
  Ok (match inst with
      | Some i => assign_course i c st2
      | None => st2
      end).

Definition load_registration (s : nat) (st : State) (cid : string) : State :=
  match find_course_by_id st cid with
  | Some c => register_course s c st
  | None => st
  end.

Definition load_student (st : State) (d : student_dict) : result State :=
  o ← Student_init (sd_name d) (sd_age d) (sd_email d) (sd_student_id d);
  let (s, st1) := new_student st o in
  let st2 := add_student st1 s in
  Ok (fold_left (load_registration s) (sd_registered_courses d) st2).

(** [for x in l: st = step(st, x)] inside the [try]: at the first
    exception the loop ends, and the system stays as the rounds before
    left it (a round raises only in the constructor, before it changes
    anything). *)
Fixpoint try_each {A} (step : State → A → result State) (l : list A) (st : State)
  : bool * State :=
  match l with
  | [] => (true, st)
  | x :: l' =>
      match step st x with
      | Ok st' => try_each step l' st'
      | Raise _ => (false, st)
      end
  end.

(** [load_data]: [file] is the document that [json.load] returns, or
    [None] when [open] or [json.load] raises. The three lists are emptied
    before the first entry is read. *)
Definition load_data (file : option document) (st : State) : bool * State :=
  match file with
  | None => (false, st)
  | Some data =>
      let st0 := set_courses [] (set_instructors [] (set_students [] st)) in
      let (ok1, st1) := try_each load_instructor (doc_instructors data) st0 in
      if ok1 then
        let (ok2, st2) := try_each load_course (doc_courses data) st1 in
        if ok2 then try_each load_student (doc_students data) st2
        else (false, st2)
      else (false, st1)
  end.

End Lab2Json.

(** ** [tojson], [fromjson] and [load] of [SchoolSystem] *)

Module TkJson.
Import Tk.

(** A JSON number; a finite float is a rational. *)
Inductive number : Type :=
  | Int (z : Z)
  | Float (q : Q).

(** [int(x)] of a number. *)
Definition py_int (n : number) : Z :=
  match n with
  | Int z => z
  | Float q => int_of_float q
  end.

(** The dictionaries that [tojson] builds and [fromjson] reads. The
    model covers the documents in which every entry has these keys, the
    texts are strings and the age is a number. *)
Record student_dict : Type := mkStudentDict {
  sd_name : string;
  sd_age : number;
  sd_email : string;
  sd_studentid : string;
  sd_courses : list string
}.

Record instructor_dict : Type := mkInstructorDict {
  id_name : string;
  id_age : number;
  id_email : string;
  id_instructorid : string;
  id_courses : list string
}.

Record course_dict : Type := mkCourseDict {
  cd_courseid : string;
  cd_coursename : string;
  cd_instructor : option string;
  cd_students : list string
}.

Record document : Type := mkDocument {
  doc_students : list student_dict;
  doc_instructors : list instructor_dict;
  doc_courses : list course_dict
}.

(** [SchoolSystem.tojson] *)
Definition tojson (st : State) : document :=
  mkDocument
    (map (λ a, let s := student_at st a in
               mkStudentDict (s_name s) (Int (s_age s)) (s_email s) (studentid s)
                 (map (λ c, courseid (course_at st c)) (s_courses s)))
         (students st))
    (map (λ a, let i := instructor_at st a in
               mkInstructorDict (i_name i) (Int (i_age i)) (i_email i) (instructorid i)
                 (map (λ c, courseid (course_at st c)) (i_courses i)))
         (instructors st))
    (map (λ a, let c := course_at st a in
               mkCourseDict (courseid c) (coursename c)
                 ((λ i, instructorid (instructor_at st i)) <$> c_instructor c)
                 (map (λ s, studentid (student_at st s)) (c_students c)))
         (courses st)).

(** The first loop of [fromjson]: the object is appended to the list
    without a test, and entered in [sid_map] under its id. *)
Definition load_student (acc : State * gmap string nat) (d : student_dict)
  : result (State * gmap string nat) :=
  o ← Student_init (sd_name d) (PyInt (py_int (sd_age d))) (sd_email d) (sd_studentid d);
  let (a, st1) := new_student acc.1 o in
  Ok (set_students (students st1 ++ [a]) st1, <[studentid o := a]> acc.2).

(** The second loop. *)
Definition load_instructor (acc : State * gmap string nat) (d : instructor_dict)
  : result (State * gmap string nat) :=
  o ← Instructor_init (id_name d) (PyInt (py_int (id_age d))) (id_email d)
                      (id_instructorid d);
  let (a, st1) := new_instructor acc.1 o in
  Ok (set_instructors (instructors st1 ++ [a]) st1, <[instructorid o := a]> acc.2).

(** The third loop: the instructor is looked up in [iid_map]. *)
Definition load_course (iid_map : gmap string nat) (st : State) (d : course_dict)
  : result State :=
  let inst :=
    match cd_instructor d with
    | Some i => if bool_decide (i = "") then None else iid_map !! i
    | None => None
    end in
  o ← Course_init (cd_courseid d) (cd_coursename d) inst;
  let (c, st1) := new_course st o in
  let st2 := set_courses (courses st1 ++ [c]) st1 in
  Ok (match inst with
      | Some i => take i c st2
      | None => st2
      end).

(** The fourth loop: the students of a course entry are looked up in
    [sid_map], the course with [findcourse]. *)
Definition link_student (sid_map : gmap string nat) (course : option nat) (st : State)
    (sid : string) : State :=
  match sid_map !! sid, course with
  | Some s, Some c => enroll s c (addstudent_to_course c s st)
  | _, _ => st
  end.

Definition link_course (sid_map : gmap string nat) (st : State) (d : course_dict)
  : State :=
  fold_left (link_student sid_map (findcourse st (cd_courseid d))) (cd_students d) st.

(** [SchoolSystem.fromjson]: an exception of a constructor ends it. *)
Definition fromjson (data : document) : result State :=
  r1 ← Db.for_each load_student (doc_students data) (empty, ∅);
  r2 ← Db.for_each load_instructor (doc_instructors data) (r1.1, ∅);
  st3 ← Db.for_each (load_course r2.2) (doc_courses data) r2.1;
  Ok (fold_left (link_course r1.2) (doc_courses data) st3).

(** [SchoolSystem.load]: [file] is the document in the file, [None] when
    there is no file. *)
Definition load (file : option document) : result State :=
  match file with
  | None => Ok empty
  | Some data => fromjson data
  end.

End TkJson.

(** ** Vocabulary for the store *)

Module StoreInv.
Import Db.

(** The constraints that the schema of [init_database] declares on one
    table of persons: primary key, UNIQUE e-mail, CHECK(age >= 0) on a
    64-bit INTEGER. *)
Definition persons_ok (l : list person_rec) : Prop :=
  NoDup (map p_id l) ∧ NoDup (map p_email l) ∧
  (∀ r, r ∈ l → (0 ≤ p_age r < 2 ^ 63)%Z).

(** The conditions on the registration table: UNIQUE(student_id,
    course_id), the primary key, and no key above the AUTOINCREMENT
    counter [n]. *)
Definition registrations_ok (l : list registration_rec) (n : Z) : Prop :=
  NoDup (map StoreSpec.pair_of l) ∧ NoDup (map r_id l) ∧
  (∀ r, r ∈ l → (r_id r ≤ n)%Z).

(** The declared constraints on the whole file, foreign keys apart: the
    keys of the four tables and UNIQUE(student_id, course_id). *)
Definition schema_ok (db : Database) : Prop :=
  persons_ok (students db) ∧ persons_ok (instructors db) ∧
  NoDup (map c_id (courses db)) ∧
  NoDup (map StoreSpec.pair_of (student_course_registrations db)) ∧
  NoDup (map r_id (student_course_registrations db)) ∧
  (∀ r, r ∈ student_course_registrations db → (r_id r ≤ registrations_seq db)%Z).

(** A call of one of the data-changing methods of [DatabaseManager]. *)
Inductive call : Type :=
  | AddStudent (s : Lab2.Student)
  | AddInstructor (i : Lab2.Instructor)
  | AddCourse (g : Lab2.State) (c : Lab2.Course)
  | Register (sid cid : string)
  | UpdateStudent (id : string) (name : option string) (age : option Z)
                  (email : option string)
  | UpdateInstructor (id : string) (name : option string) (age : option Z)
                     (email : option string)
  | UpdateCourse (id : string) (name iid : option string)
  | DeleteStudent (id : string)
  | DeleteInstructor (id : string)
  | DeleteCourse (id : string)
  | Unregister (sid cid : string)
  | Sync (g : Lab2.State).

(** The result and the store after the call, made at time [now]. *)
Definition perform (now : Z) (c : call) (db : Database) : bool * Database :=
  match c with
  | AddStudent s => add_student now s db
  | AddInstructor i => add_instructor now i db
  | AddCourse g c => add_course now g c db
  | Register sid cid => register_student_to_course now sid cid db
  | UpdateStudent id name age email => update_student now id name age email db
  | UpdateInstructor id name age email => update_instructor now id name age email db
  | UpdateCourse id name iid => update_course now id name iid db
  | DeleteStudent id => delete_student now id db
  | DeleteInstructor id => delete_instructor now id db
  | DeleteCourse id => delete_course now id db
  | Unregister sid cid => unregister_student_from_course now sid cid db
  | Sync g => sync_system_to_db now g db
  end.

(** The store after a sequence of calls, each with its own time. *)
Fixpoint perform_all (l : list (Z * call)) (db : Database) : Database :=
  match l with
  | [] => db
  | (now, c) :: l' => perform_all l' (perform now c db).2
  end.

(** The graphs that [sync_system_to_db] can write: ids unique within each
    kind, e-mail addresses unique among the students and among the
    instructors, ages in 0 .. 2^63 - 1, and no student holding two courses
    with the same id. *)
Definition storable (g : Lab2.State) : Prop :=
  (NoDup (SyncSpec.student_ids g) ∧
   NoDup (map (λ a, Lab2.s_email (Lab2.student_at g a)) (Lab2.students g)) ∧
   (∀ a, a ∈ Lab2.students g → (0 ≤ Lab2.s_age (Lab2.student_at g a) < 2 ^ 63)%Z)) ∧
  (NoDup (SyncSpec.instructor_ids g) ∧
   NoDup (map (λ a, Lab2.i_email (Lab2.instructor_at g a)) (Lab2.instructors g)) ∧
   (∀ a, a ∈ Lab2.instructors g →
         (0 ≤ Lab2.i_age (Lab2.instructor_at g a) < 2 ^ 63)%Z)) ∧
  NoDup (SyncSpec.course_ids g) ∧
  NoDup (SyncSpec.registration_edges g).

End StoreInv.

(** ** Vocabulary for the registry of [school.py] *)

Module TkInv.
Import Tk.

(** The registry is consistent: its lists hold allocated objects, the
    ids are unique within each kind, no list of an object holds an object
    twice, students and courses refer to each other in both directions
    and only to members of the registry, and the instructor of a course is
    a member of the registry whose list holds the course. *)
Definition consistent (st : State) : Prop :=
  TkSpec.allocated st ∧
  NoDup (map (λ a, studentid (student_at st a)) (students st)) ∧
  NoDup (map (λ a, instructorid (instructor_at st a)) (instructors st)) ∧
  NoDup (map (λ a, courseid (course_at st a)) (courses st)) ∧
  (∀ s, NoDup (s_courses (student_at st s))) ∧
  (∀ c, NoDup (c_students (course_at st c))) ∧
  (∀ i, NoDup (i_courses (instructor_at st i))) ∧
  (∀ s c, s ∈ students st → c ∈ s_courses (student_at st s) →
          c ∈ courses st ∧ s ∈ c_students (course_at st c)) ∧
  (∀ c s, c ∈ courses st → s ∈ c_students (course_at st c) →
          s ∈ students st ∧ c ∈ s_courses (student_at st s)) ∧
  (∀ c i, c ∈ courses st → c_instructor (course_at st c) = Some i →
          i ∈ instructors st ∧ c ∈ i_courses (instructor_at st i)).

(** An event after which both sides of the instructor link are written
    or neither: every event but the addition of a course with an instructor
    chosen during which the store cannot write the JSON file. *)
Definition links_whole (e : App.event) : bool :=
  match App.ev_action e with
  | App.AddCourse _ _ instid => bool_decide (instid = "") || App.ev_written e
  | _ => true
  end.

(** *** The loops of the three removals *)

(** One round of the loop of [removestudent]. *)
Definition drop_student (s : nat) (acc : State) (c : nat) : State :=
  if Py.mem s (c_students (course_at acc c))
  then set_c_students c (Py.remove s) acc else acc.

(** What a round, and the whole loop, leaves as it was, and what it does
    to the student lists of the courses. *)
Definition dropped_student (s : nat) (l : list nat) (st st1 : State) : Prop :=
  heap_students st1 = heap_students st ∧
  heap_instructors st1 = heap_instructors st ∧
  length (heap_courses st1) = length (heap_courses st) ∧
  students st1 = students st ∧ instructors st1 = instructors st ∧
  courses st1 = courses st ∧
  (∀ c, courseid (course_at st1 c) = courseid (course_at st c) ∧
        c_instructor (course_at st1 c) = c_instructor (course_at st c)) ∧
  (∀ c x, x ∈ c_students (course_at st1 c) → x ∈ c_students (course_at st c)) ∧
  (∀ c x, x ≠ s → x ∈ c_students (course_at st c) → x ∈ c_students (course_at st1 c)) ∧
  ((∀ c, NoDup (c_students (course_at st c))) →
     (∀ c, NoDup (c_students (course_at st1 c))) ∧
     (∀ c, c ∈ l → s ∉ c_students (course_at st1 c))).

(** One round of the student loop of [removecourse]. *)
Definition drop_course (c : nat) (acc : State) (s : nat) : State :=
  if Py.mem c (s_courses (student_at acc s))
  then set_s_courses s (Py.remove c) acc else acc.

Definition dropped_course (c : nat) (l : list nat) (st st1 : State) : Prop :=
  heap_courses st1 = heap_courses st ∧
  heap_instructors st1 = heap_instructors st ∧
  length (heap_students st1) = length (heap_students st) ∧
  students st1 = students st ∧ instructors st1 = instructors st ∧
  courses st1 = courses st ∧
  (∀ s, studentid (student_at st1 s) = studentid (student_at st s)) ∧
  (∀ s x, x ∈ s_courses (student_at st1 s) → x ∈ s_courses (student_at st s)) ∧
  (∀ s x, x ≠ c → x ∈ s_courses (student_at st s) → x ∈ s_courses (student_at st1 s)) ∧
  ((∀ s, NoDup (s_courses (student_at st s))) →
     (∀ s, NoDup (s_courses (student_at st1 s))) ∧
     (∀ s, s ∈ l → c ∉ s_courses (student_at st1 s))).

(** One round of the loop of [removeinstructor]. *)
Definition clear_instructor (i : nat) (acc : State) (c : nat) : State :=
  if bool_decide (c_instructor (course_at acc c) = Some i)
  then set_c_instructor c None acc else acc.

Definition cleared_instructor (i : nat) (l : list nat) (st st1 : State) : Prop :=
  heap_students st1 = heap_students st ∧
  heap_instructors st1 = heap_instructors st ∧
  length (heap_courses st1) = length (heap_courses st) ∧
  students st1 = students st ∧ instructors st1 = instructors st ∧
  courses st1 = courses st ∧
  (∀ c, courseid (course_at st1 c) = courseid (course_at st c) ∧
        c_students (course_at st1 c) = c_students (course_at st c)) ∧
  (∀ c, c_instructor (course_at st1 c) = c_instructor (course_at st c) ∨
        (c_instructor (course_at st1 c) = None ∧
         c_instructor (course_at st c) = Some i)) ∧
  (∀ c, c ∈ l → c_instructor (course_at st1 c) ≠ Some i).

End TkInv.

(** ** Vocabulary for the registry of [school_management.py] *)

Module Lab2Inv.
Import Lab2.

(** Every address the registry holds is the address of an object. *)
Definition allocated (st : State) : Prop :=
  (∀ a, a ∈ students st → a < length (heap_students st)) ∧
  (∀ a, a ∈ instructors st → a < length (heap_instructors st)) ∧
  (∀ a, a ∈ courses st → a < length (heap_courses st)).

(** The registry is consistent: its lists hold allocated objects, the
    ids are unique within each kind, no list of an object holds an object
    twice, and both relations are kept on both sides and among the members
    of the registry: a course is in a student's list exactly when the
    student is in the course's list, and a course has an instructor
    exactly when it is in that instructor's list. *)
Definition consistent (st : State) : Prop :=
  allocated st ∧
  NoDup (map (λ a, student_id (student_at st a)) (students st)) ∧
  NoDup (map (λ a, instructor_id (instructor_at st a)) (instructors st)) ∧
  NoDup (map (λ a, course_id (course_at st a)) (courses st)) ∧
  (∀ s, NoDup (registered_courses (student_at st s))) ∧
  (∀ c, NoDup (enrolled_students (course_at st c))) ∧
  (∀ i, NoDup (assigned_courses (instructor_at st i))) ∧
  (∀ s c, s ∈ students st → c ∈ registered_courses (student_at st s) →
          c ∈ courses st ∧ s ∈ enrolled_students (course_at st c)) ∧
  (∀ c s, c ∈ courses st → s ∈ enrolled_students (course_at st c) →
          s ∈ students st ∧ c ∈ registered_courses (student_at st s)) ∧
  (∀ c i, c ∈ courses st → instructor (course_at st c) = Some i →
          i ∈ instructors st ∧ c ∈ assigned_courses (instructor_at st i)) ∧
  (∀ i c, i ∈ instructors st → c ∈ assigned_courses (instructor_at st i) →
          c ∈ courses st ∧ instructor (course_at st c) = Some i).

(** The registry is consistent but for the instructor of course [c]:
    no instructor of the registry lists [c], and nothing is said about
    the [instructor] of [c]. This is the state between the two halves of a
    reassignment, and of a new course before its instructor is linked. *)
Definition consistent_but (c : nat) (st : State) : Prop :=
  allocated st ∧
  NoDup (map (λ a, student_id (student_at st a)) (students st)) ∧
  NoDup (map (λ a, instructor_id (instructor_at st a)) (instructors st)) ∧
  NoDup (map (λ a, course_id (course_at st a)) (courses st)) ∧
  (∀ s, NoDup (registered_courses (student_at st s))) ∧
  (∀ c, NoDup (enrolled_students (course_at st c))) ∧
  (∀ i, NoDup (assigned_courses (instructor_at st i))) ∧
  (∀ s c, s ∈ students st → c ∈ registered_courses (student_at st s) →
          c ∈ courses st ∧ s ∈ enrolled_students (course_at st c)) ∧
  (∀ c s, c ∈ courses st → s ∈ enrolled_students (course_at st c) →
          s ∈ students st ∧ c ∈ registered_courses (student_at st s)) ∧
  (∀ c0 i, c0 ∈ courses st → c0 ≠ c → instructor (course_at st c0) = Some i →
           i ∈ instructors st ∧ c0 ∈ assigned_courses (instructor_at st i)) ∧
  (∀ i c0, i ∈ instructors st → c0 ∈ assigned_courses (instructor_at st i) →
           c0 ≠ c ∧ c0 ∈ courses st ∧ instructor (course_at st c0) = Some i).

(** [if course in old.assigned_courses: old.assigned_courses.remove(course)] *)
Definition detach (old c : nat) (st : State) : State :=
  if Py.mem c (assigned_courses (instructor_at st old))
  then set_assigned old (Py.remove c) st else st.

(** *** The loops of the three removals *)

(** One round of the loop of [remove_student]. *)
Definition unenrol (s : nat) (acc : State) (c : nat) : State :=
  if Py.mem s (enrolled_students (course_at acc c))
  then set_enrolled c (Py.remove s) acc else acc.

(** What a round, and the whole loop, leaves as it was, and what it does
    to the student lists of the courses. *)
Definition unenrolled (s : nat) (l : list nat) (st st1 : State) : Prop :=
  heap_students st1 = heap_students st ∧
  heap_instructors st1 = heap_instructors st ∧
  length (heap_courses st1) = length (heap_courses st) ∧
  students st1 = students st ∧ instructors st1 = instructors st ∧
  courses st1 = courses st ∧
  (∀ c, course_id (course_at st1 c) = course_id (course_at st c) ∧
        instructor (course_at st1 c) = instructor (course_at st c)) ∧
  (∀ c x, x ∈ enrolled_students (course_at st1 c) →
          x ∈ enrolled_students (course_at st c)) ∧
  (∀ c x, x ≠ s → x ∈ enrolled_students (course_at st c) →
          x ∈ enrolled_students (course_at st1 c)) ∧
  ((∀ c, NoDup (enrolled_students (course_at st c))) →
     (∀ c, NoDup (enrolled_students (course_at st1 c))) ∧
     (∀ c, c ∈ l → s ∉ enrolled_students (course_at st1 c))).

(** One round of the student loop of [remove_course]. *)
Definition unregister (c : nat) (acc : State) (s : nat) : State :=
  if Py.mem c (registered_courses (student_at acc s))
  then set_registered s (Py.remove c) acc else acc.

Definition unregistered (c : nat) (l : list nat) (st st1 : State) : Prop :=
  heap_courses st1 = heap_courses st ∧
  heap_instructors st1 = heap_instructors st ∧
  length (heap_students st1) = length (heap_students st) ∧
  students st1 = students st ∧ instructors st1 = instructors st ∧
  courses st1 = courses st ∧
  (∀ s, student_id (student_at st1 s) = student_id (student_at st s)) ∧
  (∀ s x, x ∈ registered_courses (student_at st1 s) →
          x ∈ registered_courses (student_at st s)) ∧
  (∀ s x, x ≠ c → x ∈ registered_courses (student_at st s) →
          x ∈ registered_courses (student_at st1 s)) ∧
  ((∀ s, NoDup (registered_courses (student_at st s))) →
     (∀ s, NoDup (registered_courses (student_at st1 s))) ∧
     (∀ s, s ∈ l → c ∉ registered_courses (student_at st1 s))).

(** One round of the loop of [remove_instructor]. *)
Definition unassign (acc : State) (c : nat) : State := set_instructor c None acc.

Definition unassigned (l : list nat) (st st1 : State) : Prop :=
  heap_students st1 = heap_students st ∧
  heap_instructors st1 = heap_instructors st ∧
  length (heap_courses st1) = length (heap_courses st) ∧
  students st1 = students st ∧ instructors st1 = instructors st ∧
  courses st1 = courses st ∧
  (∀ c, course_id (course_at st1 c) = course_id (course_at st c) ∧
        enrolled_students (course_at st1 c) = enrolled_students (course_at st c)) ∧
  (∀ c, instructor (course_at st1 c) = instructor (course_at st c) ∨
        (instructor (course_at st1 c) = None ∧ c ∈ l)) ∧
  (∀ c, c ∈ l → instructor (course_at st1 c) = None).

End Lab2Inv.

(** ** Vocabulary for [save_data] and [load_data] *)

Module Lab2JsonSpec.
Import Lab2 Lab2Json.

(** What an entity holds besides its links. *)
Definition s_head (o : Student) : string * Z * string * string :=
  (s_name o, s_age o, s_email o, student_id o).
Definition i_head (o : Instructor) : string * Z * string * string :=
  (i_name o, i_age o, i_email o, instructor_id o).
Definition c_head (o : Course) : string * string := (course_id o, course_name o).

(** The entities of the registry without their links, in the order of
    the registry. *)
Definition student_heads (g : State) : list (string * Z * string * string) :=
  map (λ a, s_head (student_at g a)) (students g).
Definition instructor_heads (g : State) : list (string * Z * string * string) :=
  map (λ a, i_head (instructor_at g a)) (instructors g).
Definition course_heads (g : State) : list (string * string) :=
  map (λ a, c_head (course_at g a)) (courses g).

(** The ids of a document are distinct within each kind. *)
(** Every object in the three lists of [st] was created after the
    heaps had grown to the sizes [ns], [ni] and [nc]. *)
Definition created_since (ns ni nc : nat) (st : State) : Prop :=
  (∀ a, a ∈ students st → ns ≤ a) ∧
  (∀ a, a ∈ instructors st → ni ≤ a) ∧
  (∀ a, a ∈ courses st → nc ≤ a) ∧
  ns ≤ length (heap_students st) ∧
  ni ≤ length (heap_instructors st) ∧
  nc ≤ length (heap_courses st).

Definition distinct_ids (data : document) : Prop :=
  NoDup (map sd_student_id (doc_students data)) ∧
  NoDup (map id_instructor_id (doc_instructors data)) ∧
  NoDup (map cd_course_id (doc_courses data)).

(** The objects that the loader builds from an entry. *)
Definition student_obj (d : student_dict) : Student :=
  mkStudent (sd_name d) (as_int (sd_age d)) (sd_email d) (sd_student_id d) [].
Definition instructor_obj (d : instructor_dict) : Instructor :=
  mkInstructor (id_name d) (as_int (id_age d)) (id_email d) (id_instructor_id d) [].

(** The instructor that the loader finds for a course entry. *)
Definition resolved (st : State) (d : course_dict) : option nat :=
  match cd_instructor_id d with
  | Some i => if bool_decide (i = "") then None else find_instructor_by_id st i
  | None => None
  end.

(** A document with two instructors, a course of the first and a
    student of that course whose age is not an integer. *)
Definition faulty_file : document :=
  mkDocument
    [mkStudentDict "John" (PyFloat 20.5) "john@x.com" "S1" ["C1"]]
    [mkInstructorDict "Ada" (PyInt 40) "ada@x.com" "I1" ["C1"];
     mkInstructorDict "Bob" (PyInt 41) "bob@x.com" "I2" []]
    [mkCourseDict "C1" "Algorithms" (Some "I1") ["S1"]].

(** The system of a short session: two instructors, a course that went
    from the first to the second, and a student of the course. *)
Definition small_school : State :=
  Gui.session [Gui.AddInstructor "Ada" (Some 40%Z) "ada@x.com" "I1";
               Gui.AddInstructor "Bob" (Some 41%Z) "bob@x.com" "I2";
               Gui.AddCourse "C1" "Algorithms" "I1 - Ada";
               Gui.AddStudent "John" (Some 20%Z) "john@x.com" "S1";
               Gui.RegisterStudent "S1 - John" "C1 - Algorithms";
               Gui.AssignInstructor "I2 - Bob" "C1 - Algorithms" true] empty.

End Lab2JsonSpec.

(** ** Vocabulary for [tojson] and [fromjson] *)

Module TkJsonSpec.
Import Tk TkJson.

(** What an entity holds besides its links. *)
Definition s_head (o : Student) : string * Z * string * string :=
  (s_name o, s_age o, s_email o, studentid o).
Definition i_head (o : Instructor) : string * Z * string * string :=
  (i_name o, i_age o, i_email o, instructorid o).
Definition c_head (o : Course) : string * string := (courseid o, coursename o).

(** The entities of the registry without their links, in the order of
    the registry. *)
Definition student_heads (st : State) : list (string * Z * string * string) :=
  map (λ a, s_head (student_at st a)) (students st).
Definition instructor_heads (st : State) : list (string * Z * string * string) :=
  map (λ a, i_head (instructor_at st a)) (instructors st).
Definition course_heads (st : State) : list (string * string) :=
  map (λ a, c_head (course_at st a)) (courses st).

(** (student id, course id) for every student in the list of a course,
    and (course id, instructor id) for every course with an instructor. *)
Definition enrolments (st : State) : list (string * string) :=
  flat_map (λ c, map (λ s, (studentid (student_at st s), courseid (course_at st c)))
                     (c_students (course_at st c)))
           (courses st).
Definition assignments (st : State) : list (string * string) :=
  flat_map (λ c, match c_instructor (course_at st c) with
                 | Some i => [(courseid (course_at st c),
                               instructorid (instructor_at st i))]
                 | None => []
                 end)
           (courses st).

(** The entities of the registry are such as their constructors accept. *)
Definition valid_entities (st : State) : Prop :=
  (∀ a, a ∈ students st →
        let o := student_at st a in
        is_ok (Student_init (s_name o) (PyInt (s_age o)) (s_email o) (studentid o)) = true) ∧
  (∀ a, a ∈ instructors st →
        let o := instructor_at st a in
        is_ok (Instructor_init (i_name o) (PyInt (i_age o)) (i_email o) (instructorid o))
          = true) ∧
  (∀ a, a ∈ courses st →
        let o := course_at st a in
        is_ok (Course_init (courseid o) (coursename o) None) = true).

(** The list of an instructor holds only courses of the registry that
    have this instructor. *)
Definition tidy (st : State) : Prop :=
  ∀ i c, i ∈ instructors st → c ∈ i_courses (instructor_at st i) →
         c ∈ courses st ∧ c_instructor (course_at st c) = Some i.

(** A dictionary of [fromjson] finds what the search of the registry
    finds. *)
Definition agrees_students (m : gmap string nat) (st : State) : Prop :=
  ∀ x, m !! x = findstudent st x.
Definition agrees_instructors (m : gmap string nat) (st : State) : Prop :=
  ∀ x, m !! x = findinstructor st x.

(** The objects that the loader builds from an entry. *)
Definition student_obj (d : student_dict) : Student :=
  mkStudent (sd_name d) (py_int (sd_age d)) (sd_email d) (sd_studentid d) [].
Definition instructor_obj (d : instructor_dict) : Instructor :=
  mkInstructor (id_name d) (py_int (id_age d)) (id_email d) (id_instructorid d) [].

(** The instructor that the loader finds for a course entry. *)
Definition resolved (m : gmap string nat) (d : course_dict) : option nat :=
  match cd_instructor d with
  | Some i => if bool_decide (i = "") then None else m !! i
  | None => None
  end.

(** [st'] has the entities of [st]; at most the lists of the students
    and of the courses differ. *)
Definition relinked (st st' : State) : Prop :=
  students st' = students st ∧ instructors st' = instructors st ∧
  courses st' = courses st ∧ heap_instructors st' = heap_instructors st ∧
  (∀ a, s_head (student_at st' a) = s_head (student_at st a)) ∧
  (∀ a, c_head (course_at st' a) = c_head (course_at st a) ∧
        c_instructor (course_at st' a) = c_instructor (course_at st a)).

(** The school of a short session: two instructors, a course that went
    from the first to the second (and stays in the list of the first), and
    a student of the course. *)
Definition small_school : State :=
  App.session (map App.saved
                 [App.AddInstructor "Ada" 40 "ada@x.com" "I1";
                  App.AddInstructor "Bob" 41 "bob@x.com" "I2";
                  App.AddCourse "C1" "Algorithms" "I1";
                  App.AddStudent "John Doe" 20 "doe@x.com" "S1";
                  App.Register "S1" "C1";
                  App.Assign "I2" "C1"]) empty.

End TkJsonSpec.

(** * Properties *)

(** ** Strings *)

Section string_facts.

Lemma app_cons (a : ascii) (s v : string) :
  String a s +:+ v = String a (s +:+ v).
Proof. reflexivity. Qed.

Lemma app_empty (v : string) : "" +:+ v = v.
Proof. reflexivity. Qed.

Lemma prefix_app (q s : string) :
  String.prefix q s = true ↔ ∃ v, s = q +:+ v.
Proof.
  revert s. induction q as [|a q IH]; intros s; simpl.
  - destruct s; split; eauto.
  - destruct s as [|b s]; simpl.
    + split; [done | intros [v Hv]; discriminate].
    + destruct (ascii_dec a b) as [->|Hne].
      * rewrite IH. split; intros [v Hv]; exists v.
        -- by rewrite app_cons, Hv.
        -- rewrite app_cons in Hv. congruence.
      * split; [done | intros [v Hv]]. rewrite app_cons in Hv. congruence.
Qed.

(** [q in s] holds exactly when [s] is [u ++ q ++ v]. *)
Lemma contains_occurs (q s : string) :
  Py.contains q s = true ↔ ∃ u v, s = u +:+ q +:+ v.
Proof.
  induction s as [|b s IH]; cbn [Py.contains].
  - rewrite orb_false_r. split.
    + intros [v Hv]%prefix_app. exists "", v. done.
    + intros (u & v & H). destruct u as [|c u].
      * apply prefix_app. eauto.
      * rewrite app_cons in H. discriminate.
  - rewrite orb_true_iff, IH. split.
    + intros [[v Hv]%prefix_app | (u & v & ->)].
      * exists "", v. done.
      * exists (String b u), v. done.
    + intros (u & v & H). destruct u as [|c u].
      * left. apply prefix_app. eauto.
      * right. exists u, v. rewrite app_cons in H. congruence.
Qed.

Lemma contains_empty (s : string) : Py.contains "" s = true.
Proof. apply contains_occurs. exists "", s. done. Qed.

Lemma lstrip_blank (s : string) : blank s = true → Py.lstrip s = "".
Proof.
  induction s as [|c s IH]; simpl; [done|].
  intros [Hc Hs]%andb_true_iff. rewrite Hc. auto.
Qed.

Lemma strip_blank (s : string) : blank s = true → Py.strip s = "".
Proof. intros H. unfold Py.strip. rewrite (lstrip_blank s H). done. Qed.

End string_facts.

(** ** Regular expressions: the matcher decides membership in the language *)

Section regex_facts.
Import Regex.

Lemma nullable_lang (r : regex) : nullable r = true ↔ lang r [].
Proof.
  induction r as [| |p|r1 IH1 r2 IH2|r1 IH1 r2 IH2|r IH]; simpl.
  - done.
  - done.
  - split; [done | intros (c & Hc & _); discriminate].
  - rewrite andb_true_iff, IH1, IH2. split.
    + intros [H1 H2]. exists [], []. done.
    + intros (u & v & Huv & H1 & H2).
      symmetry in Huv. apply app_eq_nil in Huv as [-> ->]. done.
  - rewrite orb_true_iff, IH1, IH2. done.
  - split; [intros _; constructor | done].
Qed.

Lemma star_cons (L : list ascii → Prop) (c : ascii) (w : list ascii) :
  star L (c :: w) ↔ ∃ u v, w = u ++ v ∧ L (c :: u) ∧ star L v.
Proof.
  split.
  - intros H. remember (c :: w) as x eqn:Hx. revert c w Hx.
    induction H as [|u v Hu Hv IH]; intros c w Hx; [discriminate|].
    destruct u as [|d u]; simpl in Hx.
    + eauto.
    + injection Hx as -> <-. eauto.
  - intros (u & v & -> & Hu & Hv).
    change (c :: u ++ v) with ((c :: u) ++ v). by constructor.
Qed.

Lemma deriv_lang (c : ascii) (r : regex) (w : list ascii) :
  lang (deriv c r) w ↔ lang r (c :: w).
Proof.
  revert w.
  induction r as [| |p|r1 IH1 r2 IH2|r1 IH1 r2 IH2|r IH]; intros w; simpl.
  - done.
  - done.
  - destruct (p c) eqn:Hp; simpl.
    + split.
      * intros ->. eauto.
      * intros (d & Hd & _). by injection Hd.
    + split; [done | intros (d & Hd & Hpd)]. injection Hd as -> _. congruence.
  - assert (Hcat : (∃ u v, w = u ++ v ∧ lang (deriv c r1) u ∧ lang r2 v) ↔
                   ∃ u v, c :: w = u ++ v ∧ u ≠ [] ∧ lang r1 u ∧ lang r2 v).
    { split.
      - intros (u & v & -> & H1 & H2). exists (c :: u), v.
        rewrite <- IH1. done.
      - intros (u & v & Huv & Hne & H1 & H2). destruct u as [|d u]; [done|].
        injection Huv as <- ->. exists u, v. rewrite IH1. done. }
    destruct (nullable r1) eqn:Hn; simpl.
    + rewrite Hcat, IH2. split.
      * intros [(u & v & ? & ? & ? & ?) | H]; [by eauto|].
        exists [], (c :: w). split; [done|]. split; [|done].
        by apply nullable_lang.
      * intros (u & v & Huv & H1 & H2). destruct u as [|d u].
        -- right. simpl in Huv. by subst.
        -- left. exists (d :: u), v. done.
    + rewrite Hcat. split.
      * intros (u & v & ? & ? & ? & ?). eauto.
      * intros (u & v & Huv & H1 & H2). destruct u as [|d u].
        -- apply nullable_lang in H1. congruence.
        -- exists (d :: u), v. done.
  - rewrite IH1, IH2. done.
  - rewrite star_cons. split.
    + intros (u & v & -> & H1 & H2). exists u, v. rewrite <- IH. done.
    + intros (u & v & -> & H1 & H2). exists u, v. rewrite IH. done.
Qed.

Lemma matches_lang (r : regex) (w : list ascii) :
  matches r w = true ↔ lang r w.
Proof.
  revert r. induction w as [|c w IH]; intros r; simpl.
  - apply nullable_lang.
  - rewrite IH. apply deriv_lang.
Qed.

(** [r+]: one or more words of [r] *)
Lemma lang_plus_cls (p : ascii → bool) (w : list ascii) :
  lang (Plus (Cls p)) w ↔ w ≠ [] ∧ Forall (λ c, p c = true) w.
Proof.
  assert (Hstar : ∀ v, star (lang (Cls p)) v ↔ Forall (λ c, p c = true) v).
  { intros v. split.
    - induction 1 as [|u v' (c & -> & Hc) _ IH]; [constructor|].
      simpl. by constructor.
    - induction 1 as [|c v' Hc _ IH]; [constructor|].
      change (c :: v') with ([c] ++ v'). constructor; [|done]. simpl. eauto. }
  unfold Plus. simpl. split.
  - intros (u & v & -> & (c & -> & Hc) & Hv). split; [done|].
    constructor; [done|]. by apply Hstar.
  - intros [Hne Hall]. destruct w as [|c w]; [done|].
    inversion Hall; subst. exists [c], w. split; [done|].
    split; [eauto | by apply Hstar].
Qed.

Lemma lang_atleast2_cls (p : ascii → bool) (w : list ascii) :
  lang (AtLeast2 (Cls p)) w ↔ 2 ≤ length w ∧ Forall (λ c, p c = true) w.
Proof.
  unfold AtLeast2.
  change (Cat (Cls p) (Cat (Cls p) (Star (Cls p)))) with (Cat (Cls p) (Plus (Cls p))).
  change (lang (Cat (Cls p) (Plus (Cls p))) w) with
    (∃ u v, w = u ++ v ∧ lang (Cls p) u ∧ lang (Plus (Cls p)) v).
  split.
  - intros (u & v & -> & (c & -> & Hc) & [Hne Hall]%lang_plus_cls).
    destruct v; [done|]. simpl. split; [lia|]. by constructor.
  - intros [Hlen Hall]. destruct w as [|c [|d w]]; simpl in Hlen; [lia..|].
    inversion Hall; subst. exists [c], (d :: w). split; [done|].
    split; [simpl; eauto|]. apply lang_plus_cls. done.
Qed.

Lemma lang_dollar (w : list ascii) :
  lang Dollar w ↔ w = [] ∨ w = ["010"%char].
Proof.
  unfold Dollar. simpl. split.
  - intros [->|(c & -> & Hc)]; [by left|]. right.
    unfold is_newline in Hc. apply Nat.eqb_eq in Hc.
    f_equal. rewrite <- (ascii_nat_embedding c), Hc. done.
  - intros [->| ->]; [by left|]. right. eauto.
Qed.

End regex_facts.

(** ** Lists *)

Section more_list_facts.

Lemma elem_of_map {A B} (f : A → B) (l : list A) (x : B) :
  x ∈ map f l ↔ ∃ y, x = f y ∧ y ∈ l.
Proof. apply (list_elem_of_fmap f l x). Qed.

Lemma existsb_false_iff {A} (f : A → bool) (l : list A) :
  existsb f l = false ↔ ∀ x, x ∈ l → f x = false.
Proof.
  rewrite <- not_true_iff_false, existsb_exists. split.
  - intros H x Hx. destruct (f x) eqn:Hf; [|done].
    destruct H. exists x. by rewrite <- list_elem_of_In.
  - intros H (x & Hx%list_elem_of_In & Hf). rewrite (H x Hx) in Hf. done.
Qed.

Lemma NoDup_snoc_app {A} (l : list A) (x : A) (k : list A) :
  NoDup (l ++ x :: k) → (x ∉ l) ∧ NoDup ((l ++ [x]) ++ k).
Proof.
  intros H. split.
  - apply NoDup_app in H as (_ & H & _). intros Hx. apply (H x Hx). by left.
  - by rewrite <- app_assoc.
Qed.

Lemma find_ext {A} (f g : A → bool) (l : list A) :
  (∀ a, f a = g a) → List.find f l = List.find g l.
Proof.
  intros H. induction l as [|x l IH]; simpl; [done|]. by rewrite H, IH.
Qed.

Lemma flat_map_ext_in {A B} (f g : A → list B) (l : list A) :
  (∀ a, a ∈ l → f a = g a) → flat_map f l = flat_map g l.
Proof.
  induction l as [|x l IH]; intros H; simpl; [done|].
  rewrite H by (by left). rewrite IH; [done|]. intros a Ha. apply H. by right.
Qed.

Lemma map_ext_elem {A B} (f g : A → B) (l : list A) :
  (∀ a, a ∈ l → f a = g a) → map f l = map g l.
Proof.
  intros H. apply map_ext_in. intros a Ha%list_elem_of_In. by apply H.
Qed.

Lemma elem_of_flat_map {A B} (f : A → list B) (l : list A) (x : B) :
  x ∈ flat_map f l ↔ ∃ a, a ∈ l ∧ x ∈ f a.
Proof.
  rewrite list_elem_of_In, in_flat_map. split.
  - intros (a & Ha & Hx). exists a. by rewrite !list_elem_of_In.
  - intros (a & Ha & Hx). exists a. by rewrite <- !list_elem_of_In.
Qed.

Lemma elem_of_filter {A} (f : A → bool) (l : list A) (x : A) :
  x ∈ List.filter f l ↔ x ∈ l ∧ f x = true.
Proof. by rewrite !list_elem_of_In, filter_In. Qed.

Lemma filter_nothing {A} (f : A → bool) (l : list A) :
  (∀ x, f x = false) → List.filter f l = [].
Proof.
  intros H. induction l as [|x l IH]; simpl; [done|]. by rewrite H.
Qed.

Lemma filter_none {A} (f : A → bool) (l : list A) :
  existsb f l = false → List.filter f l = [].
Proof.
  induction l as [|x l IH]; simpl; [done|].
  intros [Hx Hl]%orb_false_iff. rewrite Hx. auto.
Qed.

Lemma filter_all {A} (f : A → bool) (l : list A) :
  (∀ x, f x = true) → List.filter f l = l.
Proof.
  intros H. induction l as [|x l IH]; simpl; [done|]. by rewrite H, IH.
Qed.

Lemma elem_of_filter_map {A B} (g : A → B) (f : A → bool) (l : list A) (r : B) :
  r ∈ map g (List.filter f l) ↔ ∃ a, a ∈ l ∧ r = g a ∧ f a = true.
Proof.
  rewrite list_elem_of_In, in_map_iff. split.
  - intros (a & <- & [Hin Hf]%filter_In). exists a.
    by rewrite list_elem_of_In.
  - intros (a & Hin & -> & Hf). exists a. split; [done|].
    apply filter_In. by rewrite <- list_elem_of_In.
Qed.

End more_list_facts.

(** ** Entity validation *)

Section strip_facts.

Lemma lstrip_empty_blank (s : string) : Py.lstrip s = "" ↔ blank s = true.
Proof.
  split; [|apply lstrip_blank].
  induction s as [|c s IH]; simpl; [done|].
  destruct (Py.isspace c); [exact IH | discriminate].
Qed.

Lemma blank_rev_app (s t : string) :
  blank (String.rev_app s t) = blank s && blank t.
Proof.
  revert t. induction s as [|c s IH]; intros t; simpl; [done|].
  rewrite IH. simpl. destruct (Py.isspace c), (blank s), (blank t); done.
Qed.

Lemma blank_rev (s : string) : blank (String.rev s) = blank s.
Proof. unfold String.rev. rewrite blank_rev_app. simpl. apply andb_true_r. Qed.

Lemma rev_app_empty (s t : string) : String.rev_app s t = "" → s = "" ∧ t = "".
Proof.
  revert t. induction s as [|c s IH]; intros t; simpl; [done|].
  intros [_ H]%IH. discriminate.
Qed.

Lemma lstrip_blank_inv (s : string) : blank (Py.lstrip s) = true → blank s = true.
Proof.
  induction s as [|c s IH]; simpl; [done|].
  destruct (Py.isspace c) eqn:Hc; simpl; [exact IH|].
  rewrite Hc. done.
Qed.

(** [x.strip()] is empty exactly for the strings of white space. *)
Lemma strip_empty_blank (s : string) : Py.strip s = "" ↔ blank s = true.
Proof.
  split; [|apply strip_blank].
  unfold Py.strip, Py.rstrip, String.rev. intros [H _]%rev_app_empty.
  apply lstrip_empty_blank in H. rewrite blank_rev_app in H.
  apply andb_true_iff in H as [H _]. by apply lstrip_blank_inv.
Qed.

Lemma nonblank_false (s : string) : Lab2.nonblank s = false ↔ blank s = true.
Proof.
  unfold Lab2.nonblank. rewrite negb_false_iff, bool_decide_eq_true.
  apply strip_empty_blank.
Qed.

Lemma nonblank_true (s : string) : Lab2.nonblank s = true ↔ blank s = false.
Proof.
  rewrite <- not_false_iff_true, nonblank_false, not_true_iff_false. done.
Qed.

End strip_facts.

Section email_facts.
Import Regex.

Lemma code_eq (c : ascii) (n : nat) :
  n < 256 → Nat.eqb (nat_of_ascii c) n = true ↔ c = ascii_of_nat n.
Proof.
  intros Hn. rewrite Nat.eqb_eq. split.
  - intros <-. by rewrite ascii_nat_embedding.
  - intros ->. by rewrite nat_ascii_embedding.
Qed.

Lemma lang_cls_code (n : nat) (w : list ascii) :
  n < 256 →
  lang (Cls (λ c, Nat.eqb (nat_of_ascii c) n)) w ↔ w = [ascii_of_nat n].
Proof.
  intros Hn. simpl. split.
  - intros (c & -> & Hc). apply code_eq in Hc; [|done]. by subst.
  - intros ->. exists (ascii_of_nat n). split; [done|]. by apply code_eq.
Qed.

(** The words of a pattern [pl+ @ pd+ \. X $]. *)
Lemma lang_email (pl pd : ascii → bool) (X : regex) (LX : list ascii → Prop)
    (w : list ascii) :
  (∀ v, lang X v ↔ LX v) →
  lang (Cat (Plus (Cls pl))
       (Cat (Cls (λ c, Nat.eqb (nat_of_ascii c) 64))
       (Cat (Plus (Cls pd))
       (Cat (Cls (λ c, Nat.eqb (nat_of_ascii c) 46))
       (Cat X Dollar))))) w ↔
  ∃ loc dom tld tail,
    w = loc ++ "@"%char :: dom ++ "."%char :: tld ++ tail ∧
    (loc ≠ [] ∧ Forall (λ c, pl c = true) loc) ∧
    (dom ≠ [] ∧ Forall (λ c, pd c = true) dom) ∧
    LX tld ∧
    (tail = [] ∨ tail = ["010"%char]).
Proof.
  intros HX.
  cbn [lang]. fold (lang (Plus (Cls pl))) (lang (Plus (Cls pd)))
    (lang (Cls (λ c, Nat.eqb (nat_of_ascii c) 64)))
    (lang (Cls (λ c, Nat.eqb (nat_of_ascii c) 46))) (lang Dollar) (lang X).
  split.
  - intros (loc & w1 & -> & Hloc & at_ & w2 & -> & Hat & dom & w3 & -> & Hdom
            & dot & w4 & -> & Hdot & tld & tail & -> & Htld & Htail).
    apply lang_plus_cls in Hloc, Hdom.
    apply (lang_cls_code 64) in Hat; [|lia]. apply (lang_cls_code 46) in Hdot; [|lia].
    apply lang_dollar in Htail. apply HX in Htld. subst at_ dot.
    exists loc, dom, tld, tail. done.
  - intros (loc & dom & tld & tail & -> & Hloc & Hdom & Htld & Htail).
    exists loc, ("@"%char :: dom ++ "."%char :: tld ++ tail).
    split; [done|]. split; [by apply lang_plus_cls|].
    exists ["@"%char], (dom ++ "."%char :: tld ++ tail).
    split; [done|]. split; [by apply (lang_cls_code 64); [lia|]|].
    exists dom, ("."%char :: tld ++ tail).
    split; [done|]. split; [by apply lang_plus_cls|].
    exists ["."%char], (tld ++ tail).
    split; [done|]. split; [by apply (lang_cls_code 46); [lia|]|].
    exists tld, tail. split; [done|]. split; [by apply HX | by apply lang_dollar].
Qed.

Lemma lab2_validate_email (e : string) :
  Lab2._validate_email e = true ↔
  email_shape Lab2.local_char Lab2.domain_char Lab2.is_alpha 2 e.
Proof.
  unfold Lab2._validate_email, re_match. rewrite matches_lang.
  unfold Lab2.pattern, Lab2.is_at, Lab2.is_dot.
  rewrite (lang_email _ _ _ (λ v, 2 ≤ length v ∧ Forall (λ c, Lab2.is_alpha c = true) v));
    [done|].
  intros v. apply lang_atleast2_cls.
Qed.

Lemma tk_email_re (e : string) :
  re_match Tk._email_re e = true ↔
  email_shape Tk.not_at_space Tk.not_at_space Tk.not_at_space 1 e.
Proof.
  unfold re_match. rewrite matches_lang.
  unfold Tk._email_re, Tk.is_at, Tk.is_dot.
  rewrite (lang_email _ _ _ (λ v, 1 ≤ length v ∧ Forall (λ c, Tk.not_at_space c = true) v));
    [done|].
  intros v. rewrite lang_plus_cls. destruct v; simpl; split; intros [? ?]; split;
    try done; lia.
Qed.

End email_facts.

Section constructor_facts.

Lemma lab2_validate_age (age : pyval) :
  Lab2._validate_age age = true ↔ nonneg_int age.
Proof.
  unfold nonneg_int. destruct age as [|z|q]; simpl.
  - split; [done | intros (z & ? & _); discriminate].
  - rewrite Z.leb_le. split; [eauto | intros (z' & [= <-] & H); done].
  - split; [done | intros (z & ? & _); discriminate].
Qed.

Lemma lab2_as_int (age : pyval) : nonneg_int age → age = PyInt (Lab2.as_int age).
Proof. intros (z & -> & _). done. Qed.

Lemma tk_check_age_ok (age : pyval) (z : Z) :
  Tk.check_age age = Ok z ↔ nonneg_number age z.
Proof.
  unfold nonneg_number. destruct age as [|a|q]; simpl.
  - split; [done | intros [[? _] | (q & ? & _)]; discriminate].
  - destruct (Z.ltb_spec a 0) as [Hneg|Hpos].
    + split; [done|]. intros [[[= ->] H] | (q & ? & _)]; [lia | discriminate].
    + split.
      * intros [= ->]. by left.
      * intros [[[= ->] H] | (q & ? & _)]; [done | discriminate].
  - destruct (Qle_bool 0 q) eqn:Hq.
    + apply Qle_bool_iff in Hq. split.
      * intros [= <-]. right. exists q. done.
      * intros [[? _] | (q' & [= <-] & _ & ->)]; [discriminate | done].
    + split; [done|]. intros [[? _] | (q' & [= <-] & Hq' & _)]; [discriminate|].
      apply Qle_bool_iff in Hq'. congruence.
Qed.

Lemma tk_check_age_raises (age : pyval) :
  (∃ z, Tk.check_age age = Ok z) ∨ Tk.check_age age = Raise (ValueError "age must be >= 0").
Proof.
  destruct age as [|a|q]; simpl.
  - by right.
  - destruct (a <? 0)%Z; [by right | left; eauto].
  - destruct (Qle_bool 0 q); [left; eauto | by right].
Qed.

(** [Person.__init__] of school_management.py *)
Lemma lab2_person_init (name : string) (age : pyval) (email : string) :
  (is_value_error (Lab2.Person_init name age email) = true ↔
     blank name = true ∨ ¬ nonneg_int age ∨
     ¬ email_shape Lab2.local_char Lab2.domain_char Lab2.is_alpha 2 email) ∧
  (is_value_error (Lab2.Person_init name age email) = false →
     Lab2.Person_init name age email = Ok (name, Lab2.as_int age, email)).
Proof.
  unfold Lab2.Person_init, Lab2._validate_name.
  rewrite <- lab2_validate_age, <- lab2_validate_email.
  destruct (Lab2.nonblank name) eqn:Hn; simpl.
  - apply nonblank_true in Hn. rewrite Hn.
    destruct (Lab2._validate_age age); simpl.
    + destruct (Lab2._validate_email email); simpl; intuition congruence.
    + intuition congruence.
  - apply nonblank_false in Hn. intuition congruence.
Qed.

Lemma re_match_dec (email : string) :
  Regex.re_match Tk._email_re email = true ∨ Regex.re_match Tk._email_re email = false.
Proof. destruct (Regex.re_match Tk._email_re email); auto. Qed.

(** [Person.__init__] of school.py *)
Lemma tk_person_init (name : string) (age : pyval) (email : string) :
  (is_value_error (Tk.Person_init name age email) = true ↔
     name = "" ∨ ¬ (∃ z, nonneg_number age z) ∨
     (email ≠ "" ∧
      ¬ email_shape Tk.not_at_space Tk.not_at_space Tk.not_at_space 1 email)) ∧
  (is_value_error (Tk.Person_init name age email) = false →
     ∃ z, nonneg_number age z ∧ Tk.Person_init name age email = Ok (name, z, email)).
Proof.
  unfold Tk.Person_init. rewrite <- tk_email_re.
  destruct (decide (name = "")) as [Hn|Hn]; simpl; [by intuition|].
  destruct (tk_check_age_raises age) as [[z Hz] | Hraise].
  - rewrite Hz. simpl. pose proof (proj1 (tk_check_age_ok age z) Hz) as Hage.
    destruct (decide (email = "")) as [->|He].
    + simpl. split; [|by eauto]. split; [done|].
      intros [?|[H|[? _]]]; [done| |done]. destruct H. eauto.
    + rewrite bool_decide_eq_false_2 by done. simpl.
      destruct (re_match_dec email) as [Hm|Hm]; rewrite Hm; simpl.
      * split; [|by eauto]. split; [done|].
        intros [?|[H|[_ H]]]; [done| |done]. destruct H. eauto.
      * split; [|done]. split; [|done]. intros _. right. right.
        split; [done|]. congruence.
  - rewrite Hraise. simpl. split; [|done]. split; [|done]. intros _. right. left.
    intros [z Hz%tk_check_age_ok]. congruence.
Qed.

End constructor_facts.

Section entity_facts.

Lemma lab2_student_init (name : string) (age : pyval) (email id : string) :
  (is_value_error (Lab2.Student_init name age email id) = true ↔
     blank name = true ∨ ¬ nonneg_int age ∨
     ¬ email_shape Lab2.local_char Lab2.domain_char Lab2.is_alpha 2 email ∨
     blank id = true) ∧
  (is_value_error (Lab2.Student_init name age email id) = false →
     age = PyInt (Lab2.as_int age) ∧
     Lab2.Student_init name age email id
       = Ok (Lab2.mkStudent name (Lab2.as_int age) email id [])).
Proof.
  destruct (lab2_person_init name age email) as [Herr Hok].
  unfold Lab2.Student_init, Lab2._validate_student_id.
  destruct (is_value_error (Lab2.Person_init name age email)) eqn:Hp.
  - destruct (Lab2.Person_init name age email) as [p|[]]; try done.
    simpl. split; [|done]. split; [|done]. intros _.
    destruct (proj1 Herr eq_refl) as [?|[?|?]]; auto.
  - rewrite (Hok eq_refl). simpl.
    assert (Hage : nonneg_int age).
    { destruct (Lab2._validate_age age) eqn:Ha; [by apply lab2_validate_age|].
      assert (false = true); [|done].
      apply Herr. right. left. rewrite <- lab2_validate_age. congruence. }
    destruct (Lab2.nonblank id) eqn:Hi; simpl.
    + apply nonblank_true in Hi. split.
      * split; [done|]. intros [H|[H|[H|H]]]; [| | |congruence].
        -- assert (false = true); [|done]. apply Herr. auto.
        -- assert (false = true); [|done]. apply Herr. auto.
        -- assert (false = true); [|done]. apply Herr. auto.
      * intros _. split; [by apply lab2_as_int | done].
    + apply nonblank_false in Hi. split; [|done]. split; auto.
Qed.

Lemma lab2_instructor_init (name : string) (age : pyval) (email id : string) :
  (is_value_error (Lab2.Instructor_init name age email id) = true ↔
     blank name = true ∨ ¬ nonneg_int age ∨
     ¬ email_shape Lab2.local_char Lab2.domain_char Lab2.is_alpha 2 email ∨
     blank id = true) ∧
  (is_value_error (Lab2.Instructor_init name age email id) = false →
     age = PyInt (Lab2.as_int age) ∧
     Lab2.Instructor_init name age email id
       = Ok (Lab2.mkInstructor name (Lab2.as_int age) email id [])).
Proof.
  destruct (lab2_person_init name age email) as [Herr Hok].
  unfold Lab2.Instructor_init, Lab2._validate_instructor_id.
  destruct (is_value_error (Lab2.Person_init name age email)) eqn:Hp.
  - destruct (Lab2.Person_init name age email) as [p|[]]; try done.
    simpl. split; [|done]. split; [|done]. intros _.
    destruct (proj1 Herr eq_refl) as [?|[?|?]]; auto.
  - rewrite (Hok eq_refl). simpl.
    assert (Hage : nonneg_int age).
    { destruct (Lab2._validate_age age) eqn:Ha; [by apply lab2_validate_age|].
      assert (false = true); [|done].
      apply Herr. right. left. rewrite <- lab2_validate_age. congruence. }
    destruct (Lab2.nonblank id) eqn:Hi; simpl.
    + apply nonblank_true in Hi. split.
      * split; [done|]. intros [H|[H|[H|H]]]; [| | |congruence].
        -- assert (false = true); [|done]. apply Herr. auto.
        -- assert (false = true); [|done]. apply Herr. auto.
        -- assert (false = true); [|done]. apply Herr. auto.
      * intros _. split; [by apply lab2_as_int | done].
    + apply nonblank_false in Hi. split; [|done]. split; auto.
Qed.

Lemma tk_student_init (name : string) (age : pyval) (email id : string) :
  (is_value_error (Tk.Student_init name age email id) = true ↔
     name = "" ∨ ¬ (∃ z, nonneg_number age z) ∨
     (email ≠ "" ∧
      ¬ email_shape Tk.not_at_space Tk.not_at_space Tk.not_at_space 1 email) ∨
     id = "") ∧
  (is_value_error (Tk.Student_init name age email id) = false →
     ∃ z, nonneg_number age z ∧
       Tk.Student_init name age email id = Ok (Tk.mkStudent name z email id [])).
Proof.
  destruct (tk_person_init name age email) as [Herr Hok].
  unfold Tk.Student_init.
  destruct (is_value_error (Tk.Person_init name age email)) eqn:Hp.
  - destruct (Tk.Person_init name age email) as [p|[]]; try done.
    simpl. split; [|done]. split; [|done]. intros _.
    destruct (proj1 Herr eq_refl) as [?|[?|?]]; auto.
  - destruct (Hok eq_refl) as (z & Hz & ->). simpl.
    destruct (decide (id = "")) as [Hi|Hi]; simpl.
    + split; [|done]. split; auto.
    + split; [|by eauto]. split; [done|]. intros [H|[H|[H|H]]]; [| | |done].
      * assert (false = true); [|done]. apply Herr. auto.
      * assert (false = true); [|done]. apply Herr. auto.
      * assert (false = true); [|done]. apply Herr. auto.
Qed.

Lemma tk_instructor_init (name : string) (age : pyval) (email id : string) :
  (is_value_error (Tk.Instructor_init name age email id) = true ↔
     name = "" ∨ ¬ (∃ z, nonneg_number age z) ∨
     (email ≠ "" ∧
      ¬ email_shape Tk.not_at_space Tk.not_at_space Tk.not_at_space 1 email) ∨
     id = "") ∧
  (is_value_error (Tk.Instructor_init name age email id) = false →
     ∃ z, nonneg_number age z ∧
       Tk.Instructor_init name age email id = Ok (Tk.mkInstructor name z email id [])).
Proof.
  destruct (tk_person_init name age email) as [Herr Hok].
  unfold Tk.Instructor_init.
  destruct (is_value_error (Tk.Person_init name age email)) eqn:Hp.
  - destruct (Tk.Person_init name age email) as [p|[]]; try done.
    simpl. split; [|done]. split; [|done]. intros _.
    destruct (proj1 Herr eq_refl) as [?|[?|?]]; auto.
  - destruct (Hok eq_refl) as (z & Hz & ->). simpl.
    destruct (decide (id = "")) as [Hi|Hi]; simpl.
    + split; [|done]. split; auto.
    + split; [|by eauto]. split; [done|]. intros [H|[H|[H|H]]]; [| | |done].
      * assert (false = true); [|done]. apply Herr. auto.
      * assert (false = true); [|done]. apply Herr. auto.
      * assert (false = true); [|done]. apply Herr. auto.
Qed.

End entity_facts.

(** C8 (as amended). In school_management.py the construction of a
    [Student] or an [Instructor] raises [ValueError] exactly when the name
    is empty or blank, or the age is not a non-negative [int], or the
    e-mail is not of the shape local@domain.tld (local part of
    [a-zA-Z0-9._%+-], domain of [a-zA-Z0-9.-], a last part of at least two
    letters; one final newline is let through), or the id is empty or
    blank; otherwise the object holds the values given.
    In school.py the construction raises [ValueError] exactly when the
    name is empty, or the age is [None] or negative, or the e-mail is not
    empty and not of the shape x@y.z (no [@] and no white space in the
    parts, a last part of at least one character), or the id is empty;
    otherwise the object holds the name, e-mail and id given and the age
    converted by [int]. *)
Theorem entity_construction (name : string) (age : pyval) (email id : string) :
  ((is_value_error (Lab2.Student_init name age email id) = true ↔
      blank name = true ∨ ¬ nonneg_int age ∨
      ¬ email_shape Lab2.local_char Lab2.domain_char Lab2.is_alpha 2 email ∨
      blank id = true) ∧
   (is_value_error (Lab2.Student_init name age email id) = false →
      age = PyInt (Lab2.as_int age) ∧
      Lab2.Student_init name age email id
        = Ok (Lab2.mkStudent name (Lab2.as_int age) email id []))) ∧
  ((is_value_error (Lab2.Instructor_init name age email id) = true ↔
      blank name = true ∨ ¬ nonneg_int age ∨
      ¬ email_shape Lab2.local_char Lab2.domain_char Lab2.is_alpha 2 email ∨
      blank id = true) ∧
   (is_value_error (Lab2.Instructor_init name age email id) = false →
      age = PyInt (Lab2.as_int age) ∧
      Lab2.Instructor_init name age email id
        = Ok (Lab2.mkInstructor name (Lab2.as_int age) email id []))) ∧
  ((is_value_error (Tk.Student_init name age email id) = true ↔
      name = "" ∨ ¬ (∃ z, nonneg_number age z) ∨
      (email ≠ "" ∧
       ¬ email_shape Tk.not_at_space Tk.not_at_space Tk.not_at_space 1 email) ∨
      id = "") ∧
   (is_value_error (Tk.Student_init name age email id) = false →
      ∃ z, nonneg_number age z ∧
        Tk.Student_init name age email id = Ok (Tk.mkStudent name z email id []))) ∧
  ((is_value_error (Tk.Instructor_init name age email id) = true ↔
      name = "" ∨ ¬ (∃ z, nonneg_number age z) ∨
      (email ≠ "" ∧
       ¬ email_shape Tk.not_at_space Tk.not_at_space Tk.not_at_space 1 email) ∨
      id = "") ∧
   (is_value_error (Tk.Instructor_init name age email id) = false →
      ∃ z, nonneg_number age z ∧
        Tk.Instructor_init name age email id = Ok (Tk.mkInstructor name z email id []))).
Proof.
  split; [apply lab2_student_init|].
  split; [apply lab2_instructor_init|].
  split; [apply tk_student_init | apply tk_instructor_init].
Qed.

(** A student of school_management.py with a blank id is refused, and a
    student with valid fields is built from them. *)
Lemma entity_construction_witness :
  is_value_error (Lab2.Student_init "Ann" (PyInt 20) "ann@x.com" spaces_and_tab) = true ∧
  Lab2.Student_init "Ann" (PyInt 20) "ann@x.com" "S1"
    = Ok (Lab2.mkStudent "Ann" 20 "ann@x.com" "S1" []).
Proof.
  split.
  - apply (entity_construction "Ann" (PyInt 20) "ann@x.com" spaces_and_tab).
    right. right. right. reflexivity.
  - apply (entity_construction "Ann" (PyInt 20) "ann@x.com" "S1"). reflexivity.
Defined.

(** C8 (as stated) fails on school.py: a blank name, the age 3.5 and an
    empty e-mail are accepted, and the age stored is 3. *)
Lemma entity_construction_counterexample :
  blank "   " = true ∧
  Tk.Student_init "   " (PyFloat (7 # 2)) "" "S1" = Ok (Tk.mkStudent "   " 3 "" "S1" []).
Proof. split; reflexivity. Qed.

(** ** The registry of [school.py] *)

Section find_facts.
Context (f : nat → string).

Lemma find_id_Some (l : list nat) (id : string) (a : nat) :
  List.find (λ a, String.eqb (f a) id) l = Some a → a ∈ l ∧ f a = id.
Proof.
  intros [Hin Heq]%find_some. split.
  - by apply list_elem_of_In.
  - by apply String.eqb_eq.
Qed.

Lemma find_id_None (l : list nat) (id : string) :
  List.find (λ a, String.eqb (f a) id) l = None ↔ ∀ a, a ∈ l → f a ≠ id.
Proof.
  split.
  - intros H a Hin Heq. apply list_elem_of_In in Hin.
    pose proof (find_none _ _ H a Hin) as Hf. cbn beta in Hf.
    apply String.eqb_neq in Hf. done.
  - intros H. destruct (List.find _ l) as [a|] eqn:Hfind; [|done].
    apply find_id_Some in Hfind as [Hin Heq]. by destruct (H a Hin).
Qed.

Lemma find_id_is_Some (l : list nat) (id : string) :
  (∃ a, a ∈ l ∧ f a = id) → ∃ a, List.find (λ a, String.eqb (f a) id) l = Some a.
Proof.
  intros (a & Hin & Heq).
  destruct (List.find _ l) as [b|] eqn:Hfind; [eauto|].
  rewrite find_id_None in Hfind. by destruct (Hfind a Hin).
Qed.
End find_facts.

Section list_facts.

Lemma mem_true (x : nat) (l : list nat) : Py.mem x l = true ↔ x ∈ l.
Proof. unfold Py.mem. apply bool_decide_eq_true. Qed.

Lemma mem_false (x : nat) (l : list nat) : Py.mem x l = false ↔ x ∉ l.
Proof. unfold Py.mem. apply bool_decide_eq_false. Qed.

Lemma append_new_elem (x : nat) (l : list nat) : x ∈ Py.append_new x l.
Proof.
  unfold Py.append_new. destruct (Py.mem x l) eqn:H.
  - by apply mem_true.
  - apply elem_of_app. right. by apply list_elem_of_singleton.
Qed.

Lemma append_new_NoDup (x : nat) (l : list nat) :
  NoDup l → NoDup (Py.append_new x l).
Proof.
  intros Hl. unfold Py.append_new. destruct (Py.mem x l) eqn:H; [done|].
  apply mem_false in H. apply NoDup_app. split; [done|]. split.
  - intros y Hy ->%list_elem_of_singleton. done.
  - apply NoDup_singleton.
Qed.

Lemma remove_elem (x y : nat) (l : list nat) :
  y ∈ Py.remove x l → y ∈ l.
Proof.
  induction l as [|z l IH]; simpl; [done|].
  destruct (decide (x = z)) as [->|Hne].
  - intros H. by apply elem_of_cons; right.
  - intros [->|H]%elem_of_cons; [by left | right; auto].
Qed.

Lemma remove_other (x y : nat) (l : list nat) :
  y ≠ x → y ∈ l → y ∈ Py.remove x l.
Proof.
  intros Hne. induction l as [|z l IH]; simpl; [done|].
  intros [Heq|H]%elem_of_cons.
  - destruct (decide (x = z)); [congruence | subst; by left].
  - destruct (decide (x = z)); [done | right; auto].
Qed.

Lemma remove_NoDup (x : nat) (l : list nat) :
  NoDup l → NoDup (Py.remove x l) ∧ x ∉ Py.remove x l.
Proof.
  induction 1 as [|z l Hz Hl [IH1 IH2]]; simpl.
  - split; [constructor | by intros ?%elem_of_nil].
  - destruct (decide (x = z)) as [->|Hne]; [done|]. split.
    + constructor; [|done]. intros H%remove_elem. done.
    + intros [->|H]%elem_of_cons; done.
Qed.

Lemma remove_absent (x : nat) (l : list nat) : x ∉ l → Py.remove x l = l.
Proof.
  induction l as [|z l IH]; simpl; [done|].
  intros H. apply not_elem_of_cons in H as [Hne Hl].
  destruct (decide (x = z)); [done|]. by rewrite IH.
Qed.

End list_facts.

Section tk_heap.
Import Tk.

Lemma student_at_set_s_courses (a b : nat) (f : list nat → list nat) (st : State) :
  student_at (set_s_courses a f st) b =
    if decide (a = b) then
      let o := student_at st b in
      if decide (b < length (heap_students st))
      then mkStudent (s_name o) (s_age o) (s_email o) (studentid o) (f (s_courses o))
      else o
    else student_at st b.
Proof.
  unfold student_at, set_s_courses. simpl.
  destruct (decide (a = b)) as [->|Hne].
  - rewrite list_lookup_alter_eq. destruct (decide _) as [Hlt|Hge].
    + apply lookup_lt_is_Some in Hlt as [o Ho]. by rewrite Ho.
    + rewrite lookup_ge_None_2 by lia. done.
  - by rewrite list_lookup_alter_ne.
Qed.

Lemma course_at_set_c_students (a b : nat) (f : list nat → list nat) (st : State) :
  course_at (set_c_students a f st) b =
    if decide (a = b) then
      let o := course_at st b in
      if decide (b < length (heap_courses st))
      then mkCourse (courseid o) (coursename o) (c_instructor o) (f (c_students o))
      else o
    else course_at st b.
Proof.
  unfold course_at, set_c_students. simpl.
  destruct (decide (a = b)) as [->|Hne].
  - rewrite list_lookup_alter_eq. destruct (decide _) as [Hlt|Hge].
    + apply lookup_lt_is_Some in Hlt as [o Ho]. by rewrite Ho.
    + rewrite lookup_ge_None_2 by lia. done.
  - by rewrite list_lookup_alter_ne.
Qed.

Lemma findstudent_None (st : State) (sid : string) :
  findstudent st sid = None ↔ ¬ TkSpec.student_known st sid.
Proof.
  unfold findstudent, TkSpec.student_known.
  rewrite (find_id_None (λ a, studentid (student_at st a))).
  split; [intros H (a & Hin & Heq); by apply (H a) | intros H a Hin Heq; apply H; eauto].
Qed.

Lemma findinstructor_None (st : State) (iid : string) :
  findinstructor st iid = None ↔ ¬ TkSpec.instructor_known st iid.
Proof.
  unfold findinstructor, TkSpec.instructor_known.
  rewrite (find_id_None (λ a, instructorid (instructor_at st a))).
  split; [intros H (a & Hin & Heq); by apply (H a) | intros H a Hin Heq; apply H; eauto].
Qed.

Lemma findcourse_None (st : State) (cid : string) :
  findcourse st cid = None ↔ ¬ TkSpec.course_known st cid.
Proof.
  unfold findcourse, TkSpec.course_known.
  rewrite (find_id_None (λ a, courseid (course_at st a))).
  split; [intros H (a & Hin & Heq); by apply (H a) | intros H a Hin Heq; apply H; eauto].
Qed.

End tk_heap.

Section tk_add.
Import Tk TkSpec.

Lemma addstudent_known (st : State) (s : nat) :
  student_known st (studentid (student_at st s)) → addstudent st s = (false, st).
Proof.
  intros Hk. unfold addstudent.
  destruct (findstudent st _) eqn:Hf; [done|].
  apply findstudent_None in Hf. done.
Qed.

Lemma addstudent_fresh (st : State) (s : nat) :
  ¬ student_known st (studentid (student_at st s)) →
  addstudent st s = (true, set_students (students st ++ [s]) st).
Proof.
  intros Hk%findstudent_None. unfold addstudent. by rewrite Hk.
Qed.

Lemma addinstructor_known (st : State) (i : nat) :
  instructor_known st (instructorid (instructor_at st i)) →
  addinstructor st i = (false, st).
Proof.
  intros Hk. unfold addinstructor.
  destruct (findinstructor st _) eqn:Hf; [done|].
  apply findinstructor_None in Hf. done.
Qed.

Lemma addinstructor_fresh (st : State) (i : nat) :
  ¬ instructor_known st (instructorid (instructor_at st i)) →
  addinstructor st i = (true, set_instructors (instructors st ++ [i]) st).
Proof.
  intros Hk%findinstructor_None. unfold addinstructor. by rewrite Hk.
Qed.

Lemma addcourse_known (st : State) (c : nat) :
  course_known st (courseid (course_at st c)) → addcourse st c = (false, st).
Proof.
  intros Hk. unfold addcourse.
  destruct (findcourse st _) eqn:Hf; [done|].
  apply findcourse_None in Hf. done.
Qed.

Lemma addcourse_fresh (st : State) (c : nat) :
  ¬ course_known st (courseid (course_at st c)) →
  addcourse st c = (true, set_courses (courses st ++ [c]) st).
Proof.
  intros Hk%findcourse_None. unfold addcourse. by rewrite Hk.
Qed.

End tk_add.

(** C4 (as amended). [SchoolSystem.addstudent], [addinstructor] and
    [addcourse] of school.py return [False] and leave the graph as it is
    when the registry already holds an entity of that kind with the same
    id, and otherwise append the entity and return [True].
    [SchoolManagementSystem.add_student], [add_instructor] and [add_course]
    of school_management.py make no such test: they append the entity in
    every state, also when the id is already there. *)
Theorem add_entity_by_id :
  (∀ (st : Tk.State) (a : nat),
     (TkSpec.student_known st (Tk.studentid (Tk.student_at st a)) →
        Tk.addstudent st a = (false, st)) ∧
     (¬ TkSpec.student_known st (Tk.studentid (Tk.student_at st a)) →
        Tk.addstudent st a = (true, Tk.set_students (Tk.students st ++ [a]) st)) ∧
     (TkSpec.instructor_known st (Tk.instructorid (Tk.instructor_at st a)) →
        Tk.addinstructor st a = (false, st)) ∧
     (¬ TkSpec.instructor_known st (Tk.instructorid (Tk.instructor_at st a)) →
        Tk.addinstructor st a = (true, Tk.set_instructors (Tk.instructors st ++ [a]) st)) ∧
     (TkSpec.course_known st (Tk.courseid (Tk.course_at st a)) →
        Tk.addcourse st a = (false, st)) ∧
     (¬ TkSpec.course_known st (Tk.courseid (Tk.course_at st a)) →
        Tk.addcourse st a = (true, Tk.set_courses (Tk.courses st ++ [a]) st))) ∧
  (∀ (g : Lab2.State) (a : nat),
     Lab2.students (Lab2.add_student g a) = Lab2.students g ++ [a] ∧
     Lab2.instructors (Lab2.add_instructor g a) = Lab2.instructors g ++ [a] ∧
     Lab2.courses (Lab2.add_course g a) = Lab2.courses g ++ [a]).
Proof.
  split.
  - intros st a.
    auto 10 using addstudent_known, addstudent_fresh, addinstructor_known,
      addinstructor_fresh, addcourse_known, addcourse_fresh.
  - intros g a. done.
Qed.

(** In the registry that holds course C1 and instructors I1 and I2, a
    third course object with the id C1 is refused and a course object
    with a new id is appended. *)
Lemma add_entity_by_id_witness :
  Tk.addcourse TkSpec.two_new_courses 1 = (false, TkSpec.two_new_courses) ∧
  Tk.addcourse TkSpec.two_new_courses 2 =
    (true, Tk.set_courses (Tk.courses TkSpec.two_new_courses ++ [2]) TkSpec.two_new_courses).
Proof.
  destruct add_entity_by_id as [Htk _].
  split.
  - apply (Htk TkSpec.two_new_courses 1). exists 0. split; [|done].
    apply list_elem_of_In. simpl. auto.
  - apply (Htk TkSpec.two_new_courses 2). intros (a & Ha & Hid).
    apply list_elem_of_In in Ha. destruct Ha as [<-|[]]. discriminate.
Defined.

(** C4 (as stated) fails on [SchoolManagementSystem]: after a student
    with id S1 was added, adding another student object with id S1 changes
    the graph, which then lists two students with that id. *)
Lemma add_entity_by_id_counterexample :
  let g := Lab2Spec.one_student in
  (∃ a, a ∈ Lab2.students g ∧ Lab2.student_id (Lab2.student_at g a) = "S1") ∧
  Lab2.student_id Lab2Spec.s1_bob = "S1" ∧
  Lab2Spec.same_id_twice ≠ (Lab2.new_student g Lab2Spec.s1_bob).2 ∧
  map (λ a, Lab2.student_id (Lab2.student_at Lab2Spec.same_id_twice a))
      (Lab2.students Lab2Spec.same_id_twice) = ["S1"; "S1"].
Proof.
  split; [|split; [done|split; [|done]]].
  - exists 0. split; [|done]. apply list_elem_of_In. simpl. auto.
  - vm_compute. discriminate.
Qed.

Section tk_register.
Import Tk TkSpec.

Lemma register_unknown (st : State) (sid cid : string) :
  ¬ student_known st sid ∨ ¬ course_known st cid →
  register st sid cid = (false, st).
Proof.
  unfold register. intros [H%findstudent_None | H%findcourse_None]; rewrite H.
  - done.
  - by destruct (findstudent st sid).
Qed.

Lemma register_again (st : State) (sid cid : string) (s c : nat) :
  findstudent st sid = Some s → findcourse st cid = Some c →
  s ∈ c_students (course_at st c) →
  register st sid cid = (false, st).
Proof.
  intros Hs Hc Hin. unfold register. rewrite Hs, Hc.
  apply mem_true in Hin. by rewrite Hin.
Qed.

Lemma register_links (st : State) (sid cid : string) (s c : nat) :
  allocated st →
  findstudent st sid = Some s → findcourse st cid = Some c →
  s ∉ c_students (course_at st c) →
  ∃ st', register st sid cid = (true, st') ∧
    c_students (course_at st' c) = c_students (course_at st c) ++ [s] ∧
    s_courses (student_at st' s) = Py.append_new c (s_courses (student_at st s)) ∧
    same_but_link s c st st'.
Proof.
  intros (Hst & _ & Hco) Hs Hc Hnin. unfold register. rewrite Hs, Hc.
  apply mem_false in Hnin. rewrite Hnin. eexists. split; [done|].
  apply (find_id_Some (λ a, studentid (student_at st a))) in Hs as [Hs _].
  apply (find_id_Some (λ a, courseid (course_at st a))) in Hc as [Hc _].
  apply Hst in Hs. apply Hco in Hc.
  unfold enroll, addstudent_to_course.
  assert (Hcourse : ∀ b, course_at (set_s_courses s (Py.append_new c)
                            (set_c_students c (Py.append_new s) st)) b
                         = course_at (set_c_students c (Py.append_new s) st) b) by done.
  assert (Hstudent : ∀ b, student_at (set_c_students c (Py.append_new s) st) b
                          = student_at st b) by done.
  split; [|split].
  - rewrite Hcourse, course_at_set_c_students.
    rewrite decide_True by done. rewrite decide_True by done. simpl.
    unfold Py.append_new. by rewrite Hnin.
  - rewrite student_at_set_s_courses.
    rewrite decide_True by done. simpl. rewrite decide_True by done.
    simpl. by rewrite Hstudent.
  - unfold same_but_link. simpl. rewrite !length_alter.
    repeat split; try done.
    + intros a Ha. rewrite student_at_set_s_courses.
      rewrite decide_False by done. done.
    + intros a Ha. rewrite Hcourse, course_at_set_c_students.
      rewrite decide_False by done. done.
    + rewrite student_at_set_s_courses, decide_True by done. simpl.
      by rewrite decide_True by done.
    + rewrite student_at_set_s_courses, decide_True by done. simpl.
      by rewrite decide_True by done.
    + rewrite student_at_set_s_courses, decide_True by done. simpl.
      by rewrite decide_True by done.
    + rewrite student_at_set_s_courses, decide_True by done. simpl.
      by rewrite decide_True by done.
    + rewrite Hcourse, course_at_set_c_students, decide_True by done. simpl.
      by rewrite decide_True by done.
    + rewrite Hcourse, course_at_set_c_students, decide_True by done. simpl.
      by rewrite decide_True by done.
    + rewrite Hcourse, course_at_set_c_students, decide_True by done. simpl.
      by rewrite decide_True by done.
Qed.

End tk_register.

(** [SchoolSystem.register(sid, cid)] returns [False] and changes
    nothing when no student has the id [sid] or no course has the id [cid],
    and when the student found is already in the course's student list.
    Otherwise it returns [True]; the student is appended to the course's
    list, the course is in the student's list (appended unless it was
    there), no list gets a duplicate, and nothing else changes. *)
Lemma register_links_or_refuses (st : Tk.State) (sid cid : string) :
  TkSpec.allocated st →
  (¬ TkSpec.student_known st sid ∨ ¬ TkSpec.course_known st cid →
     Tk.register st sid cid = (false, st)) ∧
  (∀ s c, Tk.findstudent st sid = Some s → Tk.findcourse st cid = Some c →
     (s ∈ Tk.c_students (Tk.course_at st c) → Tk.register st sid cid = (false, st)) ∧
     (s ∉ Tk.c_students (Tk.course_at st c) →
        ∃ st', Tk.register st sid cid = (true, st') ∧
          Tk.c_students (Tk.course_at st' c) = Tk.c_students (Tk.course_at st c) ++ [s] ∧
          Tk.s_courses (Tk.student_at st' s)
            = Py.append_new c (Tk.s_courses (Tk.student_at st s)) ∧
          c ∈ Tk.s_courses (Tk.student_at st' s) ∧
          (NoDup (Tk.c_students (Tk.course_at st c)) →
             NoDup (Tk.c_students (Tk.course_at st' c))) ∧
          (NoDup (Tk.s_courses (Tk.student_at st s)) →
             NoDup (Tk.s_courses (Tk.student_at st' s))) ∧
          TkSpec.same_but_link s c st st')).
Proof.
  intros Halloc. split; [apply register_unknown|].
  intros s c Hs Hc. split; [by apply (register_again st sid cid s c)|].
  intros Hnin.
  destruct (register_links st sid cid s c Halloc Hs Hc Hnin)
    as (st' & Hreg & Hcs & Hsc & Hsame).
  exists st'. rewrite Hcs, Hsc.
  split; [done|]. split; [done|]. split; [done|].
  split; [apply append_new_elem|]. split; [|split; [apply append_new_NoDup | done]].
  intros Hnd. apply NoDup_app. split; [done|]. split.
  - intros x Hx ->%list_elem_of_singleton. done.
  - apply NoDup_singleton.
Qed.

Section tk_removecourse.
Import Tk TkSpec.

Lemma instructor_at_set_i_courses (a b : nat) (f : list nat → list nat) (st : State) :
  instructor_at (set_i_courses a f st) b =
    if decide (a = b ∧ b < length (heap_instructors st)) then
      let o := instructor_at st b in
      mkInstructor (i_name o) (i_age o) (i_email o) (instructorid o) (f (i_courses o))
    else instructor_at st b.
Proof.
  unfold instructor_at, set_i_courses. cbn [heap_instructors].
  destruct (decide (a = b)) as [->|Hne].
  - rewrite list_lookup_alter_eq. destruct (decide (b < length (heap_instructors st))) as [Hlt|Hge].
    + rewrite decide_True by done.
      apply lookup_lt_is_Some in Hlt as [o Ho]. by rewrite Ho.
    + rewrite decide_False by tauto. rewrite lookup_ge_None_2 by lia. done.
  - rewrite list_lookup_alter_ne by done. rewrite decide_False by tauto. done.
Qed.

(** The loop of [removecourse] over the students. *)
Lemma remove_from_students (c : nat) (l : list nat) (st : State) :
  (∀ s, NoDup (s_courses (student_at st s))) →
  let st1 := fold_left (λ acc s,
                 if Py.mem c (s_courses (student_at acc s))
                 then set_s_courses s (Py.remove c) acc else acc) l st in
  heap_instructors st1 = heap_instructors st ∧
  heap_courses st1 = heap_courses st ∧
  students st1 = students st ∧ instructors st1 = instructors st ∧
  courses st1 = courses st ∧
  (∀ s, NoDup (s_courses (student_at st1 s))) ∧
  (∀ s, c ∉ s_courses (student_at st s) → c ∉ s_courses (student_at st1 s)) ∧
  (∀ s, s ∈ l → c ∉ s_courses (student_at st1 s)) ∧
  (∀ s x, x ≠ c → x ∈ s_courses (student_at st s) → x ∈ s_courses (student_at st1 s)).
Proof.
  revert st. induction l as [|s l IH]; intros st Hnd; simpl.
  - repeat split; try done. intros s Hs. by apply elem_of_nil in Hs.
  - set (st0 := if Py.mem c (s_courses (student_at st s))
                then set_s_courses s (Py.remove c) st else st).
    assert (Hstep : heap_instructors st0 = heap_instructors st ∧
                    heap_courses st0 = heap_courses st ∧
                    students st0 = students st ∧ instructors st0 = instructors st ∧
                    courses st0 = courses st ∧
                    (∀ a, NoDup (s_courses (student_at st0 a))) ∧
                    (∀ a, c ∉ s_courses (student_at st a) → c ∉ s_courses (student_at st0 a)) ∧
                    (c ∉ s_courses (student_at st0 s)) ∧
                    (∀ a x, x ≠ c → x ∈ s_courses (student_at st a) →
                            x ∈ s_courses (student_at st0 a))).
    { unfold st0. destruct (Py.mem c (s_courses (student_at st s))) eqn:Hmem.
      - repeat split; try done.
        + intros a. rewrite student_at_set_s_courses.
          destruct (decide (s = a)) as [->|]; [|done]. simpl.
          destruct (decide _); [|done]. simpl. by apply remove_NoDup.
        + intros a Ha. rewrite student_at_set_s_courses.
          destruct (decide (s = a)) as [->|]; [|done]. simpl.
          destruct (decide _); [|done]. simpl. intros H%remove_elem. done.
        + rewrite student_at_set_s_courses. rewrite decide_True by done. simpl.
          destruct (decide _) as [Hlt|Hge]; simpl.
          * by apply remove_NoDup.
          * apply mem_true in Hmem. unfold student_at in Hmem.
            rewrite lookup_ge_None_2 in Hmem by lia. by apply elem_of_nil in Hmem.
        + intros a x Hx Hin. rewrite student_at_set_s_courses.
          destruct (decide (s = a)) as [->|]; [|done]. simpl.
          destruct (decide _); [|done]. simpl. by apply remove_other.
      - apply mem_false in Hmem. repeat split; done. }
    destruct Hstep as (H1 & H2 & H3 & H4 & H5 & Hnd0 & Hkeep0 & Hs0 & Hother0).
    destruct (IH st0 Hnd0) as (H1' & H2' & H3' & H4' & H5' & Hnd' & Hkeep' & Hl' & Hother').
    split; [congruence|]. split; [congruence|]. split; [congruence|].
    split; [congruence|]. split; [congruence|]. split; [done|]. split; [by auto|].
    split; [|by auto].
    intros a [->|Ha]%elem_of_cons; auto.
Qed.

(** The graph half of C2: [SchoolSystem.removecourse] on a registry
    whose lists hold no object twice takes the course out of the list of
    every registered student and of its instructor, and out of the
    registry. *)
Lemma removecourse_cascade (st : State) (cid : string) (c : nat) :
  findcourse st cid = Some c →
  NoDup (courses st) →
  (∀ s, NoDup (s_courses (student_at st s))) →
  (∀ i, NoDup (i_courses (instructor_at st i))) →
  (removecourse st cid).1 = true ∧
  (∀ s, s ∈ students st → c ∉ s_courses (student_at (removecourse st cid).2 s)) ∧
  (∀ i, c_instructor (course_at st c) = Some i →
        c ∉ i_courses (instructor_at (removecourse st cid).2 i)) ∧
  (c ∉ courses (removecourse st cid).2) ∧
  students (removecourse st cid).2 = students st ∧
  instructors (removecourse st cid).2 = instructors st.
Proof.
  intros Hfind Hndc Hnds Hndi. unfold removecourse. rewrite Hfind.
  destruct (remove_from_students c (students st) st Hnds)
    as (H1 & H2 & H3 & H4 & H5 & Hnd1 & Hkeep1 & Hgone1 & _).
  set (st1 := fold_left _ (students st) st) in *.
  assert (Hinst1 : ∀ i, instructor_at st1 i = instructor_at st i).
  { intros i. unfold instructor_at. by rewrite H1. }
  assert (Hcourse1 : course_at st1 c = course_at st c).
  { unfold course_at. by rewrite H2. }
  rewrite Hcourse1.
  set (st2 := match c_instructor (course_at st c) with
              | Some i => if Py.mem c (i_courses (instructor_at st1 i))
                          then set_i_courses i (Py.remove c) st1 else st1
              | None => st1
              end).
  assert (Hst2 : (∀ s, student_at st2 s = student_at st1 s) ∧
                 students st2 = students st1 ∧ instructors st2 = instructors st1 ∧
                 courses st2 = courses st1 ∧
                 (∀ i, c_instructor (course_at st c) = Some i →
                       c ∉ i_courses (instructor_at st2 i))).
  { unfold st2. destruct (c_instructor (course_at st c)) as [i|]; [|done].
    destruct (Py.mem c (i_courses (instructor_at st1 i))) eqn:Hmem.
    - repeat split; try done. intros i' [= <-].
      rewrite instructor_at_set_i_courses.
      destruct (decide _) as [Hd|Hd]; simpl.
      + rewrite Hinst1. by apply remove_NoDup.
      + apply mem_true in Hmem. unfold instructor_at in Hmem.
        rewrite lookup_ge_None_2 in Hmem by (apply Nat.nlt_ge; tauto).
        by apply elem_of_nil in Hmem.
    - apply mem_false in Hmem. repeat split; try done. by intros i' [= <-]. }
  destruct Hst2 as (Hs2 & Hr1 & Hr2 & Hr3 & Hi2).
  cbn [fst snd]. split; [done|]. split.
  { intros s Hs. change (student_at (set_courses (Py.remove c (courses st2)) st2) s)
      with (student_at st2 s). rewrite Hs2. apply Hgone1. done. }
  split.
  { intros i Hi. change (instructor_at (set_courses (Py.remove c (courses st2)) st2) i)
      with (instructor_at st2 i). by apply Hi2. }
  split.
  { simpl. apply remove_NoDup. by rewrite Hr3, H5. }
  split; simpl; congruence.
Qed.

End tk_removecourse.

(** Membership in a list given by its elements. *)
Ltac elem_of_concrete :=
  apply list_elem_of_In; simpl; tauto.
Ltac cases_elem_of H :=
  apply list_elem_of_In in H; simpl in H;
  repeat match type of H with
         | _ ∨ _ => destruct H as [H|H]
         | False => destruct H
         end.

(** In the registry with student S1 and course C1, registering S1 to C1
    links both sides. *)
Lemma register_links_or_refuses_witness :
  ∃ st', Tk.register TkSpec.with_student "S1" "C1" = (true, st') ∧
         Tk.c_students (Tk.course_at st' 0) = [0] ∧
         0 ∈ Tk.s_courses (Tk.student_at st' 0).
Proof.
  assert (Halloc : TkSpec.allocated TkSpec.with_student).
  { repeat split; intros a Ha; cases_elem_of Ha; subst; simpl; lia. }
  destruct (register_links_or_refuses TkSpec.with_student "S1" "C1" Halloc) as [_ H].
  destruct (H 0 0 eq_refl eq_refl) as [_ Hlink].
  destruct Hlink as (st' & Hreg & Hcs & _ & Hin & _).
  { simpl. by intros ?%elem_of_nil. }
  exists st'. split; [done|]. split; [|done]. by rewrite Hcs.
Defined.

(** Evaluation for C6. [SchoolSystem.assign] changes the course list of
    no instructor but the one it assigns. On a course that already has
    another instructor both calls succeed, the course then refers to the
    second instructor (address 1), and the first instructor's list (address
    0) still holds the course, as does the second's. *)
Theorem reassign_keeps_old_link :
  (∀ st iid cid j,
     Tk.findinstructor st iid ≠ Some j →
     Tk.i_courses (Tk.instructor_at (Tk.assign st iid cid).2 j)
       = Tk.i_courses (Tk.instructor_at st j)) ∧
  (Tk.assign TkSpec.two_instructors "I1" "C1").1 = true ∧
  (Tk.assign (Tk.assign TkSpec.two_instructors "I1" "C1").2 "I2" "C1").1 = true ∧
  Tk.c_instructor (Tk.course_at TkSpec.reassigned 0) = Some 1 ∧
  Tk.i_courses (Tk.instructor_at TkSpec.reassigned 1) = [0] ∧
  Tk.i_courses (Tk.instructor_at TkSpec.reassigned 0) = [0].
Proof.
  split; [|by vm_compute].
  intros st iid cid j Hj. unfold Tk.assign.
  destruct (Tk.findinstructor st iid) as [i|]; [|done].
  destruct (Tk.findcourse st cid) as [c|]; [|done].
  destruct (bool_decide _); [done|]. cbn [snd]. unfold Tk.take.
  rewrite instructor_at_set_i_courses. rewrite decide_False; [done|].
  intros [-> _]. done.
Qed.

Section tk_search.
Import Tk TkSpec.


Lemma any_contains_occurs (q : string) (x y z : string) :
  any_contains q [x; y; z] = true ↔
  occurs_in q (Py.lower x) ∨ occurs_in q (Py.lower y) ∨ occurs_in q (Py.lower z).
Proof.
  unfold any_contains, occurs_in. simpl.
  rewrite !orb_true_iff, !contains_occurs. intuition discriminate.
Qed.

Lemma any_contains_empty (l : list string) :
  l ≠ [] → any_contains "" l = true.
Proof.
  destruct l as [|x l]; [done|]. intros _. unfold any_contains. simpl.
  by rewrite contains_empty.
Qed.


End tk_search.

(** C9. For a query that is empty or consists of white space only,
    [SchoolSystem.search] returns one row for every student, then one for
    every instructor, then one for every course of the registry. *)
Theorem search_blank_query (st : Tk.State) (q : string) :
  blank q = true →
  Tk.search st q =
    map (Tk.student_row st) (Tk.students st) ++
    map (Tk.instructor_row st) (Tk.instructors st) ++
    map (Tk.course_row st) (Tk.courses st).
Proof.
  intros Hq. unfold Tk.search. rewrite (strip_blank q Hq). simpl Py.lower.
  rewrite !filter_all; [done|..]; intros a; by apply any_contains_empty.
Qed.

(** A query of two spaces and a tab lists the whole registry: four rows
    for one student, two instructors and one course. *)
Lemma search_blank_query_witness :
  length (Tk.search TkSpec.ada_teaches spaces_and_tab) = 4.
Proof.
  rewrite (search_blank_query TkSpec.ada_teaches spaces_and_tab eq_refl). reflexivity.
Defined.

(** ** The store of [database_manager.py] *)

Section db_facts.
Import Db.

Lemma set_students_same (db : Database) : set_students (students db) db = db.
Proof. by destruct db. Qed.

Lemma set_instructors_same (db : Database) : set_instructors (instructors db) db = db.
Proof. by destruct db. Qed.

Lemma set_courses_same (db : Database) : set_courses (courses db) db = db.
Proof. by destruct db. Qed.


(** An UPDATE of a person table that matches no row changes nothing and
    reports no row, or fails while binding the age. *)
Lemma update_person_no_row (tbl : string) (now : Z) (id : string)
    (name : option string) (age : option Z) (email : option string)
    (l : list person_rec) :
  has_id id l = false →
  update_person tbl now id name age email l = Ok (0, l) ∨
  update_person tbl now id name age email l = Raise OverflowError.
Proof.
  intros Hid. unfold update_person.
  destruct (negb (from_option int64_ok true age)); [by right|]. left.
  unfold has_id in Hid. rewrite (filter_none _ _ Hid). done.
Qed.

Lemma update_student_no_row (now : Z) (id : string) (name : option string)
    (age : option Z) (email : option string) (db : Database) :
  (name, age, email) ≠ (None, None, None) →
  has_id id (students db) = false →
  update_student now id name age email db = (false, db).
Proof.
  intros Hsome Hid. unfold update_student, with_connection, or_false.
  assert (Hexec : (r ← exec connect_foreign_keys now (UpdateStudent id name age email) db;
                   Ok (0 <? r.1, r.2)) = Ok (false, db) ∨
                  ∃ e, (r ← exec connect_foreign_keys now (UpdateStudent id name age email) db;
                   Ok (0 <? r.1, r.2)) = Raise e).
  { simpl. destruct (update_person_no_row "students" now id name age email _ Hid) as [-> | ->].
    - left. simpl. by rewrite set_students_same.
    - right. by eexists. }
  destruct name, age, email; try done;
    destruct Hexec as [-> | [e ->]]; done.
Qed.

Lemma update_instructor_no_row (now : Z) (id : string) (name : option string)
    (age : option Z) (email : option string) (db : Database) :
  (name, age, email) ≠ (None, None, None) →
  has_id id (instructors db) = false →
  update_instructor now id name age email db = (false, db).
Proof.
  intros Hsome Hid. unfold update_instructor, with_connection, or_false.
  assert (Hexec : (r ← exec connect_foreign_keys now (UpdateInstructor id name age email) db;
                   Ok (0 <? r.1, r.2)) = Ok (false, db) ∨
                  ∃ e, (r ← exec connect_foreign_keys now (UpdateInstructor id name age email) db;
                   Ok (0 <? r.1, r.2)) = Raise e).
  { simpl. destruct (update_person_no_row "instructors" now id name age email _ Hid) as [-> | ->].
    - left. simpl. by rewrite set_instructors_same.
    - right. by eexists. }
  destruct name, age, email; try done;
    destruct Hexec as [-> | [e ->]]; done.
Qed.

Lemma update_course_no_row (now : Z) (id : string) (name iid : option string)
    (db : Database) :
  (name, iid) ≠ (None, None) →
  has_course id (courses db) = false →
  update_course now id name iid db = (false, db).
Proof.
  intros Hsome Hid. unfold update_course, with_connection, or_false.
  assert (Hexec : (r ← exec connect_foreign_keys now (UpdateCourse id name iid) db;
                   Ok (0 <? r.1, r.2)) = Ok (false, db)).
  { simpl. unfold has_course in Hid. rewrite (filter_none _ _ Hid). done. }
  destruct name, iid; try done; by rewrite Hexec.
Qed.

Lemma run_app (fk : bool) (now : Z) (l1 l2 : list statement) (db : Database) :
  run fk now (l1 ++ l2) db = (db1 ← run fk now l1 db; run fk now l2 db1).
Proof.
  revert db. induction l1 as [|s l1 IH]; intros db; simpl; [done|].
  destruct (exec fk now s db) as [[n db']|e]; simpl; [apply IH | done].
Qed.

(** A statement that raises ends the run with its exception. *)
Lemma run_raises (fk : bool) (now : Z) (l1 l2 : list statement) (s : statement)
    (db db1 : Database) (e : exn) :
  run fk now l1 db = Ok db1 → exec fk now s db1 = Raise e →
  run fk now (l1 ++ s :: l2) db = Raise e.
Proof. intros H1 H2. rewrite run_app, H1. simpl. by rewrite H2. Qed.

End db_facts.

(** C10. [update_student], [update_instructor] and [update_course] called
    without any field return [True] and leave every row as it is, whether
    or not a row has the given id. Called with at least one field and an
    id that no row has, they leave every row as it is and return [False]. *)
Theorem update_no_field_or_no_row (now : Z) (id : string) (db : Db.Database) :
  Db.update_student now id None None None db = (true, db) ∧
  Db.update_instructor now id None None None db = (true, db) ∧
  Db.update_course now id None None db = (true, db) ∧
  (∀ name age email,
     (name, age, email) ≠ (None, None, None) →
     Db.has_id id (Db.students db) = false →
     Db.update_student now id name age email db = (false, db)) ∧
  (∀ name age email,
     (name, age, email) ≠ (None, None, None) →
     Db.has_id id (Db.instructors db) = false →
     Db.update_instructor now id name age email db = (false, db)) ∧
  (∀ name iid,
     (name, iid) ≠ (None, None) →
     Db.has_course id (Db.courses db) = false →
     Db.update_course now id name iid db = (false, db)).
Proof.
  split; [done|]. split; [done|]. split; [done|].
  split; [|split].
  - intros name age email. apply update_student_no_row.
  - intros name age email. apply update_instructor_no_row.
  - intros name iid. apply update_course_no_row.
Qed.

(** On the store that holds student S1 and course C1 only: renaming the
    unknown student S9 and the unknown course C9 fails and changes nothing. *)
Lemma update_no_field_or_no_row_witness :
  Db.update_student 5 "S9" (Some "Eve") None None DbSpec.registered_store
    = (false, DbSpec.registered_store) ∧
  Db.update_course 5 "C9" (Some "Logic") None DbSpec.registered_store
    = (false, DbSpec.registered_store).
Proof.
  destruct (update_no_field_or_no_row 5 "S9" DbSpec.registered_store)
    as (_ & _ & _ & Hs & _ & _).
  destruct (update_no_field_or_no_row 5 "C9" DbSpec.registered_store)
    as (_ & _ & _ & _ & _ & Hc).
  split.
  - apply Hs; [discriminate | reflexivity].
  - apply Hc; [discriminate | reflexivity].
Defined.

(** Evaluation for C2. [delete_course] never touches the registration
    table. On the store that holds student S1, course C1 and the
    registration of S1 to C1, [delete_course("C1")] returns [True] and
    removes the course row; the registration row that refers to C1 is still
    in the store. *)
Theorem delete_course_keeps_registrations :
  (∀ now id db,
     Db.student_course_registrations (Db.delete_course now id db).2
       = Db.student_course_registrations db) ∧
  Db.has_registration "S1" "C1"
    (Db.student_course_registrations DbSpec.registered_store) = true ∧
  (Db.delete_course 2 "C1" DbSpec.registered_store).1 = true ∧
  Db.courses (Db.delete_course 2 "C1" DbSpec.registered_store).2 = [] ∧
  Db.student_course_registrations (Db.delete_course 2 "C1" DbSpec.registered_store).2
    = [Db.mkReg 1 "S1" "C1" 1].
Proof.
  split; [|by vm_compute].
  intros now id db. reflexivity.
Qed.

(** What the schema's ON DELETE CASCADE does on a connection that
    enforces foreign keys: no registration of a deleted course is left. *)
Lemma delete_course_cascades_when_enforced (now : Z) (id : string) (db : Db.Database)
    (n : nat) (db' : Db.Database) :
  Db.exec true now (Db.DeleteCourse id) db = Ok (n, db') →
  0 < n →
  ∀ r, r ∈ Db.student_course_registrations db' → Db.r_course_id r ≠ id.
Proof.
  simpl. intros [= <- <-] Hn r. simpl.
  destruct (Nat.eqb_spec (length (List.filter (λ r, String.eqb (Db.c_id r) id) (Db.courses db))) 0)
    as [Hz|Hz]; [lia|]. simpl.
  intros [_ Hr]%list_elem_of_In%filter_In Heq.
  rewrite Heq, String.eqb_refl in Hr. done.
Qed.

Section like_facts.

Lemma any_suffix_ext (f g : string → bool) (t : string) :
  (∀ x, f x = g x) → Db.any_suffix f t = Db.any_suffix g t.
Proof.
  intros H. induction t as [|c t IH]; simpl; rewrite H; [done|]. by rewrite IH.
Qed.

Lemma contains_any_suffix (q s : string) :
  Py.contains q s = Db.any_suffix (String.prefix q) s.
Proof.
  induction s as [|c s IH]; cbn [Py.contains Db.any_suffix]; [done|]. by rewrite IH.
Qed.

Lemma any_suffix_lower (f : string → bool) (s : string) :
  Db.any_suffix f (Py.lower s) = Db.any_suffix (λ x, f (Py.lower x)) s.
Proof.
  induction s as [|c s IH]; cbn [Py.lower Db.any_suffix]; [done|]. by rewrite IH.
Qed.

Lemma any_suffix_last (f : string → bool) (s : string) :
  f "" = true → Db.any_suffix f s = true.
Proof.
  intros H. induction s as [|c s IH]; simpl.
  - by rewrite H.
  - rewrite IH. apply orb_true_r.
Qed.

Lemma ascii_eqb_dec (c d : ascii) :
  Ascii.eqb c d = if ascii_dec c d then true else false.
Proof.
  destruct (ascii_dec c d) as [->|Hne].
  - apply Ascii.eqb_refl.
  - by apply Ascii.eqb_neq.
Qed.

(** A term without wildcards, followed by [%], matches the texts that
    start with it, whatever the case of the letters. *)
Lemma like_literal (term s : string) :
  wildcard_free term = true →
  Db.like (term +:+ "%") s = String.prefix (Py.lower term) (Py.lower s).
Proof.
  revert s. induction term as [|c term IH]; intros s Hfree.
  - rewrite app_empty. cbn [Py.lower String.prefix Db.like]. simpl Ascii.eqb.
    rewrite any_suffix_last by done. by destruct (Py.lower s).
  - cbn [wildcard_free] in Hfree.
    apply andb_true_iff in Hfree as [[Hp%negb_true_iff Hu%negb_true_iff]%andb_true_iff Hfree].
    rewrite app_cons. cbn [Db.like Py.lower]. rewrite Hp.
    destruct s as [|d s]; cbn [Py.lower String.prefix]; [done|].
    rewrite Hu, IH by done. unfold Db.like_char. rewrite ascii_eqb_dec. simpl.
    by destruct (ascii_dec _ _).
Qed.

(** For a term without wildcards the pattern [%term%] is the test
    whether the lower-cased term occurs in the lower-cased text. *)
Lemma like_contains (term s : string) :
  wildcard_free term = true →
  Db.like (Db.search_pattern term) s = Py.contains (Py.lower term) (Py.lower s).
Proof.
  intros Hfree. unfold Db.search_pattern. rewrite app_cons, app_empty.
  cbn [Db.like]. simpl Ascii.eqb. cbv iota.
  rewrite contains_any_suffix, any_suffix_lower.
  apply any_suffix_ext. intros x. by apply like_literal.
Qed.


Lemma elem_of_order_by {A} (f : A → string) (l : list A) (x : A) :
  x ∈ Db.order_by f l ↔ x ∈ l.
Proof.
  unfold Db.order_by.
  by rewrite (merge_sort_Permutation (λ x y, String.le (f x) (f y)) l).
Qed.

Lemma order_by_perm {A} (f : A → string) (l : list A) : Db.order_by f l ≡ₚ l.
Proof. apply merge_sort_Permutation. Qed.

Lemma search_people_rows (l : list Db.person_rec) (term : string)
    (r : string * string * Z * string) :
  r ∈ map (λ r, (Db.p_id r, Db.p_name r, Db.p_age r, Db.p_email r))
        (Db.order_by Db.p_name
          (List.filter (λ r, Db.like (Db.search_pattern term) (Db.p_name r) ||
                             Db.like (Db.search_pattern term) (Db.p_id r) ||
                             Db.like (Db.search_pattern term) (Db.p_email r)) l)) ↔
  ∃ p, p ∈ l ∧ r = (Db.p_id p, Db.p_name p, Db.p_age p, Db.p_email p) ∧
       (Db.like (Db.search_pattern term) (Db.p_name p) = true ∨
        Db.like (Db.search_pattern term) (Db.p_id p) = true ∨
        Db.like (Db.search_pattern term) (Db.p_email p) = true).
Proof.
  rewrite elem_of_map. split.
  - intros (p & -> & [Hp Hhit]%elem_of_order_by%elem_of_filter).
    exists p. split; [done|]. split; [done|].
    apply orb_true_iff in Hhit as [[?|?]%orb_true_iff|?]; auto.
  - intros (p & Hp & -> & Hhit). exists p. split; [done|].
    apply elem_of_order_by, elem_of_filter. split; [done|].
    rewrite !orb_true_iff. tauto.
Qed.

End like_facts.

(** C7 (as amended). With [q'] the query stripped of surrounding white
    space and lower-cased, [SchoolSystem.search] returns the row of a
    student or an instructor exactly when [q'] occurs in the lower-cased
    name, e-mail or id, and the row of a course exactly when [q'] occurs in
    the lower-cased course name, course id or name of the course's
    instructor (the word "None" for a course without instructor).
    [DatabaseManager.search_students], [search_instructors] and
    [search_courses] return the rows whose name, id or e-mail (for a course:
    name or id, never the instructor's name) is LIKE [%term%]; for a term
    without the wildcards [%] and [_] that is the test whether the term
    occurs in the field, the case of ASCII letters apart. *)
Theorem search_rows :
  (∀ (st : Tk.State) (q : string) (r : Tk.row),
     r ∈ Tk.search st q ↔
       (∃ a, a ∈ Tk.students st ∧ r = Tk.student_row st a ∧
          (occurs_in (Py.lower (Py.strip q)) (Py.lower (Tk.s_name (Tk.student_at st a))) ∨
           occurs_in (Py.lower (Py.strip q)) (Py.lower (Tk.s_email (Tk.student_at st a))) ∨
           occurs_in (Py.lower (Py.strip q)) (Py.lower (Tk.studentid (Tk.student_at st a))))) ∨
       (∃ a, a ∈ Tk.instructors st ∧ r = Tk.instructor_row st a ∧
          (occurs_in (Py.lower (Py.strip q)) (Py.lower (Tk.i_name (Tk.instructor_at st a))) ∨
           occurs_in (Py.lower (Py.strip q)) (Py.lower (Tk.i_email (Tk.instructor_at st a))) ∨
           occurs_in (Py.lower (Py.strip q)) (Py.lower (Tk.instructorid (Tk.instructor_at st a))))) ∨
       (∃ a, a ∈ Tk.courses st ∧ r = Tk.course_row st a ∧
          (occurs_in (Py.lower (Py.strip q)) (Py.lower (Tk.coursename (Tk.course_at st a))) ∨
           occurs_in (Py.lower (Py.strip q)) (Py.lower (Tk.courseid (Tk.course_at st a))) ∨
           occurs_in (Py.lower (Py.strip q)) (Py.lower (Tk.inst_name st a))))) ∧
  (∀ (db : Db.Database) (term : string) r,
     r ∈ Db.search_students db term ↔
       ∃ p, p ∈ Db.students db ∧
            r = (Db.p_id p, Db.p_name p, Db.p_age p, Db.p_email p) ∧
            (Db.like (Db.search_pattern term) (Db.p_name p) = true ∨
             Db.like (Db.search_pattern term) (Db.p_id p) = true ∨
             Db.like (Db.search_pattern term) (Db.p_email p) = true)) ∧
  (∀ (db : Db.Database) (term : string) r,
     r ∈ Db.search_instructors db term ↔
       ∃ p, p ∈ Db.instructors db ∧
            r = (Db.p_id p, Db.p_name p, Db.p_age p, Db.p_email p) ∧
            (Db.like (Db.search_pattern term) (Db.p_name p) = true ∨
             Db.like (Db.search_pattern term) (Db.p_id p) = true ∨
             Db.like (Db.search_pattern term) (Db.p_email p) = true)) ∧
  (∀ (db : Db.Database) (term : string) r,
     r ∈ Db.search_courses db term ↔
       ∃ c, c ∈ Db.courses db ∧ r ∈ Db.left_join_instructor db c ∧
            (Db.like (Db.search_pattern term) (Db.c_name c) = true ∨
             Db.like (Db.search_pattern term) (Db.c_id c) = true)) ∧
  (∀ term x : string,
     wildcard_free term = true →
     Db.like (Db.search_pattern term) x = true ↔ occurs_in (Py.lower term) (Py.lower x)).
Proof.
  split; [|split; [|split; [|split]]].
  - intros st q r. unfold Tk.search. rewrite !elem_of_app, !elem_of_filter_map.
    unfold Tk.student_hit, Tk.instructor_hit, Tk.course_hit.
    setoid_rewrite any_contains_occurs. done.
  - intros db term r. apply search_people_rows.
  - intros db term r. apply search_people_rows.
  - intros db term r. unfold Db.search_courses. rewrite elem_of_flat_map. split.
    + intros (c & [Hc Hhit]%elem_of_order_by%elem_of_filter & Hr).
      exists c. split; [done|]. split; [done|]. by apply orb_true_iff.
    + intros (c & Hc & Hr & Hhit). exists c. split; [|done].
      apply elem_of_order_by, elem_of_filter. split; [done|]. by apply orb_true_iff.
  - intros term x Hfree. rewrite like_contains by done. apply contains_occurs.
Qed.

(** The term "doe" finds "John Doe" in the store. *)
Lemma search_rows_witness :
  Db.like (Db.search_pattern "doe") "John Doe" = true.
Proof.
  apply search_rows; [reflexivity|]. exists "john ", "". reflexivity.
Defined.

(** C7 (as stated) fails on [SchoolSystem.search]: in the registry where
    Ada teaches Algorithms (C1), the query "ada" occurs neither in the
    course's name nor in its id, and the search returns the course's row.
    In the store, the term [_] finds a text that holds no underscore. *)
Lemma search_rows_counterexample :
  ¬ occurs_in (Py.lower "ada") (Py.lower "Algorithms") ∧
  ¬ occurs_in (Py.lower "ada") (Py.lower "C1") ∧
  Tk.coursename (Tk.course_at TkSpec.ada_teaches 0) = "Algorithms" ∧
  Tk.courseid (Tk.course_at TkSpec.ada_teaches 0) = "C1" ∧
  Tk.course_row TkSpec.ada_teaches 0 ∈ Tk.search TkSpec.ada_teaches "ada" ∧
  ¬ occurs_in (Py.lower "_") (Py.lower "C1") ∧
  Db.like (Db.search_pattern "_") "C1" = true.
Proof.
  split; [|split; [|split; [done|split; [done|split; [|split; [|done]]]]]].
  - intros H%contains_occurs. vm_compute in H. discriminate.
  - intros H%contains_occurs. vm_compute in H. discriminate.
  - vm_compute. elem_of_concrete.
  - intros H%contains_occurs. vm_compute in H. discriminate.
Qed.

(** ** Synchronisation: what [sync_system_to_db] leaves in the store *)

Section sync_store.
Import Db StoreSpec.



Lemma has_id_false (id : string) (l : list person_rec) :
  has_id id l = false ↔ id ∉ map p_id l.
Proof.
  unfold has_id. rewrite existsb_false_iff, elem_of_map. split.
  - intros H (r & -> & Hr). specialize (H r Hr). by rewrite String.eqb_refl in H.
  - intros H r Hr. apply String.eqb_neq. intros <-. apply H. eauto.
Qed.

Lemma has_email_false (e : string) (l : list person_rec) :
  has_email e l = false ↔ e ∉ map p_email l.
Proof.
  unfold has_email. rewrite existsb_false_iff, elem_of_map. split.
  - intros H (r & -> & Hr). specialize (H r Hr). by rewrite String.eqb_refl in H.
  - intros H r Hr. apply String.eqb_neq. intros <-. apply H. eauto.
Qed.

Lemma has_course_false (id : string) (l : list course_rec) :
  has_course id l = false ↔ id ∉ map c_id l.
Proof.
  unfold has_course. rewrite existsb_false_iff, elem_of_map. split.
  - intros H (r & -> & Hr). specialize (H r Hr). by rewrite String.eqb_refl in H.
  - intros H r Hr. apply String.eqb_neq. intros <-. apply H. eauto.
Qed.

Lemma has_registration_false (sid cid : string) (l : list registration_rec) :
  has_registration sid cid l = false ↔ (sid, cid) ∉ map pair_of l.
Proof.
  unfold has_registration. rewrite existsb_false_iff, elem_of_map. split.
  - intros H (r & Heq & Hr). specialize (H r Hr). injection Heq as -> ->.
    by rewrite !String.eqb_refl in H.
  - intros H r Hr. apply andb_false_iff.
    destruct (String.eqb_spec (r_student_id r) sid) as [<-|]; [|by left].
    destruct (String.eqb_spec (r_course_id r) cid) as [<-|]; [|by right].
    destruct H. exists r. done.
Qed.

Lemma insert_person_ok (tbl : string) (now : Z) (id name : string) (age : Z)
    (email : string) (l : list person_rec) :
  (0 ≤ age < 2 ^ 63)%Z → id ∉ map p_id l → email ∉ map p_email l →
  insert_person tbl now id name age email l
    = Ok (l ++ [mkPerson id name age email now now]).
Proof.
  intros Hage Hid%has_id_false Hemail%has_email_false. unfold insert_person.
  assert (int64_ok age = true) as ->.
  { unfold int64_ok. apply andb_true_iff. split; [apply Z.leb_le | apply Z.ltb_lt]; lia. }
  assert ((age <? 0)%Z = false) as -> by (apply Z.ltb_ge; lia).
  by rewrite Hid, Hemail.
Qed.


Lemma run_insert_students (fk : bool) (now : Z) (objs : list Lab2.Student)
    (db : Database) :
  NoDup (map p_id (students db) ++ map Lab2.student_id objs) →
  NoDup (map p_email (students db) ++ map Lab2.s_email objs) →
  (∀ s, s ∈ objs → (0 ≤ Lab2.s_age s < 2 ^ 63)%Z) →
  run fk now (map (λ s, InsertStudent (Lab2.student_id s) (Lab2.s_name s)
                                      (Lab2.s_age s) (Lab2.s_email s)) objs) db
    = Ok (set_students (students db ++ map (row_of_student now) objs) db).
Proof.
  revert db. induction objs as [|s objs IH]; intros db Hid Hem Hage; simpl.
  - rewrite app_nil_r. by destruct db.
  - apply NoDup_snoc_app in Hid as [Hid1 Hid2].
    apply NoDup_snoc_app in Hem as [Hem1 Hem2].
    assert (Hs : s ∈ s :: objs) by (by left).
    rewrite (insert_person_ok _ _ _ _ _ _ _ (Hage s Hs) Hid1 Hem1). simpl.
    rewrite IH; simpl.
    + by rewrite <- app_assoc.
    + by rewrite map_app.
    + by rewrite map_app.
    + intros s' Hs'. apply Hage. by right.
Qed.

Lemma run_insert_instructors (fk : bool) (now : Z) (objs : list Lab2.Instructor)
    (db : Database) :
  NoDup (map p_id (instructors db) ++ map Lab2.instructor_id objs) →
  NoDup (map p_email (instructors db) ++ map Lab2.i_email objs) →
  (∀ i, i ∈ objs → (0 ≤ Lab2.i_age i < 2 ^ 63)%Z) →
  run fk now (map (λ i, InsertInstructor (Lab2.instructor_id i) (Lab2.i_name i)
                                         (Lab2.i_age i) (Lab2.i_email i)) objs) db
    = Ok (set_instructors (instructors db ++ map (row_of_instructor now) objs) db).
Proof.
  revert db. induction objs as [|s objs IH]; intros db Hid Hem Hage; simpl.
  - rewrite app_nil_r. by destruct db.
  - apply NoDup_snoc_app in Hid as [Hid1 Hid2].
    apply NoDup_snoc_app in Hem as [Hem1 Hem2].
    assert (Hs : s ∈ s :: objs) by (by left).
    rewrite (insert_person_ok _ _ _ _ _ _ _ (Hage s Hs) Hid1 Hem1). simpl.
    rewrite IH; simpl.
    + by rewrite <- app_assoc.
    + by rewrite map_app.
    + by rewrite map_app.
    + intros s' Hs'. apply Hage. by right.
Qed.

Lemma run_insert_courses (now : Z) (g : Lab2.State) (objs : list Lab2.Course)
    (db : Database) :
  NoDup (map c_id (courses db) ++ map Lab2.course_id objs) →
  run false now (map (λ c, InsertCourse (Lab2.course_id c) (Lab2.course_name c)
                                        (instructor_id_of g c)) objs) db
    = Ok (set_courses (courses db ++ map (row_of_course now g) objs) db).
Proof.
  revert db. induction objs as [|c objs IH]; intros db Hid; simpl.
  - rewrite app_nil_r. by destruct db.
  - apply NoDup_snoc_app in Hid as [Hid1%has_course_false Hid2].
    rewrite Hid1. simpl. rewrite IH; simpl.
    + by rewrite <- app_assoc.
    + by rewrite map_app.
Qed.

Lemma run_insert_registrations (now : Z) (edges : list (string * string))
    (db : Database) :
  NoDup (map pair_of (student_course_registrations db) ++ edges) →
  ∃ rows n,
    run false now (map (λ e, InsertRegistration e.1 e.2) edges) db
      = Ok (mkDb (students db) (instructors db) (courses db)
                 (student_course_registrations db ++ rows) n) ∧
    map pair_of rows = edges.
Proof.
  revert db. induction edges as [|[sid cid] edges IH]; intros db Hnd; simpl.
  - exists [], (registrations_seq db). rewrite app_nil_r. by destruct db.
  - apply NoDup_snoc_app in Hnd as [Hnew%has_registration_false Hnd].
    rewrite Hnew. simpl.
    set (r := mkReg (registrations_seq db + 1) sid cid now).
    destruct (IH (mkDb (students db) (instructors db) (courses db)
                       (student_course_registrations db ++ [r])
                       (registrations_seq db + 1)%Z))
      as (rows & n & Hrun & Hrows).
    { simpl. by rewrite map_app. }
    exists (r :: rows), n. rewrite Hrun. simpl. rewrite <- app_assoc. simpl.
    split; [done|]. by rewrite Hrows.
Qed.

(** The registration statements are one INSERT per edge of the graph. *)
Lemma registration_statements (g : Lab2.State) :
  flat_map (λ a, let s := Lab2.student_at g a in
                 map (λ c, InsertRegistration (Lab2.student_id s)
                             (Lab2.course_id (Lab2.course_at g c)))
                     (Lab2.registered_courses s)) (Lab2.students g)
  = map (λ e, InsertRegistration e.1 e.2) (SyncSpec.registration_edges g).
Proof.
  unfold SyncSpec.registration_edges.
  induction (Lab2.students g) as [|a l IH]; simpl; [done|].
  by rewrite map_app, map_map, IH.
Qed.

(** The store after a synchronisation of a graph that meets the
    constraints of the schema. *)
Lemma sync_result (now : Z) (g : Lab2.State) (db : Database) :
  SyncSpec.valid_entities g → SyncSpec.meets_constraints g →
  ∃ rows n,
    sync_system_to_db now g db =
      (true, mkDb (map (row_of_student now) (map (Lab2.student_at g) (Lab2.students g)))
                  (map (row_of_instructor now) (map (Lab2.instructor_at g) (Lab2.instructors g)))
                  (map (row_of_course now g) (map (Lab2.course_at g) (Lab2.courses g)))
                  rows n) ∧
    map pair_of rows = SyncSpec.registration_edges g.
Proof.
  intros (Hvs & Hvi & Hvc) (Hsid & Hsem & Hsage & Hiid & Hiem & Hiage & Hcid & Hreg).
  unfold sync_system_to_db, with_connection, connect_foreign_keys, sync_statements.
  rewrite run_app.
  change (run false now [DeleteAll Registrations; DeleteAll Courses;
                         DeleteAll Instructors; DeleteAll Students] db)
    with (Ok (mkDb [] [] [] [] (registrations_seq db))).
  cbn [mbind result_bind].
  set (db0 := mkDb [] [] [] [] (registrations_seq db)).
  rewrite registration_statements.
  rewrite <- (map_map (Lab2.student_at g)
                (λ s, InsertStudent (Lab2.student_id s) (Lab2.s_name s)
                                    (Lab2.s_age s) (Lab2.s_email s))).
  rewrite <- (map_map (Lab2.instructor_at g)
                (λ i, InsertInstructor (Lab2.instructor_id i) (Lab2.i_name i)
                                       (Lab2.i_age i) (Lab2.i_email i))).
  rewrite <- (map_map (Lab2.course_at g)
                (λ c, InsertCourse (Lab2.course_id c) (Lab2.course_name c)
                                   (instructor_id_of g c))).
  rewrite run_app, run_insert_students; cycle 1.
  { simpl. by rewrite map_map. }
  { simpl. by rewrite map_map. }
  { intros s [a [-> Ha]]%elem_of_map. split; [apply (Hvs a Ha) | by apply Hsage]. }
  cbn [mbind result_bind].
  rewrite run_app, run_insert_instructors; cycle 1.
  { simpl. by rewrite map_map. }
  { simpl. by rewrite map_map. }
  { intros s [a [-> Ha]]%elem_of_map. split; [apply (Hvi a Ha) | by apply Hiage]. }
  cbn [mbind result_bind].
  rewrite run_app, run_insert_courses; cycle 1.
  { simpl. by rewrite map_map. }
  cbn [mbind result_bind].
  match goal with |- context [run false now _ ?d] =>
    destruct (run_insert_registrations now (SyncSpec.registration_edges g) d)
      as (rows & n & Hrun & Hrows); [done|]
  end.
  exists rows, n. rewrite Hrun. done.
Qed.

End sync_store.

(** ** Synchronisation: what [load_system_from_db] builds *)

Section lab2_heap.
Import Lab2.

Lemma lookup_snoc_default {A} (d x : A) (l : list A) (a : nat) :
  default d ((l ++ [x]) !! a) = if decide (a = length l) then x else default d (l !! a).
Proof.
  destruct (decide (a = length l)) as [->|Hne].
  - by rewrite list_lookup_middle.
  - destruct (decide (a < length l)) as [Hlt|Hge].
    + by rewrite lookup_app_l.
    + rewrite !lookup_ge_None_2; [done|lia|]. rewrite length_app. simpl. lia.
Qed.

Lemma student_at_new_student (st : State) (o : Student) (a : nat) :
  student_at (new_student st o).2 a =
    if decide (a = length (heap_students st)) then o else student_at st a.
Proof. apply lookup_snoc_default. Qed.

Lemma instructor_at_new_instructor (st : State) (o : Instructor) (a : nat) :
  instructor_at (new_instructor st o).2 a =
    if decide (a = length (heap_instructors st)) then o else instructor_at st a.
Proof. apply lookup_snoc_default. Qed.

Lemma course_at_new_course (st : State) (o : Course) (a : nat) :
  course_at (new_course st o).2 a =
    if decide (a = length (heap_courses st)) then o else course_at st a.
Proof. apply lookup_snoc_default. Qed.

Lemma lookup_alter_default {A} (d : A) (f : A → A) (l : list A) (a b : nat) :
  default d (alter f a l !! b) =
    if decide (a = b ∧ b < length l) then f (default d (l !! b)) else default d (l !! b).
Proof.
  destruct (decide (a = b)) as [->|Hne].
  - rewrite list_lookup_alter_eq. destruct (decide (b < length l)) as [Hlt|Hge].
    + rewrite decide_True by done.
      apply lookup_lt_is_Some in Hlt as [o Ho]. by rewrite Ho.
    + rewrite decide_False by tauto. rewrite lookup_ge_None_2 by lia. done.
  - rewrite list_lookup_alter_ne by done. rewrite decide_False by tauto. done.
Qed.

Lemma student_at_set_registered (a b : nat) (f : list nat → list nat) (st : State) :
  student_at (set_registered a f st) b =
    if decide (a = b ∧ b < length (heap_students st)) then
      let o := student_at st b in
      mkStudent (s_name o) (s_age o) (s_email o) (student_id o) (f (registered_courses o))
    else student_at st b.
Proof. unfold student_at, set_registered. cbn [heap_students]. by rewrite lookup_alter_default. Qed.

Lemma instructor_at_set_assigned (a b : nat) (f : list nat → list nat) (st : State) :
  instructor_at (set_assigned a f st) b =
    if decide (a = b ∧ b < length (heap_instructors st)) then
      let o := instructor_at st b in
      mkInstructor (i_name o) (i_age o) (i_email o) (instructor_id o) (f (assigned_courses o))
    else instructor_at st b.
Proof. unfold instructor_at, set_assigned. cbn [heap_instructors]. by rewrite lookup_alter_default. Qed.

Lemma course_at_set_enrolled (a b : nat) (f : list nat → list nat) (st : State) :
  course_at (set_enrolled a f st) b =
    if decide (a = b ∧ b < length (heap_courses st)) then
      let o := course_at st b in
      mkCourse (course_id o) (course_name o) (instructor o) (f (enrolled_students o))
    else course_at st b.
Proof. unfold course_at, set_enrolled. cbn [heap_courses]. by rewrite lookup_alter_default. Qed.

Lemma course_at_set_instructor (a b : nat) (i : option nat) (st : State) :
  course_at (set_instructor a i st) b =
    if decide (a = b ∧ b < length (heap_courses st)) then
      let o := course_at st b in
      mkCourse (course_id o) (course_name o) i (enrolled_students o)
    else course_at st b.
Proof. unfold course_at, set_instructor. cbn [heap_courses]. by rewrite lookup_alter_default. Qed.

Lemma map_at_seq {A B} (d : A) (f : A → B) (l : list A) :
  map (λ a, f (default d (l !! a))) (seq 0 (length l)) = map f l.
Proof.
  induction l as [|x l IH] using rev_ind; [done|].
  rewrite length_app. simpl. rewrite Nat.add_1_r, seq_S, !map_app. simpl.
  rewrite list_lookup_middle by done. simpl. f_equal.
  rewrite <- IH. apply map_ext_in. intros a Ha%in_seq.
  rewrite lookup_app_l by lia. done.
Qed.

End lab2_heap.

Section load_instructors.
Import Lab2 LoadSpec.

Lemma instructor_init_ok (name : string) (age : Z) (email id : string) :
  _validate_name name = true → (0 ≤ age)%Z → _validate_email email = true →
  nonblank id = true →
  Instructor_init name (PyInt age) email id = Ok (mkInstructor name age email id []).
Proof.
  intros Hn Ha He Hi. unfold Instructor_init, Person_init, _validate_instructor_id.
  rewrite Hn, He, Hi. simpl. apply Z.leb_le in Ha. by rewrite Ha.
Qed.

Lemma student_init_ok (name : string) (age : Z) (email id : string) :
  _validate_name name = true → (0 ≤ age)%Z → _validate_email email = true →
  nonblank id = true →
  Student_init name (PyInt age) email id = Ok (mkStudent name age email id []).
Proof.
  intros Hn Ha He Hi. unfold Student_init, Person_init, _validate_student_id.
  rewrite Hn, He, Hi. simpl. apply Z.leb_le in Ha. by rewrite Ha.
Qed.

Lemma course_init_ok (cid cname : string) (inst : option nat) :
  nonblank cid = true → nonblank cname = true →
  Course_init cid cname inst = Ok (mkCourse cid cname inst []).
Proof.
  intros Hi Hn. unfold Course_init, _validate_course_id, _validate_course_name.
  by rewrite Hi, Hn.
Qed.

(** The first loop: one object per row, registered in row order. *)
Lemma load_instructors_result (rows : list Db.person_rec) (st : State) :
  (∀ r, r ∈ rows → valid_person r) →
  Db.for_each Db.load_instructor (map (λ r, (Db.p_id r, Db.p_name r, Db.p_age r, Db.p_email r)) rows) st
  = Ok (mkState (heap_students st)
          (heap_instructors st ++
             map (λ r, mkInstructor (Db.p_name r) (Db.p_age r) (Db.p_email r) (Db.p_id r) []) rows)
          (heap_courses st) (students st)
          (instructors st ++ seq (length (heap_instructors st)) (length rows))
          (courses st)).
Proof.
  revert st. induction rows as [|r rows IH]; intros st Hvalid; simpl.
  - rewrite !app_nil_r. by destruct st.
  - assert (Hr : r ∈ r :: rows) by (by left).
    destruct (Hvalid r Hr) as (Hn & Ha & He & Hi).
    rewrite (instructor_init_ok _ _ _ _ Hn Ha He Hi). simpl.
    rewrite IH by (intros r' Hr'; apply Hvalid; by right). simpl.
    rewrite length_app, <- !app_assoc. simpl. rewrite Nat.add_1_r. done.
Qed.

End load_instructors.

Section load_courses.
Import Lab2 LoadSpec.




Lemma find_instructor_same (st st' : State) (x : string) :
  instructors st' = instructors st → same_instructor_ids st st' →
  find_instructor_by_id st' x = find_instructor_by_id st x.
Proof.
  intros Hi Hid. unfold find_instructor_by_id. rewrite Hi.
  apply find_ext. intros a. by rewrite Hid.
Qed.

Lemma find_course_same (st st' : State) (x : string) :
  courses st' = courses st → same_course_heads st st' →
  find_course_by_id st' x = find_course_by_id st x.
Proof.
  intros Hc Hid. unfold find_course_by_id. rewrite Hc.
  apply find_ext. intros a. by rewrite (proj1 (Hid a)).
Qed.

Lemma resolve_same (st st' : State) r :
  instructors st' = instructors st → same_instructor_ids st st' →
  resolve st' r = resolve st r.
Proof.
  intros Hi Hid. unfold resolve. destruct r.1.2 as [i|]; [|done].
  destruct (bool_decide (i = "")); [done|]. by apply find_instructor_same.
Qed.

(** One round of the second loop. *)
Lemma load_course_step (st : State) (r : string * string * option string * option string) :
  nonblank r.1.1.1 = true → nonblank r.1.1.2 = true →
  ∃ st', Db.load_course st r = Ok st' ∧
    students st' = students st ∧
    heap_students st' = heap_students st ∧
    instructors st' = instructors st ∧
    same_instructor_ids st st' ∧
    courses st' = courses st ++ [length (heap_courses st)] ∧
    length (heap_courses st') = S (length (heap_courses st)) ∧
    (∀ a, a < length (heap_courses st) → course_at st' a = course_at st a) ∧
    course_id (course_at st' (length (heap_courses st))) = r.1.1.1 ∧
    instructor (course_at st' (length (heap_courses st))) = resolve st r.
Proof.
  destruct r as [[[cid cname] oiid] oname]. cbn [fst snd]. intros Hcid Hcname.
  set (inst := resolve st (cid, cname, oiid, oname)).
  set (c := length (heap_courses st)).
  set (o := mkCourse cid cname inst []).
  set (st2 := add_course (new_course st o).2 c).
  assert (Hload : Db.load_course st (cid, cname, oiid, oname)
                  = Ok (match inst with
                        | Some i => assign_course i c st2
                        | None => st2
                        end)).
  { unfold Db.load_course.
    change (match oiid with
            | Some i => if bool_decide (i = "") then None else find_instructor_by_id st i
            | None => None
            end) with inst.
    rewrite (course_init_ok _ _ inst Hcid Hcname). reflexivity. }
  rewrite Hload. clear Hload.
  assert (Hat2 : ∀ a, course_at st2 a = if decide (a = c) then o else course_at st a).
  { intros a. apply course_at_new_course. }
  assert (Hlen2 : length (heap_courses st2) = S c).
  { simpl. rewrite length_app. simpl. lia. }
  assert (Ho : course_id o = cid ∧ instructor o = inst) by done.
  clearbody o.
  destruct inst as [i|] eqn:Hinst.
  - unfold assign_course.
    destruct (Py.mem c (assigned_courses (instructor_at st2 i))).
    + exists st2. split; [done|]. repeat split; try done.
      * intros a Ha. rewrite Hat2. rewrite decide_False by lia. done.
      * rewrite Hat2, decide_True by done. apply Ho.
      * rewrite Hat2, decide_True by done. apply Ho.
    + eexists. split; [done|]. repeat split; try done.
      * intros a.
        change (instructor_id (instructor_at (set_assigned i (λ l, l ++ [c]) st2) a)
                = instructor_id (instructor_at st a)).
        rewrite instructor_at_set_assigned. by destruct (decide _).
      * simpl. rewrite length_alter, length_app. simpl. lia.
      * intros a Ha. rewrite course_at_set_instructor.
        rewrite decide_False by lia.
        change (course_at st2 a = course_at st a).
        rewrite Hat2, decide_False by lia. done.
      * rewrite course_at_set_instructor.
        rewrite decide_True by (split; [done|]; simpl; rewrite length_app; simpl; lia).
        simpl. change (course_id (course_at st2 c) = cid).
        rewrite Hat2, decide_True by done. apply Ho.
      * rewrite course_at_set_instructor.
        rewrite decide_True by (split; [done|]; simpl; rewrite length_app; simpl; lia).
        done.
  - exists st2. split; [done|]. repeat split; try done.
    + intros a Ha. rewrite Hat2. rewrite decide_False by lia. done.
    + rewrite Hat2, decide_True by done. apply Ho.
    + rewrite Hat2, decide_True by done. apply Ho.
Qed.

Lemma course_ids_step (st st1 : State) (cid : string) :
  (∀ a, a ∈ courses st → a < length (heap_courses st)) →
  courses st1 = courses st ++ [length (heap_courses st)] →
  (∀ a, a < length (heap_courses st) → course_at st1 a = course_at st a) →
  course_id (course_at st1 (length (heap_courses st))) = cid →
  SyncSpec.course_ids st1 = SyncSpec.course_ids st ++ [cid].
Proof.
  intros Halloc Hc Hold Hcid. unfold SyncSpec.course_ids.
  rewrite Hc, map_app. simpl. rewrite Hcid. f_equal.
  apply map_ext_elem. intros a Ha. by rewrite Hold by auto.
Qed.

Lemma assignment_edges_step (st st1 : State) (cid : string) (inst : option nat) :
  (∀ a, a ∈ courses st → a < length (heap_courses st)) →
  courses st1 = courses st ++ [length (heap_courses st)] →
  (∀ a, a < length (heap_courses st) → course_at st1 a = course_at st a) →
  same_instructor_ids st st1 →
  course_id (course_at st1 (length (heap_courses st))) = cid →
  instructor (course_at st1 (length (heap_courses st))) = inst →
  SyncSpec.assignment_edges st1 =
    SyncSpec.assignment_edges st ++
    match inst with
    | Some i => [(cid, instructor_id (instructor_at st i))]
    | None => []
    end.
Proof.
  intros Halloc Hc Hold Hid Hcid Hinst. unfold SyncSpec.assignment_edges.
  rewrite Hc, flat_map_app. simpl. rewrite Hcid, Hinst, app_nil_r. f_equal.
  - apply flat_map_ext_in. intros a Ha. rewrite Hold by auto.
    destruct (instructor (course_at st a)); [|done]. by rewrite Hid.
  - destruct inst; [|done]. by rewrite Hid.
Qed.

(** The second loop. *)
Lemma load_courses_result
    (rows : list (string * string * option string * option string)) (st : State) :
  (∀ r, r ∈ rows → nonblank r.1.1.1 = true ∧ nonblank r.1.1.2 = true) →
  (∀ a, a ∈ courses st → a < length (heap_courses st)) →
  ∃ st', Db.for_each Db.load_course rows st = Ok st' ∧
    students st' = students st ∧
    heap_students st' = heap_students st ∧
    instructors st' = instructors st ∧
    same_instructor_ids st st' ∧
    (∀ a, a ∈ courses st' → a < length (heap_courses st')) ∧
    SyncSpec.course_ids st' = SyncSpec.course_ids st ++ map (λ r, r.1.1.1) rows ∧
    SyncSpec.assignment_edges st' =
      SyncSpec.assignment_edges st ++
      flat_map (λ r, match resolve st r with
                     | Some i => [(r.1.1.1, instructor_id (instructor_at st i))]
                     | None => []
                     end) rows.
Proof.
  revert st. induction rows as [|r rows IH]; intros st Hvalid Halloc.
  - exists st. simpl. rewrite !app_nil_r. done.
  - assert (Hr : r ∈ r :: rows) by (by left).
    destruct (Hvalid r Hr) as [Hv1 Hv2].
    destruct (load_course_step st r Hv1 Hv2)
      as (st1 & Hload & Hs & Hhs & Hi & Hid & Hc & Hlen & Hold & Hcid & Hinst).
    destruct (IH st1) as (st' & Hrun & Hs' & Hhs' & Hi' & Hid' & Halloc' & Hcids & Hedges).
    { intros r' Hr'. apply Hvalid. by right. }
    { intros a. rewrite Hc, Hlen. intros [Ha| ->%list_elem_of_singleton]%elem_of_app.
      - specialize (Halloc a Ha). lia.
      - lia. }
    exists st'. simpl. rewrite Hload. cbn [mbind result_bind].
    split; [done|]. split; [congruence|]. split; [congruence|].
    split; [congruence|]. split.
    { intros i. by rewrite Hid', Hid. }
    split; [done|]. split.
    + rewrite Hcids, (course_ids_step st st1 r.1.1.1) by done.
      by rewrite <- app_assoc.
    + rewrite Hedges, (assignment_edges_step st st1 r.1.1.1 (resolve st r)) by done.
      rewrite <- app_assoc. f_equal. f_equal.
      apply flat_map_ext_in. intros r' _. rewrite (resolve_same st st1) by done.
      destruct (resolve st r'); [|done]. by rewrite Hid.
Qed.

End load_courses.

Section load_students.
Import Lab2 LoadSpec.


(** One round of the inner loop: the course found for the row is linked
    to student [s]. *)
Lemma load_registration_step (s : nat) (st : State) (r : string * string) :
  s < length (heap_students st) →
  same_registry st (Db.load_registration s st r) ∧
  heap_instructors (Db.load_registration s st r) = heap_instructors st ∧
  length (heap_students (Db.load_registration s st r)) = length (heap_students st) ∧
  same_course_heads st (Db.load_registration s st r) ∧
  (∀ a, a ≠ s → student_at (Db.load_registration s st r) a = student_at st a) ∧
  student_id (student_at (Db.load_registration s st r) s) = student_id (student_at st s) ∧
  (∀ c, c ∈ registered_courses (student_at (Db.load_registration s st r) s) ↔
        c ∈ registered_courses (student_at st s) ∨ find_course_by_id st r.1 = Some c).
Proof.
  intros Hs. unfold Db.load_registration.
  destruct (find_course_by_id st r.1) as [c0|].
  2: { repeat split; try done. - by left. - by intros [?|?]. }
  unfold register_course.
  destruct (Py.mem c0 (registered_courses (student_at st s))) eqn:Hmem.
  { apply mem_true in Hmem. repeat split; try done.
    - by left.
    - intros [?|[= <-]]; done. }
  unfold add_student_to_course.
  set (st1 := set_registered s (λ l, l ++ [c0]) st).
  assert (Hstud : ∀ a, student_at (set_enrolled c0 (Py.append_new s) st1) a
                       = student_at st1 a) by done.
  split; [done|]. split; [done|]. split.
  { simpl. by rewrite length_alter. }
  split.
  { intros c. rewrite course_at_set_enrolled.
    change (course_at st1 c) with (course_at st c). by destruct (decide _). }
  split.
  { intros a Ha. rewrite Hstud. unfold st1. rewrite student_at_set_registered.
    rewrite decide_False; [done|]. intros [? _]. congruence. }
  split.
  { rewrite Hstud. unfold st1. rewrite student_at_set_registered.
    by destruct (decide _). }
  intros c. rewrite Hstud. unfold st1. rewrite student_at_set_registered.
  rewrite decide_True by done. simpl. rewrite elem_of_app, list_elem_of_singleton.
  split; intros [?|H]; auto; right; congruence.
Qed.

(** The inner loop. *)
Lemma load_registrations_result (s : nat) (rows : list (string * string)) (st : State) :
  s < length (heap_students st) →
  same_registry st (fold_left (Db.load_registration s) rows st) ∧
  heap_instructors (fold_left (Db.load_registration s) rows st) = heap_instructors st ∧
  length (heap_students (fold_left (Db.load_registration s) rows st))
    = length (heap_students st) ∧
  same_course_heads st (fold_left (Db.load_registration s) rows st) ∧
  (∀ a, a ≠ s → student_at (fold_left (Db.load_registration s) rows st) a = student_at st a) ∧
  student_id (student_at (fold_left (Db.load_registration s) rows st) s)
    = student_id (student_at st s) ∧
  (∀ c, c ∈ registered_courses (student_at (fold_left (Db.load_registration s) rows st) s) ↔
        c ∈ registered_courses (student_at st s) ∨
        ∃ r, r ∈ rows ∧ find_course_by_id st r.1 = Some c).
Proof.
  revert st. induction rows as [|r rows IH]; intros st Hs; simpl.
  - repeat split; try done.
    + by left.
    + intros [?|(r & Hr & _)]; [done|]. by apply elem_of_nil in Hr.
  - destruct (load_registration_step s st r Hs)
      as ((Hr1 & Hr2 & Hr3) & Hhi & Hlen & Hheads & Hother & Hid & Hreg).
    set (st1 := Db.load_registration s st r) in *.
    destruct (IH st1) as ((Hr1' & Hr2' & Hr3') & Hhi' & Hlen' & Hheads' & Hother' & Hid' & Hreg').
    { by rewrite Hlen. }
    split; [repeat split; congruence|]. split; [congruence|]. split; [congruence|].
    split.
    { intros c. destruct (Hheads c), (Hheads' c). split; congruence. }
    split.
    { intros a Ha. by rewrite Hother', Hother. }
    split; [congruence|].
    intros c. rewrite Hreg', Hreg. split.
    + intros [[?|?]|(r' & Hr' & Hfind)]; [by left | |].
      * right. exists r. split; [by left | done].
      * right. exists r'. split; [by right|].
        by rewrite <- (find_course_same st st1).
    + intros [?|(r' & [->|Hr']%elem_of_cons & Hfind)]; [by left; left | by left; right |].
      right. exists r'. split; [done|]. by rewrite (find_course_same st st1).
Qed.

(** One round of the third loop. *)
Lemma load_student_step (db : Db.Database) (st : State)
    (t : string * string * Z * string) :
  _validate_name t.1.1.2 = true → (0 ≤ t.1.2)%Z → _validate_email t.2 = true →
  nonblank t.1.1.1 = true →
  ∃ st', Db.load_student db st t = Ok st' ∧
    students st' = students st ++ [length (heap_students st)] ∧
    length (heap_students st') = S (length (heap_students st)) ∧
    instructors st' = instructors st ∧
    courses st' = courses st ∧
    heap_instructors st' = heap_instructors st ∧
    same_course_heads st st' ∧
    (∀ a, a < length (heap_students st) → student_at st' a = student_at st a) ∧
    student_id (student_at st' (length (heap_students st))) = t.1.1.1 ∧
    (∀ c, c ∈ registered_courses (student_at st' (length (heap_students st))) ↔
          ∃ r, r ∈ Db.get_student_courses db t.1.1.1 ∧ find_course_by_id st r.1 = Some c).
Proof.
  destruct t as [[[sid name] age] email]. cbn [fst snd]. intros Hn Ha He Hi.
  set (s := length (heap_students st)).
  set (o := mkStudent name age email sid []).
  set (st2 := add_student (new_student st o).2 s).
  assert (Hload : Db.load_student db st (sid, name, age, email)
                  = Ok (fold_left (Db.load_registration s)
                                  (Db.get_student_courses db sid) st2)).
  { unfold Db.load_student. rewrite (student_init_ok _ _ _ _ Hn Ha He Hi). reflexivity. }
  rewrite Hload. clear Hload. eexists. split; [reflexivity|].
  assert (Hat2 : ∀ a, student_at st2 a = if decide (a = s) then o else student_at st a).
  { intros a. apply student_at_new_student. }
  assert (Hlen2 : length (heap_students st2) = S s).
  { simpl. rewrite length_app. simpl. lia. }
  destruct (load_registrations_result s (Db.get_student_courses db sid) st2)
    as ((Hr1 & Hr2 & Hr3) & Hhi & Hlen & Hheads & Hother & Hid & Hreg).
  { lia. }
  split; [by rewrite Hr1|]. split; [by rewrite Hlen|].
  split; [by rewrite Hr2|]. split; [by rewrite Hr3|]. split; [by rewrite Hhi|].
  split; [exact Hheads|]. split.
  { intros a Ha'. rewrite Hother by lia. rewrite Hat2, decide_False by lia. done. }
  split.
  { rewrite Hid, Hat2, decide_True by done. done. }
  intros c. rewrite Hreg, Hat2, decide_True by done. simpl. split.
  - intros [H|H]; [by apply elem_of_nil in H | done].
  - by right.
Qed.

End load_students.

Section load_students_loop.
Import Lab2 LoadSpec.

Lemma student_ids_step (st st1 : State) (sid : string) :
  (∀ a, a ∈ students st → a < length (heap_students st)) →
  students st1 = students st ++ [length (heap_students st)] →
  (∀ a, a < length (heap_students st) → student_at st1 a = student_at st a) →
  student_id (student_at st1 (length (heap_students st))) = sid →
  SyncSpec.student_ids st1 = SyncSpec.student_ids st ++ [sid].
Proof.
  intros Halloc Hs Hold Hsid. unfold SyncSpec.student_ids.
  rewrite Hs, map_app. simpl. rewrite Hsid. f_equal.
  apply map_ext_elem. intros a Ha. by rewrite Hold by auto.
Qed.

Lemma registration_edges_step (st st1 : State) (sid : string) (e : string * string) :
  (∀ a, a ∈ students st → a < length (heap_students st)) →
  students st1 = students st ++ [length (heap_students st)] →
  (∀ a, a < length (heap_students st) → student_at st1 a = student_at st a) →
  same_course_heads st st1 →
  student_id (student_at st1 (length (heap_students st))) = sid →
  e ∈ SyncSpec.registration_edges st1 ↔
    e ∈ SyncSpec.registration_edges st ∨
    ∃ c, c ∈ registered_courses (student_at st1 (length (heap_students st))) ∧
         e = (sid, course_id (course_at st c)).
Proof.
  intros Halloc Hs Hold Hheads Hsid. unfold SyncSpec.registration_edges.
  rewrite Hs, flat_map_app, elem_of_app. simpl. rewrite app_nil_r, Hsid.
  rewrite elem_of_map.
  rewrite (flat_map_ext_in
             (λ a, map (λ c, (student_id (student_at st1 a), course_id (course_at st1 c)))
                       (registered_courses (student_at st1 a)))
             (λ a, map (λ c, (student_id (student_at st a), course_id (course_at st c)))
                       (registered_courses (student_at st a)))).
  2: { intros a Ha. rewrite Hold by auto. apply map_ext.
       intros c. by rewrite (proj1 (Hheads c)). }
  split; intros [H|(c & H1 & H2)]; auto; right; exists c.
  - by rewrite <- (proj1 (Hheads c)).
  - by rewrite (proj1 (Hheads c)).
Qed.

(** The third loop. *)
Lemma load_students_result (db : Db.Database)
    (rows : list (string * string * Z * string)) (st : State) :
  (∀ t, t ∈ rows → _validate_name t.1.1.2 = true ∧ (0 ≤ t.1.2)%Z ∧
                   _validate_email t.2 = true ∧ nonblank t.1.1.1 = true) →
  (∀ a, a ∈ students st → a < length (heap_students st)) →
  ∃ st', Db.for_each (Db.load_student db) rows st = Ok st' ∧
    instructors st' = instructors st ∧
    courses st' = courses st ∧
    heap_instructors st' = heap_instructors st ∧
    same_course_heads st st' ∧
    SyncSpec.student_ids st' = SyncSpec.student_ids st ++ map (λ t, t.1.1.1) rows ∧
    (∀ e, e ∈ SyncSpec.registration_edges st' ↔
          e ∈ SyncSpec.registration_edges st ∨
          ∃ t r c, t ∈ rows ∧ r ∈ Db.get_student_courses db t.1.1.1 ∧
                   find_course_by_id st r.1 = Some c ∧
                   e = (t.1.1.1, course_id (course_at st c))).
Proof.
  revert st. induction rows as [|t rows IH]; intros st Hvalid Halloc.
  - exists st. simpl. rewrite app_nil_r. repeat split; try done.
    + by left.
    + intros [?|(t & r & c & Ht & _)]; [done|]. by apply elem_of_nil in Ht.
  - assert (Ht : t ∈ t :: rows) by (by left).
    destruct (Hvalid t Ht) as (Hv1 & Hv2 & Hv3 & Hv4).
    destruct (load_student_step db st t Hv1 Hv2 Hv3 Hv4)
      as (st1 & Hload & Hs & Hlen & Hi & Hc & Hhi & Hheads & Hold & Hsid & Hreg).
    destruct (IH st1)
      as (st' & Hrun & Hi' & Hc' & Hhi' & Hheads' & Hids & Hedges).
    { intros t' Ht'. apply Hvalid. by right. }
    { intros a. rewrite Hs, Hlen. intros [Ha| ->%list_elem_of_singleton]%elem_of_app.
      - specialize (Halloc a Ha). lia.
      - lia. }
    exists st'. simpl. rewrite Hload. cbn [mbind result_bind].
    split; [done|]. split; [congruence|]. split; [congruence|]. split; [congruence|].
    split.
    { intros c. destruct (Hheads c), (Hheads' c). split; congruence. }
    split.
    { rewrite Hids, (student_ids_step st st1 t.1.1.1) by done. by rewrite <- app_assoc. }
    intros e. rewrite Hedges, (registration_edges_step st st1 t.1.1.1) by done.
    split.
    + intros [[?|(c & Hcin & ->)]|(t' & r & c & Ht' & Hr & Hfind & ->)].
      * by left.
      * right. apply Hreg in Hcin as (r & Hr & Hfind). exists t, r, c. done.
      * right. exists t', r, c. split; [by right|]. split; [done|].
        rewrite <- (find_course_same st st1) by done.
        split; [done|]. by rewrite (proj1 (Hheads c)).
    + intros [?|(t' & r & c & [->|Ht']%elem_of_cons & Hr & Hfind & ->)].
      * by left; left.
      * left. right. exists c. split; [|done]. apply Hreg. eauto.
      * right. exists t', r, c. split; [done|]. split; [done|].
        rewrite (find_course_same st st1) by done.
        split; [done|]. by rewrite (proj1 (Hheads c)).
Qed.

(** The third loop leaves the ids of instructors and courses and the
    assignment edges as they are. *)
Lemma same_heads_ids (st st' : State) :
  instructors st' = instructors st → courses st' = courses st →
  heap_instructors st' = heap_instructors st → same_course_heads st st' →
  SyncSpec.instructor_ids st' = SyncSpec.instructor_ids st ∧
  SyncSpec.course_ids st' = SyncSpec.course_ids st ∧
  SyncSpec.assignment_edges st' = SyncSpec.assignment_edges st.
Proof.
  intros Hi Hc Hhi Hheads.
  assert (Hat : ∀ i, instructor_at st' i = instructor_at st i).
  { intros i. unfold instructor_at. by rewrite Hhi. }
  unfold SyncSpec.instructor_ids, SyncSpec.course_ids, SyncSpec.assignment_edges.
  rewrite Hi, Hc. split; [|split].
  - apply map_ext. intros a. by rewrite Hat.
  - apply map_ext. intros a. by rewrite (proj1 (Hheads a)).
  - apply flat_map_ext_in. intros a _. destruct (Hheads a) as [-> ->].
    destruct (instructor (course_at st a)); [|done]. by rewrite Hat.
Qed.

End load_students_loop.

Section load_queries.
Import LoadSpec StoreSpec.


(** With unique ids, at most one instructor row joins a course row. *)
Lemma filter_by_id (x : string) (l : list Db.person_rec) :
  NoDup (map Db.p_id l) →
  (Db.has_id x l = false ∧
   List.filter (λ i, bool_decide (Some x = Some (Db.p_id i))) l = []) ∨
  (Db.has_id x l = true ∧
   ∃ i, List.filter (λ i, bool_decide (Some x = Some (Db.p_id i))) l = [i] ∧ Db.p_id i = x).
Proof.
  induction l as [|i l IH]; simpl; [by left|].
  intros [Hi Hl]%NoDup_cons. destruct (IH Hl) as [[Hno Hfil] | [Hyes (i0 & Hfil & Hid)]].
  - rewrite Hno, Hfil. destruct (String.eqb_spec (Db.p_id i) x) as [Heq|Hne].
    + right. split; [done|]. exists i. rewrite bool_decide_eq_true_2 by congruence. done.
    + left. split; [done|]. rewrite bool_decide_eq_false_2 by congruence. done.
  - right. rewrite Hyes, orb_true_r. split; [done|].
    assert (Db.p_id i ≠ x).
    { intros Heq. apply Hi. rewrite Heq. apply dec_stable. intros Hnot.
      apply has_id_false in Hnot. congruence. }
    rewrite bool_decide_eq_false_2 by congruence. eauto.
Qed.

Lemma left_join_instructor_single (db : Db.Database) (c : Db.course_rec) :
  NoDup (map Db.p_id (Db.instructors db)) →
  ∃ nm, Db.left_join_instructor db c = [(Db.c_id c, Db.c_name c, joined_id db c, nm)].
Proof.
  intros Hnd. unfold Db.left_join_instructor, joined_id.
  destruct (Db.c_instructor_id c) as [x|].
  - destruct (filter_by_id x _ Hnd) as [[-> ->] | [-> (i & -> & <-)]]; simpl; eauto.
  - rewrite filter_nothing by done. eauto.
Qed.

Lemma get_all_courses_rows (db : Db.Database) :
  NoDup (map Db.p_id (Db.instructors db)) →
  map (λ r, (r.1.1.1, r.1.2)) (Db.get_all_courses db)
    = map (λ c, (Db.c_id c, joined_id db c)) (Db.order_by Db.c_name (Db.courses db)) ∧
  (∀ r, r ∈ Db.get_all_courses db →
        ∃ c, c ∈ Db.courses db ∧ r.1.1.1 = Db.c_id c ∧ r.1.1.2 = Db.c_name c).
Proof.
  intros Hnd. unfold Db.get_all_courses. split.
  - induction (Db.order_by Db.c_name (Db.courses db)) as [|c l IH]; simpl; [done|].
    destruct (left_join_instructor_single db c Hnd) as [nm ->]. simpl. by rewrite IH.
  - intros r (c & Hc%elem_of_order_by & Hr)%elem_of_flat_map.
    destruct (left_join_instructor_single db c Hnd) as [nm Hj]. rewrite Hj in Hr.
    apply list_elem_of_singleton in Hr as ->. eauto.
Qed.

Lemma elem_of_get_student_courses (db : Db.Database) (sid : string) (r : string * string) :
  r ∈ Db.get_student_courses db sid ↔
  ∃ c reg, c ∈ Db.courses db ∧ reg ∈ Db.student_course_registrations db ∧
           Db.c_id c = Db.r_course_id reg ∧ Db.r_student_id reg = sid ∧
           r = (Db.c_id c, Db.c_name c).
Proof.
  unfold Db.get_student_courses. rewrite elem_of_map. split.
  - intros (c & -> & (c' & Hc' & Hx)%elem_of_order_by%elem_of_flat_map).
    apply elem_of_flat_map in Hx as (reg & Hreg & Hin).
    destruct (String.eqb_spec (Db.c_id c') (Db.r_course_id reg)) as [Hcid|]; [|by apply elem_of_nil in Hin].
    destruct (String.eqb_spec (Db.r_student_id reg) sid) as [Hsid|]; [|by apply elem_of_nil in Hin].
    apply list_elem_of_singleton in Hin as ->. exists c', reg. done.
  - intros (c & reg & Hc & Hreg & Hcid & Hsid & ->). exists c. split; [done|].
    apply elem_of_order_by, elem_of_flat_map. exists c. split; [done|].
    apply elem_of_flat_map. exists reg. split; [done|].
    rewrite Hcid, Hsid, !String.eqb_refl. by left.
Qed.

End load_queries.

Section load_result.
Import Lab2 LoadSpec StoreSpec.

Lemma nonblank_nonempty (x : string) : nonblank x = true → x ≠ "".
Proof. by intros H ->. Qed.

Lemma has_id_true (x : string) (l : list Db.person_rec) :
  Db.has_id x l = true ↔ x ∈ map Db.p_id l.
Proof.
  destruct (Db.has_id x l) eqn:H.
  - split; [intros _ | done]. apply dec_stable. intros Hnot.
    apply has_id_false in Hnot. congruence.
  - apply has_id_false in H. split; [done | by intros ?].
Qed.

Lemma no_students_no_edges (st : State) :
  students st = [] →
  SyncSpec.student_ids st = [] ∧ SyncSpec.registration_edges st = [].
Proof.
  intros H. unfold SyncSpec.student_ids, SyncSpec.registration_edges. by rewrite H.
Qed.

(** What [load_system_from_db] builds from a loadable store: the
    entities of the three tables, the registrations whose student and
    course exist, and for every course the instructor its row names, if
    there is one. *)
Lemma load_result (db : Db.Database) :
  loadable db →
  ∃ g', Db.load_system_from_db db = Ok g' ∧
    SyncSpec.student_ids g' = map Db.p_id (Db.order_by Db.p_name (Db.students db)) ∧
    SyncSpec.instructor_ids g' = map Db.p_id (Db.order_by Db.p_name (Db.instructors db)) ∧
    SyncSpec.course_ids g' = map Db.c_id (Db.order_by Db.c_name (Db.courses db)) ∧
    (∀ e, e ∈ SyncSpec.registration_edges g' ↔
          e.1 ∈ map Db.p_id (Db.students db) ∧
          e.2 ∈ map Db.c_id (Db.courses db) ∧
          e ∈ map pair_of (Db.student_course_registrations db)) ∧
    (∀ e, e ∈ SyncSpec.assignment_edges g' ↔
          ∃ c, c ∈ Db.courses db ∧ e.1 = Db.c_id c ∧
               Db.c_instructor_id c = Some e.2 ∧
               e.2 ∈ map Db.p_id (Db.instructors db)).
Proof.
  intros (Hvs & Hvi & Hvc & Hndi & Hndc).
  unfold Db.load_system_from_db.
  (* first loop *)
  unfold Db.get_all_instructors.
  rewrite load_instructors_result
    by (intros r Hr%elem_of_order_by; by apply Hvi).
  cbn [mbind result_bind].
  set (sortedI := Db.order_by Db.p_name (Db.instructors db)).
  set (st1 := mkState _ _ _ _ _ _).
  assert (Hids1 : SyncSpec.instructor_ids st1 = map Db.p_id sortedI).
  { unfold SyncSpec.instructor_ids, instructor_at, st1. simpl.
    rewrite <- (length_map
      (λ r, mkInstructor (Db.p_name r) (Db.p_age r) (Db.p_email r) (Db.p_id r) []) sortedI).
    rewrite (map_at_seq no_instructor instructor_id). by rewrite map_map. }
  assert (Hfind1 : ∀ x, x ∈ map Db.p_id (Db.instructors db) →
            ∃ i, find_instructor_by_id st1 x = Some i ∧
                 instructor_id (instructor_at st1 i) = x).
  { intros x Hx.
    destruct (find_id_is_Some (λ a, instructor_id (instructor_at st1 a)) (instructors st1) x)
      as [i Hi].
    - assert (Hin : x ∈ SyncSpec.instructor_ids st1).
      { rewrite Hids1. unfold sortedI.
        by rewrite (Permutation_map Db.p_id (order_by_perm Db.p_name (Db.instructors db))). }
      apply elem_of_map in Hin as (a & -> & Ha). eauto.
    - exists i. split; [done|].
      by apply (find_id_Some (λ a, instructor_id (instructor_at st1 a))) in Hi as [_ ?]. }
  (* second loop *)
  destruct (get_all_courses_rows db Hndi) as [Hrows Hrows_valid].
  destruct (load_courses_result (Db.get_all_courses db) st1)
    as (st2 & Hrun2 & Hs2 & Hhs2 & Hi2 & Hid2 & Halloc2 & Hcids2 & Hedges2).
  { intros r (c & Hc & -> & ->)%Hrows_valid. apply (Hvc c Hc). }
  { intros a Ha. by apply elem_of_nil in Ha. }
  rewrite Hrun2. cbn [mbind result_bind].
  assert (Hcids2' : SyncSpec.course_ids st2
                    = map Db.c_id (Db.order_by Db.c_name (Db.courses db))).
  { rewrite Hcids2. change (SyncSpec.course_ids st1) with (@nil string). simpl.
    apply (f_equal (map fst)) in Hrows. by rewrite !map_map in Hrows. }
  assert (Hedges2' : ∀ e, e ∈ SyncSpec.assignment_edges st2 ↔
            ∃ c, c ∈ Db.courses db ∧ e.1 = Db.c_id c ∧
                 Db.c_instructor_id c = Some e.2 ∧
                 e.2 ∈ map Db.p_id (Db.instructors db)).
  { intros e. rewrite Hedges2. change (SyncSpec.assignment_edges st1) with (@nil (string * string)).
    simpl. rewrite elem_of_flat_map. split.
    - intros (r & Hr & He).
      assert (Hpair : (r.1.1.1, r.1.2) ∈ map (λ r, (r.1.1.1, r.1.2)) (Db.get_all_courses db)).
      { apply elem_of_map. eauto. }
      rewrite Hrows in Hpair. apply elem_of_map in Hpair as (c & Hpair & Hc%elem_of_order_by).
      injection Hpair as Hcid Hjoin.
      unfold resolve in He. rewrite Hjoin in He. unfold joined_id in He.
      destruct (Db.c_instructor_id c) as [x|] eqn:Hx; [|by apply elem_of_nil in He].
      destruct (Db.has_id x (Db.instructors db)) eqn:Hhas; [|by apply elem_of_nil in He].
      apply has_id_true in Hhas.
      destruct (Hfind1 x Hhas) as (i & Hfind & Hiid).
      assert (Hne : x ≠ "").
      { apply elem_of_map in Hhas as (ri & -> & Hri). apply nonblank_nonempty.
        apply (Hvi ri Hri). }
      rewrite bool_decide_eq_false_2 in He by done. rewrite Hfind in He.
      apply list_elem_of_singleton in He as ->. simpl. exists c.
      rewrite Hiid. done.
    - intros (c & Hc & Hcid & Hx & Hhas).
      assert (Hpair : (Db.c_id c, joined_id db c)
                      ∈ map (λ r, (r.1.1.1, r.1.2)) (Db.get_all_courses db)).
      { rewrite Hrows. apply elem_of_map. exists c. split; [done|]. by apply elem_of_order_by. }
      apply elem_of_map in Hpair as (r & Hpair & Hr). injection Hpair as Hrcid Hjoin.
      exists r. split; [done|].
      unfold resolve. rewrite <- Hjoin. unfold joined_id. rewrite Hx.
      rewrite (proj2 (has_id_true _ _) Hhas).
      destruct (Hfind1 _ Hhas) as (i & Hfind & Hiid).
      assert (Hne : e.2 ≠ "").
      { apply elem_of_map in Hhas as (ri & -> & Hri). apply nonblank_nonempty.
        apply (Hvi ri Hri). }
      rewrite bool_decide_eq_false_2 by done. rewrite Hfind, Hiid, <- Hrcid, <- Hcid.
      destruct e. by left. }
  (* third loop *)
  destruct (load_students_result db (Db.get_all_students db) st2)
    as (st3 & Hrun3 & Hi3 & Hc3 & Hhi3 & Hheads3 & Hsids3 & Hedges3).
  { unfold Db.get_all_students.
    intros t (r & -> & Hr%elem_of_order_by)%elem_of_map. apply (Hvs r Hr). }
  { rewrite Hs2. intros a Ha. by apply elem_of_nil in Ha. }
  exists st3. split; [done|].
  destruct (same_heads_ids st2 st3 Hi3 Hc3 Hhi3 Hheads3) as (Hiids & Hcids & Hassign).
  destruct (no_students_no_edges st2 Hs2) as [Hnos Hnoe].
  split.
  { rewrite Hsids3, Hnos. unfold Db.get_all_students. simpl. by rewrite map_map. }
  split.
  { rewrite Hiids, <- Hids1. unfold SyncSpec.instructor_ids. rewrite Hi2.
    apply map_ext. intros a. apply Hid2. }
  split; [by rewrite Hcids|].
  split; [|intros e; by rewrite Hassign].
  intros e. rewrite Hedges3, Hnoe. split.
  - intros [He|(t & r & c & Ht & Hr & Hfind & ->)]; [by apply elem_of_nil in He|].
    unfold Db.get_all_students in Ht.
    apply elem_of_map in Ht as (srow & -> & Hsrow%elem_of_order_by).
    apply elem_of_get_student_courses in Hr as (crow & reg & Hcrow & Hreg & Hcid & Hsid & ->).
    apply (find_id_Some (λ a, course_id (course_at st2 a))) in Hfind as [_ Hfind].
    simpl in *. rewrite Hfind. split; [|split].
    + apply elem_of_map. eauto.
    + apply elem_of_map. eauto.
    + apply elem_of_map. exists reg. split; [|done]. unfold pair_of. congruence.
  - intros ((srow & Hsid & Hsrow)%elem_of_map & (crow & Hcid & Hcrow)%elem_of_map
            & (reg & Hpair & Hreg)%elem_of_map).
    right. destruct e as [sid cid]. simpl in *. injection Hpair as -> ->.
    destruct (find_id_is_Some (λ a, course_id (course_at st2 a)) (courses st2)
                (Db.r_course_id reg)) as [c Hfind].
    { assert (Hin : Db.r_course_id reg ∈ SyncSpec.course_ids st2).
      { rewrite Hcids2', Hcid. apply elem_of_map. exists crow.
        split; [done|]. by apply elem_of_order_by. }
      apply elem_of_map in Hin as (a & Ha1 & Ha2). eauto. }
    exists (Db.p_id srow, Db.p_name srow, Db.p_age srow, Db.p_email srow),
           (Db.c_id crow, Db.c_name crow), c.
    split.
    { unfold Db.get_all_students. apply elem_of_map. exists srow.
      split; [done|]. by apply elem_of_order_by. }
    split.
    { apply elem_of_get_student_courses. exists crow, reg. simpl. done. }
    cbn [fst snd]. split.
    + unfold find_course_by_id. rewrite <- Hcid. exact Hfind.
    + apply (find_id_Some (λ a, course_id (course_at st2 a))) in Hfind as [_ Hfind].
      congruence.
Qed.

End load_result.

(** ** Dehydrate, then rehydrate *)

Section round_trip.
Import StoreSpec LoadSpec SyncSpec.

Lemma synced_store_loadable (now : Z) (g : Lab2.State) rows n :
  valid_entities g → meets_constraints g →
  loadable (Db.mkDb
    (map (row_of_student now) (map (Lab2.student_at g) (Lab2.students g)))
    (map (row_of_instructor now) (map (Lab2.instructor_at g) (Lab2.instructors g)))
    (map (row_of_course now g) (map (Lab2.course_at g) (Lab2.courses g)))
    rows n).
Proof.
  intros (Hvs & Hvi & Hvc) (_ & _ & _ & Hiid & _ & _ & Hcid & _).
  unfold loadable. simpl. split; [|split; [|split; [|split]]].
  - intros r (s & -> & (a & -> & Ha)%elem_of_map)%elem_of_map. apply (Hvs a Ha).
  - intros r (s & -> & (a & -> & Ha)%elem_of_map)%elem_of_map. apply (Hvi a Ha).
  - intros r (s & -> & (a & -> & Ha)%elem_of_map)%elem_of_map. apply (Hvc a Ha).
  - by rewrite !map_map.
  - by rewrite !map_map.
Qed.

Lemma registration_edge_student (g : Lab2.State) (e : string * string) :
  e ∈ registration_edges g → e.1 ∈ student_ids g.
Proof.
  intros (a & Ha & (c & -> & Hc)%elem_of_map)%elem_of_flat_map.
  apply elem_of_map. eauto.
Qed.

Lemma assignment_edge_course (g : Lab2.State) (e : string * string) :
  e ∈ assignment_edges g ↔
  ∃ a i, a ∈ Lab2.courses g ∧ Lab2.instructor (Lab2.course_at g a) = Some i ∧
         e = (Lab2.course_id (Lab2.course_at g a),
              Lab2.instructor_id (Lab2.instructor_at g i)).
Proof.
  unfold assignment_edges. rewrite elem_of_flat_map. split.
  - intros (a & Ha & He). destruct (Lab2.instructor (Lab2.course_at g a)) as [i|] eqn:Hi.
    + apply list_elem_of_singleton in He. eauto.
    + by apply elem_of_nil in He.
  - intros (a & i & Ha & Hi & ->). exists a. split; [done|]. rewrite Hi. by left.
Qed.

End round_trip.

(** C1 (as amended). Let [g] be a graph of entities their constructors
    accept that meets the constraints of the schema (ids unique within
    each kind, e-mail addresses unique among the students and among the
    instructors, ages below 2^63, no student registered twice to one
    course id) and whose edges end at entities of the graph. Then
    [sync_system_to_db] succeeds on every store, and [load_system_from_db]
    on the outcome builds a graph with the same student, instructor and
    course ids, the same (student, course) registration edges and the same
    (course, instructor) assignment edges. *)
Theorem sync_then_load (now : Z) (g : Lab2.State) (db : Db.Database) :
  SyncSpec.valid_entities g → SyncSpec.meets_constraints g → SyncSpec.closed g →
  ∃ db' g',
    Db.sync_system_to_db now g db = (true, db') ∧
    Db.load_system_from_db db' = Ok g' ∧
    SyncSpec.student_ids g' ≡ₚ SyncSpec.student_ids g ∧
    SyncSpec.instructor_ids g' ≡ₚ SyncSpec.instructor_ids g ∧
    SyncSpec.course_ids g' ≡ₚ SyncSpec.course_ids g ∧
    SyncSpec.same_set (SyncSpec.registration_edges g') (SyncSpec.registration_edges g) ∧
    SyncSpec.same_set (SyncSpec.assignment_edges g') (SyncSpec.assignment_edges g).
Proof.
  intros Hvalid Hcons [Hclosed_r Hclosed_a].
  destruct (sync_result now g db Hvalid Hcons) as (rows & n & Hsync & Hrows).
  destruct (load_result _ (synced_store_loadable now g rows n Hvalid Hcons))
    as (g' & Hload & Hs & Hi & Hc & Hre & Hae).
  simpl in Hs, Hi, Hc, Hre, Hae.
  assert (Hsids : map Db.p_id (map (StoreSpec.row_of_student now)
                    (map (Lab2.student_at g) (Lab2.students g))) = SyncSpec.student_ids g).
  { by rewrite !map_map. }
  assert (Hiids : map Db.p_id (map (StoreSpec.row_of_instructor now)
                    (map (Lab2.instructor_at g) (Lab2.instructors g)))
                  = SyncSpec.instructor_ids g).
  { by rewrite !map_map. }
  assert (Hcids : map Db.c_id (map (StoreSpec.row_of_course now g)
                    (map (Lab2.course_at g) (Lab2.courses g))) = SyncSpec.course_ids g).
  { by rewrite !map_map. }
  eexists _, g'. split; [exact Hsync|]. split; [exact Hload|].
  split; [|split; [|split; [|split]]].
  - rewrite Hs, <- Hsids. apply Permutation_map, order_by_perm.
  - rewrite Hi, <- Hiids. apply Permutation_map, order_by_perm.
  - rewrite Hc, <- Hcids. apply Permutation_map, order_by_perm.
  - intros e. rewrite Hre, Hsids, Hcids, Hrows. split; [tauto|].
    intros He. split; [by apply registration_edge_student|]. split; [by apply Hclosed_r | done].
  - intros e. rewrite Hae, Hiids, assignment_edge_course. split.
    + intros (c & (o & -> & (a & -> & Ha)%elem_of_map)%elem_of_map & He1 & He2 & _).
      simpl in He1, He2. unfold Db.instructor_id_of in He2.
      destruct (Lab2.instructor (Lab2.course_at g a)) as [i|] eqn:Hinst; [|done].
      injection He2 as He2. exists a, i. destruct e. simpl in *. by subst.
    + intros (a & i & Ha & Hinst & ->). exists (StoreSpec.row_of_course now g (Lab2.course_at g a)).
      simpl. split; [|split; [done|split]].
      * apply elem_of_map. eexists. split; [done|]. apply elem_of_map. eauto.
      * unfold Db.instructor_id_of. by rewrite Hinst.
      * apply (Hclosed_a (Lab2.course_id (Lab2.course_at g a),
                          Lab2.instructor_id (Lab2.instructor_at g i))).
        apply assignment_edge_course. eauto.
Qed.

(** A duplicate-free list given by its elements. *)
Ltac NoDup_concrete :=
  repeat (apply NoDup_cons; split;
          [rewrite list_elem_of_In; simpl; intuition discriminate|]);
  apply NoDup_nil_2.

(** A fact about given values. *)
Ltac concrete_fact := first [reflexivity | by vm_compute | (simpl; lia)].

(** The graph of two students, one instructor, one course and one
    registration goes to the store and comes back with its ids and edges. *)
Lemma sync_then_load_witness :
  ∃ db' g',
    Db.sync_system_to_db 3 Scenario.campus Db.empty = (true, db') ∧
    Db.load_system_from_db db' = Ok g' ∧
    SyncSpec.student_ids g' ≡ₚ ["S1"; "S2"] ∧
    SyncSpec.instructor_ids g' ≡ₚ ["I1"] ∧
    SyncSpec.course_ids g' ≡ₚ ["C1"] ∧
    SyncSpec.same_set (SyncSpec.registration_edges g') [("S1", "C1")] ∧
    SyncSpec.same_set (SyncSpec.assignment_edges g') [("C1", "I1")].
Proof.
  apply (sync_then_load 3 Scenario.campus Db.empty).
  - split; [|split]; intros a Ha; cases_elem_of Ha; subst;
      first [split; [|split; [|split]] | split]; concrete_fact.
  - split; [|split; [|split; [|split; [|split; [|split; [|split]]]]]];
      try (intros a Ha; cases_elem_of Ha; subst; concrete_fact);
      simpl; NoDup_concrete.
  - split; intros e He; cases_elem_of He; subst; simpl; elem_of_concrete.
Defined.

(** C1 (as stated) fails: the graph of two valid students that share an
    e-mail address is refused by the store, which stays as it was (here
    empty), and the graph loaded from it has no student. *)
Lemma sync_then_load_counterexample :
  SyncSpec.valid_entities DbSpec.shared_email ∧
  SyncSpec.student_ids DbSpec.shared_email = ["S1"; "S2"] ∧
  Db.sync_system_to_db 3 DbSpec.shared_email Db.empty = (false, Db.empty) ∧
  Db.load_system_from_db Db.empty = Ok Lab2.empty ∧
  SyncSpec.student_ids Lab2.empty = [].
Proof.
  split; [|split; [|split; [|split]]]; try reflexivity.
  split; [|split]; intros a Ha; cases_elem_of Ha; subst;
    first [split; [|split; [|split]] | split]; concrete_fact.
Qed.

(** ** The store: what every call keeps *)

Section store_invariant.
Import Db StoreInv StoreSpec.

Lemma NoDup_map_filter {A B} (f : A → B) (p : A → bool) (l : list A) :
  NoDup (map f l) → NoDup (map f (List.filter p l)).
Proof.
  induction l as [|x l IH]; simpl; [done|].
  intros [Hx Hl]%NoDup_cons. destruct (p x); simpl; [|by apply IH].
  apply NoDup_cons. split; [|by apply IH].
  intros (y & Hy & [Hin _]%elem_of_filter)%elem_of_map.
  apply Hx, elem_of_map. eauto.
Qed.

Lemma set_registrations_same (db : Database) :
  set_registrations (student_course_registrations db) db = db.
Proof. by destruct db. Qed.

Lemma insert_person_inv (tbl : string) (now : Z) (id name : string) (age : Z)
    (email : string) (l l' : list person_rec) :
  insert_person tbl now id name age email l = Ok l' →
  (0 ≤ age < 2 ^ 63)%Z ∧ (id ∉ map p_id l) ∧ (email ∉ map p_email l) ∧
  l' = l ++ [mkPerson id name age email now now].
Proof.
  unfold insert_person, int64_ok.
  destruct (_ && _) eqn:Hint; simpl; [|done].
  destruct (age <? 0)%Z eqn:Hneg; [done|].
  destruct (has_id id l) eqn:Hid; [done|].
  destruct (has_email email l) eqn:Hem; [done|].
  intros [= <-]. apply has_id_false in Hid. apply has_email_false in Hem.
  apply andb_true_iff in Hint as [_ Hlt]. split; [lia|done].
Qed.

Lemma persons_ok_snoc (l : list person_rec) (r : person_rec) :
  persons_ok l → (0 ≤ p_age r < 2 ^ 63)%Z →
  p_id r ∉ map p_id l → p_email r ∉ map p_email l →
  persons_ok (l ++ [r]).
Proof.
  intros (Hid & Hem & Hage) Hr Hnid Hnem. split; [|split].
  - rewrite map_app. apply NoDup_app. split; [done|]. split.
    + intros x Hx ->%list_elem_of_singleton. done.
    + apply NoDup_singleton.
  - rewrite map_app. apply NoDup_app. split; [done|]. split.
    + intros x Hx ->%list_elem_of_singleton. done.
    + apply NoDup_singleton.
  - intros x [Hx| ->%list_elem_of_singleton]%elem_of_app; [by apply Hage | done].
Qed.

Lemma persons_ok_filter (p : person_rec → bool) (l : list person_rec) :
  persons_ok l → persons_ok (List.filter p l).
Proof.
  intros (Hid & Hem & Hage). split; [|split].
  - by apply NoDup_map_filter.
  - by apply NoDup_map_filter.
  - intros r [Hr _]%elem_of_filter. by apply Hage.
Qed.

Lemma update_row_email (now : Z) (name : option string) (age : option Z)
    (e : string) (r : person_rec) :
  p_email (update_person_row now name age (Some e) r) = e.
Proof. done. Qed.

Lemma update_rows_unhit (id : string) (g : person_rec → person_rec)
    (l : list person_rec) :
  id ∉ map p_id l →
  map (λ r, if String.eqb (p_id r) id then g r else r) l = l.
Proof.
  induction l as [|x l IH]; simpl; [done|].
  intros [Hx Hl]%not_elem_of_cons.
  destruct (String.eqb_spec (p_id x) id) as [Heq|_]; [by destruct Hx|].
  by rewrite IH.
Qed.

Lemma update_rows_emails (now : Z) (id : string) (name : option string)
    (age : option Z) (e : string) (l : list person_rec) :
  NoDup (map p_id l) → NoDup (map p_email l) →
  length (List.filter (λ r, String.eqb (p_email r) e)
            (map (λ r, if String.eqb (p_id r) id
                       then update_person_row now name age (Some e) r else r) l)) ≤ 1 →
  NoDup (map p_email
           (map (λ r, if String.eqb (p_id r) id
                      then update_person_row now name age (Some e) r else r) l)).
Proof.
  induction l as [|x l IH]; simpl; [constructor|].
  intros [Hxid Hid]%NoDup_cons [Hxem Hem]%NoDup_cons.
  destruct (String.eqb_spec (p_id x) id) as [Heq|Hne].
  - subst id. rewrite (update_rows_unhit _ _ l Hxid). simpl.
    rewrite String.eqb_refl. simpl. intros Hlen.
    apply NoDup_cons. split; [|done].
    intros (y & Hy & Hin)%elem_of_map.
    assert (y ∈ List.filter (λ r, String.eqb (p_email r) e) l) as Hf.
    { apply elem_of_filter. split; [done|]. rewrite <- Hy. apply String.eqb_refl. }
    destruct (List.filter _ l); [by apply elem_of_nil in Hf | simpl in Hlen; lia].
  - intros Hlen. apply NoDup_cons. split.
    + intros (y' & Hy' & (y & -> & Hin)%elem_of_map)%elem_of_map.
      destruct (String.eqb_spec (p_id y) id) as [Hyid|_].
      * simpl in Hy'. rewrite Hy', String.eqb_refl in Hlen. simpl in Hlen.
        assert (update_person_row now name age (Some e) y ∈
                List.filter (λ r, String.eqb (p_email r) e)
                  (map (λ r, if String.eqb (p_id r) id
                             then update_person_row now name age (Some e) r else r) l)) as Hf.
        { apply elem_of_filter. split; [|by apply String.eqb_refl].
          apply elem_of_map. exists y. split; [|done].
          by rewrite (proj2 (String.eqb_eq _ _) Hyid). }
        destruct (List.filter _ (map _ l)); [by apply elem_of_nil in Hf | simpl in Hlen; lia].
      * apply Hxem, elem_of_map. eauto.
    + apply IH; [done|done|].
      destruct (String.eqb (p_email x) e); simpl in Hlen; lia.
Qed.

Lemma update_person_inv (tbl : string) (now : Z) (id : string)
    (name : option string) (age : option Z) (email : option string)
    (l l' : list person_rec) (n : nat) :
  update_person tbl now id name age email l = Ok (n, l') →
  persons_ok l → persons_ok l' ∧ map p_id l' = map p_id l.
Proof.
  unfold update_person. intros Hup (Hid & Hem & Hage).
  destruct (negb (from_option int64_ok true age)) eqn:Hint; [done|].
  destruct (Nat.eqb _ 0); [by injection Hup as _ <-|].
  destruct (from_option (λ a, (a <? 0)%Z) false age) eqn:Hneg; [done|].
  destruct (from_option _ false email) eqn:Hdup; [done|].
  injection Hup as _ <-.
  assert (Hids : map p_id (map (λ r, if String.eqb (p_id r) id
                     then update_person_row now name age email r else r) l) = map p_id l).
  { rewrite map_map. apply map_ext_elem. intros r _. by destruct (String.eqb _ _). }
  split; [|done]. split; [|split].
  - by rewrite Hids.
  - destruct email as [e|]; simpl in Hdup.
    + apply update_rows_emails; [done|done|]. apply Nat.ltb_ge in Hdup. done.
    + replace (map p_email _) with (map p_email l); [done|].
      rewrite map_map. apply map_ext_elem. intros r _. by destruct (String.eqb _ _).
  - intros r' (r & -> & Hr)%elem_of_map. specialize (Hage r Hr).
    destruct (String.eqb _ _); [|done]. simpl.
    destruct age as [a|]; simpl in *; [|done].
    apply negb_false_iff in Hint. unfold int64_ok in Hint.
    apply andb_true_iff in Hint as [_ Hlt]. lia.
Qed.


Lemma registrations_ok_filter (p : registration_rec → bool)
    (l : list registration_rec) (n : Z) :
  registrations_ok l n → registrations_ok (List.filter p l) n.
Proof.
  intros (Hp & Hid & Hle). split; [|split].
  - by apply NoDup_map_filter.
  - by apply NoDup_map_filter.
  - intros r [Hr _]%elem_of_filter. by apply Hle.
Qed.

Lemma registrations_ok_nil (n : Z) : registrations_ok [] n.
Proof. split; [|split]; [constructor | constructor | by intros r ?%elem_of_nil]. Qed.

Lemma persons_ok_nil : persons_ok [].
Proof. split; [|split]; [constructor | constructor | by intros r ?%elem_of_nil]. Qed.

Lemma schema_ok_parts (db : Database) :
  schema_ok db ↔
  persons_ok (students db) ∧ persons_ok (instructors db) ∧
  NoDup (map c_id (courses db)) ∧
  registrations_ok (student_course_registrations db) (registrations_seq db).
Proof. unfold schema_ok, registrations_ok. tauto. Qed.

Lemma cascade_student_ok (fk : bool) (gone : string → bool) (db : Database) :
  schema_ok db → schema_ok (cascade_student fk gone db).
Proof.
  destruct fk; [|done]. rewrite !schema_ok_parts. simpl.
  intros (? & ? & ? & ?). auto using registrations_ok_filter.
Qed.

Lemma cascade_course_ok (fk : bool) (gone : string → bool) (db : Database) :
  schema_ok db → schema_ok (cascade_course fk gone db).
Proof.
  destruct fk; [|done]. rewrite !schema_ok_parts. simpl.
  intros (? & ? & ? & ?). auto using registrations_ok_filter.
Qed.

Lemma set_null_instructor_ok (fk : bool) (gone : string → bool) (db : Database) :
  schema_ok db → schema_ok (set_null_instructor fk gone db).
Proof.
  destruct fk; [|done]. rewrite !schema_ok_parts. simpl.
  intros (? & ? & Hc & ?). split; [done|]. split; [done|]. split; [|done].
  rewrite map_map. erewrite map_ext_elem; [exact Hc|].
  intros c _. simpl. destruct (c_instructor_id c) as [i|]; [|done].
  by destruct (gone i).
Qed.

Lemma set_students_ok (l : list person_rec) (db : Database) :
  schema_ok db → persons_ok l → schema_ok (set_students l db).
Proof. rewrite !schema_ok_parts. simpl. tauto. Qed.

Lemma set_instructors_ok (l : list person_rec) (db : Database) :
  schema_ok db → persons_ok l → schema_ok (set_instructors l db).
Proof. rewrite !schema_ok_parts. simpl. tauto. Qed.

Lemma set_courses_ok (l : list course_rec) (db : Database) :
  schema_ok db → NoDup (map c_id l) → schema_ok (set_courses l db).
Proof. rewrite !schema_ok_parts. simpl. tauto. Qed.

Lemma set_registrations_ok (l : list registration_rec) (db : Database) :
  schema_ok db → registrations_ok l (registrations_seq db) →
  schema_ok (set_registrations l db).
Proof. rewrite !schema_ok_parts. simpl. tauto. Qed.

Lemma exec_schema_ok (fk : bool) (now : Z) (s : statement) (db : Database)
    (r : nat * Database) :
  schema_ok db → exec fk now s db = Ok r → schema_ok r.2.
Proof.
  intros Hok. pose proof Hok as Hparts. apply schema_ok_parts in Hparts.
  destruct Hparts as (Hs & Hi & Hc & Hr).
  destruct s as [t|id name age email|id name age email|id name iid|sid cid
                |id name age email|id name age email|id name iid|id|id|id|sid cid];
    simpl.
  - destruct t; intros [= <-]; simpl.
    + apply set_students_ok; [by apply cascade_student_ok | apply persons_ok_nil].
    + apply set_instructors_ok; [by apply set_null_instructor_ok | apply persons_ok_nil].
    + apply set_courses_ok; [by apply cascade_course_ok | constructor].
    + apply set_registrations_ok; [done | apply registrations_ok_nil].
  - destruct (insert_person _ _ _ _ _ _ _) as [l|] eqn:Hins; [|done].
    intros [= <-]. simpl. apply insert_person_inv in Hins as (? & ? & ? & ->).
    apply set_students_ok; [done|]. by apply persons_ok_snoc.
  - destruct (insert_person _ _ _ _ _ _ _) as [l|] eqn:Hins; [|done].
    intros [= <-]. simpl. apply insert_person_inv in Hins as (? & ? & ? & ->).
    apply set_instructors_ok; [done|]. by apply persons_ok_snoc.
  - destruct (has_course id (courses db)) eqn:Hid; [done|].
    destruct (fk && _); [done|]. intros [= <-]. simpl.
    apply set_courses_ok; [done|]. rewrite map_app. apply NoDup_app.
    split; [done|]. split; [|apply NoDup_singleton].
    intros x Hx ->%list_elem_of_singleton. by apply has_course_false in Hid.
  - destruct (has_registration sid cid _) eqn:Hreg; [done|].
    destruct (fk && _); [done|]. intros [= <-]. simpl.
    apply schema_ok_parts. simpl. split; [done|]. split; [done|]. split; [done|].
    destruct Hr as (Hp & Hrid & Hle). split; [|split].
    + rewrite map_app. apply NoDup_app. split; [done|]. split; [|apply NoDup_singleton].
      intros x Hx ->%list_elem_of_singleton. by apply has_registration_false in Hreg.
    + rewrite map_app. apply NoDup_app. split; [done|]. split; [|apply NoDup_singleton].
      intros x (y & -> & Hy)%elem_of_map ?%list_elem_of_singleton. simpl in *.
      specialize (Hle y Hy). lia.
    + intros x [Hx| ->%list_elem_of_singleton]%elem_of_app; [|simpl; lia].
      specialize (Hle x Hx). lia.
  - destruct (update_person _ _ _ _ _ _ _) as [[n l]|] eqn:Hup; [|done].
    intros [= <-]. simpl. apply update_person_inv in Hup as [? _]; [|done].
    by apply set_students_ok.
  - destruct (update_person _ _ _ _ _ _ _) as [[n l]|] eqn:Hup; [|done].
    intros [= <-]. simpl. apply update_person_inv in Hup as [? _]; [|done].
    by apply set_instructors_ok.
  - destruct (Nat.eqb _ 0); [by intros [= <-]|].
    destruct (fk && _); [done|]. intros [= <-]. simpl.
    apply set_courses_ok; [done|]. rewrite map_map.
    erewrite map_ext_elem; [exact Hc|]. intros c _. by destruct (String.eqb _ _).
  - intros [= <-]. simpl.
    apply set_students_ok; [by apply cascade_student_ok | by apply persons_ok_filter].
  - intros [= <-]. simpl.
    apply set_instructors_ok; [by apply set_null_instructor_ok | by apply persons_ok_filter].
  - intros [= <-]. simpl.
    apply set_courses_ok; [by apply cascade_course_ok | by apply NoDup_map_filter].
  - intros [= <-]. simpl.
    apply set_registrations_ok; [done | by apply registrations_ok_filter].
Qed.

Lemma run_schema_ok (fk : bool) (now : Z) (l : list statement) (db db' : Database) :
  schema_ok db → run fk now l db = Ok db' → schema_ok db'.
Proof.
  revert db. induction l as [|s l IH]; simpl; intros db Hok.
  - by intros [= <-].
  - destruct (exec fk now s db) as [r|] eqn:Hexec; [|done]. simpl.
    apply IH. by apply (exec_schema_ok fk now s db).
Qed.

Lemma call_schema_ok (f : nat → bool) (now : Z) (s : statement) (db : Database) :
  schema_ok db →
  schema_ok (or_false (with_connection (λ fk d,
               r ← exec fk now s d; Ok (f r.1, r.2)) db)).2.
Proof.
  intros Hok. unfold or_false, with_connection.
  destruct (exec connect_foreign_keys now s db) as [r|] eqn:Hexec; simpl; [|done].
  by apply (exec_schema_ok _ _ _ _ _ Hok Hexec).
Qed.

Lemma perform_schema_ok (now : Z) (c : call) (db : Database) :
  schema_ok db → schema_ok (perform now c db).2.
Proof.
  intros Hok. destruct c; cbn [perform].
  - by apply (call_schema_ok (λ _, true)).
  - by apply (call_schema_ok (λ _, true)).
  - by apply (call_schema_ok (λ _, true)).
  - by apply (call_schema_ok (λ _, true)).
  - unfold update_student. destruct name, age, email;
      first [done | by apply (call_schema_ok (λ n, 0 <? n))].
  - unfold update_instructor. destruct name, age, email;
      first [done | by apply (call_schema_ok (λ n, 0 <? n))].
  - unfold update_course. destruct name, iid;
      first [done | by apply (call_schema_ok (λ n, 0 <? n))].
  - by apply (call_schema_ok (λ n, 0 <? n)).
  - by apply (call_schema_ok (λ n, 0 <? n)).
  - by apply (call_schema_ok (λ n, 0 <? n)).
  - by apply (call_schema_ok (λ n, 0 <? n)).
  - unfold sync_system_to_db, or_false, with_connection.
    destruct (run _ _ _ _) as [db'|] eqn:Hrun; simpl; [|done].
    by apply (run_schema_ok _ _ _ _ _ Hok Hrun).
Qed.

End store_invariant.

(** X1. Whatever data-changing methods of [DatabaseManager] are called,
    with whatever arguments and in whatever order, a store that meets the
    constraints declared by [init_database] still meets them afterwards:
    student ids, instructor ids and course ids are unique, e-mail
    addresses are unique among the students and among the instructors,
    ages lie in 0 .. 2^63 - 1, no (student, course) pair is registered
    twice and the registration numbers are distinct and never above the
    AUTOINCREMENT counter. *)
Theorem store_keeps_constraints (calls : list (Z * StoreInv.call)) (db : Db.Database) :
  StoreInv.schema_ok db → StoreInv.schema_ok (StoreInv.perform_all calls db).
Proof.
  revert db. induction calls as [|[now c] calls IH]; simpl; intros db Hok; [done|].
  by apply IH, perform_schema_ok.
Qed.

(** The empty store meets the constraints, and so does what three calls
    make of it. *)
Lemma store_keeps_constraints_witness :
  StoreInv.schema_ok
    (StoreInv.perform_all
       [(1%Z, StoreInv.AddStudent (Lab2.mkStudent "John Doe" 20 "doe@x.com" "S1" []));
        (2%Z, StoreInv.Register "S1" "C1");
        (3%Z, StoreInv.UpdateStudent "S1" None (Some 21%Z) None)]
       Db.empty).
Proof.
  apply store_keeps_constraints, schema_ok_parts. simpl.
  split; [apply persons_ok_nil|]. split; [apply persons_ok_nil|].
  split; [apply NoDup_nil_2 | apply registrations_ok_nil].
Defined.

(** ** The store: insertion, registration *)

Section store_calls.
Import Db StoreSpec.

Lemma insert_person_raises (tbl : string) (now : Z) (id name : string) (age : Z)
    (email : string) (l : list person_rec) :
  ¬ ((0 ≤ age < 2 ^ 63)%Z ∧ (id ∉ map p_id l) ∧ (email ∉ map p_email l)) →
  ∃ e, insert_person tbl now id name age email l = Raise e.
Proof.
  intros Hno. destruct (insert_person tbl now id name age email l) as [l'|e] eqn:Hins.
  - apply insert_person_inv in Hins as (? & ? & ? & _). by destruct Hno.
  - by exists e.
Qed.

Lemma add_student_outcome (now : Z) (s : Lab2.Student) (db : Database) :
  add_student now s db =
    if bool_decide ((0 ≤ Lab2.s_age s < 2 ^ 63)%Z ∧
                    (Lab2.student_id s ∉ map p_id (students db)) ∧
                    (Lab2.s_email s ∉ map p_email (students db)))
    then (true, set_students (students db ++ [row_of_student now s]) db)
    else (false, db).
Proof.
  unfold add_student, or_false, with_connection. cbn [exec].
  case_bool_decide as Hc.
  - destruct Hc as (? & ? & ?). by rewrite insert_person_ok.
  - destruct (insert_person_raises "students" now _ (Lab2.s_name s) _ _ _ Hc) as [e ->].
    done.
Qed.

Lemma add_instructor_outcome (now : Z) (i : Lab2.Instructor) (db : Database) :
  add_instructor now i db =
    if bool_decide ((0 ≤ Lab2.i_age i < 2 ^ 63)%Z ∧
                    (Lab2.instructor_id i ∉ map p_id (instructors db)) ∧
                    (Lab2.i_email i ∉ map p_email (instructors db)))
    then (true, set_instructors (instructors db ++ [row_of_instructor now i]) db)
    else (false, db).
Proof.
  unfold add_instructor, or_false, with_connection. cbn [exec].
  case_bool_decide as Hc.
  - destruct Hc as (? & ? & ?). by rewrite insert_person_ok.
  - destruct (insert_person_raises "instructors" now _ (Lab2.i_name i) _ _ _ Hc) as [e ->].
    done.
Qed.

Lemma add_course_outcome (now : Z) (g : Lab2.State) (c : Lab2.Course) (db : Database) :
  add_course now g c db =
    if bool_decide (Lab2.course_id c ∉ map c_id (courses db))
    then (true, set_courses (courses db ++ [row_of_course now g c]) db)
    else (false, db).
Proof.
  unfold add_course, or_false, with_connection. cbn [exec].
  case_bool_decide as Hc.
  - apply has_course_false in Hc. by rewrite Hc.
  - destruct (has_course _ _) eqn:Hh; [done|]. by apply has_course_false in Hh.
Qed.

End store_calls.

(** X2. [add_student] returns [True] exactly when the age lies in
    0 .. 2^63 - 1 and no stored student has the id or the e-mail address of
    the new one; the row is then appended with both timestamps set to the
    time of the call. In every other case it returns [False] and the store
    is as before. [add_instructor] does the same on its own table, so a
    student and an instructor may share an id or an e-mail address.
    [add_course] returns [True] exactly when the course id is new; it does
    not look the instructor up, so the row may name an instructor that the
    store does not hold. *)
Theorem add_refuses_duplicates (now : Z) (db : Db.Database) :
  (∀ s : Lab2.Student,
     Db.add_student now s db =
       if bool_decide ((0 ≤ Lab2.s_age s < 2 ^ 63)%Z ∧
                       (Lab2.student_id s ∉ map Db.p_id (Db.students db)) ∧
                       (Lab2.s_email s ∉ map Db.p_email (Db.students db)))
       then (true, Db.set_students
                     (Db.students db ++ [StoreSpec.row_of_student now s]) db)
       else (false, db)) ∧
  (∀ i : Lab2.Instructor,
     Db.add_instructor now i db =
       if bool_decide ((0 ≤ Lab2.i_age i < 2 ^ 63)%Z ∧
                       (Lab2.instructor_id i ∉ map Db.p_id (Db.instructors db)) ∧
                       (Lab2.i_email i ∉ map Db.p_email (Db.instructors db)))
       then (true, Db.set_instructors
                     (Db.instructors db ++ [StoreSpec.row_of_instructor now i]) db)
       else (false, db)) ∧
  (∀ (g : Lab2.State) (c : Lab2.Course),
     Db.add_course now g c db =
       if bool_decide (Lab2.course_id c ∉ map Db.c_id (Db.courses db))
       then (true, Db.set_courses
                     (Db.courses db ++ [StoreSpec.row_of_course now g c]) db)
       else (false, db)).
Proof.
  split; [|split].
  - intros s. apply add_student_outcome.
  - intros i. apply add_instructor_outcome.
  - intros g c. apply add_course_outcome.
Qed.

(** X3. A pair (student id, course id) that is not registered can be
    registered, whether or not the store holds a student or a course with
    these ids: [register_student_to_course] returns [True] and the pair is
    registered. A second registration of the pair returns [False] and
    changes nothing. [unregister_student_from_course] then returns [True]
    and gives back the four tables as they were before the registration;
    only the AUTOINCREMENT counter has moved on by one. Unregistering a pair
    that is not registered returns [False] and changes nothing. *)
Theorem register_then_unregister (now now' : Z) (sid cid : string) (db : Db.Database) :
  Db.has_registration sid cid (Db.student_course_registrations db) = false →
  ∃ db1,
    Db.register_student_to_course now sid cid db = (true, db1) ∧
    Db.has_registration sid cid (Db.student_course_registrations db1) = true ∧
    Db.register_student_to_course now' sid cid db1 = (false, db1) ∧
    Db.unregister_student_from_course now' sid cid db1 =
      (true, Db.mkDb (Db.students db) (Db.instructors db) (Db.courses db)
                     (Db.student_course_registrations db)
                     (Db.registrations_seq db + 1)) ∧
    Db.unregister_student_from_course now' sid cid db = (false, db).
Proof.
  intros Hfree.
  unfold Db.register_student_to_course, Db.unregister_student_from_course,
    Db.or_false, Db.with_connection. cbn [Db.exec].
  rewrite Hfree. eexists. split; [reflexivity|]. cbn [snd].
  assert (Hnone : List.filter
            (λ r, String.eqb (Db.r_student_id r) sid && String.eqb (Db.r_course_id r) cid)
            (Db.student_course_registrations db) = []).
  { by apply filter_none. }
  assert (Hall : List.filter
            (λ r, negb (String.eqb (Db.r_student_id r) sid && String.eqb (Db.r_course_id r) cid))
            (Db.student_course_registrations db) = Db.student_course_registrations db).
  { clear Hnone. unfold Db.has_registration in Hfree.
    induction (Db.student_course_registrations db) as [|r l IH]; simpl in *; [done|].
    apply orb_false_iff in Hfree as [-> Hl]. simpl. by rewrite IH. }
  split; [|split; [|split]].
  - unfold Db.has_registration. simpl. rewrite existsb_app. simpl.
    rewrite !String.eqb_refl. simpl. apply orb_true_r.
  - unfold Db.has_registration. simpl. rewrite existsb_app. simpl.
    rewrite !String.eqb_refl. simpl. by rewrite orb_true_r.
  - simpl. rewrite !List.filter_app, Hnone, Hall. simpl. rewrite !String.eqb_refl. simpl.
    by rewrite app_nil_r.
  - simpl. rewrite Hnone, Hall. simpl. by rewrite set_registrations_same.
Qed.

(** The pair (S9, C9) names no row of the store of student S1 and course
    C1; it is registered and unregistered all the same. *)
Lemma register_then_unregister_witness :
  ∃ db1,
    Db.register_student_to_course 2 "S9" "C9" DbSpec.registered_store = (true, db1) ∧
    Db.has_registration "S9" "C9" (Db.student_course_registrations db1) = true ∧
    Db.register_student_to_course 3 "S9" "C9" db1 = (false, db1) ∧
    Db.unregister_student_from_course 3 "S9" "C9" db1 =
      (true, Db.mkDb (Db.students DbSpec.registered_store)
                     (Db.instructors DbSpec.registered_store)
                     (Db.courses DbSpec.registered_store)
                     (Db.student_course_registrations DbSpec.registered_store)
                     (Db.registrations_seq DbSpec.registered_store + 1)) ∧
    Db.unregister_student_from_course 3 "S9" "C9" DbSpec.registered_store
      = (false, DbSpec.registered_store).
Proof. apply (register_then_unregister 2 3 "S9" "C9" DbSpec.registered_store). reflexivity. Defined.

(** What the schema's FOREIGN KEY clauses do on a connection that
    enforces them: a registration that names an unknown student or an
    unknown course is refused. *)
Lemma register_refused_when_enforced (now : Z) (sid cid : string) (db : Db.Database) :
  Db.has_id sid (Db.students db) = false ∨ Db.has_course cid (Db.courses db) = false →
  is_ok (Db.exec true now (Db.InsertRegistration sid cid) db) = false.
Proof.
  intros H. cbn [Db.exec].
  destruct (Db.has_registration _ _ _); [done|].
  by destruct H as [-> | ->]; cbn [negb orb andb]; rewrite ?orb_true_r.
Qed.

(** Evaluation for C5. [register_student_to_course] tests nothing but
    the UNIQUE constraint on the pair: a pair that is not registered is
    inserted and the call returns [True], whether or not the store holds a
    student or a course with these ids; a registered pair is refused and
    nothing changes. On the store that holds student S1 and course C1
    only, registering the unknown student S9 for the unknown course C9
    returns [True] and adds the row (S9, C9). *)
Theorem register_store_accepts_unknown_ids :
  (∀ now sid cid db,
     Db.has_registration sid cid (Db.student_course_registrations db) = false →
     Db.register_student_to_course now sid cid db
     = (true, Db.mkDb (Db.students db) (Db.instructors db) (Db.courses db)
                (Db.student_course_registrations db
                 ++ [Db.mkReg (Db.registrations_seq db + 1) sid cid now])
                (Db.registrations_seq db + 1))) ∧
  (∀ now sid cid db,
     Db.has_registration sid cid (Db.student_course_registrations db) = true →
     Db.register_student_to_course now sid cid db = (false, db)) ∧
  Db.has_id "S9" (Db.students DbSpec.registered_store) = false ∧
  Db.has_course "C9" (Db.courses DbSpec.registered_store) = false ∧
  Db.register_student_to_course 2 "S9" "C9" DbSpec.registered_store
  = (true, Db.mkDb (Db.students DbSpec.registered_store)
             (Db.instructors DbSpec.registered_store)
             (Db.courses DbSpec.registered_store)
             [Db.mkReg 1 "S1" "C1" 1; Db.mkReg 2 "S9" "C9" 2] 2).
Proof.
  split; [|split; [|by vm_compute]].
  - intros now sid cid db Hfree.
    unfold Db.register_student_to_course, Db.or_false, Db.with_connection.
    cbn [Db.exec]. by rewrite Hfree.
  - intros now sid cid db Hreg.
    unfold Db.register_student_to_course, Db.or_false, Db.with_connection.
    cbn [Db.exec]. by rewrite Hreg.
Qed.

(** ** The store: queries *)

Section store_queries.
Import Db DbQuery StoreSpec.

Lemma order_by_sorted {A} (f : A → string) (l : list A) :
  StronglySorted (λ x y, String.le (f x) (f y)) (order_by f l).
Proof.
  assert (Htrans : Transitive (λ x y : A, String.le (f x) (f y))).
  { intros x y z Hxy Hyz. by etrans. }
  assert (Htotal : Total (λ x y : A, String.le (f x) (f y))).
  { intros x y. apply (total String.le). }
  apply (StronglySorted_merge_sort (λ x y : A, String.le (f x) (f y))).
Qed.

Lemma StronglySorted_map {A B} (R : relation B) (g : A → B) (l : list A) :
  StronglySorted (λ x y, R (g x) (g y)) l → StronglySorted R (map g l).
Proof.
  induction 1 as [|x l Hl IH Hx]; simpl; constructor; [done|].
  apply Forall_forall. intros y (z & -> & Hz)%elem_of_map.
  rewrite Forall_forall in Hx. by apply Hx.
Qed.

Lemma StronglySorted_flat_map {A B} (f : A → string) (key : B → string)
    (h : A → list B) (l : list A) :
  (∀ x r, r ∈ h x → key r = f x) →
  StronglySorted (λ x y, String.le (f x) (f y)) l →
  StronglySorted (λ r r', String.le (key r) (key r')) (flat_map h l).
Proof.
  intros Hkey. induction 1 as [|x l Hl IH Hx]; simpl; [constructor|].
  apply StronglySorted_app_2; [| |done].
  - intros r1 r2 Hr1 (y & Hy & Hr2)%elem_of_flat_map.
    rewrite (Hkey x r1 Hr1), (Hkey y r2 Hr2).
    rewrite Forall_forall in Hx. by apply Hx.
  - assert (Hsame : ∀ r, r ∈ h x → key r = f x) by (intros r; apply Hkey).
    induction (h x) as [|r k IHk]; constructor.
    + apply IHk. intros r' Hr'. apply Hsame. by right.
    + apply Forall_forall. intros r' Hr'.
      rewrite (Hsame r), (Hsame r'); [done | by right | by left].
Qed.

Lemma left_join_instructor_key (db : Database) (c : course_rec) r :
  r ∈ left_join_instructor db c → r.1.1.1 = c_id c ∧ r.1.1.2 = c_name c.
Proof.
  unfold left_join_instructor. destruct (List.filter _ _) as [|i l].
  - by intros ->%list_elem_of_singleton.
  - by intros (j & -> & _)%elem_of_map.
Qed.

Lemma left_join_instructor_nonempty (db : Database) (c : course_rec) :
  ∃ r, r ∈ left_join_instructor db c.
Proof.
  unfold left_join_instructor. destruct (List.filter _ _) as [|i l].
  - eexists. by left.
  - eexists. simpl. by left.
Qed.

End store_queries.

(** X4. [get_all_students] and [get_all_instructors] return every row of
    their table once, and [get_all_courses] returns at least one row for
    every course; the rows come in the order of the name, compared byte by
    byte (so every upper-case letter sorts before every lower-case one).
    The rows of [get_student_courses], [get_course_students] and
    [get_instructor_courses] come in the order of the name as well. *)
Theorem queries_ordered_by_name (db : Db.Database) :
  (Db.get_all_students db ≡ₚ
     map (λ r, (Db.p_id r, Db.p_name r, Db.p_age r, Db.p_email r)) (Db.students db) ∧
   StronglySorted (λ r r', String.le r.1.1.2 r'.1.1.2) (Db.get_all_students db)) ∧
  (Db.get_all_instructors db ≡ₚ
     map (λ r, (Db.p_id r, Db.p_name r, Db.p_age r, Db.p_email r)) (Db.instructors db) ∧
   StronglySorted (λ r r', String.le r.1.1.2 r'.1.1.2) (Db.get_all_instructors db)) ∧
  ((∀ c, c ∈ Db.courses db →
      ∃ r, r ∈ Db.get_all_courses db ∧ r.1.1.1 = Db.c_id c ∧ r.1.1.2 = Db.c_name c) ∧
   StronglySorted (λ r r', String.le r.1.1.2 r'.1.1.2) (Db.get_all_courses db)) ∧
  (∀ id,
     StronglySorted (λ r r', String.le r.2 r'.2) (Db.get_student_courses db id) ∧
     StronglySorted (λ r r', String.le r.2 r'.2) (DbQuery.get_course_students db id) ∧
     StronglySorted (λ r r', String.le r.2 r'.2) (DbQuery.get_instructor_courses db id)).
Proof.
  split; [|split; [|split]].
  - split.
    + apply Permutation_map, order_by_perm.
    + apply StronglySorted_map, order_by_sorted.
  - split.
    + apply Permutation_map, order_by_perm.
    + apply StronglySorted_map, order_by_sorted.
  - split.
    + intros c Hc. destruct (left_join_instructor_nonempty db c) as [r Hr].
      exists r. split; [|by apply (left_join_instructor_key db c)].
      apply elem_of_flat_map. exists c. split; [|done]. by apply elem_of_order_by.
    + apply (StronglySorted_flat_map Db.c_name); [|apply order_by_sorted].
      intros c r Hr. by apply (left_join_instructor_key db c).
  - intros id. split; [|split]; apply StronglySorted_map, order_by_sorted.
Qed.

Section store_joins.
Import Db DbQuery StoreSpec StoreInv.

Lemma elem_of_get_course_students (db : Database) (cid : string) (r : string * string) :
  r ∈ get_course_students db cid ↔
  ∃ s reg, s ∈ students db ∧ reg ∈ student_course_registrations db ∧
           p_id s = r_student_id reg ∧ r_course_id reg = cid ∧
           r = (p_id s, p_name s).
Proof.
  unfold get_course_students. rewrite elem_of_map. split.
  - intros (s & -> & (s' & Hs' & Hx)%elem_of_order_by%elem_of_flat_map).
    apply elem_of_flat_map in Hx as (reg & Hreg & Hin).
    destruct (String.eqb_spec (p_id s') (r_student_id reg)) as [Hsid|];
      [|by apply elem_of_nil in Hin].
    destruct (String.eqb_spec (r_course_id reg) cid) as [Hcid|];
      [|by apply elem_of_nil in Hin].
    apply list_elem_of_singleton in Hin as ->. exists s', reg. done.
  - intros (s & reg & Hs & Hreg & Hsid & Hcid & ->). exists s. split; [done|].
    apply elem_of_order_by, elem_of_flat_map. exists s. split; [done|].
    apply elem_of_flat_map. exists reg. split; [done|].
    rewrite Hsid, Hcid, !String.eqb_refl. by left.
Qed.

Lemma elem_of_get_instructor_courses (db : Database) (iid : string)
    (r : string * string) :
  r ∈ get_instructor_courses db iid ↔
  ∃ c, c ∈ courses db ∧ c_instructor_id c = Some iid ∧ r = (c_id c, c_name c).
Proof.
  unfold get_instructor_courses. rewrite elem_of_map. split.
  - intros (c & -> & [Hc Hi%bool_decide_eq_true]%elem_of_order_by%elem_of_filter). eauto.
  - intros (c & Hc & Hi & ->). exists c. split; [done|].
    apply elem_of_order_by, elem_of_filter. split; [done|]. by apply bool_decide_eq_true.
Qed.

(** The rows a join repeats: one copy for every matching row of the other
    table. *)
Lemma join_copies {A B} (p : B → bool) (x : A) (l : list B) :
  flat_map (λ r, if p r then [x] else []) l = map (λ _, x) (List.filter p l).
Proof.
  induction l as [|r l IH]; simpl; [done|]. destruct (p r); simpl; by rewrite IH.
Qed.

Lemma filter_key_once {B K} `{EqDecision K} (g : B → K) (p : B → bool) (v : K)
    (l : list B) :
  NoDup (map g l) → (∀ r, p r = true → g r = v) →
  length (List.filter p l) ≤ 1.
Proof.
  intros Hnd Hp. induction l as [|r l IH]; simpl; [lia|].
  apply NoDup_cons in Hnd as [Hr Hl]. destruct (p r) eqn:Hpr; [|by apply IH].
  simpl. destruct (List.filter p l) as [|r' k] eqn:Hf; [simpl; lia|].
  assert (r' ∈ List.filter p l) as [Hin Hpr']%elem_of_filter by (rewrite Hf; by left).
  destruct Hr. apply elem_of_map. exists r'. split; [|done].
  by rewrite (Hp r Hpr), (Hp r' Hpr').
Qed.

Lemma join_NoDup {A B} (key : A → string) (cond : A → B → bool)
    (rows : list A) (others : list B) :
  NoDup (map key rows) →
  (∀ x, length (List.filter (cond x) others) ≤ 1) →
  NoDup (map key (flat_map (λ x, flat_map (λ r, if cond x r then [x] else []) others)
                           rows)).
Proof.
  intros Hnd Hone. induction rows as [|x rows IH]; simpl; [constructor|].
  apply NoDup_cons in Hnd as [Hx Hrows]. rewrite join_copies.
  specialize (Hone x). destruct (List.filter (cond x) others) as [|r [|r' k]];
    simpl in *; [by apply IH | | lia].
  apply NoDup_cons. split; [|by apply IH].
  intros (y & Hy & (z & Hz & Hin)%elem_of_flat_map)%elem_of_map.
  rewrite join_copies in Hin. apply elem_of_map in Hin as (_ & -> & _).
  apply Hx, elem_of_map. eauto.
Qed.

Lemma NoDup_map_fst {A} (f g : A → string) (l : list A) :
  NoDup (map f l) → NoDup (map fst (map (λ x, (f x, g x)) l)).
Proof. by rewrite map_map. Qed.

Lemma order_by_NoDup {A} (f key : A → string) (l : list A) :
  NoDup (map key l) → NoDup (map key (order_by f l)).
Proof.
  intros Hnd.
  assert (map key (order_by f l) ≡ₚ map key l) as Hperm
    by apply Permutation_map, order_by_perm.
  by rewrite Hperm.
Qed.

End store_joins.

(** X5. [get_student_courses(sid)] lists a course id exactly when the
    store holds a course row with that id and a registration of [sid] to
    it; whether a student row with the id [sid] exists plays no part.
    [get_course_students(cid)] lists a student id exactly when the store
    holds a student row with that id and a registration of it to [cid];
    whether a course row exists plays no part. [get_instructor_courses]
    lists the courses whose row names the instructor. In a store that
    meets the declared constraints no id is listed twice. *)
Theorem enrolment_queries (db : Db.Database) (sid cid iid : string) :
  ((∃ nm, (cid, nm) ∈ Db.get_student_courses db sid) ↔
     cid ∈ map Db.c_id (Db.courses db) ∧
     (sid, cid) ∈ map StoreSpec.pair_of (Db.student_course_registrations db)) ∧
  ((∃ nm, (sid, nm) ∈ DbQuery.get_course_students db cid) ↔
     sid ∈ map Db.p_id (Db.students db) ∧
     (sid, cid) ∈ map StoreSpec.pair_of (Db.student_course_registrations db)) ∧
  (∀ r, r ∈ DbQuery.get_instructor_courses db iid ↔
     ∃ c, c ∈ Db.courses db ∧ Db.c_instructor_id c = Some iid ∧
          r = (Db.c_id c, Db.c_name c)) ∧
  (StoreInv.schema_ok db →
     NoDup (map fst (Db.get_student_courses db sid)) ∧
     NoDup (map fst (DbQuery.get_course_students db cid)) ∧
     NoDup (map fst (DbQuery.get_instructor_courses db iid))).
Proof.
  split; [|split; [|split]].
  - split.
    + intros (nm & (c & reg & Hc & Hreg & Hcid & Hsid & [= -> ->])%elem_of_get_student_courses).
      split; [apply elem_of_map; eauto|].
      apply elem_of_map. exists reg. split; [|done]. unfold StoreSpec.pair_of. congruence.
    + intros [(c & -> & Hc)%elem_of_map (reg & Heq & Hreg)%elem_of_map].
      exists (Db.c_name c). apply elem_of_get_student_courses. exists c, reg.
      unfold StoreSpec.pair_of in Heq. injection Heq as -> Hcid. done.
  - split.
    + intros (nm & (s & reg & Hs & Hreg & Hsid & Hcid & [= -> ->])%elem_of_get_course_students).
      split; [apply elem_of_map; eauto|].
      apply elem_of_map. exists reg. split; [|done]. unfold StoreSpec.pair_of. congruence.
    + intros [(s & -> & Hs)%elem_of_map (reg & Heq & Hreg)%elem_of_map].
      exists (Db.p_name s). apply elem_of_get_course_students. exists s, reg.
      unfold StoreSpec.pair_of in Heq. injection Heq as Hsid ->. done.
  - apply elem_of_get_instructor_courses.
  - intros ((Hsid & _) & _ & Hcid & Hpairs & _). split; [|split].
    + unfold Db.get_student_courses. apply NoDup_map_fst, order_by_NoDup, join_NoDup; [done|].
      intros c. apply (filter_key_once StoreSpec.pair_of _ (sid, Db.c_id c)); [done|].
      intros r [Hc Hs]%andb_true_iff. apply String.eqb_eq in Hc, Hs.
      unfold StoreSpec.pair_of. congruence.
    + unfold DbQuery.get_course_students.
      apply NoDup_map_fst, order_by_NoDup, join_NoDup; [done|].
      intros s. apply (filter_key_once StoreSpec.pair_of _ (Db.p_id s, cid)); [done|].
      intros r [Hs Hc]%andb_true_iff. apply String.eqb_eq in Hc, Hs.
      unfold StoreSpec.pair_of. congruence.
    + unfold DbQuery.get_instructor_courses.
      apply NoDup_map_fst, order_by_NoDup. by apply NoDup_map_filter.
Qed.

(** ** The store: when a synchronisation goes through *)

Section store_sync.
Import Db StoreSpec StoreInv.

Lemma run_insert_students_inv (fk : bool) (now : Z) (objs : list Lab2.Student)
    (db db' : Database) :
  run fk now (map (λ s, InsertStudent (Lab2.student_id s) (Lab2.s_name s)
                                      (Lab2.s_age s) (Lab2.s_email s)) objs) db
    = Ok db' →
  NoDup (map p_id (students db)) → NoDup (map p_email (students db)) →
  NoDup (map p_id (students db) ++ map Lab2.student_id objs) ∧
  NoDup (map p_email (students db) ++ map Lab2.s_email objs) ∧
  (∀ s, s ∈ objs → (0 ≤ Lab2.s_age s < 2 ^ 63)%Z).
Proof.
  revert db. induction objs as [|s objs IH]; intros db; simpl.
  - intros _ Hid Hem. rewrite !app_nil_r. split; [done|]. split; [done|].
    by intros s ?%elem_of_nil.
  - destruct (insert_person _ _ _ _ _ _ _) as [l|] eqn:Hins; [|done]. simpl.
    apply insert_person_inv in Hins as (Hage & Hnid & Hnem & ->).
    intros Hrun Hid Hem. destruct (IH _ Hrun) as (Hid' & Hem' & Hage'); simpl.
    + rewrite map_app. apply NoDup_app. split; [done|].
      split; [|apply NoDup_singleton]. by intros x Hx ->%list_elem_of_singleton.
    + rewrite map_app. apply NoDup_app. split; [done|].
      split; [|apply NoDup_singleton]. by intros x Hx ->%list_elem_of_singleton.
    + simpl in Hid', Hem'. rewrite map_app, <- app_assoc in Hid', Hem'.
      split; [done|]. split; [done|].
      intros s' [->|Hs']%elem_of_cons; [done | by apply Hage'].
Qed.

Lemma run_insert_instructors_inv (fk : bool) (now : Z) (objs : list Lab2.Instructor)
    (db db' : Database) :
  run fk now (map (λ i, InsertInstructor (Lab2.instructor_id i) (Lab2.i_name i)
                                         (Lab2.i_age i) (Lab2.i_email i)) objs) db
    = Ok db' →
  NoDup (map p_id (instructors db)) → NoDup (map p_email (instructors db)) →
  NoDup (map p_id (instructors db) ++ map Lab2.instructor_id objs) ∧
  NoDup (map p_email (instructors db) ++ map Lab2.i_email objs) ∧
  (∀ i, i ∈ objs → (0 ≤ Lab2.i_age i < 2 ^ 63)%Z).
Proof.
  revert db. induction objs as [|s objs IH]; intros db; simpl.
  - intros _ Hid Hem. rewrite !app_nil_r. split; [done|]. split; [done|].
    by intros s ?%elem_of_nil.
  - destruct (insert_person _ _ _ _ _ _ _) as [l|] eqn:Hins; [|done]. simpl.
    apply insert_person_inv in Hins as (Hage & Hnid & Hnem & ->).
    intros Hrun Hid Hem. destruct (IH _ Hrun) as (Hid' & Hem' & Hage'); simpl.
    + rewrite map_app. apply NoDup_app. split; [done|].
      split; [|apply NoDup_singleton]. by intros x Hx ->%list_elem_of_singleton.
    + rewrite map_app. apply NoDup_app. split; [done|].
      split; [|apply NoDup_singleton]. by intros x Hx ->%list_elem_of_singleton.
    + simpl in Hid', Hem'. rewrite map_app, <- app_assoc in Hid', Hem'.
      split; [done|]. split; [done|].
      intros s' [->|Hs']%elem_of_cons; [done | by apply Hage'].
Qed.

Lemma run_insert_courses_inv (now : Z) (g : Lab2.State) (objs : list Lab2.Course)
    (db db' : Database) :
  run false now (map (λ c, InsertCourse (Lab2.course_id c) (Lab2.course_name c)
                                        (instructor_id_of g c)) objs) db
    = Ok db' →
  NoDup (map c_id (courses db)) →
  NoDup (map c_id (courses db) ++ map Lab2.course_id objs).
Proof.
  revert db. induction objs as [|c objs IH]; intros db; simpl.
  - intros _ Hid. by rewrite app_nil_r.
  - destruct (has_course _ _) eqn:Hnew; [done|]. simpl.
    apply has_course_false in Hnew.
    intros Hrun Hid. specialize (IH _ Hrun). simpl in IH.
    rewrite map_app, <- app_assoc in IH. apply IH.
    apply NoDup_app. split; [done|].
    split; [|apply NoDup_singleton]. by intros x Hx ->%list_elem_of_singleton.
Qed.

Lemma run_insert_registrations_inv (now : Z) (edges : list (string * string))
    (db db' : Database) :
  run false now (map (λ e, InsertRegistration e.1 e.2) edges) db = Ok db' →
  NoDup (map pair_of (student_course_registrations db)) →
  NoDup (map pair_of (student_course_registrations db) ++ edges).
Proof.
  revert db. induction edges as [|[sid cid] edges IH]; intros db; simpl.
  - intros _ Hnd. by rewrite app_nil_r.
  - destruct (has_registration _ _ _) eqn:Hnew; [done|]. simpl.
    apply has_registration_false in Hnew.
    intros Hrun Hnd. specialize (IH _ Hrun). simpl in IH.
    rewrite map_app, <- app_assoc in IH. apply IH.
    apply NoDup_app. split; [done|].
    split; [|apply NoDup_singleton]. by intros x Hx ->%list_elem_of_singleton.
Qed.

(** The statements of a synchronisation, by phase. *)
Lemma sync_statements_phases (g : Lab2.State) :
  sync_statements g =
    [DeleteAll Registrations; DeleteAll Courses; DeleteAll Instructors; DeleteAll Students]
    ++ map (λ s, InsertStudent (Lab2.student_id s) (Lab2.s_name s) (Lab2.s_age s)
                               (Lab2.s_email s))
           (map (Lab2.student_at g) (Lab2.students g))
    ++ map (λ i, InsertInstructor (Lab2.instructor_id i) (Lab2.i_name i) (Lab2.i_age i)
                                  (Lab2.i_email i))
           (map (Lab2.instructor_at g) (Lab2.instructors g))
    ++ map (λ c, InsertCourse (Lab2.course_id c) (Lab2.course_name c)
                              (instructor_id_of g c))
           (map (Lab2.course_at g) (Lab2.courses g))
    ++ map (λ e, InsertRegistration e.1 e.2) (SyncSpec.registration_edges g).
Proof.
  unfold sync_statements. by rewrite registration_statements, !map_map.
Qed.

Lemma run_deletes (now : Z) (db : Database) :
  run false now [DeleteAll Registrations; DeleteAll Courses;
                 DeleteAll Instructors; DeleteAll Students] db
    = Ok (mkDb [] [] [] [] (registrations_seq db)).
Proof. done. Qed.

Lemma sync_storable (now : Z) (g : Lab2.State) (db : Database) :
  storable g →
  ∃ rows n,
    sync_system_to_db now g db =
      (true, mkDb (map (row_of_student now) (map (Lab2.student_at g) (Lab2.students g)))
                  (map (row_of_instructor now) (map (Lab2.instructor_at g) (Lab2.instructors g)))
                  (map (row_of_course now g) (map (Lab2.course_at g) (Lab2.courses g)))
                  rows n) ∧
    map pair_of rows = SyncSpec.registration_edges g.
Proof.
  intros ((Hsid & Hsem & Hsage) & (Hiid & Hiem & Hiage) & Hcid & Hreg).
  unfold sync_system_to_db, with_connection, connect_foreign_keys.
  rewrite sync_statements_phases, run_app, run_deletes.
  cbn [mbind result_bind].
  rewrite run_app, run_insert_students; cycle 1.
  { simpl. by rewrite map_map. }
  { simpl. by rewrite map_map. }
  { intros s [a [-> Ha]]%elem_of_map. by apply Hsage. }
  cbn [mbind result_bind].
  rewrite run_app, run_insert_instructors; cycle 1.
  { simpl. by rewrite map_map. }
  { simpl. by rewrite map_map. }
  { intros s [a [-> Ha]]%elem_of_map. by apply Hiage. }
  cbn [mbind result_bind].
  rewrite run_app, run_insert_courses; cycle 1.
  { simpl. by rewrite map_map. }
  cbn [mbind result_bind].
  match goal with |- context [run false now _ ?d] =>
    destruct (run_insert_registrations now (SyncSpec.registration_edges g) d)
      as (rows & n & Hrun & Hrows); [done|]
  end.
  exists rows, n. rewrite Hrun. done.
Qed.

Lemma sync_true_storable (now : Z) (g : Lab2.State) (db : Database) :
  (sync_system_to_db now g db).1 = true → storable g.
Proof.
  unfold sync_system_to_db, with_connection, connect_foreign_keys, or_false.
  destruct (run false now (sync_statements g) db) as [db'|] eqn:Hrun; [|done].
  intros _. rewrite sync_statements_phases, run_app, run_deletes in Hrun.
  cbn [mbind result_bind] in Hrun. rewrite run_app in Hrun.
  match type of Hrun with context [run false now ?l ?d ≫= _] =>
    destruct (run false now l d) as [d1|] eqn:H1; [|done]
  end.
  destruct (run_insert_students_inv _ _ _ _ _ H1) as (Hsid & Hsem & Hsage);
    [constructor | constructor |].
  rewrite run_insert_students in H1 by done. injection H1 as <-.
  cbn [mbind result_bind] in Hrun. rewrite run_app in Hrun.
  match type of Hrun with context [run false now ?l ?d ≫= _] =>
    destruct (run false now l d) as [d2|] eqn:H2; [|done]
  end.
  destruct (run_insert_instructors_inv _ _ _ _ _ H2) as (Hiid & Hiem & Hiage);
    [constructor | constructor |].
  rewrite run_insert_instructors in H2 by done. injection H2 as <-.
  cbn [mbind result_bind] in Hrun. rewrite run_app in Hrun.
  match type of Hrun with context [run false now ?l ?d ≫= _] =>
    destruct (run false now l d) as [d3|] eqn:H3; [|done]
  end.
  pose proof (run_insert_courses_inv _ _ _ _ _ H3) as Hcid.
  rewrite run_insert_courses in H3 by (apply Hcid; constructor). injection H3 as <-.
  cbn [mbind result_bind] in Hrun.
  pose proof (run_insert_registrations_inv _ _ _ _ Hrun) as Hreg.
  simpl in *. rewrite map_map in Hsid, Hsem, Hiid, Hiem, Hcid.
  split; [|split; [|split]].
  - split; [done|]. split; [done|].
    intros a Ha. apply Hsage, elem_of_map. eauto.
  - split; [done|]. split; [done|].
    intros a Ha. apply Hiage, elem_of_map. eauto.
  - apply Hcid. constructor.
  - apply Hreg. constructor.
Qed.

End store_sync.

(** X6. [sync_system_to_db] returns [True] exactly for the graphs in
    which the ids are unique within each kind, the e-mail addresses are
    unique among the students and among the instructors, every age lies in
    0 .. 2^63 - 1, and no student holds two courses with the same id.
    Whatever the store held before, it then holds one row for every entity
    of the graph, in the order of the graph's lists and stamped with the
    time of the call, and one registration row for every course in a
    student's list. Neither the instructor of a course nor the course of a
    registration has to be part of the graph. *)
Theorem sync_succeeds_iff (now : Z) (g : Lab2.State) (db : Db.Database) :
  ((Db.sync_system_to_db now g db).1 = true ↔ StoreInv.storable g) ∧
  (StoreInv.storable g →
     Db.students (Db.sync_system_to_db now g db).2 =
       map (StoreSpec.row_of_student now) (map (Lab2.student_at g) (Lab2.students g)) ∧
     Db.instructors (Db.sync_system_to_db now g db).2 =
       map (StoreSpec.row_of_instructor now)
           (map (Lab2.instructor_at g) (Lab2.instructors g)) ∧
     Db.courses (Db.sync_system_to_db now g db).2 =
       map (StoreSpec.row_of_course now g) (map (Lab2.course_at g) (Lab2.courses g)) ∧
     map StoreSpec.pair_of
         (Db.student_course_registrations (Db.sync_system_to_db now g db).2)
       = SyncSpec.registration_edges g).
Proof.
  split.
  - split; [apply sync_true_storable|].
    intros Hst. destruct (sync_storable now g db Hst) as (rows & n & -> & _). done.
  - intros Hst. destruct (sync_storable now g db Hst) as (rows & n & -> & Hrows). done.
Qed.

(** ** The store: the steps of a synchronisation *)

Section store_sync_order.
Import Db StoreSpec StoreInv.

(** The four deletions, one after the other. *)
Lemma run_deletes_steps (now : Z) (db : Database) :
  run connect_foreign_keys now [DeleteAll Registrations] db
    = Ok (mkDb (students db) (instructors db) (courses db) [] (registrations_seq db)) ∧
  run connect_foreign_keys now [DeleteAll Registrations; DeleteAll Courses] db
    = Ok (mkDb (students db) (instructors db) [] [] (registrations_seq db)) ∧
  run connect_foreign_keys now
      [DeleteAll Registrations; DeleteAll Courses; DeleteAll Instructors] db
    = Ok (mkDb (students db) [] [] [] (registrations_seq db)) ∧
  run connect_foreign_keys now
      [DeleteAll Registrations; DeleteAll Courses; DeleteAll Instructors;
       DeleteAll Students] db
    = Ok (mkDb [] [] [] [] (registrations_seq db)).
Proof. done. Qed.

(** The insertions of a graph that the store accepts, phase by phase. *)
Lemma sync_phases (now : Z) (g : Lab2.State) (db : Database) :
  storable g →
  let deletes := [DeleteAll Registrations; DeleteAll Courses; DeleteAll Instructors;
                  DeleteAll Students] in
  let ss := map (λ s, InsertStudent (Lab2.student_id s) (Lab2.s_name s) (Lab2.s_age s)
                                    (Lab2.s_email s))
                (map (Lab2.student_at g) (Lab2.students g)) in
  let ii := map (λ i, InsertInstructor (Lab2.instructor_id i) (Lab2.i_name i)
                                       (Lab2.i_age i) (Lab2.i_email i))
                (map (Lab2.instructor_at g) (Lab2.instructors g)) in
  let cc := map (λ c, InsertCourse (Lab2.course_id c) (Lab2.course_name c)
                                   (instructor_id_of g c))
                (map (Lab2.course_at g) (Lab2.courses g)) in
  let rs := map (row_of_student now) (map (Lab2.student_at g) (Lab2.students g)) in
  let ri := map (row_of_instructor now)
                (map (Lab2.instructor_at g) (Lab2.instructors g)) in
  let rc := map (row_of_course now g) (map (Lab2.course_at g) (Lab2.courses g)) in
  ∃ rows n,
    run connect_foreign_keys now (deletes ++ ss) db
      = Ok (mkDb rs [] [] [] (registrations_seq db)) ∧
    run connect_foreign_keys now (deletes ++ ss ++ ii) db
      = Ok (mkDb rs ri [] [] (registrations_seq db)) ∧
    run connect_foreign_keys now (deletes ++ ss ++ ii ++ cc) db
      = Ok (mkDb rs ri rc [] (registrations_seq db)) ∧
    run connect_foreign_keys now (sync_statements g) db = Ok (mkDb rs ri rc rows n) ∧
    map pair_of rows = SyncSpec.registration_edges g.
Proof.
  intros ((Hsid & Hsem & Hsage) & (Hiid & Hiem & Hiage) & Hcid & Hreg).
  intros deletes ss ii cc rs ri rc. unfold connect_foreign_keys.
  set (db0 := mkDb [] [] [] [] (registrations_seq db)).
  assert (H0 : run false now deletes db = Ok db0) by apply run_deletes.
  assert (H1 : run false now ss db0 = Ok (mkDb rs [] [] [] (registrations_seq db))).
  { unfold ss. rewrite run_insert_students; [done| | |].
    - simpl. by rewrite map_map.
    - simpl. by rewrite map_map.
    - intros s [a [-> Ha]]%elem_of_map. by apply Hsage. }
  assert (H2 : run false now ii (mkDb rs [] [] [] (registrations_seq db))
               = Ok (mkDb rs ri [] [] (registrations_seq db))).
  { unfold ii. rewrite run_insert_instructors; [done| | |].
    - simpl. by rewrite map_map.
    - simpl. by rewrite map_map.
    - intros s [a [-> Ha]]%elem_of_map. by apply Hiage. }
  assert (H3 : run false now cc (mkDb rs ri [] [] (registrations_seq db))
               = Ok (mkDb rs ri rc [] (registrations_seq db))).
  { unfold cc. rewrite run_insert_courses; [done|]. simpl. by rewrite map_map. }
  destruct (run_insert_registrations now (SyncSpec.registration_edges g)
              (mkDb rs ri rc [] (registrations_seq db)))
    as (rows & n & H4 & Hrows); [done|].
  exists rows, n.
  split; [by rewrite run_app, H0; cbn [mbind result_bind]|].
  split.
  { rewrite run_app, H0. cbn [mbind result_bind]. rewrite run_app, H1. done. }
  split.
  { rewrite run_app, H0. cbn [mbind result_bind]. rewrite run_app, H1.
    cbn [mbind result_bind]. rewrite run_app, H2. done. }
  split; [|done].
  rewrite sync_statements_phases. fold deletes ss ii cc.
  rewrite run_app, H0. cbn [mbind result_bind]. rewrite run_app, H1.
  cbn [mbind result_bind]. rewrite run_app, H2. cbn [mbind result_bind].
  rewrite run_app, H3. cbn [mbind result_bind]. exact H4.
Qed.

End store_sync_order.

(** C3. [sync_system_to_db] executes, in this order, the deletion of all
    registrations, courses, instructors and students, then the insertions
    of the students, the instructors, the courses and the registrations.
    The deletions empty the four tables one after the other, whatever they
    held. It is all or nothing: when a statement raises, whatever ran
    before it, the call returns [False] and the store is the one before the
    call. When the call returns [True] every statement ran: the insertions
    filled first the student table, then the instructor table, then the
    course table, each with one row for every entity of the graph while
    the tables after it were still empty, then the registration table with
    one row for every course in a student's list, and that is the store
    after the call. *)
Theorem sync_order_all_or_nothing (now : Z) (g : Lab2.State) (db : Db.Database) :
  ∃ ss ii cc rr,
    Db.sync_statements g =
      [Db.DeleteAll Db.Registrations; Db.DeleteAll Db.Courses;
       Db.DeleteAll Db.Instructors; Db.DeleteAll Db.Students]
      ++ ss ++ ii ++ cc ++ rr ∧
    Forall (DbSpec.inserts_into Db.Students) ss ∧
    Forall (DbSpec.inserts_into Db.Instructors) ii ∧
    Forall (DbSpec.inserts_into Db.Courses) cc ∧
    Forall (DbSpec.inserts_into Db.Registrations) rr ∧
    Db.run Db.connect_foreign_keys now [Db.DeleteAll Db.Registrations] db
      = Ok (Db.mkDb (Db.students db) (Db.instructors db) (Db.courses db) []
                    (Db.registrations_seq db)) ∧
    Db.run Db.connect_foreign_keys now
        [Db.DeleteAll Db.Registrations; Db.DeleteAll Db.Courses] db
      = Ok (Db.mkDb (Db.students db) (Db.instructors db) [] []
                    (Db.registrations_seq db)) ∧
    Db.run Db.connect_foreign_keys now
        [Db.DeleteAll Db.Registrations; Db.DeleteAll Db.Courses;
         Db.DeleteAll Db.Instructors] db
      = Ok (Db.mkDb (Db.students db) [] [] [] (Db.registrations_seq db)) ∧
    Db.run Db.connect_foreign_keys now
        [Db.DeleteAll Db.Registrations; Db.DeleteAll Db.Courses;
         Db.DeleteAll Db.Instructors; Db.DeleteAll Db.Students] db
      = Ok (Db.mkDb [] [] [] [] (Db.registrations_seq db)) ∧
    (∀ before s after db1 e,
       Db.sync_statements g = before ++ s :: after →
       Db.run Db.connect_foreign_keys now before db = Ok db1 →
       Db.exec Db.connect_foreign_keys now s db1 = Raise e →
       Db.sync_system_to_db now g db = (false, db)) ∧
    (∀ db',
       Db.run Db.connect_foreign_keys now (Db.sync_statements g) db = Ok db' →
       Db.sync_system_to_db now g db = (true, db')) ∧
    ((Db.sync_system_to_db now g db).1 = false →
       (Db.sync_system_to_db now g db).2 = db) ∧
    ((Db.sync_system_to_db now g db).1 = true →
       let deletes := [Db.DeleteAll Db.Registrations; Db.DeleteAll Db.Courses;
                       Db.DeleteAll Db.Instructors; Db.DeleteAll Db.Students] in
       let rs := map (StoreSpec.row_of_student now)
                     (map (Lab2.student_at g) (Lab2.students g)) in
       let ri := map (StoreSpec.row_of_instructor now)
                     (map (Lab2.instructor_at g) (Lab2.instructors g)) in
       let rc := map (StoreSpec.row_of_course now g)
                     (map (Lab2.course_at g) (Lab2.courses g)) in
       ∃ rows n,
         Db.run Db.connect_foreign_keys now (deletes ++ ss) db
           = Ok (Db.mkDb rs [] [] [] (Db.registrations_seq db)) ∧
         Db.run Db.connect_foreign_keys now (deletes ++ ss ++ ii) db
           = Ok (Db.mkDb rs ri [] [] (Db.registrations_seq db)) ∧
         Db.run Db.connect_foreign_keys now (deletes ++ ss ++ ii ++ cc) db
           = Ok (Db.mkDb rs ri rc [] (Db.registrations_seq db)) ∧
         Db.sync_system_to_db now g db = (true, Db.mkDb rs ri rc rows n) ∧
         map StoreSpec.pair_of rows = SyncSpec.registration_edges g).
Proof.
  eexists _, _, _, _. split; [apply sync_statements_phases|].
  split; [|split; [|split; [|split]]].
  - apply Forall_forall. intros s [a [<- _]]%list_elem_of_In%in_map_iff. done.
  - apply Forall_forall. intros s [a [<- _]]%list_elem_of_In%in_map_iff. done.
  - apply Forall_forall. intros s [a [<- _]]%list_elem_of_In%in_map_iff. done.
  - apply Forall_forall. intros s [a [<- _]]%list_elem_of_In%in_map_iff. done.
  - destruct (run_deletes_steps now db) as (D1 & D2 & D3 & D4).
    split; [done|]. split; [done|]. split; [done|]. split; [done|].
    split; [|split; [|split; [|]]].
    + intros before s after db1 e Hsplit Hrun Hexec.
      unfold Db.sync_system_to_db, Db.with_connection, Db.or_false.
      rewrite Hsplit, (run_raises _ _ _ _ _ _ _ _ Hrun Hexec). done.
    + intros db' Hrun.
      unfold Db.sync_system_to_db, Db.with_connection, Db.or_false.
      by rewrite Hrun.
    + unfold Db.sync_system_to_db, Db.with_connection, Db.or_false.
      destruct (Db.run Db.connect_foreign_keys now (Db.sync_statements g) db);
        simpl; [discriminate | done].
    + intros Hok%sync_true_storable. cbn zeta.
      destruct (sync_phases now g db Hok) as (rows & n & P1 & P2 & P3 & P4 & P5).
      exists rows, n. split; [done|]. split; [done|]. split; [done|].
      split; [|done].
      unfold Db.sync_system_to_db, Db.with_connection, Db.or_false.
      by rewrite P4.
Qed.

(** The graph with two students that share an e-mail address: the second
    insertion into [students] violates the UNIQUE constraint after the four
    deletions and the first insertion ran, and the store keeps the rows it
    had. *)
Lemma sync_order_all_or_nothing_witness :
  Db.sync_system_to_db 7 DbSpec.shared_email DbSpec.registered_store
    = (false, DbSpec.registered_store).
Proof.
  destruct (sync_order_all_or_nothing 7 DbSpec.shared_email DbSpec.registered_store)
    as (ss & ii & cc & rr & _ & _ & _ & _ & _ & _ & _ & _ & _ & Hfail & _).
  apply (Hfail [Db.DeleteAll Db.Registrations; Db.DeleteAll Db.Courses;
                Db.DeleteAll Db.Instructors; Db.DeleteAll Db.Students;
                Db.InsertStudent "S1" "Ann" 20 "ann@x.com"]
               (Db.InsertStudent "S2" "Bob" 21 "ann@x.com") []
               (Db.mkDb [Db.mkPerson "S1" "Ann" 20 "ann@x.com" 7 7] [] [] [] 1)
               (IntegrityError "UNIQUE constraint failed: students.email"));
    reflexivity.
Defined.

(** ** The store: statistics *)

Section store_statistics.
Import Db DbQuery.

Lemma by_count_sorted (l : list (string * nat)) :
  StronglySorted (λ x y : string * nat, y.2 ≤ x.2)
                 (merge_sort (λ x y : string * nat, y.2 ≤ x.2) l).
Proof.
  assert (Htrans : Transitive (λ x y : string * nat, y.2 ≤ x.2)).
  { intros x y z Hxy Hyz. lia. }
  assert (Htotal : Total (λ x y : string * nat, y.2 ≤ x.2)).
  { intros x y. lia. }
  apply (StronglySorted_merge_sort (λ x y : string * nat, y.2 ≤ x.2)).
Qed.

End store_statistics.

(** X7. [get_database_statistics] reports the number of rows of the four
    tables and, under [popular_courses], the five courses with the most
    registrations (all courses when there are fewer than five), each with
    its name and the number of registration rows that carry its id, the
    largest number first. Every course left out has at most as many
    registrations as every course listed; a course without registration is
    counted with 0. *)
Theorem statistics_popular_courses (db : Db.Database) :
  let st := DbQuery.get_database_statistics db in
  length (DbQuery.popular_courses st) = min 5 (length (Db.courses db)) ∧
  StronglySorted (λ x y : string * nat, y.2 ≤ x.2) (DbQuery.popular_courses st) ∧
  (∀ x, x ∈ DbQuery.popular_courses st →
        ∃ c, c ∈ Db.courses db ∧
             x = (Db.c_name c,
                  length (List.filter (λ r, String.eqb (Db.c_id c) (Db.r_course_id r))
                                      (Db.student_course_registrations db)))) ∧
  (∀ c, c ∈ Db.courses db →
        (Db.c_name c, DbQuery.enrollment_count db c) ∉ DbQuery.popular_courses st →
        ∀ x, x ∈ DbQuery.popular_courses st → DbQuery.enrollment_count db c ≤ x.2) ∧
  DbQuery.total_students st = length (Db.students db) ∧
  DbQuery.total_instructors st = length (Db.instructors db) ∧
  DbQuery.total_courses st = length (Db.courses db) ∧
  DbQuery.total_registrations st = length (Db.student_course_registrations db).
Proof.
  simpl.
  set (groups := map (λ c, (Db.c_name c, DbQuery.enrollment_count db c)) (Db.courses db)).
  set (sorted := merge_sort (λ x y : string * nat, y.2 ≤ x.2) groups).
  assert (Hperm : sorted ≡ₚ groups) by apply merge_sort_Permutation.
  assert (Hsorted : StronglySorted (λ x y : string * nat, y.2 ≤ x.2) sorted)
    by apply by_count_sorted.
  rewrite <- (take_drop 5 sorted) in Hsorted.
  apply StronglySorted_app in Hsorted as (Hcross & Htake & _).
  split; [|split; [done|split; [|split; [|done]]]].
  - rewrite length_take, (Permutation_length Hperm). unfold groups.
    by rewrite length_map.
  - intros x Hx. assert (x ∈ groups) as (c & -> & Hc)%elem_of_map.
    { rewrite <- Hperm, <- (take_drop 5 sorted). apply elem_of_app. by left. }
    by exists c.
  - intros c Hc Hout x Hx. apply (Hcross x (Db.c_name c, DbQuery.enrollment_count db c) Hx).
    assert ((Db.c_name c, DbQuery.enrollment_count db c) ∈ sorted) as Hin.
    { rewrite Hperm. apply elem_of_map. eauto. }
    rewrite <- (take_drop 5 sorted) in Hin. by apply elem_of_app in Hin as [Hin|Hin].
Qed.

(** ** The registry of [school.py]: what each operation changes *)

Section tk_effects.
Import Tk TkSpec TkInv.

Lemma tk_student_at_new (st : State) (o : Student) (a : nat) :
  student_at (new_student st o).2 a =
    if decide (a = length (heap_students st)) then o else student_at st a.
Proof. apply lookup_snoc_default. Qed.

Lemma tk_instructor_at_new (st : State) (o : Instructor) (a : nat) :
  instructor_at (new_instructor st o).2 a =
    if decide (a = length (heap_instructors st)) then o else instructor_at st a.
Proof. apply lookup_snoc_default. Qed.

Lemma tk_course_at_new (st : State) (o : Course) (a : nat) :
  course_at (new_course st o).2 a =
    if decide (a = length (heap_courses st)) then o else course_at st a.
Proof. apply lookup_snoc_default. Qed.

Lemma course_at_set_c_instructor (a b : nat) (i : option nat) (st : State) :
  course_at (set_c_instructor a i st) b =
    if decide (a = b ∧ b < length (heap_courses st)) then
      let o := course_at st b in
      mkCourse (courseid o) (coursename o) i (c_students o)
    else course_at st b.
Proof.
  unfold course_at, set_c_instructor. cbn [heap_courses].
  by rewrite lookup_alter_default.
Qed.

(** An object out of the heap has empty lists. *)
Lemma c_students_out (st : State) (c : nat) :
  length (heap_courses st) ≤ c → c_students (course_at st c) = [].
Proof. intros Hc. unfold course_at. by rewrite lookup_ge_None_2. Qed.

Lemma s_courses_out (st : State) (s : nat) :
  length (heap_students st) ≤ s → s_courses (student_at st s) = [].
Proof. intros Hs. unfold student_at. by rewrite lookup_ge_None_2. Qed.

Lemma c_instructor_out (st : State) (c : nat) :
  length (heap_courses st) ≤ c → c_instructor (course_at st c) = None.
Proof. intros Hc. unfold course_at. by rewrite lookup_ge_None_2. Qed.

Lemma drop_student_round (s c : nat) (st : State) :
  dropped_student s [c] st (drop_student s st c).
Proof.
  unfold drop_student, dropped_student.
  destruct (Py.mem s (c_students (course_at st c))) eqn:Hmem.
  - apply mem_true in Hmem.
    assert (Hc : c < length (heap_courses st)).
    { apply Nat.nle_gt. intros Hge. rewrite c_students_out in Hmem by done.
      by apply elem_of_nil in Hmem. }
    split; [done|]. split; [done|].
    split; [simpl; by rewrite length_alter|]. split; [done|]. split; [done|].
    split; [done|]. split; [|split; [|split]].
    + intros c0. rewrite course_at_set_c_students.
      destruct (decide (c = c0)) as [->|]; [|done]. simpl. by destruct (decide _).
    + intros c0 x. rewrite course_at_set_c_students.
      destruct (decide (c = c0)) as [->|]; [|done]. simpl.
      destruct (decide _); [|done]. simpl. apply remove_elem.
    + intros c0 x Hx. rewrite course_at_set_c_students.
      destruct (decide (c = c0)) as [->|]; [|done]. simpl.
      destruct (decide _); [|done]. simpl. by apply remove_other.
    + intros Hnd. split.
      * intros c0. rewrite course_at_set_c_students.
        destruct (decide (c = c0)) as [->|]; [|done]. simpl.
        destruct (decide _); [|done]. simpl. by apply remove_NoDup.
      * intros c0 ->%list_elem_of_singleton. rewrite course_at_set_c_students.
        rewrite decide_True by done. simpl. rewrite decide_True by done. simpl.
        by apply remove_NoDup.
  - apply mem_false in Hmem. repeat split; try done.
    by intros c0 ->%list_elem_of_singleton.
Qed.

Lemma dropped_student_trans (s : nat) (l k : list nat) (st st1 st2 : State) :
  dropped_student s l st st1 → dropped_student s k st1 st2 →
  dropped_student s (l ++ k) st st2.
Proof.
  intros (A1 & A2 & A3 & A4 & A5 & A6 & A7 & A8 & A9 & A10)
         (B1 & B2 & B3 & B4 & B5 & B6 & B7 & B8 & B9 & B10).
  split; [congruence|]. split; [congruence|]. split; [congruence|].
  split; [congruence|]. split; [congruence|]. split; [congruence|].
  split; [|split; [|split]].
  - intros c. destruct (A7 c), (B7 c). split; congruence.
  - intros c x Hx. by apply A8, B8.
  - intros c x Hne Hx. by apply B9, A9.
  - intros Hnd. destruct (A10 Hnd) as [Hnd1 Hgone1].
    destruct (B10 Hnd1) as [Hnd2 Hgone2]. split; [done|].
    intros c [Hc|Hc]%elem_of_app; [|by apply Hgone2].
    intros Hin%B8. by apply (Hgone1 c).
Qed.

Lemma drop_student_loop (s : nat) (l : list nat) (st : State) :
  dropped_student s l st (fold_left (drop_student s) l st).
Proof.
  revert st. induction l as [|c l IH]; intros st; simpl.
  - repeat split; try done. by intros c ?%elem_of_nil.
  - apply (dropped_student_trans s [c] l st (drop_student s st c)).
    + apply drop_student_round.
    + apply IH.
Qed.

Lemma drop_course_round (c s : nat) (st : State) :
  dropped_course c [s] st (drop_course c st s).
Proof.
  unfold drop_course, dropped_course.
  destruct (Py.mem c (s_courses (student_at st s))) eqn:Hmem.
  - apply mem_true in Hmem.
    assert (Hs : s < length (heap_students st)).
    { apply Nat.nle_gt. intros Hge. rewrite s_courses_out in Hmem by done.
      by apply elem_of_nil in Hmem. }
    split; [done|]. split; [done|].
    split; [simpl; by rewrite length_alter|]. split; [done|]. split; [done|].
    split; [done|]. split; [|split; [|split]].
    + intros s0. rewrite student_at_set_s_courses.
      destruct (decide (s = s0)) as [->|]; [|done]. simpl. by destruct (decide _).
    + intros s0 x. rewrite student_at_set_s_courses.
      destruct (decide (s = s0)) as [->|]; [|done]. simpl.
      destruct (decide _); [|done]. simpl. apply remove_elem.
    + intros s0 x Hx. rewrite student_at_set_s_courses.
      destruct (decide (s = s0)) as [->|]; [|done]. simpl.
      destruct (decide _); [|done]. simpl. by apply remove_other.
    + intros Hnd. split.
      * intros s0. rewrite student_at_set_s_courses.
        destruct (decide (s = s0)) as [->|]; [|done]. simpl.
        destruct (decide _); [|done]. simpl. by apply remove_NoDup.
      * intros s0 ->%list_elem_of_singleton. rewrite student_at_set_s_courses.
        rewrite decide_True by done. simpl. rewrite decide_True by done. simpl.
        by apply remove_NoDup.
  - apply mem_false in Hmem. repeat split; try done.
    by intros s0 ->%list_elem_of_singleton.
Qed.

Lemma dropped_course_trans (c : nat) (l k : list nat) (st st1 st2 : State) :
  dropped_course c l st st1 → dropped_course c k st1 st2 →
  dropped_course c (l ++ k) st st2.
Proof.
  intros (A1 & A2 & A3 & A4 & A5 & A6 & A7 & A8 & A9 & A10)
         (B1 & B2 & B3 & B4 & B5 & B6 & B7 & B8 & B9 & B10).
  split; [congruence|]. split; [congruence|]. split; [congruence|].
  split; [congruence|]. split; [congruence|]. split; [congruence|].
  split; [|split; [|split]].
  - intros s. congruence.
  - intros s x Hx. by apply A8, B8.
  - intros s x Hne Hx. by apply B9, A9.
  - intros Hnd. destruct (A10 Hnd) as [Hnd1 Hgone1].
    destruct (B10 Hnd1) as [Hnd2 Hgone2]. split; [done|].
    intros s [Hs|Hs]%elem_of_app; [|by apply Hgone2].
    intros Hin%B8. by apply (Hgone1 s).
Qed.

Lemma drop_course_loop (c : nat) (l : list nat) (st : State) :
  dropped_course c l st (fold_left (drop_course c) l st).
Proof.
  revert st. induction l as [|s l IH]; intros st; simpl.
  - repeat split; try done. by intros s ?%elem_of_nil.
  - apply (dropped_course_trans c [s] l st (drop_course c st s)).
    + apply drop_course_round.
    + apply IH.
Qed.

Lemma clear_instructor_round (i c : nat) (st : State) :
  cleared_instructor i [c] st (clear_instructor i st c).
Proof.
  unfold clear_instructor, cleared_instructor. case_bool_decide as Hi.
  - assert (Hc : c < length (heap_courses st)).
    { apply Nat.nle_gt. intros Hge. by rewrite c_instructor_out in Hi. }
    split; [done|]. split; [done|].
    split; [simpl; by rewrite length_alter|]. split; [done|]. split; [done|].
    split; [done|]. split; [|split].
    + intros c0. rewrite course_at_set_c_instructor. by destruct (decide _).
    + intros c0. rewrite course_at_set_c_instructor.
      destruct (decide _) as [[-> _]|]; [|by left]. by right.
    + intros c0 ->%list_elem_of_singleton. rewrite course_at_set_c_instructor.
      by rewrite decide_True.
  - repeat split; try done; [by left|]. by intros c0 ->%list_elem_of_singleton.
Qed.

Lemma cleared_instructor_trans (i : nat) (l k : list nat) (st st1 st2 : State) :
  cleared_instructor i l st st1 → cleared_instructor i k st1 st2 →
  cleared_instructor i (l ++ k) st st2.
Proof.
  intros (A1 & A2 & A3 & A4 & A5 & A6 & A7 & A8 & A9)
         (B1 & B2 & B3 & B4 & B5 & B6 & B7 & B8 & B9).
  split; [congruence|]. split; [congruence|]. split; [congruence|].
  split; [congruence|]. split; [congruence|]. split; [congruence|].
  split; [|split].
  - intros c. destruct (A7 c), (B7 c). split; congruence.
  - intros c. destruct (A8 c) as [Ha|[Ha Ha']], (B8 c) as [Hb|[Hb Hb']].
    + left. congruence.
    + right. split; congruence.
    + right. split; congruence.
    + congruence.
  - intros c [Hc|Hc]%elem_of_app; [|by apply B9].
    specialize (A9 c Hc). destruct (B8 c) as [Hb|[Hb _]]; congruence.
Qed.

Lemma clear_instructor_loop (i : nat) (l : list nat) (st : State) :
  cleared_instructor i l st (fold_left (clear_instructor i) l st).
Proof.
  revert st. induction l as [|c l IH]; intros st; simpl.
  - repeat split; try done; [by left|]. by intros c ?%elem_of_nil.
  - apply (cleared_instructor_trans i [c] l st (clear_instructor i st c)).
    + apply clear_instructor_round.
    + apply IH.
Qed.

End tk_effects.

(** ** The registry of [school.py]: consistency is kept *)

Section tk_consistent.
Import Tk TkSpec TkInv.

Lemma NoDup_map_addresses {B} (f : nat → B) (l : list nat) :
  NoDup (map f l) → NoDup l.
Proof.
  induction l as [|x l IH]; simpl; [constructor|].
  intros [Hx Hl]%NoDup_cons. apply NoDup_cons. split; [|by apply IH].
  intros Hin. apply Hx, elem_of_map. eauto.
Qed.

Lemma NoDup_map_remove {B} (f : nat → B) (x : nat) (l : list nat) :
  NoDup (map f l) → NoDup (map f (Py.remove x l)).
Proof.
  induction l as [|y l IH]; simpl; [done|].
  intros [Hy Hl]%NoDup_cons. destruct (decide (x = y)); [done|]. simpl.
  apply NoDup_cons. split; [|by apply IH].
  intros (z & Hz & Hin%remove_elem)%elem_of_map. apply Hy, elem_of_map. eauto.
Qed.

Lemma elem_of_remove (x y : nat) (l : list nat) :
  NoDup l → y ∈ Py.remove x l ↔ y ∈ l ∧ y ≠ x.
Proof.
  intros Hnd. split.
  - intros Hy. split; [by apply remove_elem in Hy|].
    intros ->. by apply (remove_NoDup x l Hnd).
  - intros [Hy Hne]. by apply remove_other.
Qed.

Lemma NoDup_map_snoc {B} (f : nat → B) (l : list nat) (x : nat) :
  NoDup (map f l) → (∀ a, a ∈ l → f a ≠ f x) → NoDup (map f (l ++ [x])).
Proof.
  intros Hnd Hnew. rewrite map_app. apply NoDup_app. split; [done|].
  split; [|apply NoDup_singleton].
  intros y (a & -> & Ha)%elem_of_map ?%list_elem_of_singleton. by apply (Hnew a).
Qed.

Lemma map_ext_at {B} (f g : nat → B) (l : list nat) :
  (∀ a, f a = g a) → map f l = map g l.
Proof. intros H. apply map_ext_elem. auto. Qed.

Lemma consistent_empty : consistent empty.
Proof.
  split; [by repeat split; intros a ?%elem_of_nil|].
  split; [constructor|]. split; [constructor|]. split; [constructor|].
  split; [intros s; constructor|]. split; [intros c; constructor|].
  split; [intros i; constructor|].
  split; [by intros s c ?%elem_of_nil|].
  split; [by intros c s ?%elem_of_nil | by intros c i ?%elem_of_nil].
Qed.

(** *** Removal *)

Lemma removestudent_consistent (st : State) (sid : string) :
  consistent st → consistent (removestudent st sid).2.
Proof.
  intros Hc. unfold removestudent.
  destruct (findstudent st sid) as [s|]; [|done]. cbn [snd].
  destruct Hc as ((As & Ai & Ac) & S & I & C & NS & NC & NI & L1 & L2 & L3).
  destruct (drop_student_loop s (courses st) st)
    as (E1 & E2 & E3 & E4 & E5 & E6 & E7 & E8 & E9 & E10).
  change (fold_left _ (courses st) st) with (fold_left (drop_student s) (courses st) st).
  set (st1 := fold_left (drop_student s) (courses st) st) in *.
  destruct (E10 NC) as [NC1 Hgone].
  set (st2 := set_students (Py.remove s (students st1)) st1).
  assert (Hst : students st2 = Py.remove s (students st)) by (simpl; by rewrite E4).
  assert (Hin : instructors st2 = instructors st) by done.
  assert (Hco : courses st2 = courses st) by done.
  assert (HS : ∀ a, student_at st2 a = student_at st a).
  { intros a. unfold student_at. simpl. by rewrite E1. }
  assert (HI : ∀ a, instructor_at st2 a = instructor_at st a).
  { intros a. unfold instructor_at. simpl. by rewrite E2. }
  assert (HC : ∀ a, course_at st2 a = course_at st1 a) by done.
  assert (Hls : length (heap_students st2) = length (heap_students st))
    by (simpl; by rewrite E1).
  assert (Hli : length (heap_instructors st2) = length (heap_instructors st))
    by (simpl; by rewrite E2).
  assert (Hlc : length (heap_courses st2) = length (heap_courses st)) by done.
  clearbody st2.
  pose proof (NoDup_map_addresses _ _ S) as Hnd.
  unfold consistent, allocated. rewrite Hst, Hin, Hco, Hls, Hli, Hlc.
  split; [split; [|split]|].
  - intros a Ha%remove_elem. by apply As.
  - done.
  - done.
  - split; [|split; [|split; [|split; [|split; [|split; [|split; [|split]]]]]]].
    + rewrite (map_ext_at _ (λ a, studentid (student_at st a))) by (intros; by rewrite HS).
      by apply NoDup_map_remove.
    + by rewrite (map_ext_at _ (λ a, instructorid (instructor_at st a)))
        by (intros; by rewrite HI).
    + by rewrite (map_ext_at _ (λ a, courseid (course_at st a)))
        by (intros a; rewrite HC; by destruct (E7 a)).
    + intros a. by rewrite HS.
    + intros a. by rewrite HC.
    + intros a. by rewrite HI.
    + intros s0 c0 [Hs0 Hne]%(elem_of_remove _ _ _ Hnd). rewrite HS, HC. intros Hc0.
      destruct (L1 s0 c0 Hs0 Hc0) as [Hin' Hmem]. split; [done|]. by apply E9.
    + intros c0 x Hc0. rewrite HC, HS. intros Hx.
      destruct (L2 c0 x Hc0 (E8 _ _ Hx)) as [Hin' Hmem].
      split; [|done]. apply (elem_of_remove _ _ _ Hnd). split; [done|].
      intros ->. by apply (Hgone c0 Hc0).
    + intros c0 i Hc0. rewrite HC, HI. destruct (E7 c0) as [_ ->]. by apply L3.
Qed.

Lemma removeinstructor_consistent (st : State) (iid : string) :
  consistent st → consistent (removeinstructor st iid).2.
Proof.
  intros Hc. unfold removeinstructor.
  destruct (findinstructor st iid) as [i|]; [|done]. cbn [snd].
  destruct Hc as ((As & Ai & Ac) & S & I & C & NS & NC & NI & L1 & L2 & L3).
  destruct (clear_instructor_loop i (courses st) st)
    as (E1 & E2 & E3 & E4 & E5 & E6 & E7 & E8 & E9).
  change (fold_left _ (courses st) st) with (fold_left (clear_instructor i) (courses st) st).
  set (st1 := fold_left (clear_instructor i) (courses st) st) in *.
  set (st2 := set_instructors (Py.remove i (instructors st1)) st1).
  assert (Hst : students st2 = students st) by done.
  assert (Hin : instructors st2 = Py.remove i (instructors st)) by (simpl; by rewrite E5).
  assert (Hco : courses st2 = courses st) by done.
  assert (HS : ∀ a, student_at st2 a = student_at st a).
  { intros a. unfold student_at. simpl. by rewrite E1. }
  assert (HI : ∀ a, instructor_at st2 a = instructor_at st a).
  { intros a. unfold instructor_at. simpl. by rewrite E2. }
  assert (HC : ∀ a, course_at st2 a = course_at st1 a) by done.
  assert (Hls : length (heap_students st2) = length (heap_students st))
    by (simpl; by rewrite E1).
  assert (Hli : length (heap_instructors st2) = length (heap_instructors st))
    by (simpl; by rewrite E2).
  assert (Hlc : length (heap_courses st2) = length (heap_courses st)) by done.
  clearbody st2.
  pose proof (NoDup_map_addresses _ _ I) as Hnd.
  unfold consistent, allocated. rewrite Hst, Hin, Hco, Hls, Hli, Hlc.
  split; [split; [|split]|].
  - done.
  - intros a Ha%remove_elem. by apply Ai.
  - done.
  - split; [|split; [|split; [|split; [|split; [|split; [|split; [|split]]]]]]].
    + by rewrite (map_ext_at _ (λ a, studentid (student_at st a)))
        by (intros; by rewrite HS).
    + rewrite (map_ext_at _ (λ a, instructorid (instructor_at st a)))
        by (intros; by rewrite HI).
      by apply NoDup_map_remove.
    + by rewrite (map_ext_at _ (λ a, courseid (course_at st a)))
        by (intros a; rewrite HC; by destruct (E7 a)).
    + intros a. by rewrite HS.
    + intros a. rewrite HC. destruct (E7 a) as [_ ->]. done.
    + intros a. by rewrite HI.
    + intros s0 c0 Hs0. rewrite HS, HC. destruct (E7 c0) as [_ ->]. by apply L1.
    + intros c0 x Hc0. rewrite HC, HS. destruct (E7 c0) as [_ ->]. by apply L2.
    + intros c0 j Hc0. rewrite HC, HI. intros Hj.
      assert (c_instructor (course_at st c0) = Some j) as Hj0.
      { destruct (E8 c0) as [<-|[Hn _]]; [done | congruence]. }
      destruct (L3 c0 j Hc0 Hj0) as [Hjin Hmem]. split; [|done].
      apply (elem_of_remove _ _ _ Hnd). split; [done|].
      intros ->. by apply (E9 c0 Hc0).
Qed.

Lemma removecourse_consistent (st : State) (cid : string) :
  consistent st → consistent (removecourse st cid).2.
Proof.
  intros Hc. unfold removecourse.
  destruct (findcourse st cid) as [c|]; [|done]. cbn [snd].
  destruct Hc as ((As & Ai & Ac) & S & I & C & NS & NC & NI & L1 & L2 & L3).
  destruct (drop_course_loop c (students st) st)
    as (E1 & E2 & E3 & E4 & E5 & E6 & E7 & E8 & E9 & E10).
  change (fold_left _ (students st) st) with (fold_left (drop_course c) (students st) st).
  set (st1 := fold_left (drop_course c) (students st) st) in *.
  destruct (E10 NS) as [NS1 Hgone].
  assert (HI1 : ∀ a, instructor_at st1 a = instructor_at st a).
  { intros a. unfold instructor_at. by rewrite E2. }
  assert (HC1 : ∀ a, course_at st1 a = course_at st a).
  { intros a. unfold course_at. by rewrite E1. }
  set (st2 := match c_instructor (course_at st1 c) with
              | Some i => if Py.mem c (i_courses (instructor_at st1 i))
                          then set_i_courses i (Py.remove c) st1 else st1
              | None => st1
              end).
  assert (Hst2 : students st2 = students st ∧ instructors st2 = instructors st ∧
                 courses st2 = courses st ∧
                 heap_students st2 = heap_students st1 ∧
                 heap_courses st2 = heap_courses st ∧
                 length (heap_instructors st2) = length (heap_instructors st) ∧
                 (∀ a, instructorid (instructor_at st2 a) = instructorid (instructor_at st a)) ∧
                 (∀ a, NoDup (i_courses (instructor_at st2 a))) ∧
                 (∀ a x, x ≠ c → x ∈ i_courses (instructor_at st a) →
                         x ∈ i_courses (instructor_at st2 a))).
  { unfold st2. destruct (c_instructor (course_at st1 c)) as [i|];
      [|by rewrite E2; repeat split; try done; intros a; rewrite HI1].
    destruct (Py.mem c (i_courses (instructor_at st1 i)));
      [|by rewrite E2; repeat split; try done; intros a; rewrite HI1].
    split; [done|]. split; [done|]. split; [done|]. split; [done|]. split; [done|].
    split; [simpl; by rewrite length_alter, E2|].
    split; [|split].
    - intros a. rewrite instructor_at_set_i_courses, HI1. by destruct (decide _).
    - intros a. rewrite instructor_at_set_i_courses, HI1.
      destruct (decide _); [|done]. simpl. by apply remove_NoDup.
    - intros a x Hx Hin. rewrite instructor_at_set_i_courses, HI1.
      destruct (decide _); [|done]. simpl. by apply remove_other. }
  destruct Hst2 as (F1 & F2 & F3 & F4 & F5 & F6 & F7 & F8 & F9).
  set (st3 := set_courses (Py.remove c (courses st2)) st2).
  assert (Hst : students st3 = students st) by done.
  assert (Hin : instructors st3 = instructors st) by done.
  assert (Hco : courses st3 = Py.remove c (courses st)) by (simpl; by rewrite F3).
  assert (HS : ∀ a, student_at st3 a = student_at st1 a).
  { intros a. unfold student_at. simpl. by rewrite F4. }
  assert (HI : ∀ a, instructor_at st3 a = instructor_at st2 a) by done.
  assert (HC : ∀ a, course_at st3 a = course_at st a).
  { intros a. unfold course_at. simpl. by rewrite F5. }
  assert (Hls : length (heap_students st3) = length (heap_students st))
    by (simpl; by rewrite F4).
  assert (Hli : length (heap_instructors st3) = length (heap_instructors st)) by done.
  assert (Hlc : length (heap_courses st3) = length (heap_courses st))
    by (simpl; by rewrite F5).
  clearbody st3.
  pose proof (NoDup_map_addresses _ _ C) as Hnd.
  unfold consistent, allocated. rewrite Hst, Hin, Hco, Hls, Hli, Hlc.
  split; [split; [|split]|].
  - done.
  - done.
  - intros a Ha%remove_elem. by apply Ac.
  - split; [|split; [|split; [|split; [|split; [|split; [|split; [|split]]]]]]].
    + by rewrite (map_ext_at _ (λ a, studentid (student_at st a)))
        by (intros; by rewrite HS, E7).
    + by rewrite (map_ext_at _ (λ a, instructorid (instructor_at st a)))
        by (intros; by rewrite HI, F7).
    + rewrite (map_ext_at _ (λ a, courseid (course_at st a))) by (intros; by rewrite HC).
      by apply NoDup_map_remove.
    + intros a. by rewrite HS.
    + intros a. by rewrite HC.
    + intros a. by rewrite HI.
    + intros s0 c0 Hs0. rewrite HS, HC. intros Hc0.
      destruct (L1 s0 c0 Hs0 (E8 _ _ Hc0)) as [Hin' Hmem]. split; [|done].
      apply (elem_of_remove _ _ _ Hnd). split; [done|].
      intros ->. by apply (Hgone s0 Hs0).
    + intros c0 x [Hc0 Hne]%(elem_of_remove _ _ _ Hnd). rewrite HC, HS. intros Hx.
      destruct (L2 c0 x Hc0 Hx) as [Hin' Hmem]. split; [done|]. by apply E9.
    + intros c0 j [Hc0 Hne]%(elem_of_remove _ _ _ Hnd). rewrite HC, HI. intros Hj.
      destruct (L3 c0 j Hc0 Hj) as [Hjin Hmem]. split; [done|]. by apply F9.
Qed.

(** *** Links *)

Lemma elem_of_append_new (x y : nat) (l : list nat) :
  y ∈ Py.append_new x l ↔ y = x ∨ y ∈ l.
Proof.
  unfold Py.append_new. destruct (Py.mem x l) eqn:Hmem.
  - apply mem_true in Hmem. split; [by right|]. by intros [->|].
  - rewrite elem_of_app, list_elem_of_singleton. tauto.
Qed.

Lemma register_consistent (st : State) (sid cid : string) :
  consistent st → consistent (register st sid cid).2.
Proof.
  intros Hc.
  destruct (findstudent st sid) as [s|] eqn:Hs;
    [|by unfold register; rewrite Hs].
  destruct (findcourse st cid) as [c|] eqn:Hco;
    [|by unfold register; rewrite Hs, Hco].
  destruct (decide (s ∈ c_students (course_at st c))) as [Hin|Hnin].
  { by rewrite (register_again st sid cid s c Hs Hco Hin). }
  destruct Hc as (A & S & I & C & NS & NC & NI & L1 & L2 & L3).
  destruct (register_links st sid cid s c A Hs Hco Hnin)
    as (st' & -> & Hcs & Hsc & R1 & R2 & R3 & R4 & R5 & R6 & R7 & R8 & R9 & R10
        & R11 & R12 & R13 & R14 & R15).
  cbn [snd].
  apply (find_id_Some (λ a, studentid (student_at st a))) in Hs as [Hsin _].
  apply (find_id_Some (λ a, courseid (course_at st a))) in Hco as [Hcin _].
  assert (HI : ∀ a, instructor_at st' a = instructor_at st a).
  { intros a. unfold instructor_at. by rewrite R4. }
  assert (Hsid : ∀ a, studentid (student_at st' a) = studentid (student_at st a)).
  { intros a. destruct (decide (a = s)) as [->|Hne]; [done | by rewrite R7]. }
  assert (Hcid : ∀ a, courseid (course_at st' a) = courseid (course_at st a)).
  { intros a. destruct (decide (a = c)) as [->|Hne]; [done | by rewrite R8]. }
  assert (Hci : ∀ a, c_instructor (course_at st' a) = c_instructor (course_at st a)).
  { intros a. destruct (decide (a = c)) as [->|Hne]; [done | by rewrite R8]. }
  assert (Hsc' : ∀ a x, x ∈ s_courses (student_at st' a) ↔
                        x ∈ s_courses (student_at st a) ∨ (a = s ∧ x = c)).
  { intros a x. destruct (decide (a = s)) as [->|Hne].
    - rewrite Hsc, elem_of_append_new. tauto.
    - rewrite R7 by done. tauto. }
  assert (Hcs' : ∀ a x, x ∈ c_students (course_at st' a) ↔
                        x ∈ c_students (course_at st a) ∨ (a = c ∧ x = s)).
  { intros a x. destruct (decide (a = c)) as [->|Hne].
    - rewrite Hcs, elem_of_app, list_elem_of_singleton. tauto.
    - rewrite R8 by done. tauto. }
  destruct A as (As & Ai & Ac).
  unfold consistent, allocated. rewrite R1, R2, R3, R4, R5, R6.
  split; [done|].
  split; [|split; [|split; [|split; [|split; [|split; [|split; [|split]]]]]]].
  - by rewrite (map_ext_at _ (λ a, studentid (student_at st a))).
  - by rewrite (map_ext_at _ (λ a, instructorid (instructor_at st a)))
      by (intros; by rewrite HI).
  - by rewrite (map_ext_at _ (λ a, courseid (course_at st a))).
  - intros a. destruct (decide (a = s)) as [->|Hne]; [|by rewrite R7].
    rewrite Hsc. by apply append_new_NoDup.
  - intros a. destruct (decide (a = c)) as [->|Hne]; [|by rewrite R8].
    rewrite Hcs. apply NoDup_app. split; [done|]. split; [|apply NoDup_singleton].
    by intros x Hx ->%list_elem_of_singleton.
  - intros a. by rewrite HI.
  - intros s0 c0 Hs0. rewrite Hsc', Hcs'. intros [Hold|[-> ->]].
    + destruct (L1 s0 c0 Hs0 Hold). auto.
    + auto.
  - intros c0 s0 Hc0. rewrite Hsc', Hcs'. intros [Hold|[-> ->]].
    + destruct (L2 c0 s0 Hc0 Hold). auto.
    + auto.
  - intros c0 i Hc0. rewrite Hci, HI. by apply L3.
Qed.

(** What a successful [assign] does. *)
Lemma assign_effect (st : State) (i c : nat) :
  i < length (heap_instructors st) → c < length (heap_courses st) →
  let st' := take i c (set_c_instructor c (Some i) st) in
  students st' = students st ∧ instructors st' = instructors st ∧
  courses st' = courses st ∧
  heap_students st' = heap_students st ∧
  length (heap_instructors st') = length (heap_instructors st) ∧
  length (heap_courses st') = length (heap_courses st) ∧
  (∀ a, courseid (course_at st' a) = courseid (course_at st a) ∧
        c_students (course_at st' a) = c_students (course_at st a) ∧
        c_instructor (course_at st' a)
          = if decide (a = c) then Some i else c_instructor (course_at st a)) ∧
  (∀ a, instructorid (instructor_at st' a) = instructorid (instructor_at st a) ∧
        i_courses (instructor_at st' a)
          = if decide (a = i) then Py.append_new c (i_courses (instructor_at st a))
            else i_courses (instructor_at st a)).
Proof.
  intros Hi Hc. unfold take. simpl. rewrite !length_alter.
  split; [done|]. split; [done|]. split; [done|]. split; [done|].
  split; [done|]. split; [done|]. split.
  - intros a.
    change (course_at (set_i_courses i (Py.append_new c)
                         (set_c_instructor c (Some i) st)) a)
      with (course_at (set_c_instructor c (Some i) st) a).
    rewrite course_at_set_c_instructor.
    destruct (decide (c = a ∧ a < length (heap_courses st))) as [[-> _]|Hno].
    + by rewrite decide_True.
    + rewrite decide_False; [done|]. intros ->. apply Hno. done.
  - intros a. rewrite instructor_at_set_i_courses.
    change (instructor_at (set_c_instructor c (Some i) st) a) with (instructor_at st a).
    change (heap_instructors (set_c_instructor c (Some i) st)) with (heap_instructors st).
    destruct (decide (i = a ∧ a < length (heap_instructors st))) as [[-> _]|Hno].
    + by rewrite decide_True.
    + rewrite decide_False; [done|]. intros ->. apply Hno. done.
Qed.

Lemma take_consistent (st : State) (i c : nat) :
  consistent st → i ∈ instructors st → c ∈ courses st →
  consistent (take i c (set_c_instructor c (Some i) st)).
Proof.
  intros ((As & Ai & Ac) & S & I & C & NS & NC & NI & L1 & L2 & L3) Hi Hc.
  destruct (assign_effect st i c (Ai i Hi) (Ac c Hc))
    as (E1 & E2 & E3 & E4 & E5 & E6 & E7 & E8).
  set (st' := take i c (set_c_instructor c (Some i) st)) in *. clearbody st'.
  assert (HS : ∀ a, student_at st' a = student_at st a).
  { intros a. unfold student_at. by rewrite E4. }
  unfold consistent, allocated. rewrite E1, E2, E3, E4, E5, E6.
  split; [done|].
  split; [|split; [|split; [|split; [|split; [|split; [|split; [|split]]]]]]].
  - by rewrite (map_ext_at _ (λ a, studentid (student_at st a)))
      by (intros; by rewrite HS).
  - by rewrite (map_ext_at _ (λ a, instructorid (instructor_at st a)))
      by (intros a; by destruct (E8 a)).
  - by rewrite (map_ext_at _ (λ a, courseid (course_at st a)))
      by (intros a; by destruct (E7 a)).
  - intros a. by rewrite HS.
  - intros a. destruct (E7 a) as (_ & -> & _). done.
  - intros a. destruct (E8 a) as (_ & ->). destruct (decide _); [|done].
    by apply append_new_NoDup.
  - intros s0 c0 Hs0. rewrite HS. destruct (E7 c0) as (_ & -> & _). by apply L1.
  - intros c0 s0 Hc0. rewrite HS. destruct (E7 c0) as (_ & -> & _). by apply L2.
  - intros c0 j Hc0. destruct (E7 c0) as (_ & _ & ->). destruct (E8 j) as (_ & ->).
    destruct (decide (c0 = c)) as [->|Hne].
    + intros [= <-]. split; [done|]. rewrite decide_True by done.
      apply append_new_elem.
    + intros Hj. destruct (L3 c0 j Hc0 Hj) as [Hjin Hmem]. split; [done|].
      destruct (decide _); [|done]. apply elem_of_append_new. by right.
Qed.

Lemma assign_consistent (st : State) (iid cid : string) :
  consistent st → consistent (assign st iid cid).2.
Proof.
  intros Hc. unfold assign.
  destruct (findinstructor st iid) as [i|] eqn:Hi; [|done].
  destruct (findcourse st cid) as [c|] eqn:Hco; [|done].
  case_bool_decide; [done|]. cbn [snd].
  apply (find_id_Some (λ a, instructorid (instructor_at st a))) in Hi as [Hi _].
  apply (find_id_Some (λ a, courseid (course_at st a))) in Hco as [Hco _].
  by apply take_consistent.
Qed.

(** *** New objects *)

Lemma new_student_consistent (st : State) (o : Student) :
  consistent st → s_courses o = [] → consistent (new_student st o).2.
Proof.
  intros ((As & Ai & Ac) & Sd & Id & Cd & NS & NC & NI & L1 & L2 & L3) Ho.
  pose proof (tk_student_at_new st o) as HS.
  assert (HI : ∀ a, instructor_at (new_student st o).2 a = instructor_at st a) by done.
  assert (HC : ∀ a, course_at (new_student st o).2 a = course_at st a) by done.
  assert (Hold : ∀ a, a ∈ students st → student_at (new_student st o).2 a = student_at st a).
  { intros a Ha%As. rewrite HS, decide_False; [done | lia]. }
  assert (Hls : length (heap_students (new_student st o).2) = S (length (heap_students st))).
  { simpl. rewrite length_app. simpl. lia. }
  assert (Hst : students (new_student st o).2 = students st) by done.
  assert (Hin : instructors (new_student st o).2 = instructors st) by done.
  assert (Hco : courses (new_student st o).2 = courses st) by done.
  assert (Hli : heap_instructors (new_student st o).2 = heap_instructors st) by done.
  assert (Hlc : heap_courses (new_student st o).2 = heap_courses st) by done.
  set (st1 := (new_student st o).2) in *. clearbody st1.
  unfold consistent, allocated. rewrite Hst, Hin, Hco, Hls, Hli, Hlc.
  split; [split; [|done]|].
  { intros a Ha%As. lia. }
  split; [|split; [|split; [|split; [|split; [|split; [|split; [|split]]]]]]].
  - by rewrite (map_ext_elem _ (λ a, studentid (student_at st a)))
      by (intros a Ha; by rewrite Hold).
  - by rewrite (map_ext_at _ (λ a, instructorid (instructor_at st a)))
      by (intros; by rewrite HI).
  - by rewrite (map_ext_at _ (λ a, courseid (course_at st a)))
      by (intros; by rewrite HC).
  - intros a. rewrite HS. destruct (decide _); [rewrite Ho; constructor | done].
  - intros a. by rewrite HC.
  - intros a. by rewrite HI.
  - intros s0 c0 Hs0. rewrite (Hold s0 Hs0), HC. by apply L1.
  - intros c0 s0 Hc0. rewrite HC. intros Hs0.
    destruct (L2 c0 s0 Hc0 Hs0) as [Hin' Hmem]. by rewrite (Hold s0 Hin').
  - intros c0 i Hc0. rewrite HC, HI. by apply L3.
Qed.

Lemma new_instructor_consistent (st : State) (o : Instructor) :
  consistent st → i_courses o = [] → consistent (new_instructor st o).2.
Proof.
  intros ((As & Ai & Ac) & Sd & Id & Cd & NS & NC & NI & L1 & L2 & L3) Ho.
  pose proof (tk_instructor_at_new st o) as HI.
  assert (HS : ∀ a, student_at (new_instructor st o).2 a = student_at st a) by done.
  assert (HC : ∀ a, course_at (new_instructor st o).2 a = course_at st a) by done.
  assert (Hold : ∀ a, a ∈ instructors st →
                      instructor_at (new_instructor st o).2 a = instructor_at st a).
  { intros a Ha%Ai. rewrite HI, decide_False; [done | lia]. }
  assert (Hli : length (heap_instructors (new_instructor st o).2)
                = S (length (heap_instructors st))).
  { simpl. rewrite length_app. simpl. lia. }
  assert (Hst : students (new_instructor st o).2 = students st) by done.
  assert (Hin : instructors (new_instructor st o).2 = instructors st) by done.
  assert (Hco : courses (new_instructor st o).2 = courses st) by done.
  assert (Hls : heap_students (new_instructor st o).2 = heap_students st) by done.
  assert (Hlc : heap_courses (new_instructor st o).2 = heap_courses st) by done.
  set (st1 := (new_instructor st o).2) in *. clearbody st1.
  unfold consistent, allocated. rewrite Hst, Hin, Hco, Hls, Hli, Hlc.
  split; [split; [done|split; [|done]]|].
  { intros a Ha%Ai. lia. }
  split; [|split; [|split; [|split; [|split; [|split; [|split; [|split]]]]]]].
  - by rewrite (map_ext_at _ (λ a, studentid (student_at st a)))
      by (intros; by rewrite HS).
  - by rewrite (map_ext_elem _ (λ a, instructorid (instructor_at st a)))
      by (intros a Ha; by rewrite Hold).
  - by rewrite (map_ext_at _ (λ a, courseid (course_at st a)))
      by (intros; by rewrite HC).
  - intros a. by rewrite HS.
  - intros a. by rewrite HC.
  - intros a. rewrite HI. destruct (decide _); [rewrite Ho; constructor | done].
  - intros s0 c0 Hs0. rewrite HS, HC. by apply L1.
  - intros c0 s0 Hc0. rewrite HC, HS. by apply L2.
  - intros c0 i Hc0. rewrite HC. intros Hi0.
    destruct (L3 c0 i Hc0 Hi0) as [Hin' Hmem]. by rewrite (Hold i Hin').
Qed.

Lemma new_course_consistent (st : State) (o : Course) :
  consistent st → c_students o = [] → consistent (new_course st o).2.
Proof.
  intros ((As & Ai & Ac) & Sd & Id & Cd & NS & NC & NI & L1 & L2 & L3) Ho.
  pose proof (tk_course_at_new st o) as HC.
  assert (HS : ∀ a, student_at (new_course st o).2 a = student_at st a) by done.
  assert (HI : ∀ a, instructor_at (new_course st o).2 a = instructor_at st a) by done.
  assert (Hold : ∀ a, a ∈ courses st → course_at (new_course st o).2 a = course_at st a).
  { intros a Ha%Ac. rewrite HC, decide_False; [done | lia]. }
  assert (Hlc : length (heap_courses (new_course st o).2) = S (length (heap_courses st))).
  { simpl. rewrite length_app. simpl. lia. }
  assert (Hst : students (new_course st o).2 = students st) by done.
  assert (Hin : instructors (new_course st o).2 = instructors st) by done.
  assert (Hco : courses (new_course st o).2 = courses st) by done.
  assert (Hls : heap_students (new_course st o).2 = heap_students st) by done.
  assert (Hli : heap_instructors (new_course st o).2 = heap_instructors st) by done.
  set (st1 := (new_course st o).2) in *. clearbody st1.
  unfold consistent, allocated. rewrite Hst, Hin, Hco, Hls, Hli, Hlc.
  split; [split; [done|split; [done|]]|].
  { intros a Ha%Ac. lia. }
  split; [|split; [|split; [|split; [|split; [|split; [|split; [|split]]]]]]].
  - by rewrite (map_ext_at _ (λ a, studentid (student_at st a)))
      by (intros; by rewrite HS).
  - by rewrite (map_ext_at _ (λ a, instructorid (instructor_at st a)))
      by (intros; by rewrite HI).
  - by rewrite (map_ext_elem _ (λ a, courseid (course_at st a)))
      by (intros a Ha; by rewrite Hold).
  - intros a. by rewrite HS.
  - intros a. rewrite HC. destruct (decide _); [rewrite Ho; constructor | done].
  - intros a. by rewrite HI.
  - intros s0 c0 Hs0. rewrite HS. intros Hc0.
    destruct (L1 s0 c0 Hs0 Hc0) as [Hin' Hmem]. by rewrite (Hold c0 Hin').
  - intros c0 s0 Hc0. rewrite (Hold c0 Hc0), HS. by apply L2.
  - intros c0 i Hc0. rewrite (Hold c0 Hc0), HI. by apply L3.
Qed.

(** *** Entering the registry *)

Lemma enlist_student_consistent (st : State) (s : nat) :
  consistent st → s < length (heap_students st) →
  findstudent st (studentid (student_at st s)) = None →
  s_courses (student_at st s) = [] →
  consistent (set_students (students st ++ [s]) st).
Proof.
  intros ((As & Ai & Ac) & Sd & Id & Cd & NS & NC & NI & L1 & L2 & L3) Hs Hnew Hempty.
  pose proof (proj1 (find_id_None (λ a, studentid (student_at st a)) (students st)
                      (studentid (student_at st s))) Hnew) as Hfresh.
  split; [split; [|done]|].
  { intros a [Ha| ->%list_elem_of_singleton]%elem_of_app; [by apply As | done]. }
  split; [|split; [done|split; [done|split; [done|split; [done|split; [done|]]]]]].
  { by apply (NoDup_map_snoc (λ a, studentid (student_at st a))). }
  split; [|split; [|done]].
  - intros s0 c0 [Hs0| ->%list_elem_of_singleton]%elem_of_app.
    + by apply L1.
    + change (student_at (set_students (students st ++ [s]) st) s) with (student_at st s).
      rewrite Hempty. by intros ?%elem_of_nil.
  - intros c0 s0 Hc0 Hs0. destruct (L2 c0 s0 Hc0 Hs0) as [Hin Hmem].
    split; [|done]. apply elem_of_app. by left.
Qed.

Lemma enlist_instructor_consistent (st : State) (i : nat) :
  consistent st → i < length (heap_instructors st) →
  findinstructor st (instructorid (instructor_at st i)) = None →
  consistent (set_instructors (instructors st ++ [i]) st).
Proof.
  intros ((As & Ai & Ac) & Sd & Id & Cd & NS & NC & NI & L1 & L2 & L3) Hi Hnew.
  pose proof (proj1 (find_id_None (λ a, instructorid (instructor_at st a))
                      (instructors st) (instructorid (instructor_at st i))) Hnew)
    as Hfresh.
  split; [split; [done|split; [|done]]|].
  { intros a [Ha| ->%list_elem_of_singleton]%elem_of_app; [by apply Ai | done]. }
  split; [done|]. split.
  { by apply (NoDup_map_snoc (λ a, instructorid (instructor_at st a))). }
  split; [done|]. split; [done|]. split; [done|]. split; [done|].
  split; [done|]. split; [done|].
  intros c0 j Hc0 Hj. destruct (L3 c0 j Hc0 Hj) as [Hin Hmem].
  split; [|done]. apply elem_of_app. by left.
Qed.

Lemma enlist_course_consistent (st : State) (c : nat) :
  consistent st → c < length (heap_courses st) →
  findcourse st (courseid (course_at st c)) = None →
  c_students (course_at st c) = [] →
  (∀ i, c_instructor (course_at st c) = Some i → i ∈ instructors st) →
  consistent (match c_instructor (course_at st c) with
              | Some i => take i c (set_courses (courses st ++ [c]) st)
              | None => set_courses (courses st ++ [c]) st
              end).
Proof.
  intros ((As & Ai & Ac) & Sd & Id & Cd & NS & NC & NI & L1 & L2 & L3)
         Hc Hnew Hempty Hinst.
  assert (Hfresh : ∀ a, a ∈ courses st → courseid (course_at st a) ≠ courseid (course_at st c)).
  { exact (proj1 (find_id_None (λ a, courseid (course_at st a)) (courses st)
                    (courseid (course_at st c))) Hnew). }
  set (st' := match c_instructor (course_at st c) with
              | Some i => take i c (set_courses (courses st ++ [c]) st)
              | None => set_courses (courses st ++ [c]) st
              end).
  assert (E : students st' = students st ∧ instructors st' = instructors st ∧
              courses st' = courses st ++ [c] ∧
              heap_students st' = heap_students st ∧
              heap_courses st' = heap_courses st ∧
              length (heap_instructors st') = length (heap_instructors st) ∧
              (∀ a, instructorid (instructor_at st' a) = instructorid (instructor_at st a)) ∧
              (∀ a, NoDup (i_courses (instructor_at st' a))) ∧
              (∀ a x, x ∈ i_courses (instructor_at st a) →
                      x ∈ i_courses (instructor_at st' a)) ∧
              (∀ i, c_instructor (course_at st c) = Some i →
                    c ∈ i_courses (instructor_at st' i))).
  { unfold st'. destruct (c_instructor (course_at st c)) as [i|] eqn:Hci;
      [|by repeat split].
    specialize (Hinst i eq_refl). apply Ai in Hinst.
    split; [done|]. split; [done|]. split; [done|]. split; [done|]. split; [done|].
    split; [simpl; by rewrite length_alter|].
    unfold take.
    assert (Hat : ∀ a, instructor_at (set_i_courses i (Py.append_new c)
                                        (set_courses (courses st ++ [c]) st)) a
                       = if decide (i = a ∧ a < length (heap_instructors st)) then
                           let o := instructor_at st a in
                           mkInstructor (i_name o) (i_age o) (i_email o) (instructorid o)
                                        (Py.append_new c (i_courses o))
                         else instructor_at st a).
    { intros a. by rewrite instructor_at_set_i_courses. }
    split; [|split; [|split]].
    - intros a. rewrite Hat. by destruct (decide _).
    - intros a. rewrite Hat. destruct (decide _); [|done]. simpl.
      by apply append_new_NoDup.
    - intros a x Hx. rewrite Hat. destruct (decide _); [|done]. simpl.
      apply elem_of_append_new. by right.
    - intros j [= <-]. rewrite Hat, decide_True by done. simpl.
      apply append_new_elem. }
  destruct E as (E1 & E2 & E3 & E4 & E5 & E6 & E7 & E8 & E9 & E10).
  assert (HS : ∀ a, student_at st' a = student_at st a).
  { intros a. unfold student_at. by rewrite E4. }
  assert (HC : ∀ a, course_at st' a = course_at st a).
  { intros a. unfold course_at. by rewrite E5. }
  clearbody st'.
  unfold consistent, allocated. rewrite E1, E2, E3, E4, E5, E6.
  split; [split; [done|split; [done|]]|].
  { intros a [Ha| ->%list_elem_of_singleton]%elem_of_app; [by apply Ac | done]. }
  split; [|split; [|split; [|split; [|split; [|split; [|split; [|split]]]]]]].
  - by rewrite (map_ext_at _ (λ a, studentid (student_at st a)))
      by (intros; by rewrite HS).
  - by rewrite (map_ext_at _ (λ a, instructorid (instructor_at st a))).
  - rewrite (map_ext_at _ (λ a, courseid (course_at st a))) by (intros; by rewrite HC).
    by apply (NoDup_map_snoc (λ a, courseid (course_at st a))).
  - intros a. by rewrite HS.
  - intros a. by rewrite HC.
  - done.
  - intros s0 c0 Hs0. rewrite HS, HC. intros Hc0.
    destruct (L1 s0 c0 Hs0 Hc0) as [Hin Hmem]. split; [|done].
    apply elem_of_app. by left.
  - intros c0 s0 [Hc0| ->%list_elem_of_singleton]%elem_of_app; rewrite HC, HS.
    + by apply L2.
    + rewrite Hempty. by intros ?%elem_of_nil.
  - intros c0 j [Hc0| ->%list_elem_of_singleton]%elem_of_app; rewrite HC; intros Hj.
    + destruct (L3 c0 j Hc0 Hj) as [Hin Hmem]. split; [done|]. by apply E9.
    + split; [by apply Hinst | by apply E10].
Qed.

(** *** The handlers *)

Lemma Student_init_fresh (name : string) (age : pyval) (email sid : string) (o : Student) :
  Student_init name age email sid = Ok o → s_courses o = [].
Proof.
  unfold Student_init. destruct (Person_init name age email); [|done]. simpl.
  destruct (decide _); [done|]. by intros [= <-].
Qed.

Lemma Instructor_init_fresh (name : string) (age : pyval) (email iid : string)
    (o : Instructor) :
  Instructor_init name age email iid = Ok o → i_courses o = [].
Proof.
  unfold Instructor_init. destruct (Person_init name age email); [|done]. simpl.
  destruct (decide _); [done|]. by intros [= <-].
Qed.

Lemma Course_init_fresh (cid cname : string) (inst : option nat) (o : Course) :
  Course_init cid cname inst = Ok o → c_students o = [] ∧ c_instructor o = inst.
Proof.
  unfold Course_init. destruct (decide _); [done|]. destruct (decide _); [done|].
  by intros [= <-].
Qed.

Lemma saving_registry (written : bool) (r : bool * State) :
  (App.saving written r).2 = r.2.
Proof. destruct r as [[] st]; [|done]. by destruct written. Qed.

Lemma addstudent_handler_consistent (name : string) (age : Z) (email sid : string)
    (written : bool) (st : State) :
  consistent st → consistent (App.addstudent name age email sid written st).
Proof.
  intros Hc. unfold App.addstudent.
  destruct (Student_init name (PyInt age) email sid) as [o|] eqn:Hinit; [|done].
  apply Student_init_fresh in Hinit.
  pose proof (new_student_consistent st o Hc Hinit) as Hc1.
  assert (Hat : student_at (new_student st o).2 (length (heap_students st)) = o).
  { by rewrite tk_student_at_new, decide_True. }
  assert (Hlen : length (heap_students st) < length (heap_students (new_student st o).2)).
  { simpl. rewrite length_app. simpl. lia. }
  change (new_student st o) with (length (heap_students st), (new_student st o).2).
  set (st1 := (new_student st o).2) in *. clearbody st1. cbn beta iota.
  unfold App.store_addstudent. rewrite saving_registry. unfold addstudent.
  destruct (findstudent st1 _) eqn:Hfind; [done|]. cbn [snd].
  apply enlist_student_consistent; [done | done | done | by rewrite Hat].
Qed.

Lemma addinstructor_handler_consistent (name : string) (age : Z) (email iid : string)
    (written : bool) (st : State) :
  consistent st → consistent (App.addinstructor name age email iid written st).
Proof.
  intros Hc. unfold App.addinstructor.
  destruct (Instructor_init name (PyInt age) email iid) as [o|] eqn:Hinit; [|done].
  apply Instructor_init_fresh in Hinit.
  pose proof (new_instructor_consistent st o Hc Hinit) as Hc1.
  assert (Hlen : length (heap_instructors st)
                 < length (heap_instructors (new_instructor st o).2)).
  { simpl. rewrite length_app. simpl. lia. }
  change (new_instructor st o)
    with (length (heap_instructors st), (new_instructor st o).2).
  set (st1 := (new_instructor st o).2) in *. clearbody st1. cbn beta iota.
  unfold App.store_addinstructor. rewrite saving_registry. unfold addinstructor.
  destruct (findinstructor st1 _) eqn:Hfind; [done|]. cbn [snd].
  by apply enlist_instructor_consistent.
Qed.

Lemma addcourse_handler_consistent (cid cname instid : string)
    (written rewritten : bool) (st : State) :
  consistent st → instid = "" ∨ written = true →
  consistent (App.addcourse cid cname instid written rewritten st).
Proof.
  intros Hc Hw. unfold App.addcourse.
  set (inst := if decide (instid = "") then None else findinstructor st instid).
  assert (Hinst : ∀ i, inst = Some i → i ∈ instructors st).
  { unfold inst. intros i. destruct (decide _); [done|].
    by intros [Hi _]%(find_id_Some (λ a, instructorid (instructor_at st a))). }
  assert (Hnone : written = false → inst = None).
  { intros ->. destruct Hw as [->|]; [|done]. unfold inst. by rewrite decide_True. }
  clearbody inst.
  destruct (Course_init cid cname inst) as [o|] eqn:Hinit; [|done].
  apply Course_init_fresh in Hinit as [Hempty Hci].
  pose proof (new_course_consistent st o Hc Hempty) as Hc1.
  assert (Hat : course_at (new_course st o).2 (length (heap_courses st)) = o).
  { by rewrite tk_course_at_new, decide_True. }
  assert (Hlen : length (heap_courses st) < length (heap_courses (new_course st o).2)).
  { simpl. rewrite length_app. simpl. lia. }
  assert (Hin : instructors (new_course st o).2 = instructors st) by done.
  change (new_course st o) with (length (heap_courses st), (new_course st o).2).
  set (st1 := (new_course st o).2) in *. clearbody st1. cbn beta iota.
  unfold App.store_addcourse, App.saving, App.save, addcourse.
  destruct (findcourse st1 _) eqn:Hfind; [done|].
  pose proof (enlist_course_consistent st1 (length (heap_courses st)) Hc1 Hlen Hfind)
    as Hlist.
  rewrite Hat, Hci in Hlist.
  assert (Hgoal : consistent
            match inst with
            | Some i => take i (length (heap_courses st))
                          (set_courses (courses st1 ++ [length (heap_courses st)]) st1)
            | None => set_courses (courses st1 ++ [length (heap_courses st)]) st1
            end).
  { apply Hlist; [done|]. intros i Hi. rewrite Hin. by apply Hinst. }
  destruct written.
  - by destruct inst.
  - by rewrite (Hnone eq_refl) in Hgoal.
Qed.

Lemma handle_consistent (e : App.event) (st : State) :
  consistent st → links_whole e = true → consistent (App.handle e st).
Proof.
  intros Hc Hw. unfold App.handle, links_whole in *.
  destruct (App.ev_action e).
  - by apply addstudent_handler_consistent.
  - by apply addinstructor_handler_consistent.
  - apply addcourse_handler_consistent; [done|].
    apply orb_true_iff in Hw as [Hw%bool_decide_eq_true|Hw]; auto.
  - unfold App.store_joincourse. rewrite saving_registry. by apply register_consistent.
  - unfold App.store_assigncourse. rewrite saving_registry. by apply assign_consistent.
  - unfold App.store_removestudent. rewrite saving_registry.
    by apply removestudent_consistent.
  - unfold App.store_removeinstructor. rewrite saving_registry.
    by apply removeinstructor_consistent.
  - unfold App.store_removecourse. rewrite saving_registry.
    by apply removecourse_consistent.
Qed.

Lemma session_consistent (l : list App.event) (st : State) :
  consistent st → forallb links_whole l = true → consistent (App.session l st).
Proof.
  revert st. unfold App.session.
  induction l as [|e l IH]; simpl; intros st Hc Hw; [done|].
  apply andb_true_iff in Hw as [He Hl]. by apply IH; [apply handle_consistent|].
Qed.

(** What a session makes of the empty registry when the file can be
    written throughout. *)
Lemma session_consistent_from_empty (l : list App.action) :
  consistent (App.session (map App.saved l) empty).
Proof.
  apply session_consistent; [apply consistent_empty|].
  induction l as [|a l IH]; [done|]. simpl. rewrite IH, andb_true_r.
  unfold links_whole. cbn [App.saved App.ev_action App.ev_written].
  destruct a; try done. apply orb_true_r.
Qed.

End tk_consistent.

(** ** The registry of [school.py]: removal and assignment *)

Section tk_outcomes.
Import Tk TkSpec TkInv.

Lemma find_after_remove (f : nat → string) (g : nat → string) (x : nat) (l : list nat)
    (id : string) :
  (∀ a, g a = f a) → NoDup (map f l) → x ∈ l →
  List.find (λ a, String.eqb (g a) id) (Py.remove x l) =
    if decide (id = f x) then None else List.find (λ a, String.eqb (f a) id) l.
Proof.
  intros Hg Hnd Hx. induction l as [|y l IH]; [by apply elem_of_nil in Hx|].
  apply NoDup_cons in Hnd as [Hy Hl]. cbn [Py.remove List.find].
  destruct (decide (x = y)) as [->|Hne].
  - destruct (decide (id = f y)) as [->|Hid].
    + apply find_id_None. intros a Ha Heq.
      apply Hy, elem_of_map. exists a. split; [|done]. by rewrite <- Heq, Hg.
    + destruct (String.eqb_spec (f y) id) as [Heq|_]; [by destruct Hid|].
      apply find_ext. intros a. by rewrite Hg.
  - apply elem_of_cons in Hx as [Hx|Hx]; [done|]. cbn [List.find]. rewrite Hg.
    specialize (IH Hl Hx). destruct (String.eqb_spec (f y) id) as [Heq|Hneq].
    + rewrite decide_False; [done|]. intros ->. apply Hy, elem_of_map. eauto.
    + exact IH.
Qed.

Lemma removestudent_effect (st : State) (sid : string) (s : nat) :
  findstudent st sid = Some s → (∀ c, NoDup (c_students (course_at st c))) →
  (removestudent st sid).1 = true ∧
  students (removestudent st sid).2 = Py.remove s (students st) ∧
  instructors (removestudent st sid).2 = instructors st ∧
  courses (removestudent st sid).2 = courses st ∧
  (∀ a, student_at (removestudent st sid).2 a = student_at st a) ∧
  (∀ a, instructor_at (removestudent st sid).2 a = instructor_at st a) ∧
  (∀ c, courseid (course_at (removestudent st sid).2 c) = courseid (course_at st c)) ∧
  (∀ c, c_instructor (course_at (removestudent st sid).2 c)
        = c_instructor (course_at st c)) ∧
  (∀ c, c ∈ courses st → s ∉ c_students (course_at (removestudent st sid).2 c)) ∧
  (∀ c x, x ∈ c_students (course_at (removestudent st sid).2 c) →
          x ∈ c_students (course_at st c)) ∧
  (∀ c x, x ≠ s → x ∈ c_students (course_at st c) →
          x ∈ c_students (course_at (removestudent st sid).2 c)).
Proof.
  intros Hs NC. unfold removestudent. rewrite Hs. cbn [fst snd].
  destruct (drop_student_loop s (courses st) st)
    as (E1 & E2 & E3 & E4 & E5 & E6 & E7 & E8 & E9 & E10).
  change (fold_left _ (courses st) st) with (fold_left (drop_student s) (courses st) st).
  set (st1 := fold_left (drop_student s) (courses st) st) in *.
  destruct (E10 NC) as [NC1 Hgone].
  split; [done|]. split; [simpl; by rewrite E4|]. split; [done|]. split; [done|].
  split; [intros a; unfold student_at; simpl; by rewrite E1|].
  split; [intros a; unfold instructor_at; simpl; by rewrite E2|].
  split; [intros c; by destruct (E7 c)|].
  split; [intros c; by destruct (E7 c)|].
  split; [done|]. split; [done|]. done.
Qed.

Lemma removeinstructor_effect (st : State) (iid : string) (i : nat) :
  findinstructor st iid = Some i →
  (removeinstructor st iid).1 = true ∧
  students (removeinstructor st iid).2 = students st ∧
  instructors (removeinstructor st iid).2 = Py.remove i (instructors st) ∧
  courses (removeinstructor st iid).2 = courses st ∧
  (∀ a, student_at (removeinstructor st iid).2 a = student_at st a) ∧
  (∀ a, instructor_at (removeinstructor st iid).2 a = instructor_at st a) ∧
  (∀ c, courseid (course_at (removeinstructor st iid).2 c) = courseid (course_at st c) ∧
        c_students (course_at (removeinstructor st iid).2 c)
          = c_students (course_at st c)) ∧
  (∀ c, c ∈ courses st →
        c_instructor (course_at (removeinstructor st iid).2 c) ≠ Some i) ∧
  (∀ c, c_instructor (course_at (removeinstructor st iid).2 c)
          = c_instructor (course_at st c) ∨
        (c_instructor (course_at (removeinstructor st iid).2 c) = None ∧
         c_instructor (course_at st c) = Some i)).
Proof.
  intros Hi. unfold removeinstructor. rewrite Hi. cbn [fst snd].
  destruct (clear_instructor_loop i (courses st) st)
    as (E1 & E2 & E3 & E4 & E5 & E6 & E7 & E8 & E9).
  change (fold_left _ (courses st) st) with (fold_left (clear_instructor i) (courses st) st).
  set (st1 := fold_left (clear_instructor i) (courses st) st) in *.
  split; [done|]. split; [done|]. split; [simpl; by rewrite E5|]. split; [done|].
  split; [intros a; unfold student_at; simpl; by rewrite E1|].
  split; [intros a; unfold instructor_at; simpl; by rewrite E2|].
  split; [done|]. split; done.
Qed.

Lemma removecourse_effect (st : State) (cid : string) (c : nat) :
  findcourse st cid = Some c →
  (∀ s, NoDup (s_courses (student_at st s))) →
  (∀ i, NoDup (i_courses (instructor_at st i))) →
  (removecourse st cid).1 = true ∧
  students (removecourse st cid).2 = students st ∧
  instructors (removecourse st cid).2 = instructors st ∧
  courses (removecourse st cid).2 = Py.remove c (courses st) ∧
  (∀ a, course_at (removecourse st cid).2 a = course_at st a) ∧
  (∀ a, studentid (student_at (removecourse st cid).2 a) = studentid (student_at st a)) ∧
  (∀ a, instructorid (instructor_at (removecourse st cid).2 a)
        = instructorid (instructor_at st a)) ∧
  (∀ s, s ∈ students st → c ∉ s_courses (student_at (removecourse st cid).2 s)) ∧
  (∀ s x, x ≠ c → x ∈ s_courses (student_at st s) →
          x ∈ s_courses (student_at (removecourse st cid).2 s)) ∧
  (∀ i, c_instructor (course_at st c) = Some i →
        c ∉ i_courses (instructor_at (removecourse st cid).2 i)) ∧
  (∀ i x, x ≠ c → x ∈ i_courses (instructor_at st i) →
          x ∈ i_courses (instructor_at (removecourse st cid).2 i)).
Proof.
  intros Hc NS NI. unfold removecourse. rewrite Hc. cbn [fst snd].
  destruct (drop_course_loop c (students st) st)
    as (E1 & E2 & E3 & E4 & E5 & E6 & E7 & E8 & E9 & E10).
  change (fold_left _ (students st) st) with (fold_left (drop_course c) (students st) st).
  set (st1 := fold_left (drop_course c) (students st) st) in *.
  destruct (E10 NS) as [NS1 Hgone].
  assert (HI1 : ∀ a, instructor_at st1 a = instructor_at st a).
  { intros a. unfold instructor_at. by rewrite E2. }
  assert (HC1 : ∀ a, course_at st1 a = course_at st a).
  { intros a. unfold course_at. by rewrite E1. }
  rewrite HC1.
  set (st2 := match c_instructor (course_at st c) with
              | Some i => if Py.mem c (i_courses (instructor_at st1 i))
                          then set_i_courses i (Py.remove c) st1 else st1
              | None => st1
              end).
  assert (Hst2 : students st2 = students st ∧ instructors st2 = instructors st ∧
                 courses st2 = courses st ∧
                 heap_students st2 = heap_students st1 ∧
                 heap_courses st2 = heap_courses st ∧
                 (∀ a, instructorid (instructor_at st2 a) = instructorid (instructor_at st a)) ∧
                 (∀ i, c_instructor (course_at st c) = Some i →
                       c ∉ i_courses (instructor_at st2 i)) ∧
                 (∀ a x, x ≠ c → x ∈ i_courses (instructor_at st a) →
                         x ∈ i_courses (instructor_at st2 a))).
  { unfold st2. destruct (c_instructor (course_at st c)) as [i|];
      [|by rewrite E1; repeat split; try done; intros a; rewrite HI1].
    destruct (Py.mem c (i_courses (instructor_at st1 i))) eqn:Hmem.
    - split; [done|]. split; [done|]. split; [done|]. split; [done|]. split; [done|].
      split; [|split].
      + intros a. rewrite instructor_at_set_i_courses, HI1. by destruct (decide _).
      + intros j [= <-]. rewrite instructor_at_set_i_courses, HI1.
        destruct (decide _) as [Hd|Hd]; simpl.
        * by apply remove_NoDup.
        * apply mem_true in Hmem. rewrite HI1 in Hmem. unfold instructor_at in Hmem.
          rewrite lookup_ge_None_2 in Hmem; [by apply elem_of_nil in Hmem|].
          rewrite <- E2. apply Nat.nlt_ge. tauto.
      + intros a x Hx Hin. rewrite instructor_at_set_i_courses, HI1.
        destruct (decide _); [|done]. simpl. by apply remove_other.
    - apply mem_false in Hmem. rewrite HI1 in Hmem. rewrite E1.
      repeat split; try done; try (intros a; by rewrite HI1).
      intros j [= <-]. by rewrite HI1. }
  destruct Hst2 as (F1 & F2 & F3 & F4 & F5 & F6 & F7 & F8).
  split; [done|]. split; [done|]. split; [done|]. split; [simpl; by rewrite F3|].
  split; [intros a; unfold course_at; simpl; by rewrite F5|].
  assert (HS : ∀ a, student_at (set_courses (Py.remove c (courses st2)) st2) a
                    = student_at st1 a).
  { intros a. unfold student_at. simpl. by rewrite F4. }
  split; [intros a; by rewrite HS|]. split; [done|].
  split; [intros s Hs'; rewrite HS; by apply Hgone|].
  split; [intros s x Hx Hin; rewrite HS; by apply E9|].
  split; done.
Qed.

End tk_outcomes.

(** X9. In a consistent registry, [removestudent(sid)] returns [False]
    and changes nothing when no student has the id. Otherwise it returns
    [True]; the id is then unknown, every other id finds the student it
    found before, no course of the registry lists the removed student any
    more while every course keeps its other students, and the instructors,
    the courses and the instructor of every course are as before. *)
Theorem removestudent_outcome (st : Tk.State) (sid : string) :
  TkInv.consistent st →
  (¬ TkSpec.student_known st sid → Tk.removestudent st sid = (false, st)) ∧
  (∀ s, Tk.findstudent st sid = Some s →
     (Tk.removestudent st sid).1 = true ∧
     Tk.findstudent (Tk.removestudent st sid).2 sid = None ∧
     (∀ sid', sid' ≠ sid →
        Tk.findstudent (Tk.removestudent st sid).2 sid' = Tk.findstudent st sid') ∧
     (∀ c, c ∈ Tk.courses st →
        (s ∉ Tk.c_students (Tk.course_at (Tk.removestudent st sid).2 c)) ∧
        ∀ x, x ≠ s →
          (x ∈ Tk.c_students (Tk.course_at (Tk.removestudent st sid).2 c) ↔
           x ∈ Tk.c_students (Tk.course_at st c))) ∧
     Tk.instructors (Tk.removestudent st sid).2 = Tk.instructors st ∧
     Tk.courses (Tk.removestudent st sid).2 = Tk.courses st ∧
     (∀ c, Tk.c_instructor (Tk.course_at (Tk.removestudent st sid).2 c)
           = Tk.c_instructor (Tk.course_at st c))).
Proof.
  intros (A & Sd & Id & Cd & NS & NC & NI & L1 & L2 & L3). split.
  - intros Hno%findstudent_None. unfold Tk.removestudent. by rewrite Hno.
  - intros s Hs.
    destruct (removestudent_effect st sid s Hs NC)
      as (E1 & E2 & E3 & E4 & E5 & E6 & E7 & E8 & E9 & E10 & E11).
    pose proof Hs as [Hin Hid]%(find_id_Some (λ a, Tk.studentid (Tk.student_at st a))).
    assert (Hfind : ∀ sid', Tk.findstudent (Tk.removestudent st sid).2 sid' =
                      if decide (sid' = sid) then None else Tk.findstudent st sid').
    { intros sid'. unfold Tk.findstudent at 1. rewrite E2.
      rewrite (find_after_remove (λ a, Tk.studentid (Tk.student_at st a))); try done.
      - by rewrite Hid.
      - intros a. by rewrite E5. }
    split; [done|]. split; [by rewrite Hfind, decide_True|].
    split; [intros sid' Hne; by rewrite Hfind, decide_False|].
    split; [|done].
    intros c Hc. split; [by apply E9|]. intros x Hx. split; [apply E10 | by apply E11].
Qed.

(** In the registry with student S1 and course C1, the student is
    registered and then removed: the id is unknown afterwards. *)
Lemma removestudent_outcome_witness :
  Tk.findstudent
    (Tk.removestudent (Tk.register TkSpec.with_student "S1" "C1").2 "S1").2 "S1" = None.
Proof.
  assert (Hc : TkInv.consistent (Tk.register TkSpec.with_student "S1" "C1").2).
  { apply register_consistent.
    apply (session_consistent_from_empty
             [App.AddInstructor "Ada" 40 "ada@x.com" "I1";
              App.AddInstructor "Bob" 41 "bob@x.com" "I2";
              App.AddCourse "C1" "Algorithms" "";
              App.AddStudent "John Doe" 20 "doe@x.com" "S1"]). }
  destruct (removestudent_outcome _ "S1" Hc) as [_ H].
  by destruct (H 0 eq_refl) as (_ & Hnone & _).
Defined.

(** X10. In a consistent registry, [removeinstructor(iid)] returns
    [False] and changes nothing when no instructor has the id. Otherwise it
    returns [True]; the id is then unknown, every other id finds the
    instructor it found before, every course of the registry that the
    instructor taught has no instructor, every other course keeps its
    instructor, and the students, the courses and the student lists are as
    before. *)
Theorem removeinstructor_outcome (st : Tk.State) (iid : string) :
  TkInv.consistent st →
  (¬ TkSpec.instructor_known st iid → Tk.removeinstructor st iid = (false, st)) ∧
  (∀ i, Tk.findinstructor st iid = Some i →
     (Tk.removeinstructor st iid).1 = true ∧
     Tk.findinstructor (Tk.removeinstructor st iid).2 iid = None ∧
     (∀ iid', iid' ≠ iid →
        Tk.findinstructor (Tk.removeinstructor st iid).2 iid'
          = Tk.findinstructor st iid') ∧
     (∀ c, c ∈ Tk.courses st →
        Tk.c_instructor (Tk.course_at (Tk.removeinstructor st iid).2 c) =
          if bool_decide (Tk.c_instructor (Tk.course_at st c) = Some i) then None
          else Tk.c_instructor (Tk.course_at st c)) ∧
     Tk.students (Tk.removeinstructor st iid).2 = Tk.students st ∧
     Tk.courses (Tk.removeinstructor st iid).2 = Tk.courses st ∧
     (∀ c, Tk.c_students (Tk.course_at (Tk.removeinstructor st iid).2 c)
           = Tk.c_students (Tk.course_at st c)) ∧
     (∀ s, Tk.student_at (Tk.removeinstructor st iid).2 s = Tk.student_at st s)).
Proof.
  intros (A & Sd & Id & Cd & NS & NC & NI & L1 & L2 & L3). split.
  - intros Hno%findinstructor_None. unfold Tk.removeinstructor. by rewrite Hno.
  - intros i Hi.
    destruct (removeinstructor_effect st iid i Hi)
      as (E1 & E2 & E3 & E4 & E5 & E6 & E7 & E8 & E9).
    pose proof Hi as [Hin Hid]%(find_id_Some (λ a, Tk.instructorid (Tk.instructor_at st a))).
    assert (Hfind : ∀ iid', Tk.findinstructor (Tk.removeinstructor st iid).2 iid' =
                      if decide (iid' = iid) then None else Tk.findinstructor st iid').
    { intros iid'. unfold Tk.findinstructor at 1. rewrite E3.
      rewrite (find_after_remove (λ a, Tk.instructorid (Tk.instructor_at st a))); try done.
      - by rewrite Hid.
      - intros a. by rewrite E6. }
    split; [done|]. split; [by rewrite Hfind, decide_True|].
    split; [intros iid' Hne; by rewrite Hfind, decide_False|].
    split; [|split; [done|split; [done|split; [|done]]]].
    + intros c Hc. specialize (E8 c Hc). case_bool_decide as Hci.
      * destruct (E9 c) as [Heq|[Hnone _]]; [congruence | done].
      * destruct (E9 c) as [Heq|[_ Hsome]]; [done | congruence].
    + intros c. by destruct (E7 c).
Qed.

(** In the registry where Ada (I1) teaches C1, the removal of I1 leaves
    the course without instructor. *)
Lemma removeinstructor_outcome_witness :
  Tk.c_instructor (Tk.course_at (Tk.removeinstructor TkSpec.ada_teaches "I1").2 0) = None.
Proof.
  assert (Hc : TkInv.consistent TkSpec.ada_teaches).
  { apply (session_consistent_from_empty
             [App.AddInstructor "Ada" 40 "ada@x.com" "I1";
              App.AddInstructor "Bob" 41 "bob@x.com" "I2";
              App.AddCourse "C1" "Algorithms" "";
              App.AddStudent "John Doe" 20 "doe@x.com" "S1";
              App.Assign "I1" "C1"]). }
  destruct (removeinstructor_outcome _ "I1" Hc) as [_ H].
  destruct (H 0 eq_refl) as (_ & _ & _ & Hci & _).
  rewrite (Hci 0); [done|]. apply list_elem_of_In. simpl. auto.
Defined.

(** X11. In a consistent registry, [removecourse(cid)] returns [False]
    and changes nothing when no course has the id. Otherwise it returns
    [True]; the id is then unknown, every other id finds the course it
    found before, no student of the registry and not the course's
    instructor has the course in its list any more, every list keeps its
    other courses, and the students and instructors are as before. *)
Theorem removecourse_outcome (st : Tk.State) (cid : string) :
  TkInv.consistent st →
  (¬ TkSpec.course_known st cid → Tk.removecourse st cid = (false, st)) ∧
  (∀ c, Tk.findcourse st cid = Some c →
     (Tk.removecourse st cid).1 = true ∧
     Tk.findcourse (Tk.removecourse st cid).2 cid = None ∧
     (∀ cid', cid' ≠ cid →
        Tk.findcourse (Tk.removecourse st cid).2 cid' = Tk.findcourse st cid') ∧
     (∀ s, s ∈ Tk.students st →
        c ∉ Tk.s_courses (Tk.student_at (Tk.removecourse st cid).2 s)) ∧
     (∀ i, Tk.c_instructor (Tk.course_at st c) = Some i →
        c ∉ Tk.i_courses (Tk.instructor_at (Tk.removecourse st cid).2 i)) ∧
     (∀ s x, x ≠ c → x ∈ Tk.s_courses (Tk.student_at st s) →
        x ∈ Tk.s_courses (Tk.student_at (Tk.removecourse st cid).2 s)) ∧
     (∀ i x, x ≠ c → x ∈ Tk.i_courses (Tk.instructor_at st i) →
        x ∈ Tk.i_courses (Tk.instructor_at (Tk.removecourse st cid).2 i)) ∧
     Tk.students (Tk.removecourse st cid).2 = Tk.students st ∧
     Tk.instructors (Tk.removecourse st cid).2 = Tk.instructors st).
Proof.
  intros (A & Sd & Id & Cd & NS & NC & NI & L1 & L2 & L3). split.
  - intros Hno%findcourse_None. unfold Tk.removecourse. by rewrite Hno.
  - intros c Hc.
    destruct (removecourse_effect st cid c Hc NS NI)
      as (E1 & E2 & E3 & E4 & E5 & E6 & E7 & E8 & E9 & E10 & E11).
    pose proof Hc as [Hin Hid]%(find_id_Some (λ a, Tk.courseid (Tk.course_at st a))).
    assert (Hfind : ∀ cid', Tk.findcourse (Tk.removecourse st cid).2 cid' =
                      if decide (cid' = cid) then None else Tk.findcourse st cid').
    { intros cid'. unfold Tk.findcourse at 1. rewrite E4.
      rewrite (find_after_remove (λ a, Tk.courseid (Tk.course_at st a))); try done.
      - by rewrite Hid.
      - intros a. by rewrite E5. }
    split; [done|]. split; [by rewrite Hfind, decide_True|].
    split; [intros cid' Hne; by rewrite Hfind, decide_False|].
    split; [done|]. split; [done|]. split; [done|]. split; done.
Qed.

(** In the registry where S1 is registered to C1, the removal of C1
    empties the student's list. *)
Lemma removecourse_outcome_witness :
  0 ∉ Tk.s_courses (Tk.student_at
         (Tk.removecourse (Tk.register TkSpec.with_student "S1" "C1").2 "C1").2 0).
Proof.
  assert (Hc : TkInv.consistent (Tk.register TkSpec.with_student "S1" "C1").2).
  { apply register_consistent.
    apply (session_consistent_from_empty
             [App.AddInstructor "Ada" 40 "ada@x.com" "I1";
              App.AddInstructor "Bob" 41 "bob@x.com" "I2";
              App.AddCourse "C1" "Algorithms" "";
              App.AddStudent "John Doe" 20 "doe@x.com" "S1"]). }
  destruct (removecourse_outcome _ "C1" Hc) as [_ H].
  destruct (H 0 eq_refl) as (_ & _ & _ & Hgone & _).
  apply (Hgone 0). apply list_elem_of_In. simpl. auto.
Defined.

(** X12. [assign(iid, cid)] returns [False] and changes nothing when the
    instructor or the course is unknown, and when the course found already
    has the instructor found. Otherwise it returns [True]: the course has
    the instructor, the instructor's list holds the course (appended
    unless it was there), and the ids, the student lists, the instructors
    of the other courses and the lists of the other instructors are as
    before. *)
Theorem assign_outcome (st : Tk.State) (iid cid : string) :
  TkSpec.allocated st →
  (¬ TkSpec.instructor_known st iid ∨ ¬ TkSpec.course_known st cid →
     Tk.assign st iid cid = (false, st)) ∧
  (∀ i c, Tk.findinstructor st iid = Some i → Tk.findcourse st cid = Some c →
     (Tk.c_instructor (Tk.course_at st c) = Some i → Tk.assign st iid cid = (false, st)) ∧
     (Tk.c_instructor (Tk.course_at st c) ≠ Some i →
        (Tk.assign st iid cid).1 = true ∧
        Tk.c_instructor (Tk.course_at (Tk.assign st iid cid).2 c) = Some i ∧
        Tk.i_courses (Tk.instructor_at (Tk.assign st iid cid).2 i)
          = Py.append_new c (Tk.i_courses (Tk.instructor_at st i)) ∧
        (∀ a, a ≠ c → Tk.course_at (Tk.assign st iid cid).2 a = Tk.course_at st a) ∧
        (∀ a, a ≠ i →
           Tk.instructor_at (Tk.assign st iid cid).2 a = Tk.instructor_at st a) ∧
        (∀ a, Tk.student_at (Tk.assign st iid cid).2 a = Tk.student_at st a) ∧
        Tk.courseid (Tk.course_at (Tk.assign st iid cid).2 c)
          = Tk.courseid (Tk.course_at st c) ∧
        Tk.c_students (Tk.course_at (Tk.assign st iid cid).2 c)
          = Tk.c_students (Tk.course_at st c) ∧
        Tk.instructorid (Tk.instructor_at (Tk.assign st iid cid).2 i)
          = Tk.instructorid (Tk.instructor_at st i) ∧
        Tk.students (Tk.assign st iid cid).2 = Tk.students st ∧
        Tk.instructors (Tk.assign st iid cid).2 = Tk.instructors st ∧
        Tk.courses (Tk.assign st iid cid).2 = Tk.courses st)).
Proof.
  intros (As & Ai & Ac). split.
  - unfold Tk.assign. intros [Hno%findinstructor_None|Hno%findcourse_None].
    + by rewrite Hno.
    + rewrite Hno. by destruct (Tk.findinstructor st iid).
  - intros i c Hi Hc. unfold Tk.assign. rewrite Hi, Hc. split.
    + intros Hci. by rewrite bool_decide_eq_true_2.
    + intros Hci. rewrite bool_decide_eq_false_2 by done. cbn [fst snd].
      apply (find_id_Some (λ a, Tk.instructorid (Tk.instructor_at st a))) in Hi as [Hi _].
      apply (find_id_Some (λ a, Tk.courseid (Tk.course_at st a))) in Hc as [Hc _].
      destruct (assign_effect st i c (Ai i Hi) (Ac c Hc))
        as (E1 & E2 & E3 & E4 & E5 & E6 & E7 & E8).
      split; [done|].
      split; [destruct (E7 c) as (_ & _ & ->); by rewrite decide_True|].
      split; [destruct (E8 i) as (_ & ->); by rewrite decide_True|].
      split.
      { intros a Ha. unfold Tk.take.
        change (Tk.course_at (Tk.set_i_courses i (Py.append_new c)
                                (Tk.set_c_instructor c (Some i) st)) a)
          with (Tk.course_at (Tk.set_c_instructor c (Some i) st) a).
        rewrite course_at_set_c_instructor, decide_False; [done|]. intros [? _]. done. }
      split.
      { intros a Ha. unfold Tk.take. rewrite instructor_at_set_i_courses.
        rewrite decide_False; [done|]. intros [? _]. done. }
      split; [intros a; unfold Tk.student_at; by rewrite E4|].
      split; [by destruct (E7 c)|]. split; [by destruct (E7 c) as (_ & ? & _)|].
      split; [by destruct (E8 i)|]. done.
Qed.

(** The first assignment of a course in the registry of two instructors
    and one course. *)
Lemma assign_outcome_witness :
  (Tk.assign TkSpec.two_instructors "I1" "C1").1 = true ∧
  Tk.c_instructor (Tk.course_at (Tk.assign TkSpec.two_instructors "I1" "C1").2 0) = Some 0.
Proof.
  assert (Halloc : TkSpec.allocated TkSpec.two_instructors).
  { repeat split; intros a Ha; cases_elem_of Ha; subst; simpl; lia. }
  destruct (assign_outcome TkSpec.two_instructors "I1" "C1" Halloc) as [_ H].
  destruct (H 0 0 eq_refl eq_refl) as [_ Hnew].
  destruct Hnew as (Hres & Hci & _); [done|]. done.
Defined.

(** ** The store: when it can be loaded *)

Section store_load.
Import Lab2 LoadSpec StoreSpec.

Lemma for_each_ok_all {A S} (P : A → Prop) (step : S → A → result S)
    (l : list A) (st st' : S) :
  (∀ s x s', step s x = Ok s' → P x) →
  Db.for_each step l st = Ok st' → ∀ x, x ∈ l → P x.
Proof.
  intros Hstep. revert st. induction l as [|y l IH]; simpl; intros st Hrun x Hx.
  - by apply elem_of_nil in Hx.
  - destruct (step st y) as [s1|] eqn:Hy; [|done]. simpl in Hrun.
    apply elem_of_cons in Hx as [->|Hx]; [by apply (Hstep st y s1) | by apply (IH s1)].
Qed.

Lemma Person_init_ok_inv (name : string) (age : Z) (email : string) p :
  Person_init name (PyInt age) email = Ok p →
  _validate_name name = true ∧ (0 ≤ age)%Z ∧ _validate_email email = true.
Proof.
  unfold Person_init.
  destruct (_validate_name name); [|done].
  destruct (_validate_age (PyInt age)) eqn:Hage; [|done].
  destruct (_validate_email email); [|done].
  intros _. simpl in Hage. split; [done|]. split; [lia|done].
Qed.

Lemma load_instructor_ok_inv (st : State) (r : string * string * Z * string)
    (st' : State) :
  Db.load_instructor st r = Ok st' →
  _validate_name r.1.1.2 = true ∧ (0 ≤ r.1.2)%Z ∧ _validate_email r.2 = true ∧
  nonblank r.1.1.1 = true.
Proof.
  destruct r as [[[iid name] age] email]. unfold Db.load_instructor, Instructor_init.
  destruct (Person_init name (PyInt age) email) as [p|] eqn:Hp; [|done]. simpl.
  apply Person_init_ok_inv in Hp as (? & ? & ?).
  unfold _validate_instructor_id. destruct (nonblank iid); [|by simpl]. done.
Qed.

Lemma load_student_ok_inv (db : Db.Database) (st : State)
    (r : string * string * Z * string) (st' : State) :
  Db.load_student db st r = Ok st' →
  _validate_name r.1.1.2 = true ∧ (0 ≤ r.1.2)%Z ∧ _validate_email r.2 = true ∧
  nonblank r.1.1.1 = true.
Proof.
  destruct r as [[[sid name] age] email]. unfold Db.load_student, Student_init.
  destruct (Person_init name (PyInt age) email) as [p|] eqn:Hp; [|done]. simpl.
  apply Person_init_ok_inv in Hp as (? & ? & ?).
  unfold _validate_student_id. destruct (nonblank sid); [|by simpl]. done.
Qed.

Lemma load_course_ok_inv (st : State)
    (r : string * string * option string * option string) (st' : State) :
  Db.load_course st r = Ok st' →
  nonblank r.1.1.1 = true ∧ nonblank r.1.1.2 = true.
Proof.
  destruct r as [[[cid cname] iid] nm]. cbn [fst snd].
  unfold Db.load_course, Course_init.
  unfold _validate_course_id, _validate_course_name.
  destruct (nonblank cid); [|by simpl]. destruct (nonblank cname); [|by simpl]. done.
Qed.

Lemma load_succeeds (db : Db.Database) :
  (∀ r, r ∈ Db.students db → valid_person r) →
  (∀ r, r ∈ Db.instructors db → valid_person r) →
  (∀ r, r ∈ Db.courses db → valid_course_rec r) →
  ∃ g, Db.load_system_from_db db = Ok g.
Proof.
  intros Hvs Hvi Hvc. unfold Db.load_system_from_db, Db.get_all_instructors.
  rewrite load_instructors_result by (intros r Hr%elem_of_order_by; by apply Hvi).
  cbn [mbind result_bind].
  set (st1 := mkState _ _ _ _ _ _).
  destruct (load_courses_result (Db.get_all_courses db) st1)
    as (st2 & Hrun2 & Hs2 & _).
  { intros r (c & Hc%elem_of_order_by & Hr)%elem_of_flat_map.
    destruct (left_join_instructor_key db c r Hr) as [-> ->]. apply (Hvc c Hc). }
  { intros a Ha. by apply elem_of_nil in Ha. }
  rewrite Hrun2. cbn [mbind result_bind].
  destruct (load_students_result db (Db.get_all_students db) st2) as (st3 & Hrun3 & _).
  { unfold Db.get_all_students.
    intros t (r & -> & Hr%elem_of_order_by)%elem_of_map. apply (Hvs r Hr). }
  { rewrite Hs2. intros a Ha. by apply elem_of_nil in Ha. }
  eauto.
Qed.

Lemma load_ok_valid (db : Db.Database) (g : State) :
  Db.load_system_from_db db = Ok g →
  (∀ r, r ∈ Db.students db → valid_person r) ∧
  (∀ r, r ∈ Db.instructors db → valid_person r) ∧
  (∀ r, r ∈ Db.courses db → valid_course_rec r).
Proof.
  unfold Db.load_system_from_db.
  destruct (Db.for_each Db.load_instructor _ _) as [st1|] eqn:H1; [|done].
  cbn [mbind result_bind].
  destruct (Db.for_each Db.load_course _ _) as [st2|] eqn:H2; [|done].
  cbn [mbind result_bind]. intros H3.
  split; [|split].
  - intros r Hr.
    apply (for_each_ok_all _ _ _ _ _ (load_student_ok_inv db) H3
             (Db.p_id r, Db.p_name r, Db.p_age r, Db.p_email r)).
    unfold Db.get_all_students. apply elem_of_map. exists r.
    split; [done | by apply elem_of_order_by].
  - intros r Hr.
    apply (for_each_ok_all _ _ _ _ _ load_instructor_ok_inv H1
             (Db.p_id r, Db.p_name r, Db.p_age r, Db.p_email r)).
    unfold Db.get_all_instructors. apply elem_of_map. exists r.
    split; [done | by apply elem_of_order_by].
  - intros c Hc. destruct (left_join_instructor_nonempty db c) as [r Hr].
    destruct (left_join_instructor_key db c r Hr) as [Hid Hname].
    unfold valid_course_rec. rewrite <- Hid, <- Hname.
    apply (for_each_ok_all _ _ _ _ _ load_course_ok_inv H2 r).
    unfold Db.get_all_courses. apply elem_of_flat_map. exists c.
    split; [by apply elem_of_order_by | done].
Qed.

Lemma filter_hit_length (id : string) (l : list Db.person_rec) :
  Db.has_id id l = true →
  Nat.eqb (length (List.filter (λ r, String.eqb (Db.p_id r) id) l)) 0 = false.
Proof.
  unfold Db.has_id. induction l as [|x l IH]; simpl; [done|].
  destruct (String.eqb (Db.p_id x) id); simpl; [done | exact IH].
Qed.

Lemma update_student_name (now : Z) (id name : string) (db : Db.Database) :
  Db.has_id id (Db.students db) = true →
  Db.update_student now id (Some name) None None db
  = (true, Db.set_students
             (map (λ r, if String.eqb (Db.p_id r) id
                        then Db.update_person_row now (Some name) None None r else r)
                  (Db.students db)) db).
Proof.
  intros Hid. unfold Db.update_student, Db.with_connection, Db.or_false.
  cbn [Db.exec]. unfold Db.update_person. cbn [from_option negb].
  pose proof (filter_hit_length id _ Hid) as Hn. rewrite Hn.
  cbn [mbind result_bind fst snd].
  destruct (length _) as [|n]; [done|]. done.
Qed.

(** X13. [load_system_from_db] returns a system exactly when every row of
    the three entity tables passes the validation of the constructors;
    otherwise it raises. [update_student] does not validate: given a
    blank name for a student that exists it returns [True], and the
    store can no longer be loaded. *)
Theorem load_needs_valid_rows (db : Db.Database) :
  (is_ok (Db.load_system_from_db db) = true ↔
     (∀ r, r ∈ Db.students db → valid_person r) ∧
     (∀ r, r ∈ Db.instructors db → valid_person r) ∧
     (∀ r, r ∈ Db.courses db → valid_course_rec r)) ∧
  (∀ (now : Z) (id name : string),
     Db.has_id id (Db.students db) = true → _validate_name name = false →
     (Db.update_student now id (Some name) None None db).1 = true ∧
     is_ok (Db.load_system_from_db
              (Db.update_student now id (Some name) None None db).2) = false).
Proof.
  split.
  - split.
    + destruct (Db.load_system_from_db db) as [g|] eqn:Hload; [|done].
      intros _. by apply (load_ok_valid db g).
    + intros (Hs & Hi & Hc). by destruct (load_succeeds db Hs Hi Hc) as [g ->].
  - intros now id name Hid Hname. rewrite (update_student_name now id name db Hid).
    split; [done|]. cbn [snd].
    destruct (Db.load_system_from_db _) as [g|] eqn:Hload; [|done]. exfalso.
    apply load_ok_valid in Hload as (Hs & _).
    apply has_id_true in Hid. apply elem_of_map in Hid as (r & Hr & Hin).
    assert (Hbad : Db.update_person_row now (Some name) None None r
                   ∈ Db.students
                       (Db.set_students
                          (map (λ r, if String.eqb (Db.p_id r) id
                                     then Db.update_person_row now (Some name) None None r
                                     else r) (Db.students db)) db)).
    { cbn [Db.set_students Db.students]. apply elem_of_map. exists r.
      split; [|done]. by rewrite <- Hr, String.eqb_refl. }
    destruct (Hs _ Hbad) as [Hn _]. cbn in Hn. congruence.
Qed.

End store_load.

(** ** The store: an id that is deleted and added again *)

Section store_readd.
Import Db.

Lemma delete_student_tables (now : Z) (id : string) (db : Database) :
  courses (delete_student now id db).2 = courses db ∧
  instructors (delete_student now id db).2 = instructors db ∧
  student_course_registrations (delete_student now id db).2
    = student_course_registrations db.
Proof. done. Qed.

Lemma delete_course_tables (now : Z) (id : string) (db : Database) :
  students (delete_course now id db).2 = students db ∧
  instructors (delete_course now id db).2 = instructors db ∧
  student_course_registrations (delete_course now id db).2
    = student_course_registrations db.
Proof. done. Qed.

Lemma delete_instructor_tables (now : Z) (id : string) (db : Database) :
  students (delete_instructor now id db).2 = students db ∧
  courses (delete_instructor now id db).2 = courses db ∧
  student_course_registrations (delete_instructor now id db).2
    = student_course_registrations db.
Proof. done. Qed.

Lemma add_student_tables (now : Z) (s : Lab2.Student) (db : Database) :
  courses (add_student now s db).2 = courses db ∧
  student_course_registrations (add_student now s db).2
    = student_course_registrations db.
Proof. rewrite add_student_outcome. by case_bool_decide. Qed.

Lemma add_instructor_tables (now : Z) (i : Lab2.Instructor) (db : Database) :
  courses (add_instructor now i db).2 = courses db.
Proof. rewrite add_instructor_outcome. by case_bool_decide. Qed.

Lemma add_course_tables (now : Z) (g : Lab2.State) (c : Lab2.Course) (db : Database) :
  students (add_course now g c db).2 = students db ∧
  student_course_registrations (add_course now g c db).2
    = student_course_registrations db.
Proof. rewrite add_course_outcome. by case_bool_decide. Qed.

End store_readd.

(** X17. The deletions leave the rows that refer to the deleted id where
    they are, so an entity that is added later under the same id has the
    links of the deleted one: after [delete_student] and [add_student]
    with the same id, [get_student_courses] of the id returns what it
    returned before the deletion; in the same way a course added under the
    id of a deleted course has its students, and an instructor added under
    the id of a deleted instructor has its courses. *)
Theorem readded_id_inherits_links (now now' : Z) (g : Lab2.State) (db : Db.Database)
    (s : Lab2.Student) (i : Lab2.Instructor) (c : Lab2.Course) :
  Db.get_student_courses
    (Db.add_student now' s (Db.delete_student now (Lab2.student_id s) db).2).2
    (Lab2.student_id s)
  = Db.get_student_courses db (Lab2.student_id s) ∧
  DbQuery.get_course_students
    (Db.add_course now' g c (Db.delete_course now (Lab2.course_id c) db).2).2
    (Lab2.course_id c)
  = DbQuery.get_course_students db (Lab2.course_id c) ∧
  DbQuery.get_instructor_courses
    (Db.add_instructor now' i (Db.delete_instructor now (Lab2.instructor_id i) db).2).2
    (Lab2.instructor_id i)
  = DbQuery.get_instructor_courses db (Lab2.instructor_id i).
Proof.
  split; [|split].
  - unfold Db.get_student_courses.
    destruct (add_student_tables now' s (Db.delete_student now (Lab2.student_id s) db).2)
      as [-> ->].
    by destruct (delete_student_tables now (Lab2.student_id s) db) as (-> & _ & ->).
  - unfold DbQuery.get_course_students.
    destruct (add_course_tables now' g c (Db.delete_course now (Lab2.course_id c) db).2)
      as [-> ->].
    by destruct (delete_course_tables now (Lab2.course_id c) db) as (-> & _ & ->).
  - unfold DbQuery.get_instructor_courses.
    rewrite (add_instructor_tables now' i).
    by destruct (delete_instructor_tables now (Lab2.instructor_id i) db) as (_ & -> & _).
Qed.

(** Student S1 of the store is deleted, and another person is added as
    S1: both calls return [True], and the new S1 is in course C1. *)
Lemma readded_id_inherits_links_witness :
  (Db.delete_student 2 "S1" DbSpec.registered_store).1 = true ∧
  (Db.add_student 3 (Lab2.mkStudent "Jane Roe" 31 "roe@x.com" "S1" [])
     (Db.delete_student 2 "S1" DbSpec.registered_store).2).1 = true ∧
  Db.get_student_courses
    (Db.add_student 3 (Lab2.mkStudent "Jane Roe" 31 "roe@x.com" "S1" [])
       (Db.delete_student 2 "S1" DbSpec.registered_store).2).2 "S1"
  = [("C1", "Algorithms")].
Proof.
  split; [by vm_compute|]. split; [by vm_compute|].
  destruct (readded_id_inherits_links 2 3 Lab2.empty DbSpec.registered_store
              (Lab2.mkStudent "Jane Roe" 31 "roe@x.com" "S1" [])
              Lab2.no_instructor Lab2.no_course) as (H & _).
  cbn [Lab2.student_id] in H. rewrite H. by vm_compute.
Defined.

(** ** The registry of [school_management.py]: what each loop changes *)

Section lab2_effects.
Import Lab2 Lab2Inv.

(** An object out of the heap has empty lists and no instructor. *)
Lemma enrolled_out (st : State) (c : nat) :
  length (heap_courses st) ≤ c → enrolled_students (course_at st c) = [].
Proof. intros Hc. unfold course_at. by rewrite lookup_ge_None_2. Qed.

Lemma registered_out (st : State) (s : nat) :
  length (heap_students st) ≤ s → registered_courses (student_at st s) = [].
Proof. intros Hs. unfold student_at. by rewrite lookup_ge_None_2. Qed.

Lemma assigned_out (st : State) (i : nat) :
  length (heap_instructors st) ≤ i → assigned_courses (instructor_at st i) = [].
Proof. intros Hi. unfold instructor_at. by rewrite lookup_ge_None_2. Qed.

Lemma instructor_out (st : State) (c : nat) :
  length (heap_courses st) ≤ c → instructor (course_at st c) = None.
Proof. intros Hc. unfold course_at. by rewrite lookup_ge_None_2. Qed.

Lemma unenrol_round (s c : nat) (st : State) :
  unenrolled s [c] st (unenrol s st c).
Proof.
  unfold unenrol, unenrolled.
  destruct (Py.mem s (enrolled_students (course_at st c))) eqn:Hmem.
  - apply mem_true in Hmem.
    assert (Hc : c < length (heap_courses st)).
    { apply Nat.nle_gt. intros Hge. rewrite enrolled_out in Hmem by done.
      by apply elem_of_nil in Hmem. }
    split; [done|]. split; [done|].
    split; [simpl; by rewrite length_alter|]. split; [done|]. split; [done|].
    split; [done|]. split; [|split; [|split]].
    + intros c0. rewrite course_at_set_enrolled.
      destruct (decide (c = c0 ∧ _)) as [[-> _]|]; done.
    + intros c0 x. rewrite course_at_set_enrolled.
      destruct (decide (c = c0 ∧ _)) as [[-> _]|]; [|done]. simpl. apply remove_elem.
    + intros c0 x Hx. rewrite course_at_set_enrolled.
      destruct (decide (c = c0 ∧ _)) as [[-> _]|]; [|done]. simpl. by apply remove_other.
    + intros Hnd. split.
      * intros c0. rewrite course_at_set_enrolled.
        destruct (decide (c = c0 ∧ _)) as [[-> _]|]; [|done]. simpl. by apply remove_NoDup.
      * intros c0 ->%list_elem_of_singleton. rewrite course_at_set_enrolled.
        rewrite decide_True by done. simpl. by apply remove_NoDup.
  - apply mem_false in Hmem. repeat split; try done.
    by intros c0 ->%list_elem_of_singleton.
Qed.

Lemma unenrolled_trans (s : nat) (l k : list nat) (st st1 st2 : State) :
  unenrolled s l st st1 → unenrolled s k st1 st2 → unenrolled s (l ++ k) st st2.
Proof.
  intros (A1 & A2 & A3 & A4 & A5 & A6 & A7 & A8 & A9 & A10)
         (B1 & B2 & B3 & B4 & B5 & B6 & B7 & B8 & B9 & B10).
  split; [congruence|]. split; [congruence|]. split; [congruence|].
  split; [congruence|]. split; [congruence|]. split; [congruence|].
  split; [|split; [|split]].
  - intros c. destruct (A7 c), (B7 c). split; congruence.
  - intros c x Hx. by apply A8, B8.
  - intros c x Hne Hx. by apply B9, A9.
  - intros Hnd. destruct (A10 Hnd) as [Hnd1 Hgone1].
    destruct (B10 Hnd1) as [Hnd2 Hgone2]. split; [done|].
    intros c [Hc|Hc]%elem_of_app; [|by apply Hgone2].
    intros Hin%B8. by apply (Hgone1 c).
Qed.

Lemma unenrol_loop (s : nat) (l : list nat) (st : State) :
  unenrolled s l st (fold_left (unenrol s) l st).
Proof.
  revert st. induction l as [|c l IH]; intros st; simpl.
  - repeat split; try done. by intros c ?%elem_of_nil.
  - apply (unenrolled_trans s [c] l st (unenrol s st c)).
    + apply unenrol_round.
    + apply IH.
Qed.

Lemma unregister_round (c s : nat) (st : State) :
  unregistered c [s] st (unregister c st s).
Proof.
  unfold unregister, unregistered.
  destruct (Py.mem c (registered_courses (student_at st s))) eqn:Hmem.
  - apply mem_true in Hmem.
    assert (Hs : s < length (heap_students st)).
    { apply Nat.nle_gt. intros Hge. rewrite registered_out in Hmem by done.
      by apply elem_of_nil in Hmem. }
    split; [done|]. split; [done|].
    split; [simpl; by rewrite length_alter|]. split; [done|]. split; [done|].
    split; [done|]. split; [|split; [|split]].
    + intros s0. rewrite student_at_set_registered.
      destruct (decide (s = s0 ∧ _)) as [[-> _]|]; done.
    + intros s0 x. rewrite student_at_set_registered.
      destruct (decide (s = s0 ∧ _)) as [[-> _]|]; [|done]. simpl. apply remove_elem.
    + intros s0 x Hx. rewrite student_at_set_registered.
      destruct (decide (s = s0 ∧ _)) as [[-> _]|]; [|done]. simpl. by apply remove_other.
    + intros Hnd. split.
      * intros s0. rewrite student_at_set_registered.
        destruct (decide (s = s0 ∧ _)) as [[-> _]|]; [|done]. simpl. by apply remove_NoDup.
      * intros s0 ->%list_elem_of_singleton. rewrite student_at_set_registered.
        rewrite decide_True by done. simpl. by apply remove_NoDup.
  - apply mem_false in Hmem. repeat split; try done.
    by intros s0 ->%list_elem_of_singleton.
Qed.

Lemma unregistered_trans (c : nat) (l k : list nat) (st st1 st2 : State) :
  unregistered c l st st1 → unregistered c k st1 st2 → unregistered c (l ++ k) st st2.
Proof.
  intros (A1 & A2 & A3 & A4 & A5 & A6 & A7 & A8 & A9 & A10)
         (B1 & B2 & B3 & B4 & B5 & B6 & B7 & B8 & B9 & B10).
  split; [congruence|]. split; [congruence|]. split; [congruence|].
  split; [congruence|]. split; [congruence|]. split; [congruence|].
  split; [|split; [|split]].
  - intros s. congruence.
  - intros s x Hx. by apply A8, B8.
  - intros s x Hne Hx. by apply B9, A9.
  - intros Hnd. destruct (A10 Hnd) as [Hnd1 Hgone1].
    destruct (B10 Hnd1) as [Hnd2 Hgone2]. split; [done|].
    intros s [Hs|Hs]%elem_of_app; [|by apply Hgone2].
    intros Hin%B8. by apply (Hgone1 s).
Qed.

Lemma unregister_loop (c : nat) (l : list nat) (st : State) :
  unregistered c l st (fold_left (unregister c) l st).
Proof.
  revert st. induction l as [|s l IH]; intros st; simpl.
  - repeat split; try done. by intros s ?%elem_of_nil.
  - apply (unregistered_trans c [s] l st (unregister c st s)).
    + apply unregister_round.
    + apply IH.
Qed.

Lemma unassign_round (c : nat) (st : State) :
  unassigned [c] st (unassign st c).
Proof.
  unfold unassign, unassigned.
  split; [done|]. split; [done|].
  split; [simpl; by rewrite length_alter|]. split; [done|]. split; [done|].
  split; [done|]. split; [|split].
  - intros c0. rewrite course_at_set_instructor. by destruct (decide _).
  - intros c0. rewrite course_at_set_instructor.
    destruct (decide _) as [[-> _]|]; [|by left]. right. split; [done|].
    by apply list_elem_of_singleton.
  - intros c0 ->%list_elem_of_singleton. rewrite course_at_set_instructor.
    destruct (decide _) as [|Hno]; [done|]. apply instructor_out.
    apply Nat.nlt_ge. intros Hlt. by apply Hno.
Qed.

Lemma unassigned_trans (l k : list nat) (st st1 st2 : State) :
  unassigned l st st1 → unassigned k st1 st2 → unassigned (l ++ k) st st2.
Proof.
  intros (A1 & A2 & A3 & A4 & A5 & A6 & A7 & A8 & A9)
         (B1 & B2 & B3 & B4 & B5 & B6 & B7 & B8 & B9).
  split; [congruence|]. split; [congruence|]. split; [congruence|].
  split; [congruence|]. split; [congruence|]. split; [congruence|].
  split; [|split].
  - intros c. destruct (A7 c), (B7 c). split; congruence.
  - intros c. destruct (B8 c) as [Hb|[Hb Hb']].
    + destruct (A8 c) as [Ha|[Ha Ha']].
      * left. congruence.
      * right. split; [congruence|]. apply elem_of_app. by left.
    + right. split; [done|]. apply elem_of_app. by right.
  - intros c [Hc|Hc]%elem_of_app; [|by apply B9].
    specialize (A9 c Hc). destruct (B8 c) as [Hb|[Hb _]]; congruence.
Qed.

Lemma unassign_loop (l : list nat) (st : State) :
  unassigned l st (fold_left unassign l st).
Proof.
  revert st. induction l as [|c l IH]; intros st; simpl.
  - repeat split; try done; [by left|]. by intros c ?%elem_of_nil.
  - apply (unassigned_trans [c] l st (unassign st c)).
    + apply unassign_round.
    + apply IH.
Qed.

End lab2_effects.

(** ** The registry of [school_management.py]: consistency is kept *)

Section lab2_consistent.
Import Lab2 Lab2Inv.

Lemma lab2_consistent_empty : consistent empty.
Proof.
  split; [by repeat split; intros a ?%elem_of_nil|].
  split; [constructor|]. split; [constructor|]. split; [constructor|].
  split; [intros s; constructor|]. split; [intros c; constructor|].
  split; [intros i; constructor|].
  split; [by intros s c ?%elem_of_nil|].
  split; [by intros c s ?%elem_of_nil|].
  split; [by intros c i ?%elem_of_nil | by intros i c ?%elem_of_nil].
Qed.

(** *** Removal *)

Lemma remove_student_consistent (st : State) (sid : string) :
  consistent st → consistent (remove_student st sid).2.
Proof.
  intros Hc. unfold remove_student.
  destruct (find_student_by_id st sid) as [s|] eqn:Hfind; [|done]. cbn [snd].
  apply (find_id_Some (λ a, student_id (student_at st a))) in Hfind as [Hs _].
  destruct Hc as ((As & Ai & Ac) & S & I & C & NS & NC & NI & L1 & L2 & I1 & I2).
  destruct (unenrol_loop s (registered_courses (student_at st s)) st)
    as (E1 & E2 & E3 & E4 & E5 & E6 & E7 & E8 & E9 & E10).
  change (fold_left _ (registered_courses (student_at st s)) st)
    with (fold_left (unenrol s) (registered_courses (student_at st s)) st).
  set (st1 := fold_left (unenrol s) (registered_courses (student_at st s)) st) in *.
  destruct (E10 NC) as [NC1 Hgone].
  set (st2 := set_students (Py.remove s (students st1)) st1).
  assert (Hst : students st2 = Py.remove s (students st)) by (simpl; by rewrite E4).
  assert (Hin : instructors st2 = instructors st) by done.
  assert (Hco : courses st2 = courses st) by done.
  assert (HS : ∀ a, student_at st2 a = student_at st a).
  { intros a. unfold student_at. simpl. by rewrite E1. }
  assert (HI : ∀ a, instructor_at st2 a = instructor_at st a).
  { intros a. unfold instructor_at. simpl. by rewrite E2. }
  assert (HC : ∀ a, course_at st2 a = course_at st1 a) by done.
  assert (Hls : length (heap_students st2) = length (heap_students st))
    by (simpl; by rewrite E1).
  assert (Hli : length (heap_instructors st2) = length (heap_instructors st))
    by (simpl; by rewrite E2).
  assert (Hlc : length (heap_courses st2) = length (heap_courses st)) by done.
  clearbody st2.
  pose proof (NoDup_map_addresses _ _ S) as Hnd.
  unfold consistent, allocated. rewrite Hst, Hin, Hco, Hls, Hli, Hlc.
  split; [split; [|split]|].
  - intros a Ha%remove_elem. by apply As.
  - done.
  - done.
  - split; [|split; [|split; [|split; [|split; [|split; [|split; [|split; [|split]]]]]]]].
    + rewrite (map_ext_at _ (λ a, student_id (student_at st a))) by (intros; by rewrite HS).
      by apply NoDup_map_remove.
    + by rewrite (map_ext_at _ (λ a, instructor_id (instructor_at st a)))
        by (intros; by rewrite HI).
    + by rewrite (map_ext_at _ (λ a, course_id (course_at st a)))
        by (intros a; rewrite HC; by destruct (E7 a)).
    + intros a. by rewrite HS.
    + intros a. by rewrite HC.
    + intros a. by rewrite HI.
    + intros s0 c0 [Hs0 Hne]%(elem_of_remove _ _ _ Hnd). rewrite HS, HC. intros Hc0.
      destruct (L1 s0 c0 Hs0 Hc0) as [Hin' Hmem]. split; [done|]. by apply E9.
    + intros c0 x Hc0. rewrite HC, HS. intros Hx.
      destruct (L2 c0 x Hc0 (E8 _ _ Hx)) as [Hin' Hmem].
      split; [|done]. apply (elem_of_remove _ _ _ Hnd). split; [done|].
      intros ->. by apply (Hgone c0 Hmem).
    + intros c0 i Hc0. rewrite HC, HI. destruct (E7 c0) as [_ ->]. by apply I1.
    + intros i c0 Hi0. rewrite HI, HC. destruct (E7 c0) as [_ ->]. by apply I2.
Qed.

Lemma remove_instructor_consistent (st : State) (iid : string) :
  consistent st → consistent (remove_instructor st iid).2.
Proof.
  intros Hc. unfold remove_instructor.
  destruct (find_instructor_by_id st iid) as [i|] eqn:Hfind; [|done]. cbn [snd].
  apply (find_id_Some (λ a, instructor_id (instructor_at st a))) in Hfind as [Hi _].
  destruct Hc as ((As & Ai & Ac) & S & I & C & NS & NC & NI & L1 & L2 & I1 & I2).
  destruct (unassign_loop (assigned_courses (instructor_at st i)) st)
    as (E1 & E2 & E3 & E4 & E5 & E6 & E7 & E8 & E9).
  change (fold_left _ (assigned_courses (instructor_at st i)) st)
    with (fold_left unassign (assigned_courses (instructor_at st i)) st).
  set (st1 := fold_left unassign (assigned_courses (instructor_at st i)) st) in *.
  set (st2 := set_instructors (Py.remove i (instructors st1)) st1).
  assert (Hst : students st2 = students st) by done.
  assert (Hin : instructors st2 = Py.remove i (instructors st)) by (simpl; by rewrite E5).
  assert (Hco : courses st2 = courses st) by done.
  assert (HS : ∀ a, student_at st2 a = student_at st a).
  { intros a. unfold student_at. simpl. by rewrite E1. }
  assert (HI : ∀ a, instructor_at st2 a = instructor_at st a).
  { intros a. unfold instructor_at. simpl. by rewrite E2. }
  assert (HC : ∀ a, course_at st2 a = course_at st1 a) by done.
  assert (Hls : length (heap_students st2) = length (heap_students st))
    by (simpl; by rewrite E1).
  assert (Hli : length (heap_instructors st2) = length (heap_instructors st))
    by (simpl; by rewrite E2).
  assert (Hlc : length (heap_courses st2) = length (heap_courses st)) by done.
  clearbody st2.
  pose proof (NoDup_map_addresses _ _ I) as Hnd.
  unfold consistent, allocated. rewrite Hst, Hin, Hco, Hls, Hli, Hlc.
  split; [split; [|split]|].
  - done.
  - intros a Ha%remove_elem. by apply Ai.
  - done.
  - split; [|split; [|split; [|split; [|split; [|split; [|split; [|split; [|split]]]]]]]].
    + by rewrite (map_ext_at _ (λ a, student_id (student_at st a)))
        by (intros; by rewrite HS).
    + rewrite (map_ext_at _ (λ a, instructor_id (instructor_at st a)))
        by (intros; by rewrite HI).
      by apply NoDup_map_remove.
    + by rewrite (map_ext_at _ (λ a, course_id (course_at st a)))
        by (intros a; rewrite HC; by destruct (E7 a)).
    + intros a. by rewrite HS.
    + intros a. rewrite HC. destruct (E7 a) as [_ ->]. done.
    + intros a. by rewrite HI.
    + intros s0 c0 Hs0. rewrite HS, HC. destruct (E7 c0) as [_ ->]. by apply L1.
    + intros c0 x Hc0. rewrite HC, HS. destruct (E7 c0) as [_ ->]. by apply L2.
    + intros c0 j Hc0. rewrite HC, HI. intros Hj.
      assert (instructor (course_at st c0) = Some j) as Hj0.
      { destruct (E8 c0) as [<-|[Hn _]]; [done | congruence]. }
      destruct (I1 c0 j Hc0 Hj0) as [Hjin Hmem]. split; [|done].
      apply (elem_of_remove _ _ _ Hnd). split; [done|].
      intros ->. specialize (E9 c0 Hmem). congruence.
    + intros j c0 [Hj Hne]%(elem_of_remove _ _ _ Hnd). rewrite HI, HC. intros Hc0.
      destruct (I2 j c0 Hj Hc0) as [Hcin Hinst]. split; [done|].
      destruct (E8 c0) as [->|[_ Hl]]; [done|].
      destruct (I2 i c0 Hi Hl) as [_ Hinst']. congruence.
Qed.

Lemma remove_course_consistent (st : State) (cid : string) :
  consistent st → consistent (remove_course st cid).2.
Proof.
  intros Hc. unfold remove_course.
  destruct (find_course_by_id st cid) as [c|] eqn:Hfind; [|done]. cbn [snd].
  apply (find_id_Some (λ a, course_id (course_at st a))) in Hfind as [Hcin _].
  destruct Hc as ((As & Ai & Ac) & S & I & C & NS & NC & NI & L1 & L2 & I1 & I2).
  destruct (unregister_loop c (enrolled_students (course_at st c)) st)
    as (E1 & E2 & E3 & E4 & E5 & E6 & E7 & E8 & E9 & E10).
  change (fold_left _ (enrolled_students (course_at st c)) st)
    with (fold_left (unregister c) (enrolled_students (course_at st c)) st).
  set (st1 := fold_left (unregister c) (enrolled_students (course_at st c)) st) in *.
  destruct (E10 NS) as [NS1 Hgone].
  assert (HI1 : ∀ a, instructor_at st1 a = instructor_at st a).
  { intros a. unfold instructor_at. by rewrite E2. }
  assert (HC1 : ∀ a, course_at st1 a = course_at st a).
  { intros a. unfold course_at. by rewrite E1. }
  set (st2 := match instructor (course_at st1 c) with
              | Some i => if Py.mem c (assigned_courses (instructor_at st1 i))
                          then set_assigned i (Py.remove c) st1 else st1
              | None => st1
              end).
  assert (Hst2 : students st2 = students st ∧ instructors st2 = instructors st ∧
                 courses st2 = courses st ∧
                 heap_students st2 = heap_students st1 ∧
                 heap_courses st2 = heap_courses st ∧
                 length (heap_instructors st2) = length (heap_instructors st) ∧
                 (∀ a, instructor_id (instructor_at st2 a)
                       = instructor_id (instructor_at st a)) ∧
                 (∀ a, NoDup (assigned_courses (instructor_at st2 a))) ∧
                 (∀ a x, x ≠ c → x ∈ assigned_courses (instructor_at st a) →
                         x ∈ assigned_courses (instructor_at st2 a)) ∧
                 (∀ a x, x ∈ assigned_courses (instructor_at st2 a) →
                         x ∈ assigned_courses (instructor_at st a)) ∧
                 (∀ i, instructor (course_at st c) = Some i →
                       c ∉ assigned_courses (instructor_at st2 i))).
  { unfold st2. rewrite HC1. destruct (instructor (course_at st c)) as [i|];
      [|by rewrite E2; repeat split; try done; intros a; rewrite HI1].
    destruct (Py.mem c (assigned_courses (instructor_at st1 i))) eqn:Hmem.
    - split; [done|]. split; [done|]. split; [done|]. split; [done|]. split; [done|].
      split; [simpl; by rewrite length_alter, E2|].
      split; [|split; [|split; [|split]]].
      + intros a. rewrite instructor_at_set_assigned, HI1. by destruct (decide _).
      + intros a. rewrite instructor_at_set_assigned, HI1.
        destruct (decide _); [|done]. simpl. by apply remove_NoDup.
      + intros a x Hx Hin. rewrite instructor_at_set_assigned, HI1.
        destruct (decide _); [|done]. simpl. by apply remove_other.
      + intros a x. rewrite instructor_at_set_assigned, HI1.
        destruct (decide _); [|done]. simpl. apply remove_elem.
      + intros j [= <-]. rewrite instructor_at_set_assigned, HI1.
        apply mem_true in Hmem. rewrite HI1 in Hmem.
        assert (Hj : i < length (heap_instructors st1)).
        { apply Nat.nle_gt. intros Hge. rewrite E2 in Hge.
          rewrite assigned_out in Hmem by done. by apply elem_of_nil in Hmem. }
        rewrite decide_True by done. simpl. by apply remove_NoDup.
    - apply mem_false in Hmem. rewrite HI1 in Hmem.
      split; [done|]. split; [done|]. split; [done|]. split; [done|]. split; [done|].
      split; [by rewrite E2|].
      split; [|split; [|split; [|split]]].
      + intros a. by rewrite HI1.
      + intros a. by rewrite HI1.
      + intros a x _. by rewrite HI1.
      + intros a x. by rewrite HI1.
      + intros j [= <-]. by rewrite HI1. }
  destruct Hst2 as (F1 & F2 & F3 & F4 & F5 & F6 & F7 & F8 & F9 & F10 & F11).
  set (st3 := set_courses (Py.remove c (courses st2)) st2).
  assert (Hst : students st3 = students st) by done.
  assert (Hin : instructors st3 = instructors st) by done.
  assert (Hco : courses st3 = Py.remove c (courses st)) by (simpl; by rewrite F3).
  assert (HS : ∀ a, student_at st3 a = student_at st1 a).
  { intros a. unfold student_at. simpl. by rewrite F4. }
  assert (HI : ∀ a, instructor_at st3 a = instructor_at st2 a) by done.
  assert (HC : ∀ a, course_at st3 a = course_at st a).
  { intros a. unfold course_at. simpl. by rewrite F5. }
  assert (Hls : length (heap_students st3) = length (heap_students st))
    by (simpl; by rewrite F4).
  assert (Hli : length (heap_instructors st3) = length (heap_instructors st)) by done.
  assert (Hlc : length (heap_courses st3) = length (heap_courses st))
    by (simpl; by rewrite F5).
  clearbody st3.
  pose proof (NoDup_map_addresses _ _ C) as Hnd.
  unfold consistent, allocated. rewrite Hst, Hin, Hco, Hls, Hli, Hlc.
  split; [split; [|split]|].
  - done.
  - done.
  - intros a Ha%remove_elem. by apply Ac.
  - split; [|split; [|split; [|split; [|split; [|split; [|split; [|split; [|split]]]]]]]].
    + by rewrite (map_ext_at _ (λ a, student_id (student_at st a)))
        by (intros; by rewrite HS, E7).
    + by rewrite (map_ext_at _ (λ a, instructor_id (instructor_at st a)))
        by (intros; by rewrite HI, F7).
    + rewrite (map_ext_at _ (λ a, course_id (course_at st a))) by (intros; by rewrite HC).
      by apply NoDup_map_remove.
    + intros a. by rewrite HS.
    + intros a. by rewrite HC.
    + intros a. by rewrite HI.
    + intros s0 c0 Hs0. rewrite HS, HC. intros Hc0.
      destruct (L1 s0 c0 Hs0 (E8 _ _ Hc0)) as [Hin' Hmem]. split; [|done].
      apply (elem_of_remove _ _ _ Hnd). split; [done|].
      intros ->. by apply (Hgone s0 Hmem).
    + intros c0 x [Hc0 Hne]%(elem_of_remove _ _ _ Hnd). rewrite HC, HS. intros Hx.
      destruct (L2 c0 x Hc0 Hx) as [Hin' Hmem]. split; [done|]. by apply E9.
    + intros c0 j [Hc0 Hne]%(elem_of_remove _ _ _ Hnd). rewrite HC, HI. intros Hj.
      destruct (I1 c0 j Hc0 Hj) as [Hjin Hmem]. split; [done|]. by apply F9.
    + intros j c0 Hj. rewrite HI, HC. intros Hc0.
      destruct (I2 j c0 Hj (F10 _ _ Hc0)) as [Hc0in Hinst]. split; [|done].
      apply (elem_of_remove _ _ _ Hnd). split; [done|].
      intros ->. by apply (F11 j Hinst).
Qed.

End lab2_consistent.

Section lab2_links.
Import Lab2 Lab2Inv.

(** *** Registration *)

Lemma register_course_effect (st : State) (s c : nat) :
  s < length (heap_students st) → c < length (heap_courses st) →
  c ∉ registered_courses (student_at st s) →
  let st' := register_course s c st in
  students st' = students st ∧ instructors st' = instructors st ∧
  courses st' = courses st ∧
  heap_instructors st' = heap_instructors st ∧
  length (heap_students st') = length (heap_students st) ∧
  length (heap_courses st') = length (heap_courses st) ∧
  (∀ a, student_id (student_at st' a) = student_id (student_at st a) ∧
        registered_courses (student_at st' a)
          = if decide (a = s) then registered_courses (student_at st a) ++ [c]
            else registered_courses (student_at st a)) ∧
  (∀ a, course_id (course_at st' a) = course_id (course_at st a) ∧
        instructor (course_at st' a) = instructor (course_at st a) ∧
        enrolled_students (course_at st' a)
          = if decide (a = c) then Py.append_new s (enrolled_students (course_at st a))
            else enrolled_students (course_at st a)).
Proof.
  intros Hs Hc Hnew. unfold register_course.
  rewrite (proj2 (mem_false c _) Hnew). unfold add_student_to_course.
  simpl. rewrite !length_alter.
  split; [done|]. split; [done|]. split; [done|]. split; [done|].
  split; [done|]. split; [done|]. split.
  - intros a.
    change (student_at (set_enrolled c (Py.append_new s)
                          (set_registered s (λ l, l ++ [c]) st)) a)
      with (student_at (set_registered s (λ l, l ++ [c]) st) a).
    rewrite student_at_set_registered.
    destruct (decide (s = a ∧ a < length (heap_students st))) as [[-> _]|Hno].
    + by rewrite decide_True.
    + rewrite decide_False; [done|]. intros ->. by apply Hno.
  - intros a. rewrite course_at_set_enrolled.
    change (course_at (set_registered s (λ l, l ++ [c]) st) a) with (course_at st a).
    change (heap_courses (set_registered s (λ l, l ++ [c]) st)) with (heap_courses st).
    destruct (decide (c = a ∧ a < length (heap_courses st))) as [[-> _]|Hno].
    + by rewrite decide_True.
    + rewrite decide_False; [done|]. intros ->. by apply Hno.
Qed.

Lemma register_course_consistent (st : State) (s c : nat) :
  consistent st → s ∈ students st → c ∈ courses st →
  consistent (register_course s c st).
Proof.
  intros Hc Hsin Hcin.
  destruct (Py.mem c (registered_courses (student_at st s))) eqn:Hmem.
  { unfold register_course. by rewrite Hmem. }
  apply mem_false in Hmem.
  destruct Hc as ((As & Ai & Ac) & S & I & C & NS & NC & NI & L1 & L2 & I1 & I2).
  destruct (register_course_effect st s c (As s Hsin) (Ac c Hcin) Hmem)
    as (R1 & R2 & R3 & R4 & R5 & R6 & R7 & R8).
  set (st' := register_course s c st) in *. clearbody st'.
  assert (Hnin : s ∉ enrolled_students (course_at st c)).
  { intros Hin. by destruct (L2 c s Hcin Hin). }
  assert (HI : ∀ a, instructor_at st' a = instructor_at st a).
  { intros a. unfold instructor_at. by rewrite R4. }
  assert (Hsc' : ∀ a x, x ∈ registered_courses (student_at st' a) ↔
                        x ∈ registered_courses (student_at st a) ∨ (a = s ∧ x = c)).
  { intros a x. destruct (R7 a) as [_ ->]. destruct (decide (a = s)) as [->|Hne].
    - rewrite elem_of_app, list_elem_of_singleton. tauto.
    - tauto. }
  assert (Hcs' : ∀ a x, x ∈ enrolled_students (course_at st' a) ↔
                        x ∈ enrolled_students (course_at st a) ∨ (a = c ∧ x = s)).
  { intros a x. destruct (R8 a) as (_ & _ & ->). destruct (decide (a = c)) as [->|Hne].
    - rewrite elem_of_append_new. tauto.
    - tauto. }
  unfold consistent, allocated. rewrite R1, R2, R3, R4, R5, R6.
  split; [done|].
  split; [|split; [|split; [|split; [|split; [|split; [|split; [|split; [|split]]]]]]]].
  - by rewrite (map_ext_at _ (λ a, student_id (student_at st a)))
      by (intros a; by destruct (R7 a)).
  - by rewrite (map_ext_at _ (λ a, instructor_id (instructor_at st a)))
      by (intros; by rewrite HI).
  - by rewrite (map_ext_at _ (λ a, course_id (course_at st a)))
      by (intros a; by destruct (R8 a)).
  - intros a. destruct (R7 a) as [_ ->]. destruct (decide _) as [->|]; [|done].
    apply NoDup_app. split; [done|]. split; [|apply NoDup_singleton].
    by intros x Hx ->%list_elem_of_singleton.
  - intros a. destruct (R8 a) as (_ & _ & ->). destruct (decide _); [|done].
    by apply append_new_NoDup.
  - intros a. by rewrite HI.
  - intros s0 c0 Hs0. rewrite Hsc', Hcs'. intros [Hold|[-> ->]].
    + destruct (L1 s0 c0 Hs0 Hold). auto.
    + auto.
  - intros c0 s0 Hc0. rewrite Hsc', Hcs'. intros [Hold|[-> ->]].
    + destruct (L2 c0 s0 Hc0 Hold). auto.
    + auto.
  - intros c0 i Hc0. rewrite HI. destruct (R8 c0) as (_ & -> & _). by apply I1.
  - intros i c0 Hi0. rewrite HI. destruct (R8 c0) as (_ & -> & _). by apply I2.
Qed.

Lemma register_student_consistent (ssel csel : string) (st : State) :
  consistent st → consistent (Gui.register_student ssel csel st).
Proof.
  intros Hc. unfold Gui.register_student.
  destruct (_ || _); [done|].
  destruct (find_student_by_id st _) as [s|] eqn:Hs; [|done].
  destruct (find_course_by_id st _) as [c|] eqn:Hco; [|done].
  destruct (Py.mem c (registered_courses (student_at st s))) eqn:Hmem; [done|].
  apply (find_id_Some (λ a, student_id (student_at st a))) in Hs as [Hsin _].
  apply (find_id_Some (λ a, course_id (course_at st a))) in Hco as [Hcin _].
  by apply register_course_consistent.
Qed.

(** *** Assignment *)

Lemma link_effect (st : State) (i c : nat) :
  i < length (heap_instructors st) → c < length (heap_courses st) →
  let st' := set_instructor c (Some i) (set_assigned i (λ l, l ++ [c]) st) in
  students st' = students st ∧ instructors st' = instructors st ∧
  courses st' = courses st ∧
  heap_students st' = heap_students st ∧
  length (heap_instructors st') = length (heap_instructors st) ∧
  length (heap_courses st') = length (heap_courses st) ∧
  (∀ a, course_id (course_at st' a) = course_id (course_at st a) ∧
        enrolled_students (course_at st' a) = enrolled_students (course_at st a) ∧
        instructor (course_at st' a)
          = if decide (a = c) then Some i else instructor (course_at st a)) ∧
  (∀ a, instructor_id (instructor_at st' a) = instructor_id (instructor_at st a) ∧
        assigned_courses (instructor_at st' a)
          = if decide (a = i) then assigned_courses (instructor_at st a) ++ [c]
            else assigned_courses (instructor_at st a)).
Proof.
  intros Hi Hc. simpl. rewrite !length_alter.
  split; [done|]. split; [done|]. split; [done|]. split; [done|].
  split; [done|]. split; [done|]. split.
  - intros a. rewrite course_at_set_instructor.
    change (course_at (set_assigned i (λ l, l ++ [c]) st) a) with (course_at st a).
    change (heap_courses (set_assigned i (λ l, l ++ [c]) st)) with (heap_courses st).
    destruct (decide (c = a ∧ a < length (heap_courses st))) as [[-> _]|Hno].
    + by rewrite decide_True.
    + rewrite decide_False; [done|]. intros ->. by apply Hno.
  - intros a.
    change (instructor_at (set_instructor c (Some i)
                             (set_assigned i (λ l, l ++ [c]) st)) a)
      with (instructor_at (set_assigned i (λ l, l ++ [c]) st) a).
    rewrite instructor_at_set_assigned.
    destruct (decide (i = a ∧ a < length (heap_instructors st))) as [[-> _]|Hno].
    + by rewrite decide_True.
    + rewrite decide_False; [done|]. intros ->. by apply Hno.
Qed.

(** [assign_course] closes the gap that [consistent_but] leaves. *)
Lemma link_consistent (st : State) (i c : nat) :
  consistent_but c st → i ∈ instructors st → c ∈ courses st →
  consistent (assign_course i c st).
Proof.
  intros ((As & Ai & Ac) & S & I & C & NS & NC & NI & L1 & L2 & I1 & I2) Hi Hc.
  assert (Hnew : c ∉ assigned_courses (instructor_at st i)).
  { intros Hin. by destruct (I2 i c Hi Hin). }
  unfold assign_course. rewrite (proj2 (mem_false c _) Hnew).
  destruct (link_effect st i c (Ai i Hi) (Ac c Hc))
    as (E1 & E2 & E3 & E4 & E5 & E6 & E7 & E8).
  set (st' := set_instructor c (Some i) (set_assigned i (λ l, l ++ [c]) st)) in *.
  clearbody st'.
  assert (HS : ∀ a, student_at st' a = student_at st a).
  { intros a. unfold student_at. by rewrite E4. }
  unfold consistent, allocated. rewrite E1, E2, E3, E4, E5, E6.
  split; [done|].
  split; [|split; [|split; [|split; [|split; [|split; [|split; [|split; [|split]]]]]]]].
  - by rewrite (map_ext_at _ (λ a, student_id (student_at st a)))
      by (intros; by rewrite HS).
  - by rewrite (map_ext_at _ (λ a, instructor_id (instructor_at st a)))
      by (intros a; by destruct (E8 a)).
  - by rewrite (map_ext_at _ (λ a, course_id (course_at st a)))
      by (intros a; by destruct (E7 a)).
  - intros a. by rewrite HS.
  - intros a. destruct (E7 a) as (_ & -> & _). done.
  - intros a. destruct (E8 a) as (_ & ->). destruct (decide _) as [->|]; [|done].
    apply NoDup_app. split; [done|]. split; [|apply NoDup_singleton].
    by intros x Hx ->%list_elem_of_singleton.
  - intros s0 c0 Hs0. rewrite HS. destruct (E7 c0) as (_ & -> & _). by apply L1.
  - intros c0 s0 Hc0. rewrite HS. destruct (E7 c0) as (_ & -> & _). by apply L2.
  - intros c0 j Hc0. destruct (E7 c0) as (_ & _ & ->). destruct (E8 j) as (_ & ->).
    destruct (decide (c0 = c)) as [->|Hne].
    + intros [= <-]. split; [done|]. rewrite decide_True by done.
      apply elem_of_app. right. by apply list_elem_of_singleton.
    + intros Hj. destruct (I1 c0 j Hc0 Hne Hj) as [Hjin Hmem]. split; [done|].
      destruct (decide _); [|done]. apply elem_of_app. by left.
  - intros j c0 Hj. destruct (E8 j) as (_ & ->). destruct (E7 c0) as (_ & _ & ->).
    destruct (decide (j = i)) as [->|Hne].
    + intros [Hold| ->%list_elem_of_singleton]%elem_of_app.
      * destruct (I2 i c0 Hi Hold) as (Hne & Hin & Hinst).
        by rewrite decide_False.
      * by rewrite decide_True.
    + intros Hold. destruct (I2 j c0 Hj Hold) as (Hne' & Hin & Hinst).
      by rewrite decide_False.
Qed.

Lemma consistent_but_weaken (st : State) (c : nat) :
  consistent st → instructor (course_at st c) = None → consistent_but c st.
Proof.
  intros ((As & Ai & Ac) & S & I & C & NS & NC & NI & L1 & L2 & I1 & I2) Hnone.
  split; [done|]. split; [done|]. split; [done|]. split; [done|]. split; [done|].
  split; [done|]. split; [done|]. split; [done|]. split; [done|]. split.
  - intros c0 i Hc0 _. by apply I1.
  - intros i c0 Hi Hc0. destruct (I2 i c0 Hi Hc0) as [Hin Hinst].
    split; [|done]. intros ->. congruence.
Qed.

Lemma detach_consistent_but (st : State) (old c : nat) :
  consistent st → c ∈ courses st → instructor (course_at st c) = Some old →
  consistent_but c (detach old c st).
Proof.
  intros ((As & Ai & Ac) & S & I & C & NS & NC & NI & L1 & L2 & I1 & I2) Hc Hold.
  destruct (I1 c old Hc Hold) as [Holdin Hmem].
  unfold detach. rewrite (proj2 (mem_true c _) Hmem).
  set (st' := set_assigned old (Py.remove c) st).
  assert (HI : ∀ a, instructor_at st' a
                    = if decide (a = old) then
                        let o := instructor_at st a in
                        mkInstructor (i_name o) (i_age o) (i_email o) (instructor_id o)
                                     (Py.remove c (assigned_courses o))
                      else instructor_at st a).
  { intros a. unfold st'. rewrite instructor_at_set_assigned.
    destruct (decide (old = a ∧ _)) as [[-> _]|Hno].
    - by rewrite decide_True.
    - rewrite decide_False; [done|]. intros ->. apply Hno. split; [done|]. by apply Ai. }
  assert (Hli : length (heap_instructors st') = length (heap_instructors st)).
  { unfold st'. simpl. by rewrite length_alter. }
  assert (HS : ∀ a, student_at st' a = student_at st a) by done.
  assert (HC : ∀ a, course_at st' a = course_at st a) by done.
  assert (Hst : students st' = students st) by done.
  assert (Hin : instructors st' = instructors st) by done.
  assert (Hco : courses st' = courses st) by done.
  assert (Hls : heap_students st' = heap_students st) by done.
  assert (Hlc : heap_courses st' = heap_courses st) by done.
  clearbody st'.
  unfold consistent_but, allocated. rewrite Hst, Hin, Hco, Hls, Hli, Hlc.
  split; [done|].
  split; [|split; [|split; [|split; [|split; [|split; [|split; [|split; [|split]]]]]]]].
  - by rewrite (map_ext_at _ (λ a, student_id (student_at st a)))
      by (intros; by rewrite HS).
  - by rewrite (map_ext_at _ (λ a, instructor_id (instructor_at st a)))
      by (intros a; rewrite HI; by destruct (decide _)).
  - by rewrite (map_ext_at _ (λ a, course_id (course_at st a)))
      by (intros; by rewrite HC).
  - intros a. by rewrite HS.
  - intros a. by rewrite HC.
  - intros a. rewrite HI. destruct (decide _); [|done]. simpl. by apply remove_NoDup.
  - intros s0 c0 Hs0. rewrite HS, HC. by apply L1.
  - intros c0 s0 Hc0. rewrite HC, HS. by apply L2.
  - intros c0 j Hc0 Hne. rewrite HC, HI. intros Hj.
    destruct (I1 c0 j Hc0 Hj) as [Hjin Hm]. split; [done|].
    destruct (decide _); [|done]. simpl. by apply remove_other.
  - intros j c0 Hj. rewrite HI, HC. destruct (decide (j = old)) as [->|Hne].
    + simpl. intros [Hm Hne]%(elem_of_remove _ _ _ (NI old)).
      destruct (I2 old c0 Hj Hm). done.
    + intros Hm. destruct (I2 j c0 Hj Hm) as [Hc0 Hinst].
      split; [|done]. intros ->. congruence.
Qed.

Lemma assign_instructor_consistent (isel csel : string) (replace : bool) (st : State) :
  consistent st → consistent (Gui.assign_instructor isel csel replace st).
Proof.
  intros Hc. unfold Gui.assign_instructor.
  destruct (_ || _); [done|].
  destruct (find_instructor_by_id st _) as [i|] eqn:Hi; [|done].
  destruct (find_course_by_id st _) as [c|] eqn:Hco; [|done].
  apply (find_id_Some (λ a, instructor_id (instructor_at st a))) in Hi as [Hi _].
  apply (find_id_Some (λ a, course_id (course_at st a))) in Hco as [Hco _].
  destruct (instructor (course_at st c)) as [old|] eqn:Hold.
  - destruct replace; [|done].
    apply (link_consistent (detach old c st)).
    + by apply detach_consistent_but.
    + unfold detach. by destruct (Py.mem _ _).
    + unfold detach. by destruct (Py.mem _ _).
  - apply link_consistent; [by apply consistent_but_weaken | done | done].
Qed.

End lab2_links.

Section lab2_add.
Import Lab2 Lab2Inv.

(** *** New objects *)

Lemma lab2_Student_init_fresh (name : string) (age : pyval) (email sid : string)
    (o : Student) :
  Student_init name age email sid = Ok o →
  registered_courses o = [] ∧ student_id o = sid.
Proof.
  unfold Student_init. destruct (Person_init name age email); [|done]. simpl.
  destruct (negb _); [done|]. by intros [= <-].
Qed.

Lemma lab2_Instructor_init_fresh (name : string) (age : pyval) (email iid : string)
    (o : Instructor) :
  Instructor_init name age email iid = Ok o →
  assigned_courses o = [] ∧ instructor_id o = iid.
Proof.
  unfold Instructor_init. destruct (Person_init name age email); [|done]. simpl.
  destruct (negb _); [done|]. by intros [= <-].
Qed.

Lemma lab2_Course_init_fresh (cid cname : string) (inst : option nat) (o : Course) :
  Course_init cid cname inst = Ok o →
  enrolled_students o = [] ∧ instructor o = inst ∧ course_id o = cid.
Proof.
  unfold Course_init. destruct (negb _); [done|]. destruct (negb _); [done|].
  by intros [= <-].
Qed.

Lemma add_student_object_consistent (st : State) (o : Student) :
  consistent st → registered_courses o = [] →
  find_student_by_id st (student_id o) = None →
  consistent (Lab2.add_student (new_student st o).2 (length (heap_students st))).
Proof.
  intros ((As & Ai & Ac) & Sd & Id & Cd & NS & NC & NI & L1 & L2 & I1 & I2) Ho Hnew.
  pose proof (proj1 (find_id_None (λ a, student_id (student_at st a)) (students st)
                      (student_id o)) Hnew) as Hfresh.
  set (n := length (heap_students st)).
  set (st' := Lab2.add_student (new_student st o).2 n).
  assert (HS : ∀ a, student_at st' a = if decide (a = n) then o else student_at st a).
  { intros a. apply student_at_new_student. }
  assert (HI : ∀ a, instructor_at st' a = instructor_at st a) by done.
  assert (HC : ∀ a, course_at st' a = course_at st a) by done.
  assert (Hold : ∀ a, a ∈ students st → student_at st' a = student_at st a).
  { intros a Ha%As. rewrite HS, decide_False; [done | unfold n; lia]. }
  assert (Hls : length (heap_students st') = S n).
  { unfold st', n. simpl. rewrite length_app. simpl. lia. }
  assert (Hst : students st' = students st ++ [n]) by done.
  assert (Hin : instructors st' = instructors st) by done.
  assert (Hco : courses st' = courses st) by done.
  assert (Hli : heap_instructors st' = heap_instructors st) by done.
  assert (Hlc : heap_courses st' = heap_courses st) by done.
  clearbody st'.
  unfold consistent, allocated. rewrite Hst, Hin, Hco, Hls, Hli, Hlc.
  split; [split; [|done]|].
  { intros a [Ha%As| ->%list_elem_of_singleton]%elem_of_app; unfold n in *; lia. }
  split; [|split; [|split; [|split; [|split; [|split; [|split; [|split; [|split]]]]]]]].
  - apply NoDup_map_snoc.
    + by rewrite (map_ext_elem _ (λ a, student_id (student_at st a)))
        by (intros a Ha; by rewrite Hold).
    + intros a Ha. rewrite (Hold a Ha), HS, decide_True by done. by apply Hfresh.
  - by rewrite (map_ext_at _ (λ a, instructor_id (instructor_at st a)))
      by (intros; by rewrite HI).
  - by rewrite (map_ext_at _ (λ a, course_id (course_at st a)))
      by (intros; by rewrite HC).
  - intros a. rewrite HS. destruct (decide _); [rewrite Ho; constructor | done].
  - intros a. by rewrite HC.
  - intros a. by rewrite HI.
  - intros s0 c0 [Hs0| ->%list_elem_of_singleton]%elem_of_app.
    + rewrite (Hold s0 Hs0), HC. by apply L1.
    + rewrite HS, decide_True, Ho by done. by intros ?%elem_of_nil.
  - intros c0 s0 Hc0. rewrite HC. intros Hs0.
    destruct (L2 c0 s0 Hc0 Hs0) as [Hin' Hmem]. rewrite (Hold s0 Hin').
    split; [|done]. apply elem_of_app. by left.
  - intros c0 i Hc0. rewrite HC, HI. by apply I1.
  - intros i c0 Hi0. rewrite HI, HC. by apply I2.
Qed.

Lemma add_instructor_object_consistent (st : State) (o : Instructor) :
  consistent st → assigned_courses o = [] →
  find_instructor_by_id st (instructor_id o) = None →
  consistent (Lab2.add_instructor (new_instructor st o).2 (length (heap_instructors st))).
Proof.
  intros ((As & Ai & Ac) & Sd & Id & Cd & NS & NC & NI & L1 & L2 & I1 & I2) Ho Hnew.
  pose proof (proj1 (find_id_None (λ a, instructor_id (instructor_at st a))
                      (instructors st) (instructor_id o)) Hnew) as Hfresh.
  set (n := length (heap_instructors st)).
  set (st' := Lab2.add_instructor (new_instructor st o).2 n).
  assert (HI : ∀ a, instructor_at st' a = if decide (a = n) then o else instructor_at st a).
  { intros a. apply instructor_at_new_instructor. }
  assert (HS : ∀ a, student_at st' a = student_at st a) by done.
  assert (HC : ∀ a, course_at st' a = course_at st a) by done.
  assert (Hold : ∀ a, a ∈ instructors st → instructor_at st' a = instructor_at st a).
  { intros a Ha%Ai. rewrite HI, decide_False; [done | unfold n; lia]. }
  assert (Hli : length (heap_instructors st') = S n).
  { unfold st', n. simpl. rewrite length_app. simpl. lia. }
  assert (Hst : students st' = students st) by done.
  assert (Hin : instructors st' = instructors st ++ [n]) by done.
  assert (Hco : courses st' = courses st) by done.
  assert (Hls : heap_students st' = heap_students st) by done.
  assert (Hlc : heap_courses st' = heap_courses st) by done.
  clearbody st'.
  unfold consistent, allocated. rewrite Hst, Hin, Hco, Hls, Hli, Hlc.
  split; [split; [done|split; [|done]]|].
  { intros a [Ha%Ai| ->%list_elem_of_singleton]%elem_of_app; unfold n in *; lia. }
  split; [|split; [|split; [|split; [|split; [|split; [|split; [|split; [|split]]]]]]]].
  - by rewrite (map_ext_at _ (λ a, student_id (student_at st a)))
      by (intros; by rewrite HS).
  - apply NoDup_map_snoc.
    + by rewrite (map_ext_elem _ (λ a, instructor_id (instructor_at st a)))
        by (intros a Ha; by rewrite Hold).
    + intros a Ha. rewrite (Hold a Ha), HI, decide_True by done. by apply Hfresh.
  - by rewrite (map_ext_at _ (λ a, course_id (course_at st a)))
      by (intros; by rewrite HC).
  - intros a. by rewrite HS.
  - intros a. by rewrite HC.
  - intros a. rewrite HI. destruct (decide _); [rewrite Ho; constructor | done].
  - intros s0 c0 Hs0. rewrite HS, HC. by apply L1.
  - intros c0 s0 Hc0. rewrite HC, HS. by apply L2.
  - intros c0 i Hc0. rewrite HC. intros Hi0.
    destruct (I1 c0 i Hc0 Hi0) as [Hin' Hmem]. rewrite (Hold i Hin').
    split; [|done]. apply elem_of_app. by left.
  - intros i c0 [Hi0| ->%list_elem_of_singleton]%elem_of_app.
    + rewrite (Hold i Hi0), HC. by apply I2.
    + rewrite HI, decide_True, Ho by done. by intros ?%elem_of_nil.
Qed.

(** A new course in the registry: consistent but for its instructor. *)
Lemma add_course_object_consistent_but (st : State) (o : Course) :
  consistent st → enrolled_students o = [] →
  find_course_by_id st (course_id o) = None →
  consistent_but (length (heap_courses st))
    (Lab2.add_course (new_course st o).2 (length (heap_courses st))).
Proof.
  intros ((As & Ai & Ac) & Sd & Id & Cd & NS & NC & NI & L1 & L2 & I1 & I2) Ho Hnew.
  pose proof (proj1 (find_id_None (λ a, course_id (course_at st a)) (courses st)
                      (course_id o)) Hnew) as Hfresh.
  set (n := length (heap_courses st)).
  set (st' := Lab2.add_course (new_course st o).2 n).
  assert (HC : ∀ a, course_at st' a = if decide (a = n) then o else course_at st a).
  { intros a. apply course_at_new_course. }
  assert (HS : ∀ a, student_at st' a = student_at st a) by done.
  assert (HI : ∀ a, instructor_at st' a = instructor_at st a) by done.
  assert (Hold : ∀ a, a ∈ courses st → course_at st' a = course_at st a).
  { intros a Ha%Ac. rewrite HC, decide_False; [done | unfold n; lia]. }
  assert (Hlc : length (heap_courses st') = S n).
  { unfold st', n. simpl. rewrite length_app. simpl. lia. }
  assert (Hst : students st' = students st) by done.
  assert (Hin : instructors st' = instructors st) by done.
  assert (Hco : courses st' = courses st ++ [n]) by done.
  assert (Hls : heap_students st' = heap_students st) by done.
  assert (Hli : heap_instructors st' = heap_instructors st) by done.
  clearbody st'.
  unfold consistent_but, allocated. rewrite Hst, Hin, Hco, Hls, Hli, Hlc.
  split; [split; [done|split; [done|]]|].
  { intros a [Ha%Ac| ->%list_elem_of_singleton]%elem_of_app; unfold n in *; lia. }
  split; [|split; [|split; [|split; [|split; [|split; [|split; [|split; [|split]]]]]]]].
  - by rewrite (map_ext_at _ (λ a, student_id (student_at st a)))
      by (intros; by rewrite HS).
  - by rewrite (map_ext_at _ (λ a, instructor_id (instructor_at st a)))
      by (intros; by rewrite HI).
  - apply NoDup_map_snoc.
    + by rewrite (map_ext_elem _ (λ a, course_id (course_at st a)))
        by (intros a Ha; by rewrite Hold).
    + intros a Ha. rewrite (Hold a Ha), HC, decide_True by done. by apply Hfresh.
  - intros a. by rewrite HS.
  - intros a. rewrite HC. destruct (decide _); [rewrite Ho; constructor | done].
  - intros a. by rewrite HI.
  - intros s0 c0 Hs0. rewrite HS. intros Hc0.
    destruct (L1 s0 c0 Hs0 Hc0) as [Hin' Hmem]. rewrite (Hold c0 Hin').
    split; [|done]. apply elem_of_app. by left.
  - intros c0 s0 [Hc0| ->%list_elem_of_singleton]%elem_of_app.
    + rewrite (Hold c0 Hc0), HS. by apply L2.
    + rewrite HC, decide_True, Ho by done. by intros ?%elem_of_nil.
  - intros c0 i [Hc0| ->%list_elem_of_singleton]%elem_of_app; [|done].
    intros _. rewrite (Hold c0 Hc0), HI. by apply I1.
  - intros i c0 Hi0. rewrite HI. intros Hc0.
    destruct (I2 i c0 Hi0 Hc0) as [Hin' Hinst]. rewrite (Hold c0 Hin').
    split; [|split; [|done]].
    + apply Ac in Hin'. unfold n. lia.
    + apply elem_of_app. by left.
Qed.

(** With no instructor, nothing is left open. *)
Lemma consistent_but_close (st : State) (c : nat) :
  consistent_but c st → instructor (course_at st c) = None → consistent st.
Proof.
  intros (A & Sd & Id & Cd & NS & NC & NI & L1 & L2 & I1 & I2) Hnone.
  split; [done|]. split; [done|]. split; [done|]. split; [done|]. split; [done|].
  split; [done|]. split; [done|]. split; [done|]. split; [done|]. split.
  - intros c0 i Hc0 Hi0. apply I1; [done| |done]. intros ->. congruence.
  - intros i c0 Hi0 Hc0. by destruct (I2 i c0 Hi0 Hc0) as (_ & ? & ?).
Qed.

(** *** The handlers *)

Lemma add_student_handler_consistent (name : string) (age : option Z)
    (email sid : string) (st : State) :
  consistent st → consistent (Gui.add_student name age email sid st).
Proof.
  intros Hc. unfold Gui.add_student. destruct age as [age|]; [|done].
  destruct (negb _); [done|].
  destruct (find_student_by_id st (Py.strip sid)) eqn:Hfind; [done|].
  destruct (Student_init _ _ _ _) as [o|] eqn:Hinit; [|done].
  apply lab2_Student_init_fresh in Hinit as [Hempty Hid].
  change (new_student st o) with (length (heap_students st), (new_student st o).2).
  cbn beta iota. apply add_student_object_consistent; [done | done | by rewrite Hid].
Qed.

Lemma add_instructor_handler_consistent (name : string) (age : option Z)
    (email iid : string) (st : State) :
  consistent st → consistent (Gui.add_instructor name age email iid st).
Proof.
  intros Hc. unfold Gui.add_instructor. destruct age as [age|]; [|done].
  destruct (negb _); [done|].
  destruct (find_instructor_by_id st (Py.strip iid)) eqn:Hfind; [done|].
  destruct (Instructor_init _ _ _ _) as [o|] eqn:Hinit; [|done].
  apply lab2_Instructor_init_fresh in Hinit as [Hempty Hid].
  change (new_instructor st o)
    with (length (heap_instructors st), (new_instructor st o).2).
  cbn beta iota. apply add_instructor_object_consistent; [done | done | by rewrite Hid].
Qed.

Lemma add_course_handler_consistent (cid cname sel : string) (st : State) :
  consistent st → consistent (Gui.add_course cid cname sel st).
Proof.
  intros Hc. unfold Gui.add_course.
  destruct (negb (forallb _ _)); [done|].
  destruct (find_course_by_id st (Py.strip cid)) eqn:Hfind; [done|].
  set (inst := if _ && _ then find_instructor_by_id st (Gui.id_of sel) else None).
  assert (Hinst : ∀ i, inst = Some i → i ∈ instructors st).
  { unfold inst. intros i. destruct (_ && _); [|done].
    by intros [Hi _]%(find_id_Some (λ a, instructor_id (instructor_at st a))). }
  clearbody inst.
  destruct (Course_init _ _ inst) as [o|] eqn:Hinit; [|done].
  apply lab2_Course_init_fresh in Hinit as (Hempty & Hci & Hid).
  change (new_course st o) with (length (heap_courses st), (new_course st o).2).
  cbn beta iota.
  assert (Hbut := add_course_object_consistent_but st o Hc Hempty).
  rewrite Hid in Hbut. specialize (Hbut Hfind).
  set (n := length (heap_courses st)) in *.
  set (st2 := Lab2.add_course (new_course st o).2 n) in *.
  assert (Hin : instructors st2 = instructors st) by done.
  assert (Hco : n ∈ courses st2).
  { unfold st2. simpl. apply elem_of_app. right. by apply list_elem_of_singleton. }
  assert (Hat : instructor (course_at st2 n) = inst).
  { unfold st2, n. change (course_at (Lab2.add_course (new_course st o).2 _) ?a)
      with (course_at (new_course st o).2 a).
    by rewrite course_at_new_course, decide_True. }
  clearbody st2. destruct inst as [i|].
  - apply link_consistent; [done | rewrite Hin; by apply Hinst | done].
  - by apply (consistent_but_close st2 n).
Qed.

Lemma gui_handle_consistent (a : Gui.action) (st : State) :
  consistent st → consistent (Gui.handle a st).
Proof.
  intros Hc. destruct a as [| | | | |? sure|? sure|? sure]; cbn [Gui.handle].
  - by apply add_student_handler_consistent.
  - by apply add_instructor_handler_consistent.
  - by apply add_course_handler_consistent.
  - by apply register_student_consistent.
  - by apply assign_instructor_consistent.
  - destruct sure; [by apply remove_student_consistent | done].
  - destruct sure; [by apply remove_instructor_consistent | done].
  - destruct sure; [by apply remove_course_consistent | done].
Qed.

End lab2_add.

(** X14. Whatever the user of the window of [tkinter_gui.py] does, in
    whatever order and with whatever input (add a student, an instructor
    or a course, register, assign with or without replacing, delete a
    student, an instructor or a course), a consistent
    [SchoolManagementSystem] stays consistent: the ids are unique within
    each kind, no list holds an object twice, a course is in a student's
    list exactly when the student is in the course's list, a course has an
    instructor exactly when it is in that instructor's list, and all these
    lists hold only members of the registry. *)
Theorem gui_session_keeps_consistency (l : list Gui.action) (st : Lab2.State) :
  Lab2Inv.consistent st → Lab2Inv.consistent (Gui.session l st).
Proof.
  revert st. unfold Gui.session.
  induction l as [|a l IH]; simpl; intros st Hc; [done|].
  by apply IH, gui_handle_consistent.
Qed.

(** The empty system is consistent, and so is what a session makes of
    it. *)
Lemma gui_session_keeps_consistency_witness :
  Lab2Inv.consistent
    (Gui.session [Gui.AddInstructor "Ada" (Some 40%Z) "ada@x.com" "I1";
                  Gui.AddInstructor "Bob" (Some 41%Z) "bob@x.com" "I2";
                  Gui.AddCourse "C1" "Algorithms" "I1 - Ada";
                  Gui.AddStudent "John" (Some 20%Z) "john@x.com" "S1";
                  Gui.RegisterStudent "S1 - John" "C1 - Algorithms";
                  Gui.AssignInstructor "I2 - Bob" "C1 - Algorithms" true;
                  Gui.DeleteInstructor "I1" true] Lab2.empty).
Proof. apply gui_session_keeps_consistency, lab2_consistent_empty. Defined.

(** ** [load_data]: what each round of its loops does *)

Section lab2_json_steps.
Import Lab2 Lab2Inv Lab2Json Lab2JsonSpec.

Lemma Student_init_inv (name : string) (age : pyval) (email sid : string) (o : Student) :
  Student_init name age email sid = Ok o →
  o = mkStudent name (as_int age) email sid [].
Proof.
  unfold Student_init, Person_init.
  destruct (negb (_validate_name name)); [done|].
  destruct (negb (_validate_age age)); [done|].
  destruct (negb (_validate_email email)); [done|]. simpl.
  destruct (negb _); [done|]. by intros [= <-].
Qed.

Lemma Instructor_init_inv (name : string) (age : pyval) (email iid : string)
    (o : Instructor) :
  Instructor_init name age email iid = Ok o →
  o = mkInstructor name (as_int age) email iid [].
Proof.
  unfold Instructor_init, Person_init.
  destruct (negb (_validate_name name)); [done|].
  destruct (negb (_validate_age age)); [done|].
  destruct (negb (_validate_email email)); [done|]. simpl.
  destruct (negb _); [done|]. by intros [= <-].
Qed.

Lemma Course_init_inv (cid cname : string) (inst : option nat) (o : Course) :
  Course_init cid cname inst = Ok o → o = mkCourse cid cname inst [].
Proof.
  unfold Course_init. destruct (negb _); [done|]. destruct (negb _); [done|].
  by intros [= <-].
Qed.

Lemma load_instructor_inv (st st' : State) (d : instructor_dict) :
  load_instructor st d = Ok st' →
  st' = add_instructor (new_instructor st (instructor_obj d)).2
                       (length (heap_instructors st)).
Proof.
  unfold load_instructor.
  destruct (Instructor_init _ _ _ _) as [o|] eqn:Hinit; [|done].
  apply Instructor_init_inv in Hinit as ->. by intros [= <-].
Qed.

Lemma load_course_inv (st st' : State) (d : course_dict) :
  load_course st d = Ok st' →
  st' = match resolved st d with
        | Some i =>
            assign_course i (length (heap_courses st))
              (add_course
                 (new_course st (mkCourse (cd_course_id d) (cd_course_name d)
                                          (resolved st d) [])).2
                 (length (heap_courses st)))
        | None =>
            add_course
              (new_course st (mkCourse (cd_course_id d) (cd_course_name d) None [])).2
              (length (heap_courses st))
        end.
Proof.
  unfold load_course. fold (resolved st d).
  destruct (Course_init _ _ _) as [o|] eqn:Hinit; [|done].
  apply Course_init_inv in Hinit as ->. cbn [mbind result_bind].
  destruct (resolved st d); by intros [= <-].
Qed.

Lemma load_student_inv (st st' : State) (d : student_dict) :
  load_student st d = Ok st' →
  st' = fold_left (load_registration (length (heap_students st)))
          (sd_registered_courses d)
          (add_student (new_student st (student_obj d)).2 (length (heap_students st))).
Proof.
  unfold load_student.
  destruct (Student_init _ _ _ _) as [o|] eqn:Hinit; [|done].
  apply Student_init_inv in Hinit as ->. by intros [= <-].
Qed.

End lab2_json_steps.

Section lab2_json_heads.
Import Lab2 Lab2Inv Lab2Json Lab2JsonSpec LoadSpec.

Lemma assign_course_heads (i c : nat) (st : State) :
  students (assign_course i c st) = students st ∧
  instructors (assign_course i c st) = instructors st ∧
  courses (assign_course i c st) = courses st ∧
  heap_students (assign_course i c st) = heap_students st ∧
  length (heap_instructors (assign_course i c st)) = length (heap_instructors st) ∧
  length (heap_courses (assign_course i c st)) = length (heap_courses st) ∧
  (∀ a, i_head (instructor_at (assign_course i c st) a) = i_head (instructor_at st a)) ∧
  (∀ a, c_head (course_at (assign_course i c st) a) = c_head (course_at st a)).
Proof.
  unfold assign_course. destruct (Py.mem _ _); [done|].
  split; [done|]. split; [done|]. split; [done|]. split; [done|].
  split; [simpl; by rewrite length_alter|]. split; [simpl; by rewrite length_alter|].
  split.
  - intros a.
    change (instructor_at (set_instructor c (Some i) (set_assigned i (λ l, l ++ [c]) st)) a)
      with (instructor_at (set_assigned i (λ l, l ++ [c]) st) a).
    rewrite instructor_at_set_assigned. by destruct (decide _).
  - intros a. rewrite course_at_set_instructor.
    change (course_at (set_assigned i (λ l, l ++ [c]) st) a) with (course_at st a).
    by destruct (decide _).
Qed.

Lemma register_course_heads (s c : nat) (st : State) :
  students (register_course s c st) = students st ∧
  instructors (register_course s c st) = instructors st ∧
  courses (register_course s c st) = courses st ∧
  heap_instructors (register_course s c st) = heap_instructors st ∧
  length (heap_students (register_course s c st)) = length (heap_students st) ∧
  length (heap_courses (register_course s c st)) = length (heap_courses st) ∧
  (∀ a, s_head (student_at (register_course s c st) a) = s_head (student_at st a)) ∧
  (∀ a, c_head (course_at (register_course s c st) a) = c_head (course_at st a) ∧
        instructor (course_at (register_course s c st) a) = instructor (course_at st a)).
Proof.
  unfold register_course. destruct (Py.mem _ _); [done|]. unfold add_student_to_course.
  split; [done|]. split; [done|]. split; [done|]. split; [done|].
  split; [simpl; by rewrite length_alter|]. split; [simpl; by rewrite length_alter|].
  split.
  - intros a.
    change (student_at (set_enrolled c (Py.append_new s)
                          (set_registered s (λ l, l ++ [c]) st)) a)
      with (student_at (set_registered s (λ l, l ++ [c]) st) a).
    rewrite student_at_set_registered. by destruct (decide _).
  - intros a. rewrite course_at_set_enrolled.
    change (course_at (set_registered s (λ l, l ++ [c]) st) a) with (course_at st a).
    by destruct (decide _).
Qed.

Lemma load_registrations_heads (s : nat) (ids : list string) (st : State) :
  let st' := fold_left (load_registration s) ids st in
  students st' = students st ∧ instructors st' = instructors st ∧
  courses st' = courses st ∧
  heap_instructors st' = heap_instructors st ∧
  length (heap_students st') = length (heap_students st) ∧
  length (heap_courses st') = length (heap_courses st) ∧
  (∀ a, s_head (student_at st' a) = s_head (student_at st a)) ∧
  (∀ a, c_head (course_at st' a) = c_head (course_at st a) ∧
        instructor (course_at st' a) = instructor (course_at st a)).
Proof.
  revert st. induction ids as [|cid ids IH]; intros st; [done|]. simpl.
  destruct (IH (load_registration s st cid))
    as (B1 & B2 & B3 & B4 & B5 & B6 & B7 & B8).
  assert (A : students (load_registration s st cid) = students st ∧
              instructors (load_registration s st cid) = instructors st ∧
              courses (load_registration s st cid) = courses st ∧
              heap_instructors (load_registration s st cid) = heap_instructors st ∧
              length (heap_students (load_registration s st cid))
                = length (heap_students st) ∧
              length (heap_courses (load_registration s st cid))
                = length (heap_courses st) ∧
              (∀ a, s_head (student_at (load_registration s st cid) a)
                    = s_head (student_at st a)) ∧
              (∀ a, c_head (course_at (load_registration s st cid) a)
                    = c_head (course_at st a) ∧
                    instructor (course_at (load_registration s st cid) a)
                    = instructor (course_at st a))).
  { unfold load_registration. destruct (find_course_by_id st cid); [|done].
    apply register_course_heads. }
  destruct A as (A1 & A2 & A3 & A4 & A5 & A6 & A7 & A8).
  split; [congruence|]. split; [congruence|]. split; [congruence|].
  split; [congruence|]. split; [congruence|]. split; [congruence|].
  split.
  - intros a. by rewrite B7, A7.
  - intros a. destruct (B8 a) as [-> ->]. apply A8.
Qed.

Lemma load_instructor_facts (st st' : State) (d : instructor_dict) :
  allocated st → load_instructor st d = Ok st' →
  students st' = students st ∧ courses st' = courses st ∧
  heap_students st' = heap_students st ∧ heap_courses st' = heap_courses st ∧
  instructors st' = instructors st ++ [length (heap_instructors st)] ∧
  length (heap_instructors st') = S (length (heap_instructors st)) ∧
  instructor_heads st' = instructor_heads st ++ [i_head (instructor_obj d)].
Proof.
  intros (As & Ai & Ac) ->%load_instructor_inv.
  set (n := length (heap_instructors st)).
  set (st' := add_instructor (new_instructor st (instructor_obj d)).2 n).
  assert (HI : ∀ a, instructor_at st' a
                    = if decide (a = n) then instructor_obj d else instructor_at st a).
  { intros a. apply instructor_at_new_instructor. }
  assert (Hin : instructors st' = instructors st ++ [n]) by done.
  split; [done|]. split; [done|]. split; [done|]. split; [done|]. split; [done|].
  split; [unfold st', n; simpl; rewrite length_app; simpl; lia|].
  unfold instructor_heads. rewrite Hin, map_app. simpl. f_equal.
  - apply map_ext_elem. intros a Ha%Ai.
    rewrite HI, decide_False; [done | unfold n; lia].
  - by rewrite HI, decide_True.
Qed.

Lemma load_course_facts (st st' : State) (d : course_dict) :
  allocated st → load_course st d = Ok st' →
  students st' = students st ∧ instructors st' = instructors st ∧
  heap_students st' = heap_students st ∧
  length (heap_instructors st') = length (heap_instructors st) ∧
  courses st' = courses st ++ [length (heap_courses st)] ∧
  length (heap_courses st') = S (length (heap_courses st)) ∧
  instructor_heads st' = instructor_heads st ∧
  course_heads st' = course_heads st ++ [(cd_course_id d, cd_course_name d)].
Proof.
  intros (As & Ai & Ac) ->%load_course_inv.
  set (n := length (heap_courses st)).
  set (st2 := λ inst, add_course
                (new_course st (mkCourse (cd_course_id d) (cd_course_name d) inst [])).2 n).
  assert (H2 : ∀ inst,
            students (st2 inst) = students st ∧ instructors (st2 inst) = instructors st ∧
            heap_students (st2 inst) = heap_students st ∧
            length (heap_instructors (st2 inst)) = length (heap_instructors st) ∧
            courses (st2 inst) = courses st ++ [n] ∧
            length (heap_courses (st2 inst)) = S n ∧
            instructor_heads (st2 inst) = instructor_heads st ∧
            course_heads (st2 inst)
              = course_heads st ++ [(cd_course_id d, cd_course_name d)]).
  { intros inst.
    assert (HC : ∀ a, course_at (st2 inst) a
                      = if decide (a = n)
                        then mkCourse (cd_course_id d) (cd_course_name d) inst []
                        else course_at st a).
    { intros a. apply course_at_new_course. }
    assert (Hco : courses (st2 inst) = courses st ++ [n]) by done.
    split; [done|]. split; [done|]. split; [done|]. split; [done|].
    split; [done|]. split; [unfold st2, n; simpl; rewrite length_app; simpl; lia|].
    split; [done|].
    unfold course_heads. rewrite Hco, map_app. simpl. f_equal.
    - apply map_ext_elem. intros a Ha%Ac.
      rewrite HC, decide_False; [done | unfold n; lia].
    - by rewrite HC, decide_True. }
  destruct (resolved st d) as [i|]; [|apply (H2 None)].
  fold (st2 (Some i)).
  destruct (H2 (Some i)) as (B1 & B2 & B3 & B4 & B5 & B6 & B7 & B8).
  destruct (assign_course_heads i n (st2 (Some i)))
    as (E1 & E2 & E3 & E4 & E5 & E6 & E7 & E8).
  split; [congruence|]. split; [congruence|]. split; [congruence|].
  split; [congruence|]. split; [congruence|]. split; [congruence|].
  split.
  - rewrite <- B7. unfold instructor_heads. rewrite E2. apply map_ext. intros a. apply E7.
  - rewrite <- B8. unfold course_heads. rewrite E3. apply map_ext. intros a. apply E8.
Qed.

Lemma load_student_facts (st st' : State) (d : student_dict) :
  allocated st → load_student st d = Ok st' →
  instructors st' = instructors st ∧ courses st' = courses st ∧
  heap_instructors st' = heap_instructors st ∧
  length (heap_courses st') = length (heap_courses st) ∧
  students st' = students st ++ [length (heap_students st)] ∧
  length (heap_students st') = S (length (heap_students st)) ∧
  same_course_heads st st' ∧
  course_heads st' = course_heads st ∧
  student_heads st' = student_heads st ++ [s_head (student_obj d)].
Proof.
  intros (As & Ai & Ac) ->%load_student_inv.
  set (n := length (heap_students st)).
  set (st2 := add_student (new_student st (student_obj d)).2 n).
  destruct (load_registrations_heads n (sd_registered_courses d) st2)
    as (E1 & E2 & E3 & E4 & E5 & E6 & E7 & E8).
  set (st' := fold_left (load_registration n) (sd_registered_courses d) st2) in *.
  clearbody st'.
  split; [by rewrite E2|]. split; [by rewrite E3|]. split; [by rewrite E4|].
  split; [by rewrite E6|]. split; [by rewrite E1|].
  split; [rewrite E5; unfold st2, n; simpl; rewrite length_app; simpl; lia|].
  split; [|split].
  - intros a. destruct (E8 a) as [Hh ->]. split; [|done].
    by injection Hh.
  - unfold course_heads. rewrite E3. apply map_ext. intros a. by destruct (E8 a).
  - assert (HS : ∀ a, student_at st2 a
                      = if decide (a = n) then student_obj d else student_at st a).
    { intros a. apply student_at_new_student. }
    assert (Hst : students st2 = students st ++ [n]) by done.
    unfold student_heads. rewrite E1, Hst, map_app. simpl. f_equal.
    + apply map_ext_elem. intros a Ha%As. rewrite E7, HS.
      rewrite decide_False; [done | unfold n; lia].
    + by rewrite E7, HS, decide_True.
Qed.

End lab2_json_heads.

(** ** [load_data] keeps the registry consistent *)

Section lab2_json_consistent.
Import Lab2 Lab2Inv Lab2Json Lab2JsonSpec.

Lemma load_instructor_consistent (st st' : State) (d : instructor_dict) :
  consistent st → find_instructor_by_id st (id_instructor_id d) = None →
  load_instructor st d = Ok st' → consistent st'.
Proof.
  intros Hc Hnew ->%load_instructor_inv.
  by apply add_instructor_object_consistent.
Qed.

Lemma load_course_consistent (st st' : State) (d : course_dict) :
  consistent st → find_course_by_id st (cd_course_id d) = None →
  load_course st d = Ok st' → consistent st'.
Proof.
  intros Hc Hnew ->%load_course_inv.
  assert (Hinst : ∀ i, resolved st d = Some i → i ∈ instructors st).
  { unfold resolved. intros i. destruct (cd_instructor_id d) as [x|]; [|done].
    destruct (bool_decide _); [done|].
    by intros [Hi _]%(find_id_Some (λ a, instructor_id (instructor_at st a))). }
  set (n := length (heap_courses st)).
  destruct (resolved st d) as [i|].
  - set (o := mkCourse (cd_course_id d) (cd_course_name d) (Some i) []).
    pose proof (add_course_object_consistent_but st o Hc eq_refl Hnew) as Hbut.
    apply link_consistent; [done | by apply Hinst |].
    simpl. apply elem_of_app. right. by apply list_elem_of_singleton.
  - set (o := mkCourse (cd_course_id d) (cd_course_name d) None []).
    pose proof (add_course_object_consistent_but st o Hc eq_refl Hnew) as Hbut.
    apply (consistent_but_close _ n); [done|].
    change (course_at (add_course (new_course st o).2 n) n)
      with (course_at (new_course st o).2 n).
    by rewrite course_at_new_course, decide_True.
Qed.

Lemma load_registrations_consistent (s : nat) (ids : list string) (st : State) :
  consistent st → s ∈ students st →
  consistent (fold_left (load_registration s) ids st).
Proof.
  revert st. induction ids as [|cid ids IH]; intros st Hc Hs; [done|]. simpl.
  apply IH.
  - unfold load_registration.
    destruct (find_course_by_id st cid) as [c|] eqn:Hfind; [|done].
    apply (find_id_Some (λ a, course_id (course_at st a))) in Hfind as [Hcin _].
    by apply register_course_consistent.
  - unfold load_registration. destruct (find_course_by_id st cid); [|done].
    by rewrite (proj1 (register_course_heads s n st)).
Qed.

Lemma load_student_consistent (st st' : State) (d : student_dict) :
  consistent st → find_student_by_id st (sd_student_id d) = None →
  load_student st d = Ok st' → consistent st'.
Proof.
  intros Hc Hnew ->%load_student_inv.
  apply load_registrations_consistent.
  - by apply add_student_object_consistent.
  - simpl. apply elem_of_app. right. by apply list_elem_of_singleton.
Qed.

Lemma heads_instructor_ids (g : State) :
  SyncSpec.instructor_ids g = map snd (instructor_heads g).
Proof. unfold SyncSpec.instructor_ids, instructor_heads. by rewrite map_map. Qed.

Lemma heads_student_ids (g : State) :
  SyncSpec.student_ids g = map snd (student_heads g).
Proof. unfold SyncSpec.student_ids, student_heads. by rewrite map_map. Qed.

Lemma heads_course_ids (g : State) :
  SyncSpec.course_ids g = map fst (course_heads g).
Proof. unfold SyncSpec.course_ids, course_heads. by rewrite map_map. Qed.

Lemma fresh_id (f : nat → string) (l : list nat) (ids : list string) (x : string) :
  NoDup (map f l ++ x :: ids) → List.find (λ a, String.eqb (f a) x) l = None.
Proof.
  intros Hnd. apply (find_id_None f). intros a Ha Heq.
  apply NoDup_app in Hnd as (_ & Hdisj & _). apply (Hdisj x).
  - apply elem_of_map. eauto.
  - by left.
Qed.

(** The first loop. *)
Lemma try_instructors (ds : list instructor_dict) (st : State) (ok : bool) (st' : State) :
  consistent st → NoDup (SyncSpec.instructor_ids st ++ map id_instructor_id ds) →
  try_each load_instructor ds st = (ok, st') →
  consistent st' ∧
  students st' = students st ∧ courses st' = courses st ∧
  heap_students st' = heap_students st ∧ heap_courses st' = heap_courses st ∧
  length (heap_instructors st) ≤ length (heap_instructors st') ∧
  (∀ a, a ∈ instructors st' → a ∈ instructors st ∨ length (heap_instructors st) ≤ a) ∧
  (ok = true →
     instructor_heads st' = instructor_heads st ++ map (λ d, i_head (instructor_obj d)) ds).
Proof.
  revert st. induction ds as [|d ds IH]; intros st Hc Hnd; simpl.
  - intros [= <- <-]. rewrite app_nil_r.
    split; [done|]. split; [done|]. split; [done|]. split; [done|]. split; [done|].
    split; [done|]. split; [by left | done].
  - destruct (load_instructor st d) as [st1|] eqn:Hstep.
    2: { intros [= <- <-].
         split; [done|]. split; [done|]. split; [done|]. split; [done|]. split; [done|].
         split; [done|]. split; [by left | done]. }
    intros Hrun.
    pose proof (load_instructor_consistent st st1 d Hc (fresh_id _ _ _ _ Hnd) Hstep) as Hc1.
    destruct (load_instructor_facts st st1 d (proj1 Hc) Hstep)
      as (F1 & F2 & F3 & F4 & F5 & F6 & F7).
    destruct (IH st1 Hc1) as (G0 & G1 & G2 & G3 & G4 & G5 & G6 & G7); [|done|].
    { rewrite heads_instructor_ids, F7, map_app, <- app_assoc. simpl.
      by rewrite <- heads_instructor_ids. }
    split; [done|]. split; [congruence|]. split; [congruence|].
    split; [congruence|]. split; [congruence|]. split; [lia|]. split.
    + intros a Ha. destruct (G6 a Ha) as [Hin|Hge]; [|right; lia].
      rewrite F5 in Hin. apply elem_of_app in Hin as [?| ->%list_elem_of_singleton];
        [by left | by right].
    + intros Hok. rewrite (G7 Hok), F7, <- app_assoc. done.
Qed.

(** The second loop. *)
Lemma try_courses (ds : list course_dict) (st : State) (ok : bool) (st' : State) :
  consistent st → NoDup (SyncSpec.course_ids st ++ map cd_course_id ds) →
  try_each load_course ds st = (ok, st') →
  consistent st' ∧
  students st' = students st ∧ instructors st' = instructors st ∧
  heap_students st' = heap_students st ∧
  length (heap_instructors st') = length (heap_instructors st) ∧
  length (heap_courses st) ≤ length (heap_courses st') ∧
  (∀ a, a ∈ courses st' → a ∈ courses st ∨ length (heap_courses st) ≤ a) ∧
  instructor_heads st' = instructor_heads st ∧
  (ok = true →
     course_heads st' = course_heads st ++ map (λ d, (cd_course_id d, cd_course_name d)) ds).
Proof.
  revert st. induction ds as [|d ds IH]; intros st Hc Hnd; simpl.
  - intros [= <- <-]. rewrite app_nil_r.
    split; [done|]. split; [done|]. split; [done|]. split; [done|]. split; [done|].
    split; [done|]. split; [by left | done].
  - destruct (load_course st d) as [st1|] eqn:Hstep.
    2: { intros [= <- <-].
         split; [done|]. split; [done|]. split; [done|]. split; [done|]. split; [done|].
         split; [done|]. split; [by left | done]. }
    intros Hrun.
    pose proof (load_course_consistent st st1 d Hc (fresh_id _ _ _ _ Hnd) Hstep) as Hc1.
    destruct (load_course_facts st st1 d (proj1 Hc) Hstep)
      as (F1 & F2 & F3 & F4 & F5 & F6 & F7 & F8).
    destruct (IH st1 Hc1) as (G0 & G1 & G2 & G3 & G4 & G5 & G6 & G7 & G8); [|done|].
    { rewrite heads_course_ids, F8, map_app, <- app_assoc. simpl.
      by rewrite <- heads_course_ids. }
    split; [done|]. split; [congruence|]. split; [congruence|].
    split; [congruence|]. split; [congruence|]. split; [lia|]. split; [|split].
    + intros a Ha. destruct (G6 a Ha) as [Hin|Hge]; [|right; lia].
      rewrite F5 in Hin. apply elem_of_app in Hin as [?| ->%list_elem_of_singleton];
        [by left | by right].
    + congruence.
    + intros Hok. rewrite (G8 Hok), F8, <- app_assoc. done.
Qed.

(** The third loop. *)
Lemma try_students (ds : list student_dict) (st : State) (ok : bool) (st' : State) :
  consistent st → NoDup (SyncSpec.student_ids st ++ map sd_student_id ds) →
  try_each load_student ds st = (ok, st') →
  consistent st' ∧
  instructors st' = instructors st ∧ courses st' = courses st ∧
  heap_instructors st' = heap_instructors st ∧
  length (heap_students st) ≤ length (heap_students st') ∧
  (∀ a, a ∈ students st' → a ∈ students st ∨ length (heap_students st) ≤ a) ∧
  LoadSpec.same_course_heads st st' ∧
  course_heads st' = course_heads st ∧
  (ok = true →
     student_heads st' = student_heads st ++ map (λ d, s_head (student_obj d)) ds).
Proof.
  revert st. induction ds as [|d ds IH]; intros st Hc Hnd; simpl.
  - intros [= <- <-]. rewrite app_nil_r.
    split; [done|]. split; [done|]. split; [done|]. split; [done|]. split; [done|].
    split; [by left|]. split; [done | done].
  - destruct (load_student st d) as [st1|] eqn:Hstep.
    2: { intros [= <- <-].
         split; [done|]. split; [done|]. split; [done|]. split; [done|]. split; [done|].
         split; [by left|]. split; [done | done]. }
    intros Hrun.
    pose proof (load_student_consistent st st1 d Hc (fresh_id _ _ _ _ Hnd) Hstep) as Hc1.
    destruct (load_student_facts st st1 d (proj1 Hc) Hstep)
      as (F1 & F2 & F3 & F4 & F5 & F6 & F7 & F8 & F9).
    destruct (IH st1 Hc1) as (G0 & G1 & G2 & G3 & G4 & G5 & G6 & G7 & G8); [|done|].
    { rewrite heads_student_ids, F9, map_app, <- app_assoc. simpl.
      by rewrite <- heads_student_ids. }
    split; [done|]. split; [congruence|]. split; [congruence|].
    split; [congruence|]. split; [lia|]. split; [|split; [|split]].
    + intros a Ha. destruct (G5 a Ha) as [Hin|Hge]; [|right; lia].
      rewrite F5 in Hin. apply elem_of_app in Hin as [?| ->%list_elem_of_singleton];
        [by left | by right].
    + intros c. destruct (F7 c), (G6 c). split; congruence.
    + congruence.
    + intros Hok. rewrite (G8 Hok), F9, <- app_assoc. done.
Qed.

Lemma cleared_consistent (st : State) :
  consistent st →
  consistent (set_courses [] (set_instructors [] (set_students [] st))).
Proof.
  intros (A & Sd & Id & Cd & NS & NC & NI & L1 & L2 & I1 & I2).
  split; [by repeat split; intros a ?%elem_of_nil|].
  split; [constructor|]. split; [constructor|]. split; [constructor|].
  split; [done|]. split; [done|]. split; [done|].
  split; [by intros s c ?%elem_of_nil|].
  split; [by intros c s ?%elem_of_nil|].
  split; [by intros c i ?%elem_of_nil | by intros i c ?%elem_of_nil].
Qed.

End lab2_json_consistent.

(** ** [load_data] on a document of valid entries *)

Section lab2_json_result.
Import Lab2 Lab2Inv Lab2Json Lab2JsonSpec LoadSpec.

Lemma try_each_ok {A} (step : State → A → result State) (l : list A) (st : State) :
  (∀ s x, x ∈ l → is_ok (step s x) = true) → (try_each step l st).1 = true.
Proof.
  revert st. induction l as [|x l IH]; intros st Hok; simpl; [done|].
  assert (Hx : x ∈ x :: l) by (by left).
  specialize (Hok st x Hx) as Hstep.
  destruct (step st x) as [st1|]; [|done].
  apply IH. intros s y Hy. apply Hok. by right.
Qed.

Lemma try_each_cons_true {A} (step : State → A → result State) (x : A) (l : list A)
    (st st' : State) :
  try_each step (x :: l) st = (true, st') →
  ∃ st1, step st x = Ok st1 ∧ try_each step l st1 = (true, st').
Proof. simpl. destruct (step st x) as [st1|]; [eauto | done]. Qed.

Lemma for_each_try_each {A B} (stepD : State → B → result State)
    (step : State → A → result State) (f : A → B) (l : list A) (st st' : State) :
  (∀ s x, step s x = stepD s (f x)) →
  Db.for_each stepD (map f l) st = Ok st' → try_each step l st = (true, st').
Proof.
  intros Hstep. revert st. induction l as [|x l IH]; intros st; simpl.
  - by intros [= <-].
  - rewrite Hstep. destruct (stepD st (f x)) as [st1|]; [|done]. simpl. apply IH.
Qed.

Lemma load_registrations_rows (s : nat) (ids : list string) (st : State) :
  fold_left (load_registration s) ids st
  = fold_left (Db.load_registration s) (map (λ cid, (cid, EmptyString)) ids) st.
Proof. revert st. induction ids as [|cid ids IH]; intros st; [done|]. simpl. apply IH. Qed.

(** The registrations that one round of the third loop adds. *)
Lemma load_student_edges (st st1 : State) (d : student_dict) :
  allocated st → load_student st d = Ok st1 →
  ∀ e, e ∈ SyncSpec.registration_edges st1 ↔
       e ∈ SyncSpec.registration_edges st ∨
       ∃ cid c, cid ∈ sd_registered_courses d ∧ find_course_by_id st cid = Some c ∧
                e = (sd_student_id d, course_id (course_at st c)).
Proof.
  intros Halloc Hstep e.
  destruct (load_student_facts st st1 d Halloc Hstep)
    as (F1 & F2 & F3 & F4 & F5 & F6 & F7 & F8 & F9).
  destruct Halloc as (As & Ai & Ac).
  apply load_student_inv in Hstep.
  set (n := length (heap_students st)) in *.
  set (st2 := add_student (new_student st (student_obj d)).2 n) in *.
  rewrite load_registrations_rows in Hstep.
  assert (Hat2 : ∀ a, student_at st2 a
                      = if decide (a = n) then student_obj d else student_at st a).
  { intros a. apply student_at_new_student. }
  assert (Hlen2 : n < length (heap_students st2)).
  { unfold st2, n. simpl. rewrite length_app. simpl. lia. }
  destruct (load_registrations_result n
              (map (λ cid, (cid, EmptyString)) (sd_registered_courses d)) st2 Hlen2)
    as (_ & _ & _ & _ & Hother & Hid & Hreg).
  rewrite <- Hstep in Hother, Hid, Hreg.
  assert (Hold : ∀ a, a < length (heap_students st) → student_at st1 a = student_at st a).
  { intros a Ha. rewrite Hother by (unfold n; lia).
    rewrite Hat2, decide_False; [done | unfold n; lia]. }
  assert (Hsid : student_id (student_at st1 (length (heap_students st)))
                 = sd_student_id d).
  { fold n. rewrite Hid, Hat2, decide_True by done. done. }
  rewrite (registration_edges_step st st1 (sd_student_id d) e As F5 Hold F7 Hsid).
  fold n. split; intros [?|H]; [by left | | by left |]; right.
  - destruct H as (c & Hc & ->). apply Hreg in Hc as [Hc|((cid & x) & Hr & Hfind)].
    + rewrite Hat2, decide_True in Hc by done. by apply elem_of_nil in Hc.
    + apply elem_of_map in Hr as (cid' & [= -> ->] & Hcid). exists cid', c. done.
  - destruct H as (cid & c & Hcid & Hfind & ->). exists c. split; [|done].
    apply Hreg. right. exists (cid, EmptyString). split; [|done].
    apply elem_of_map. eauto.
Qed.

(** The registrations that the third loop adds. *)
Lemma try_students_edges (ds : list student_dict) (st st' : State) :
  consistent st → NoDup (SyncSpec.student_ids st ++ map sd_student_id ds) →
  try_each load_student ds st = (true, st') →
  ∀ e, e ∈ SyncSpec.registration_edges st' ↔
       e ∈ SyncSpec.registration_edges st ∨
       ∃ d cid c, d ∈ ds ∧ cid ∈ sd_registered_courses d ∧
                  find_course_by_id st cid = Some c ∧
                  e = (sd_student_id d, course_id (course_at st c)).
Proof.
  revert st. induction ds as [|d ds IH]; intros st Hc Hnd Hrun e.
  - injection Hrun as <-. split; [by left|].
    intros [?|(d & _ & _ & Hd & _)]; [done|]. by apply elem_of_nil in Hd.
  - apply try_each_cons_true in Hrun as (st1 & Hstep & Hrun).
    pose proof (load_student_consistent st st1 d Hc (fresh_id _ _ _ _ Hnd) Hstep) as Hc1.
    destruct (load_student_facts st st1 d (proj1 Hc) Hstep)
      as (F1 & F2 & F3 & F4 & F5 & F6 & F7 & F8 & F9).
    rewrite (IH st1 Hc1); [| |done].
    2: { rewrite heads_student_ids, F9, map_app, <- app_assoc. simpl.
         by rewrite <- heads_student_ids. }
    rewrite (load_student_edges st st1 d (proj1 Hc) Hstep e). split.
    + intros [[?|(cid & c & Hcid & Hfind & ->)]|(d' & cid & c & Hd' & Hcid & Hfind & ->)].
      * by left.
      * right. exists d, cid, c. split; [by left | done].
      * right. exists d', cid, c. split; [by right|]. split; [done|].
        rewrite <- (find_course_same st st1) by done.
        split; [done|]. by rewrite (proj1 (F7 c)).
    + intros [?|(d' & cid & c & [->|Hd']%elem_of_cons & Hcid & Hfind & ->)].
      * by left; left.
      * left. right. exists cid, c. done.
      * right. exists d', cid, c. split; [done|]. split; [done|].
        rewrite (find_course_same st st1) by done.
        split; [done|]. by rewrite (proj1 (F7 c)).
Qed.

End lab2_json_result.

Section lab2_json_saved.
Import Lab2 Lab2Inv Lab2Json Lab2JsonSpec LoadSpec.

Lemma saved_ids (g : State) :
  map sd_student_id (doc_students (save_data g)) = SyncSpec.student_ids g ∧
  map id_instructor_id (doc_instructors (save_data g)) = SyncSpec.instructor_ids g ∧
  map cd_course_id (doc_courses (save_data g)) = SyncSpec.course_ids g.
Proof. unfold save_data. simpl. by rewrite !map_map. Qed.

Lemma saved_heads (g : State) :
  map (λ d, s_head (student_obj d)) (doc_students (save_data g)) = student_heads g ∧
  map (λ d, i_head (instructor_obj d)) (doc_instructors (save_data g))
    = instructor_heads g ∧
  map (λ d, (cd_course_id d, cd_course_name d)) (doc_courses (save_data g))
    = course_heads g.
Proof. unfold save_data. simpl. by rewrite !map_map. Qed.

Lemma saved_distinct (g : State) : consistent g → distinct_ids (save_data g).
Proof.
  intros (_ & Sd & Id & Cd & _). destruct (saved_ids g) as (E1 & E2 & E3).
  unfold distinct_ids. by rewrite E1, E2, E3.
Qed.

Lemma saved_instructors_load (g : State) :
  SyncSpec.valid_entities g →
  ∀ s d, d ∈ doc_instructors (save_data g) → is_ok (load_instructor s d) = true.
Proof.
  intros (_ & Hvi & _) s d (a & -> & Ha)%elem_of_map.
  destruct (Hvi a Ha) as (Hn & Hage & He & Hid).
  unfold load_instructor, instructor_to_dict. cbn [id_name id_age id_email id_instructor_id].
  by rewrite (instructor_init_ok _ _ _ _ Hn Hage He Hid).
Qed.

Lemma saved_students_load (g : State) :
  SyncSpec.valid_entities g →
  ∀ s d, d ∈ doc_students (save_data g) → is_ok (load_student s d) = true.
Proof.
  intros (Hvs & _ & _) s d (a & -> & Ha)%elem_of_map.
  destruct (Hvs a Ha) as (Hn & Hage & He & Hid).
  unfold load_student, student_to_dict. cbn [sd_name sd_age sd_email sd_student_id].
  by rewrite (student_init_ok _ _ _ _ Hn Hage He Hid).
Qed.

Lemma saved_courses_load (g : State) :
  SyncSpec.valid_entities g →
  ∀ s d, d ∈ doc_courses (save_data g) → is_ok (load_course s d) = true.
Proof.
  intros (_ & _ & Hvc) s d (a & -> & Ha)%elem_of_map.
  destruct (Hvc a Ha) as (Hid & Hn).
  unfold load_course, course_to_dict. cbn [cd_course_id cd_course_name cd_instructor_id].
  rewrite (course_init_ok _ _ _ Hid Hn). cbn [mbind result_bind].
  by destruct (new_course _ _).
Qed.

(** The second loop run on the course entries, by the rows of the
    database loader. *)
Lemma try_courses_edges (ds : list course_dict) (st st' : State) :
  (∀ d, d ∈ ds → nonblank (cd_course_id d) = true ∧ nonblank (cd_course_name d) = true) →
  (∀ a, a ∈ courses st → a < length (heap_courses st)) →
  try_each load_course ds st = (true, st') →
  SyncSpec.assignment_edges st' =
    SyncSpec.assignment_edges st ++
    flat_map (λ d, match resolved st d with
                   | Some i => [(cd_course_id d, instructor_id (instructor_at st i))]
                   | None => []
                   end) ds.
Proof.
  intros Hvalid Halloc Hrun.
  set (row := λ d : course_dict,
                (cd_course_id d, cd_course_name d, cd_instructor_id d, @None string)).
  destruct (load_courses_result (map row ds) st)
    as (st2 & Hload & _ & _ & _ & _ & _ & _ & Hedges).
  { intros r (d & -> & Hd)%elem_of_map. apply (Hvalid d Hd). }
  { done. }
  rewrite (for_each_try_each Db.load_course load_course row ds st st2) in Hrun;
    [|done|done].
  injection Hrun as <-. rewrite Hedges. f_equal.
  clear. induction ds as [|d ds IH]; simpl; [done|]. by rewrite IH.
Qed.

End lab2_json_saved.

Section lab2_json_load.
Import Lab2 Lab2Inv Lab2Json Lab2JsonSpec LoadSpec.

(** What [load_data] makes of a readable file. *)
Lemma load_data_phases (data : document) (st : State) :
  consistent st → distinct_ids data →
  ∃ ok1 st1 ok2 st2 ok3 st3,
    try_each load_instructor (doc_instructors data)
      (set_courses [] (set_instructors [] (set_students [] st))) = (ok1, st1) ∧
    try_each load_course (doc_courses data) st1 = (ok2, st2) ∧
    try_each load_student (doc_students data) st2 = (ok3, st3) ∧
    consistent st1 ∧ students st1 = [] ∧ courses st1 = [] ∧
    NoDup (SyncSpec.course_ids st1 ++ map cd_course_id (doc_courses data)) ∧
    NoDup (SyncSpec.student_ids st2 ++ map sd_student_id (doc_students data)) ∧
    heap_students st1 = heap_students st ∧ heap_courses st1 = heap_courses st ∧
    length (heap_instructors st) ≤ length (heap_instructors st1) ∧
    (∀ a, a ∈ instructors st1 → length (heap_instructors st) ≤ a) ∧
    (ok1 = true →
       instructor_heads st1 = map (λ d, i_head (instructor_obj d)) (doc_instructors data)) ∧
    consistent st2 ∧ students st2 = [] ∧ instructors st2 = instructors st1 ∧
    heap_students st2 = heap_students st ∧
    length (heap_instructors st2) = length (heap_instructors st1) ∧
    (∀ a, a ∈ courses st2 → length (heap_courses st) ≤ a) ∧
    instructor_heads st2 = instructor_heads st1 ∧
    (ok2 = true →
       course_heads st2
         = map (λ d, (cd_course_id d, cd_course_name d)) (doc_courses data)) ∧
    consistent st3 ∧ instructors st3 = instructors st2 ∧ courses st3 = courses st2 ∧
    heap_instructors st3 = heap_instructors st2 ∧
    (∀ a, a ∈ students st3 → length (heap_students st) ≤ a) ∧
    same_course_heads st2 st3 ∧ course_heads st3 = course_heads st2 ∧
    (ok3 = true →
       student_heads st3 = map (λ d, s_head (student_obj d)) (doc_students data)).
Proof.
  intros Hc (Ds & Di & Dc).
  pose proof (cleared_consistent st Hc) as Hc0.
  set (st0 := set_courses [] (set_instructors [] (set_students [] st))) in *.
  destruct (try_each load_instructor (doc_instructors data) st0) as [ok1 st1] eqn:H1.
  destruct (try_instructors _ st0 ok1 st1 Hc0 Di H1)
    as (C1 & A1 & A2 & A3 & A4 & A5 & A6 & A7).
  change (students st0) with (@nil nat) in A1.
  change (courses st0) with (@nil nat) in A2.
  assert (Dc1 : NoDup (SyncSpec.course_ids st1 ++ map cd_course_id (doc_courses data))).
  { unfold SyncSpec.course_ids. by rewrite A2. }
  destruct (try_each load_course (doc_courses data) st1) as [ok2 st2] eqn:H2.
  destruct (try_courses _ st1 ok2 st2 C1 Dc1 H2)
    as (C2 & B1 & B2 & B3 & B4 & B5 & B6 & B7 & B8).
  assert (Ds2 : NoDup (SyncSpec.student_ids st2 ++ map sd_student_id (doc_students data))).
  { unfold SyncSpec.student_ids. by rewrite B1, A1. }
  destruct (try_each load_student (doc_students data) st2) as [ok3 st3] eqn:H3.
  destruct (try_students _ st2 ok3 st3 C2 Ds2 H3)
    as (C3 & E1 & E2 & E3 & E4 & E5 & E6 & E7 & E8).
  exists ok1, st1, ok2, st2, ok3, st3.
  split; [done|]. split; [done|]. split; [done|].
  split; [done|]. split; [done|]. split; [done|]. split; [done|]. split; [done|].
  split; [done|]. split; [done|]. split; [done|].
  split. { intros a Ha. by destruct (A6 a Ha) as [?%elem_of_nil|?]. }
  split. { intros Hok. by rewrite (A7 Hok). }
  split; [done|]. split; [congruence|]. split; [done|]. split; [by rewrite B3, A3|].
  split; [done|].
  split. { intros a Ha. destruct (B6 a Ha) as [Hin|Hge].
           - rewrite A2 in Hin. by apply elem_of_nil in Hin.
           - by rewrite A4 in Hge. }
  split; [done|].
  split. { intros Hok. rewrite (B8 Hok). unfold course_heads. by rewrite A2. }
  split; [done|]. split; [done|]. split; [done|]. split; [done|].
  split. { intros a Ha. destruct (E5 a Ha) as [Hin|Hge].
           - rewrite B1, A1 in Hin. by apply elem_of_nil in Hin.
           - by rewrite B3, A3 in Hge. }
  split; [done|]. split; [done|].
  intros Hok. rewrite (E8 Hok). unfold student_heads. by rewrite B1, A1.
Qed.

End lab2_json_load.

Section lab2_json_replace.
Import Lab2 Lab2Inv Lab2Json Lab2JsonSpec.

Lemma load_instructor_created (ns ni nc : nat) (st : State) (d : instructor_dict)
    (st' : State) :
  created_since ns ni nc st → load_instructor st d = Ok st' →
  created_since ns ni nc st'.
Proof.
  intros (Fs & Fi & Fc & Ls & Li & Lc) ->%load_instructor_inv.
  split; [done|]. split; [|split; [done|]; split; [done|]; split; [|done]].
  - intros a. cbn [instructors add_instructor set_instructors new_instructor snd].
    intros [Ha | ->%list_elem_of_singleton]%elem_of_app; [by apply Fi | done].
  - cbn [heap_instructors add_instructor set_instructors new_instructor snd].
    rewrite length_app. simpl. lia.
Qed.

Lemma load_course_created (ns ni nc : nat) (st : State) (d : course_dict)
    (st' : State) :
  created_since ns ni nc st → load_course st d = Ok st' →
  created_since ns ni nc st'.
Proof.
  intros (Fs & Fi & Fc & Ls & Li & Lc) Hinv%load_course_inv.
  set (n := length (heap_courses st)) in *.
  assert (H : ∃ o, let st2 := add_course (new_course st o).2 n in
                   st' = st2 ∨ ∃ i, st' = assign_course i n st2).
  { destruct (resolved st d) as [i|]; eexists; [right; eauto | by left]. }
  clear Hinv. destruct H as (o & H). cbn zeta in H.
  set (st2 := add_course (new_course st o).2 n) in *.
  assert (F2 : created_since ns ni nc st2).
  { split; [done|]. split; [done|]. split; [|split; [done|]; split; [done|]].
    - intros a. cbn [st2 courses add_course set_courses new_course snd].
      intros [Ha | ->%list_elem_of_singleton]%elem_of_app; [by apply Fc | done].
    - cbn [st2 heap_courses add_course set_courses new_course snd].
      rewrite length_app. simpl. lia. }
  destruct H as [-> | [i ->]]; [done|].
  destruct F2 as (Gs & Gi & Gc & Ms & Mi & Mc).
  destruct (assign_course_heads i n st2) as (A1 & A2 & A3 & A4 & A5 & A6 & _).
  unfold created_since. by rewrite A1, A2, A3, A4, A5, A6.
Qed.

Lemma load_student_created (ns ni nc : nat) (st : State) (d : student_dict)
    (st' : State) :
  created_since ns ni nc st → load_student st d = Ok st' →
  created_since ns ni nc st'.
Proof.
  intros (Fs & Fi & Fc & Ls & Li & Lc) ->%load_student_inv.
  set (n := length (heap_students st)).
  set (st2 := add_student (new_student st (student_obj d)).2 n).
  destruct (load_registrations_heads n (sd_registered_courses d) st2)
    as (A1 & A2 & A3 & A4 & A5 & A6 & _).
  unfold created_since. rewrite A1, A2, A3, A4, A5, A6.
  split; [|split; [done|]; split; [done|]; split; [|done]].
  - intros a. cbn [st2 students add_student set_students new_student snd].
    intros [Ha | ->%list_elem_of_singleton]%elem_of_app; [by apply Fs | done].
  - cbn [st2 heap_students add_student set_students new_student snd].
    rewrite length_app. simpl. lia.
Qed.

Lemma try_each_created {A} (step : State → A → result State) (ns ni nc : nat)
    (l : list A) (st : State) :
  (∀ s x s', created_since ns ni nc s → step s x = Ok s' → created_since ns ni nc s') →
  created_since ns ni nc st → created_since ns ni nc (try_each step l st).2.
Proof.
  intros Hstep. revert st. induction l as [|x l IH]; intros st Hst; simpl; [done|].
  destruct (step st x) as [s'|] eqn:Hx; [|done]. by apply IH, (Hstep st x).
Qed.

(** Whatever the system holds and whatever the document says, the lists
    after [load_data] hold objects of this call only. *)
Lemma load_data_created (data : document) (st : State) :
  created_since (length (heap_students st)) (length (heap_instructors st))
                (length (heap_courses st)) (load_data (Some data) st).2.
Proof.
  set (ns := length (heap_students st)). set (ni := length (heap_instructors st)).
  set (nc := length (heap_courses st)).
  set (st0 := set_courses [] (set_instructors [] (set_students [] st))).
  assert (F0 : created_since ns ni nc st0).
  { unfold created_since, st0. simpl.
    split; [by intros a ?%elem_of_nil|]. split; [by intros a ?%elem_of_nil|].
    split; [by intros a ?%elem_of_nil|]. done. }
  pose proof (try_each_created load_instructor ns ni nc (doc_instructors data) st0
                (load_instructor_created ns ni nc) F0) as F1.
  unfold load_data. fold st0.
  destruct (try_each load_instructor (doc_instructors data) st0) as [ok1 st1].
  cbn [snd] in F1. destruct ok1; [|done].
  pose proof (try_each_created load_course ns ni nc (doc_courses data) st1
                (load_course_created ns ni nc) F1) as F2.
  destruct (try_each load_course (doc_courses data) st1) as [ok2 st2].
  cbn [snd] in F2. destruct ok2; [|done].
  apply (try_each_created load_student ns ni nc (doc_students data) st2
           (load_student_created ns ni nc) F2).
Qed.

Lemma load_data_consistent (data : document) (st : State) :
  consistent st → distinct_ids data → consistent (load_data (Some data) st).2.
Proof.
  intros Hc Hd.
  destruct (load_data_phases data st Hc Hd)
    as (ok1 & st1 & ok2 & st2 & ok3 & st3 & H1 & H2 & H3 & C1 & _ & _ & _ & _ & _
        & _ & _ & _ & _ & C2 & _ & _ & _ & _ & _ & _ & _ & C3 & _).
  unfold load_data. rewrite H1.
  destruct ok1; cbn [snd]; [|done].
  rewrite H2. destruct ok2; cbn [snd]; [|done].
  by rewrite H3.
Qed.

End lab2_json_replace.

(** X16. [load_data] on a file that can be read replaces the registry,
    whether it returns [True] or [False], whatever the system held and
    whatever the document says: afterwards the three lists hold only
    objects that this call created (nothing of what the system held
    before, even when an entry is refused and the rest of the file is not
    read). When the system was consistent and the ids of the document are
    distinct within each kind, it is consistent again, in the failed case
    too. *)
Theorem load_data_replaces (data : Lab2Json.document) (st : Lab2.State) :
  ((∀ a, a ∈ Lab2.students (Lab2Json.load_data (Some data) st).2 →
         length (Lab2.heap_students st) ≤ a) ∧
   (∀ a, a ∈ Lab2.instructors (Lab2Json.load_data (Some data) st).2 →
         length (Lab2.heap_instructors st) ≤ a) ∧
   (∀ a, a ∈ Lab2.courses (Lab2Json.load_data (Some data) st).2 →
         length (Lab2.heap_courses st) ≤ a)) ∧
  (Lab2Inv.consistent st → Lab2JsonSpec.distinct_ids data →
   Lab2Inv.consistent (Lab2Json.load_data (Some data) st).2).
Proof.
  split.
  - destruct (load_data_created data st) as (Fs & Fi & Fc & _). done.
  - apply load_data_consistent.
Qed.

(** A file whose student entry is refused, read into the empty system:
    the call returns [False] and the system is consistent. *)
Lemma load_data_replaces_witness :
  Lab2Inv.consistent (Lab2Json.load_data (Some Lab2JsonSpec.faulty_file) Lab2.empty).2 ∧
  (Lab2Json.load_data (Some Lab2JsonSpec.faulty_file) Lab2.empty).1 = false.
Proof.
  split; [|by vm_compute].
  apply (load_data_replaces Lab2JsonSpec.faulty_file Lab2.empty).
  - apply lab2_consistent_empty.
  - unfold Lab2JsonSpec.distinct_ids. simpl. repeat split; NoDup_concrete.
Defined.

Section lab2_json_round_trip.
Import Lab2 Lab2Inv Lab2Json Lab2JsonSpec LoadSpec.

Lemma instructor_ids_find (st : State) (x : string) :
  x ∈ SyncSpec.instructor_ids st →
  ∃ i, find_instructor_by_id st x = Some i ∧ instructor_id (instructor_at st i) = x.
Proof.
  intros (a & -> & Ha)%elem_of_map.
  destruct (find_id_is_Some (λ a, instructor_id (instructor_at st a)) (instructors st)
              (instructor_id (instructor_at st a))) as [i Hi]; [eauto|].
  exists i. split; [done|].
  by apply (find_id_Some (λ a, instructor_id (instructor_at st a))) in Hi as [_ ?].
Qed.

Lemma course_ids_find (st : State) (x : string) :
  x ∈ SyncSpec.course_ids st →
  ∃ c, find_course_by_id st x = Some c ∧ course_id (course_at st c) = x.
Proof.
  intros (a & -> & Ha)%elem_of_map.
  destruct (find_id_is_Some (λ a, course_id (course_at st a)) (courses st)
              (course_id (course_at st a))) as [c Hc]; [eauto|].
  exists c. split; [done|].
  by apply (find_id_Some (λ a, course_id (course_at st a))) in Hc as [_ ?].
Qed.

(** The assignments that the second loop restores from a saved file. *)
Lemma saved_assignments (g st1 : State) (e : string * string) :
  SyncSpec.valid_entities g → consistent g →
  SyncSpec.instructor_ids st1 = SyncSpec.instructor_ids g →
  e ∈ flat_map (λ d, match resolved st1 d with
                     | Some i => [(cd_course_id d, instructor_id (instructor_at st1 i))]
                     | None => []
                     end) (doc_courses (save_data g))
  ↔ e ∈ SyncSpec.assignment_edges g.
Proof.
  intros (_ & Hvi & _) (_ & _ & _ & _ & _ & _ & _ & _ & _ & I1 & _) Hids.
  unfold SyncSpec.assignment_edges, save_data. cbn [doc_courses].
  rewrite !elem_of_flat_map. split.
  - intros (d & (a & -> & Ha)%elem_of_map & He). exists a. split; [done|].
    unfold resolved, course_to_dict in He. cbn [cd_instructor_id cd_course_id] in He.
    destruct (instructor (course_at g a)) as [i0|]; [|by apply elem_of_nil in He].
    cbn [fmap option_fmap option_map] in He.
    destruct (bool_decide _); [by apply elem_of_nil in He|].
    destruct (find_instructor_by_id st1 _) as [i|] eqn:Hfind;
      [|by apply elem_of_nil in He].
    apply (find_id_Some (λ a, instructor_id (instructor_at st1 a))) in Hfind as [_ Hid].
    by rewrite Hid in He.
  - intros (a & Ha & He). exists (course_to_dict g (course_at g a)).
    split; [apply elem_of_map; eauto|].
    unfold resolved, course_to_dict. cbn [cd_instructor_id cd_course_id].
    destruct (instructor (course_at g a)) as [i0|] eqn:Hinst; [|done].
    cbn [fmap option_fmap option_map].
    destruct (I1 a i0 Ha Hinst) as [Hi0 _].
    assert (Hne : instructor_id (instructor_at g i0) ≠ "").
    { apply nonblank_nonempty. apply (Hvi i0 Hi0). }
    rewrite (bool_decide_eq_false_2 _ Hne).
    destruct (instructor_ids_find st1 (instructor_id (instructor_at g i0)))
      as (i & -> & Hid).
    { rewrite Hids. apply elem_of_map. eauto. }
    by rewrite Hid.
Qed.

(** The registrations that the third loop restores from a saved file. *)
Lemma saved_registrations (g st2 : State) (e : string * string) :
  consistent g → SyncSpec.course_ids st2 = SyncSpec.course_ids g →
  (∃ d cid c, d ∈ doc_students (save_data g) ∧ cid ∈ sd_registered_courses d ∧
              find_course_by_id st2 cid = Some c ∧
              e = (sd_student_id d, course_id (course_at st2 c)))
  ↔ e ∈ SyncSpec.registration_edges g.
Proof.
  intros (_ & _ & _ & _ & _ & _ & _ & L1 & _) Hids.
  unfold SyncSpec.registration_edges, save_data. cbn [doc_students].
  rewrite elem_of_flat_map. split.
  - intros (d & cid & c & (a & -> & Ha)%elem_of_map & Hcid & Hfind & ->).
    exists a. split; [done|]. cbn [student_to_dict sd_registered_courses sd_student_id] in *.
    apply elem_of_map in Hcid as (c0 & -> & Hc0).
    apply (find_id_Some (λ a, course_id (course_at st2 a))) in Hfind as [_ ->].
    apply elem_of_map. eauto.
  - intros (a & Ha & (c0 & -> & Hc0)%elem_of_map).
    destruct (L1 a c0 Ha Hc0) as [Hcin _].
    destruct (course_ids_find st2 (course_id (course_at g c0))) as (c & Hfind & Hid).
    { rewrite Hids. apply elem_of_map. eauto. }
    exists (student_to_dict g (student_at g a)), (course_id (course_at g c0)), c.
    split; [apply elem_of_map; eauto|].
    cbn [student_to_dict sd_registered_courses sd_student_id].
    split; [apply elem_of_map; eauto|]. split; [done|]. by rewrite Hid.
Qed.

End lab2_json_round_trip.

(** X15. Saving a consistent system of entities that their constructors
    accept and loading the file again (into any consistent system)
    succeeds and gives the same school: the same students, instructors and
    courses with the same names, ages, e-mail addresses and ids, in the
    same order; the same (student, course) registrations and the same
    (course, instructor) assignments; and a consistent registry. *)
Theorem save_then_load (g st : Lab2.State) :
  SyncSpec.valid_entities g → Lab2Inv.consistent g → Lab2Inv.consistent st →
  ∃ g', Lab2Json.load_data (Some (Lab2Json.save_data g)) st = (true, g') ∧
        Lab2Inv.consistent g' ∧
        Lab2JsonSpec.student_heads g' = Lab2JsonSpec.student_heads g ∧
        Lab2JsonSpec.instructor_heads g' = Lab2JsonSpec.instructor_heads g ∧
        Lab2JsonSpec.course_heads g' = Lab2JsonSpec.course_heads g ∧
        SyncSpec.same_set (SyncSpec.registration_edges g') (SyncSpec.registration_edges g) ∧
        SyncSpec.same_set (SyncSpec.assignment_edges g') (SyncSpec.assignment_edges g).
Proof.
  intros Hvalid Hg Hst.
  destruct (load_data_phases (Lab2Json.save_data g) st Hst (saved_distinct g Hg))
    as (ok1 & st1 & ok2 & st2 & ok3 & st3 & H1 & H2 & H3 & C1 & S1 & Co1 & Dc1 & Ds2
        & _ & _ & _ & _ & Hh1 & C2 & S2 & I2 & _ & _ & _ & Hh2i & Hh2 & C3 & I3 & Co3
        & Hi3 & _ & Hsame & Hh3c & Hh3).
  destruct (saved_heads g) as (Es & Ei & Ec).
  assert (ok1 = true) as ->.
  { pose proof (try_each_ok Lab2Json.load_instructor _
                  (Lab2.set_courses [] (Lab2.set_instructors [] (Lab2.set_students [] st)))
                  (saved_instructors_load g Hvalid)) as Hok.
    by rewrite H1 in Hok. }
  assert (ok2 = true) as ->.
  { pose proof (try_each_ok Lab2Json.load_course _ st1 (saved_courses_load g Hvalid))
      as Hok.
    by rewrite H2 in Hok. }
  assert (ok3 = true) as ->.
  { pose proof (try_each_ok Lab2Json.load_student _ st2 (saved_students_load g Hvalid))
      as Hok.
    by rewrite H3 in Hok. }
  specialize (Hh1 eq_refl). specialize (Hh2 eq_refl). specialize (Hh3 eq_refl).
  rewrite Ei in Hh1. rewrite Ec in Hh2. rewrite Es in Hh3.
  exists st3. split.
  { unfold Lab2Json.load_data. by rewrite H1, H2, H3. }
  split; [done|]. split; [done|].
  assert (Hat3 : ∀ a, Lab2.instructor_at st3 a = Lab2.instructor_at st2 a).
  { intros a. unfold Lab2.instructor_at. by rewrite Hi3. }
  split.
  { rewrite <- Hh1, <- Hh2i. unfold Lab2JsonSpec.instructor_heads. rewrite I3.
    apply map_ext. intros a. by rewrite Hat3. }
  split; [by rewrite Hh3c|].
  split.
  - intros e.
    rewrite (try_students_edges _ st2 st3 C2 Ds2 H3 e).
    rewrite (saved_registrations g st2 e Hg).
    + unfold SyncSpec.registration_edges at 1. rewrite S2. simpl. split; [|by right].
      by intros [?%elem_of_nil|?].
    + by rewrite !heads_course_ids, Hh2.
  - intros e.
    destruct (same_heads_ids st2 st3 I3 Co3 Hi3 Hsame) as (_ & _ & ->).
    assert (Hvc : ∀ d, d ∈ Lab2Json.doc_courses (Lab2Json.save_data g) →
                       Lab2.nonblank (Lab2Json.cd_course_id d) = true ∧
                       Lab2.nonblank (Lab2Json.cd_course_name d) = true).
    { intros d (a & -> & Ha)%elem_of_map. apply (proj2 (proj2 Hvalid) a Ha). }
    rewrite (try_courses_edges _ st1 st2 Hvc (proj2 (proj2 (proj1 C1))) H2).
    unfold SyncSpec.assignment_edges at 1. rewrite Co1. simpl.
    apply (saved_assignments g st1 e Hvalid Hg).
    by rewrite !heads_instructor_ids, Hh1.
Qed.

(** The school of a short session comes back from its file. *)
Lemma save_then_load_witness :
  ∃ g', Lab2Json.load_data (Some (Lab2Json.save_data Lab2JsonSpec.small_school)) Lab2.empty
        = (true, g') ∧
        Lab2Inv.consistent g' ∧
        Lab2JsonSpec.student_heads g'
          = Lab2JsonSpec.student_heads Lab2JsonSpec.small_school ∧
        Lab2JsonSpec.instructor_heads g'
          = Lab2JsonSpec.instructor_heads Lab2JsonSpec.small_school ∧
        Lab2JsonSpec.course_heads g'
          = Lab2JsonSpec.course_heads Lab2JsonSpec.small_school ∧
        SyncSpec.same_set (SyncSpec.registration_edges g')
                          (SyncSpec.registration_edges Lab2JsonSpec.small_school) ∧
        SyncSpec.same_set (SyncSpec.assignment_edges g')
                          (SyncSpec.assignment_edges Lab2JsonSpec.small_school).
Proof.
  apply (save_then_load Lab2JsonSpec.small_school Lab2.empty).
  - split; [|split]; intros a Ha; vm_compute in Ha;
      repeat (apply elem_of_cons in Ha as [->|Ha]; [by vm_compute|]);
      by apply elem_of_nil in Ha.
  - unfold Lab2JsonSpec.small_school, Gui.session.
    repeat (cbn [fold_left]; try apply gui_handle_consistent).
    apply lab2_consistent_empty.
  - apply lab2_consistent_empty.
Defined.

(** ** The combo box entries of [tkinter_gui.py] *)

Section gui_entries.

Lemma prefix_empty (s : string) : String.prefix EmptyString s = true.
Proof. by destruct s. Qed.

Lemma prefix_sep_inside (x name : string) :
  x ≠ EmptyString →
  String.prefix " - " (x +:+ " - " +:+ name) = String.prefix " - " (x +:+ " -").
Proof.
  intros Hx. destruct x as [|a [|b [|c x]]]; [done|..];
    rewrite ?app_cons, ?app_empty; cbn [String.prefix];
    repeat (destruct (ascii_dec _ _); try done); by rewrite !prefix_empty.
Qed.

Lemma before_entry (id name : string) :
  Gui.before " - " (id +:+ " - " +:+ name) = id ↔ Py.contains " - " (id +:+ " -") = false.
Proof.
  induction id as [|c id IH].
  - split; [intros _; by vm_compute | intros _; by destruct name].
  - change (String c id +:+ " - " +:+ name) with (String c (id +:+ " - " +:+ name)).
    change (String c id +:+ " -") with (String c (id +:+ " -")).
    cbn [Gui.before Py.contains].
    pose proof (prefix_sep_inside (String c id) name) as Hp.
    change (String c id +:+ " - " +:+ name) with (String c (id +:+ " - " +:+ name)) in Hp.
    change (String c id +:+ " -") with (String c (id +:+ " -")) in Hp.
    rewrite Hp by done.
    destruct (String.prefix " - " (String c (id +:+ " -"))); [done|].
    rewrite orb_false_l, <- IH. split; [by intros [= ?] | by intros ->].
Qed.

Lemma before_entry_short (id name : string) :
  Py.contains " - " (id +:+ " -") = true →
  ∃ rest, rest ≠ EmptyString ∧ id = Gui.before " - " (id +:+ " - " +:+ name) +:+ rest.
Proof.
  induction id as [|c id IH]; [by vm_compute|].
  change (String c id +:+ " - " +:+ name) with (String c (id +:+ " - " +:+ name)).
  change (String c id +:+ " -") with (String c (id +:+ " -")).
  cbn [Gui.before Py.contains].
  pose proof (prefix_sep_inside (String c id) name) as Hp.
  change (String c id +:+ " - " +:+ name) with (String c (id +:+ " - " +:+ name)) in Hp.
  change (String c id +:+ " -") with (String c (id +:+ " -")) in Hp.
  rewrite Hp by done.
  destruct (String.prefix " - " (String c (id +:+ " -"))).
  - intros _. by exists (String c id).
  - rewrite orb_false_l. intros (rest & Hne & Hrest)%IH. exists rest.
    split; [done|]. rewrite app_cons. by rewrite <- Hrest.
Qed.

End gui_entries.

(** X18. The handlers of [tkinter_gui.py] read the id of the entity
    chosen in a combo box as the part of the entry before the first
    [" - "]. For the entry that [refresh_displays] builds from an id and a
    name this gives the id back exactly when [" - "] does not occur in the
    id followed by [" -"], that is, neither inside the id nor across its
    end; otherwise the handler looks up a proper prefix of the id. *)
Theorem combo_entry_id (id name : string) :
  (Gui.id_of (Gui.entry id name) = id ↔ ¬ occurs_in " - " (id +:+ " -")) ∧
  (occurs_in " - " (id +:+ " -") →
     ∃ rest, rest ≠ EmptyString ∧ id = Gui.id_of (Gui.entry id name) +:+ rest).
Proof.
  unfold Gui.id_of, Gui.entry, occurs_in. split.
  - rewrite before_entry, <- contains_occurs. by destruct (Py.contains _ _).
  - intros Hocc%contains_occurs. by apply before_entry_short.
Qed.

(** ** [fromjson]: what each round of its loops does *)

Section tk_json_steps.
Import Tk TkSpec TkInv TkJson TkJsonSpec.

Lemma find_snoc {A} (f : A → bool) (l : list A) (a : A) :
  List.find f (l ++ [a])
  = match List.find f l with
    | Some x => Some x
    | None => if f a then Some a else None
    end.
Proof.
  induction l as [|x l IH]; simpl; [done|]. by destruct (f x).
Qed.

Lemma tk_Student_init_inv (name : string) (z : Z) (email sid : string) (o : Student) :
  Student_init name (PyInt z) email sid = Ok o → o = mkStudent name z email sid [].
Proof.
  unfold Student_init, Person_init. destruct (decide (name = "")); [done|].
  simpl. destruct (z <? 0)%Z; [done|]. simpl.
  destruct (_ && _); [done|]. simpl. destruct (decide _); [done|]. by intros [= <-].
Qed.

Lemma tk_Instructor_init_inv (name : string) (z : Z) (email iid : string)
    (o : Instructor) :
  Instructor_init name (PyInt z) email iid = Ok o → o = mkInstructor name z email iid [].
Proof.
  unfold Instructor_init, Person_init. destruct (decide (name = "")); [done|].
  simpl. destruct (z <? 0)%Z; [done|]. simpl.
  destruct (_ && _); [done|]. simpl. destruct (decide _); [done|]. by intros [= <-].
Qed.

Lemma tk_Course_init_inv (cid cname : string) (inst : option nat) (o : Course) :
  Course_init cid cname inst = Ok o → o = mkCourse cid cname inst [].
Proof.
  unfold Course_init. destruct (decide _); [done|]. destruct (decide _); [done|].
  by intros [= <-].
Qed.

Lemma tk_Course_init_any (cid cname : string) (inst inst' : option nat) :
  is_ok (Course_init cid cname inst) = is_ok (Course_init cid cname inst').
Proof.
  unfold Course_init. destruct (decide _); [done|]. by destruct (decide _).
Qed.

Lemma fromjson_student_inv (st : State) (m : gmap string nat) (d : student_dict)
    (r : State * gmap string nat) :
  load_student (st, m) d = Ok r →
  r = (set_students (students st ++ [length (heap_students st)])
         (new_student st (student_obj d)).2,
       <[sd_studentid d := length (heap_students st)]> m).
Proof.
  unfold load_student.
  destruct (Student_init _ _ _ _) as [o|] eqn:Hinit; [|done].
  apply tk_Student_init_inv in Hinit as ->. by intros [= <-].
Qed.

Lemma fromjson_instructor_inv (st : State) (m : gmap string nat) (d : instructor_dict)
    (r : State * gmap string nat) :
  load_instructor (st, m) d = Ok r →
  r = (set_instructors (instructors st ++ [length (heap_instructors st)])
         (new_instructor st (instructor_obj d)).2,
       <[id_instructorid d := length (heap_instructors st)]> m).
Proof.
  unfold load_instructor.
  destruct (Instructor_init _ _ _ _) as [o|] eqn:Hinit; [|done].
  apply tk_Instructor_init_inv in Hinit as ->. by intros [= <-].
Qed.

Lemma fromjson_course_inv (m : gmap string nat) (st st' : State) (d : course_dict) :
  load_course m st d = Ok st' →
  st' = match resolved m d with
        | Some i =>
            take i (length (heap_courses st))
              (set_courses (courses st ++ [length (heap_courses st)])
                 (new_course st (mkCourse (cd_courseid d) (cd_coursename d)
                                          (resolved m d) [])).2)
        | None =>
            set_courses (courses st ++ [length (heap_courses st)])
              (new_course st (mkCourse (cd_courseid d) (cd_coursename d) None [])).2
        end.
Proof.
  unfold load_course. fold (resolved m d).
  destruct (Course_init _ _ _) as [o|] eqn:Hinit; [|done].
  apply tk_Course_init_inv in Hinit as ->. cbn [mbind result_bind].
  destruct (resolved m d); by intros [= <-].
Qed.

End tk_json_steps.

Section tk_json_persons.
Import Tk TkSpec TkInv TkJson TkJsonSpec.

Lemma find_ext_elem {A} (f g : A → bool) (l : list A) :
  (∀ a, a ∈ l → f a = g a) → List.find f l = List.find g l.
Proof.
  induction l as [|x l IH]; simpl; intros H; [done|].
  rewrite (H x) by (by left). rewrite IH; [done|]. intros a Ha. apply H. by right.
Qed.

Lemma findstudent_new_student (st : State) (o : Student) (x : string) :
  allocated st → findstudent (new_student st o).2 x = findstudent st x.
Proof.
  intros (As & _ & _). unfold findstudent. apply find_ext_elem. intros a Ha%As.
  rewrite tk_student_at_new, decide_False; [done | lia].
Qed.

Lemma findinstructor_new_instructor (st : State) (o : Instructor) (x : string) :
  allocated st → findinstructor (new_instructor st o).2 x = findinstructor st x.
Proof.
  intros (_ & Ai & _). unfold findinstructor. apply find_ext_elem. intros a Ha%Ai.
  rewrite tk_instructor_at_new, decide_False; [done | lia].
Qed.

Lemma findcourse_new_course (st : State) (o : Course) (x : string) :
  allocated st → findcourse (new_course st o).2 x = findcourse st x.
Proof.
  intros (_ & _ & Ac). unfold findcourse. apply find_ext_elem. intros a Ha%Ac.
  rewrite tk_course_at_new, decide_False; [done | lia].
Qed.

(** One round of the first loop. *)
Lemma fromjson_student_step (st : State) (m : gmap string nat) (d : student_dict)
    (r : State * gmap string nat) :
  consistent st → agrees_students m st → findstudent st (sd_studentid d) = None →
  load_student (st, m) d = Ok r →
  consistent r.1 ∧ agrees_students r.2 r.1 ∧
  instructors r.1 = instructors st ∧ courses r.1 = courses st ∧
  heap_instructors r.1 = heap_instructors st ∧ heap_courses r.1 = heap_courses st ∧
  student_heads r.1 = student_heads st ++ [s_head (student_obj d)].
Proof.
  intros Hc Hm Hnew ->%fromjson_student_inv. cbn [fst snd].
  set (o := student_obj d). set (n := length (heap_students st)).
  pose proof (new_student_consistent st o Hc eq_refl) as Hc1.
  pose proof (findstudent_new_student st o) as Hfind1.
  specialize (λ x, Hfind1 x (proj1 Hc)).
  assert (Hat : ∀ a, student_at (new_student st o).2 a
                     = if decide (a = n) then o else student_at st a).
  { apply tk_student_at_new. }
  set (st1 := (new_student st o).2) in *.
  assert (Hlen : n < length (heap_students st1)).
  { unfold st1, n. simpl. rewrite length_app. simpl. lia. }
  assert (Hst : students st1 = students st) by done.
  split; [|split].
  - rewrite <- Hst. apply enlist_student_consistent; [done | done | |].
    + rewrite Hat, decide_True by done. by rewrite Hfind1.
    + by rewrite Hat, decide_True.
  - intros x. unfold findstudent. cbn [students set_students].
    change (student_at (set_students (students st ++ [n]) st1)) with (student_at st1).
    rewrite find_snoc. fold (findstudent st1 x) in *. rewrite <- Hst.
    change (List.find (λ a, String.eqb (studentid (student_at st1 a)) x) (students st1))
      with (findstudent st1 x).
    rewrite Hfind1, Hat, decide_True by done. rewrite lookup_insert.
    destruct (decide (sd_studentid d = x)) as [<-|Hne].
    + rewrite Hnew. cbn [studentid o student_obj]. by rewrite String.eqb_refl.
    + rewrite Hm. destruct (findstudent st x); [done|].
      cbn [studentid o student_obj]. by rewrite (proj2 (String.eqb_neq _ _) Hne).
  - split; [done|]. split; [done|]. split; [done|]. split; [done|].
    unfold student_heads. cbn [students set_students].
    change (student_at (set_students (students st ++ [n]) st1)) with (student_at st1).
    rewrite map_app. simpl. rewrite Hat, decide_True by done. f_equal.
    apply map_ext_elem. intros a Ha. rewrite Hat, decide_False; [done|].
    apply (proj1 (proj1 Hc)) in Ha. unfold n. lia.
Qed.

(** One round of the second loop. *)
Lemma fromjson_instructor_step (st : State) (m : gmap string nat) (d : instructor_dict)
    (r : State * gmap string nat) :
  consistent st → agrees_instructors m st → findinstructor st (id_instructorid d) = None →
  load_instructor (st, m) d = Ok r →
  consistent r.1 ∧ agrees_instructors r.2 r.1 ∧
  students r.1 = students st ∧ courses r.1 = courses st ∧
  heap_students r.1 = heap_students st ∧ heap_courses r.1 = heap_courses st ∧
  instructor_heads r.1 = instructor_heads st ++ [i_head (instructor_obj d)] ∧
  ((∀ i, i ∈ instructors st → i_courses (instructor_at st i) = []) →
   ∀ i, i ∈ instructors r.1 → i_courses (instructor_at r.1 i) = []).
Proof.
  intros Hc Hm Hnew ->%fromjson_instructor_inv. cbn [fst snd].
  set (o := instructor_obj d). set (n := length (heap_instructors st)).
  pose proof (new_instructor_consistent st o Hc eq_refl) as Hc1.
  pose proof (findinstructor_new_instructor st o) as Hfind1.
  specialize (λ x, Hfind1 x (proj1 Hc)).
  assert (Hat : ∀ a, instructor_at (new_instructor st o).2 a
                     = if decide (a = n) then o else instructor_at st a).
  { apply tk_instructor_at_new. }
  set (st1 := (new_instructor st o).2) in *.
  assert (Hlen : n < length (heap_instructors st1)).
  { unfold st1, n. simpl. rewrite length_app. simpl. lia. }
  assert (Hst : instructors st1 = instructors st) by done.
  split; [|split].
  - rewrite <- Hst. apply enlist_instructor_consistent; [done | done |].
    rewrite Hat, decide_True by done. by rewrite Hfind1.
  - intros x. unfold findinstructor. cbn [instructors set_instructors].
    change (instructor_at (set_instructors (instructors st ++ [n]) st1))
      with (instructor_at st1).
    rewrite find_snoc. rewrite <- Hst.
    change (List.find (λ a, String.eqb (instructorid (instructor_at st1 a)) x)
                      (instructors st1))
      with (findinstructor st1 x).
    rewrite Hfind1, Hat, decide_True by done. rewrite lookup_insert.
    destruct (decide (id_instructorid d = x)) as [<-|Hne].
    + rewrite Hnew. cbn [instructorid o instructor_obj]. by rewrite String.eqb_refl.
    + rewrite Hm. destruct (findinstructor st x); [done|].
      cbn [instructorid o instructor_obj]. by rewrite (proj2 (String.eqb_neq _ _) Hne).
  - split; [done|]. split; [done|]. split; [done|]. split; [done|].
    split.
    + unfold instructor_heads. cbn [instructors set_instructors].
      change (instructor_at (set_instructors (instructors st ++ [n]) st1))
        with (instructor_at st1).
      rewrite map_app. simpl. rewrite Hat, decide_True by done. f_equal.
      apply map_ext_elem. intros a Ha. rewrite Hat, decide_False; [done|].
      apply (proj1 (proj2 (proj1 Hc))) in Ha. unfold n. lia.
    + intros Hemp i. cbn [instructors set_instructors].
      change (instructor_at (set_instructors (instructors st ++ [n]) st1))
        with (instructor_at st1).
      rewrite Hat.
      intros [Hi | ->%list_elem_of_singleton]%elem_of_app.
      * rewrite decide_False; [by apply Hemp|].
        apply (proj1 (proj2 (proj1 Hc))) in Hi. unfold n. lia.
      * by rewrite decide_True.
Qed.

End tk_json_persons.

Section tk_json_phases.
Import Tk TkSpec TkInv TkJson TkJsonSpec.

Lemma heads_studentids (st : State) :
  map (λ a, studentid (student_at st a)) (students st) = map snd (student_heads st).
Proof. unfold student_heads. by rewrite map_map. Qed.

Lemma heads_instructorids (st : State) :
  map (λ a, instructorid (instructor_at st a)) (instructors st)
  = map snd (instructor_heads st).
Proof. unfold instructor_heads. by rewrite map_map. Qed.

Lemma heads_courseids (st : State) :
  map (λ a, courseid (course_at st a)) (courses st) = map fst (course_heads st).
Proof. unfold course_heads. by rewrite map_map. Qed.

(** The first loop on entries that the constructor accepts. *)
Lemma load_students_phase (ds : list student_dict) (st : State) (m : gmap string nat) :
  consistent st → agrees_students m st →
  NoDup (map (λ a, studentid (student_at st a)) (students st) ++ map sd_studentid ds) →
  (∀ d, d ∈ ds →
        is_ok (Student_init (sd_name d) (PyInt (py_int (sd_age d))) (sd_email d)
                            (sd_studentid d)) = true) →
  ∃ r, Db.for_each load_student ds (st, m) = Ok r ∧
       consistent r.1 ∧ agrees_students r.2 r.1 ∧
       instructors r.1 = instructors st ∧ courses r.1 = courses st ∧
       heap_instructors r.1 = heap_instructors st ∧ heap_courses r.1 = heap_courses st ∧
       student_heads r.1 = student_heads st ++ map (λ d, s_head (student_obj d)) ds.
Proof.
  revert st m. induction ds as [|d ds IH]; intros st m Hc Hm Hnd Hvalid.
  - exists (st, m). simpl. by rewrite app_nil_r.
  - assert (Hd : d ∈ d :: ds) by (by left).
    assert (∃ r1, load_student (st, m) d = Ok r1) as [r1 Hstep].
    { specialize (Hvalid d Hd). unfold load_student.
      destruct (Student_init _ _ _ _) as [o|]; [|done]. simpl.
      destruct (new_student st o). eauto. }
    destruct (fromjson_student_step st m d r1 Hc Hm (fresh_id _ _ _ _ Hnd) Hstep)
      as (C1 & M1 & F1 & F2 & F3 & F4 & F5).
    destruct (IH r1.1 r1.2 C1 M1) as (r & Hrun & C & M & G1 & G2 & G3 & G4 & G5).
    { rewrite heads_studentids, F5, map_app, <- app_assoc. simpl.
      by rewrite <- heads_studentids. }
    { intros d' Hd'. apply Hvalid. by right. }
    exists r. simpl. rewrite Hstep. cbn [mbind result_bind].
    destruct r1 as [st1 m1]. split; [done|]. split; [done|]. split; [done|].
    split; [congruence|]. split; [congruence|]. split; [congruence|].
    split; [congruence|]. cbn [fst] in *. by rewrite G5, F5, <- app_assoc.
Qed.

(** The second loop on entries that the constructor accepts. *)
Lemma load_instructors_phase (ds : list instructor_dict) (st : State)
    (m : gmap string nat) :
  consistent st → agrees_instructors m st →
  NoDup (map (λ a, instructorid (instructor_at st a)) (instructors st)
         ++ map id_instructorid ds) →
  (∀ d, d ∈ ds →
        is_ok (Instructor_init (id_name d) (PyInt (py_int (id_age d))) (id_email d)
                               (id_instructorid d)) = true) →
  ∃ r, Db.for_each load_instructor ds (st, m) = Ok r ∧
       consistent r.1 ∧ agrees_instructors r.2 r.1 ∧
       students r.1 = students st ∧ courses r.1 = courses st ∧
       heap_students r.1 = heap_students st ∧ heap_courses r.1 = heap_courses st ∧
       instructor_heads r.1
         = instructor_heads st ++ map (λ d, i_head (instructor_obj d)) ds ∧
       ((∀ i, i ∈ instructors st → i_courses (instructor_at st i) = []) →
        ∀ i, i ∈ instructors r.1 → i_courses (instructor_at r.1 i) = []).
Proof.
  revert st m. induction ds as [|d ds IH]; intros st m Hc Hm Hnd Hvalid.
  - exists (st, m). simpl. by rewrite app_nil_r.
  - assert (Hd : d ∈ d :: ds) by (by left).
    assert (∃ r1, load_instructor (st, m) d = Ok r1) as [r1 Hstep].
    { specialize (Hvalid d Hd). unfold load_instructor.
      destruct (Instructor_init _ _ _ _) as [o|]; [|done]. simpl.
      destruct (new_instructor st o). eauto. }
    destruct (fromjson_instructor_step st m d r1 Hc Hm (fresh_id _ _ _ _ Hnd) Hstep)
      as (C1 & M1 & F1 & F2 & F3 & F4 & F5 & F6).
    destruct (IH r1.1 r1.2 C1 M1) as (r & Hrun & C & M & G1 & G2 & G3 & G4 & G5 & G6).
    { rewrite heads_instructorids, F5, map_app, <- app_assoc. simpl.
      by rewrite <- heads_instructorids. }
    { intros d' Hd'. apply Hvalid. by right. }
    exists r. simpl. rewrite Hstep. cbn [mbind result_bind].
    destruct r1 as [st1 m1]. split; [done|]. split; [done|]. split; [done|].
    split; [congruence|]. split; [congruence|]. split; [congruence|].
    split; [congruence|]. cbn [fst] in *. split; [by rewrite G5, F5, <- app_assoc|].
    auto.
Qed.

End tk_json_phases.

Section tk_json_courses.
Import Tk TkSpec TkInv TkJson TkJsonSpec.

Lemma resolved_known (m : gmap string nat) (st : State) (d : course_dict) (i : nat) :
  agrees_instructors m st → resolved m d = Some i →
  i ∈ instructors st ∧ cd_instructor d = Some (instructorid (instructor_at st i)).
Proof.
  intros Hm. unfold resolved. destruct (cd_instructor d) as [x|]; [|done].
  case_bool_decide; [done|]. rewrite Hm.
  intros [Hi <-]%(find_id_Some (λ a, instructorid (instructor_at st a))). done.
Qed.

(** One round of the third loop. *)
Lemma fromjson_course_step (m : gmap string nat) (st r : State) (d : course_dict) :
  consistent st → tidy st → agrees_instructors m st →
  findcourse st (cd_courseid d) = None →
  load_course m st d = Ok r →
  consistent r ∧ tidy r ∧ agrees_instructors m r ∧
  students r = students st ∧ heap_students r = heap_students st ∧
  instructors r = instructors st ∧
  (∀ a, i_head (instructor_at r a) = i_head (instructor_at st a)) ∧
  course_heads r = course_heads st ++ [(cd_courseid d, cd_coursename d)] ∧
  assignments r = assignments st ++
    match resolved m d with
    | Some i => [(cd_courseid d, instructorid (instructor_at st i))]
    | None => []
    end ∧
  ((∀ c, c ∈ courses st → c_students (course_at st c) = []) →
   ∀ c, c ∈ courses r → c_students (course_at r c) = []).
Proof.
  intros Hc Ht Hm Hnew Hinv%fromjson_course_inv.
  set (inst := resolved m d).
  assert (Hinst : ∀ i, inst = Some i → i ∈ instructors st).
  { intros i Hi. by destruct (resolved_known m st d i Hm Hi). }
  set (o := mkCourse (cd_courseid d) (cd_coursename d) inst []).
  set (n := length (heap_courses st)).
  pose proof (new_course_consistent st o Hc eq_refl) as Hc1.
  pose proof (findcourse_new_course st o) as Hfind1.
  specialize (λ x, Hfind1 x (proj1 Hc)).
  assert (Hat : ∀ a, course_at (new_course st o).2 a
                     = if decide (a = n) then o else course_at st a).
  { apply tk_course_at_new. }
  assert (Hlen : n < length (heap_courses (new_course st o).2)).
  { unfold n. simpl. rewrite length_app. simpl. lia. }
  pose proof (enlist_course_consistent (new_course st o).2 n Hc1 Hlen) as Hlist.
  rewrite Hat, decide_True in Hlist by done. cbn [courseid c_students c_instructor o] in Hlist.
  rewrite Hfind1 in Hlist. specialize (Hlist Hnew eq_refl Hinst).
  destruct Hc as ((As & Ai & Ac) & _).
  set (st2 := set_courses (courses st ++ [n]) (new_course st o).2) in *.
  set (st' := match inst with Some i => take i n st2 | None => st2 end).
  assert (E : r = st').
  { rewrite Hinv. unfold st', st2, o, inst, n. by destruct (resolved m d). }
  rewrite E. clear E Hinv r.
  assert (E1 : students st' = students st) by (unfold st'; by destruct inst).
  assert (E2 : heap_students st' = heap_students st) by (unfold st'; by destruct inst).
  assert (E3 : instructors st' = instructors st) by (unfold st'; by destruct inst).
  assert (E4 : courses st' = courses st ++ [n]) by (unfold st'; by destruct inst).
  assert (E5 : ∀ a, course_at st' a = if decide (a = n) then o else course_at st a).
  { intros a. rewrite <- Hat. unfold st'. by destruct inst. }
  assert (E6 : ∀ a, i_head (instructor_at st' a) = i_head (instructor_at st a) ∧
                    ∀ x, x ∈ i_courses (instructor_at st' a) ↔
                         x ∈ i_courses (instructor_at st a) ∨ (inst = Some a ∧ x = n)).
  { intros a. unfold st'. destruct inst as [i|] eqn:Hi.
    - unfold take. rewrite instructor_at_set_i_courses.
      change (instructor_at st2 a) with (instructor_at st a).
      change (heap_instructors st2) with (heap_instructors st).
      destruct (decide (i = a ∧ a < length (heap_instructors st))) as [[-> Hlt]|Hno].
      + split; [done|]. intros x. cbn [i_courses]. rewrite elem_of_append_new.
        split; [intros [->|]; auto | intros [|[_ ->]]; auto].
      + split; [done|]. intros x. split; [auto|]. intros [|[[= ->] ->]]; [done|].
        destruct Hno. split; [done|]. apply Ai. by apply Hinst.
    - split; [done|]. intros x. change (instructor_at st2 a) with (instructor_at st a).
      split; [auto|]. by intros [|[? _]]. }
  assert (Hold : ∀ a, a ∈ courses st → course_at st' a = course_at st a).
  { intros a Ha%Ac. rewrite E5, decide_False; [done|]. unfold n. lia. }
  split; [|split; [|split]].
  - unfold st'. by destruct inst.
  - intros i c. rewrite E3, E4. intros Hi [Hin|[Hi' ->]]%(proj2 (E6 i)).
    + destruct (Ht i c Hi Hin) as [Hcin Hci]. split.
      * apply elem_of_app. by left.
      * by rewrite Hold.
    + split.
      * apply elem_of_app. right. by apply list_elem_of_singleton.
      * by rewrite E5, decide_True.
  - intros x. rewrite Hm. unfold findinstructor. rewrite E3.
    apply find_ext. intros a. destruct (E6 a) as [[= _ _ _ ->] _]. done.
  - split; [done|]. split; [done|]. split; [done|]. split; [|split; [|split]].
    + intros a. by destruct (E6 a).
    + unfold course_heads. rewrite E4, map_app. simpl.
      rewrite E5, decide_True by done. f_equal.
      apply map_ext_elem. intros a Ha. by rewrite Hold.
    + unfold assignments. rewrite E4, flat_map_app. simpl. rewrite app_nil_r.
      rewrite E5, decide_True by done. cbn [c_instructor courseid o]. f_equal.
      * apply flat_map_ext_in. intros a Ha. rewrite Hold by done.
        destruct (c_instructor (course_at st a)) as [i|]; [|done].
        by destruct (E6 i) as [[= _ _ _ ->] _].
      * fold inst. destruct inst as [i|]; [|done].
        by destruct (E6 i) as [[= _ _ _ ->] _].
    + intros Hemp c. rewrite E4. intros [Hin | ->%list_elem_of_singleton]%elem_of_app.
      * rewrite Hold by done. by apply Hemp.
      * by rewrite E5, decide_True.
Qed.

(** The third loop on entries that the constructor accepts. *)
Lemma load_courses_phase (m : gmap string nat) (ds : list course_dict) (st : State) :
  consistent st → tidy st → agrees_instructors m st →
  NoDup (map (λ a, courseid (course_at st a)) (courses st) ++ map cd_courseid ds) →
  (∀ d, d ∈ ds → is_ok (Course_init (cd_courseid d) (cd_coursename d) None) = true) →
  ∃ st', Db.for_each (load_course m) ds st = Ok st' ∧
    consistent st' ∧ tidy st' ∧
    students st' = students st ∧ heap_students st' = heap_students st ∧
    instructors st' = instructors st ∧
    (∀ a, i_head (instructor_at st' a) = i_head (instructor_at st a)) ∧
    course_heads st' = course_heads st
                       ++ map (λ d, (cd_courseid d, cd_coursename d)) ds ∧
    assignments st' = assignments st ++
      flat_map (λ d, match resolved m d with
                     | Some i => [(cd_courseid d, instructorid (instructor_at st i))]
                     | None => []
                     end) ds ∧
    ((∀ c, c ∈ courses st → c_students (course_at st c) = []) →
     ∀ c, c ∈ courses st' → c_students (course_at st' c) = []).
Proof.
  revert st. induction ds as [|d ds IH]; intros st Hc Ht Hm Hnd Hvalid.
  - exists st. simpl. rewrite !app_nil_r. done.
  - assert (Hd : d ∈ d :: ds) by (by left).
    assert (∃ st1, load_course m st d = Ok st1) as [st1 Hstep].
    { specialize (Hvalid d Hd). unfold load_course.
      rewrite (tk_Course_init_any _ _ None (resolved m d)) in Hvalid.
      fold (resolved m d).
      destruct (Course_init _ _ _) as [o|]; [|done]. cbn [mbind result_bind].
      destruct (new_course st o). eauto. }
    destruct (fromjson_course_step m st st1 d Hc Ht Hm (fresh_id _ _ _ _ Hnd) Hstep)
      as (C1 & T1 & M1 & F1 & F2 & F3 & F4 & F5 & F6 & F7).
    destruct (IH st1 C1 T1 M1) as (st' & Hrun & C & T & G1 & G2 & G3 & G4 & G5 & G6 & G7).
    { rewrite heads_courseids, F5, map_app, <- app_assoc. simpl.
      by rewrite <- heads_courseids. }
    { intros d' Hd'. apply Hvalid. by right. }
    exists st'. simpl. rewrite Hstep. cbn [mbind result_bind].
    split; [done|]. split; [done|]. split; [done|].
    split; [congruence|]. split; [congruence|]. split; [congruence|].
    split; [intros a; by rewrite G4, F4|]. split; [by rewrite G5, F5, <- app_assoc|].
    split; [|auto].
    rewrite G6, F6, <- app_assoc. f_equal. f_equal.
    apply flat_map_ext_in. intros d' _. destruct (resolved m d') as [i|]; [|done].
    pose proof (F4 i) as Hh. by injection Hh as _ _ _ ->.
Qed.

End tk_json_courses.

Section tk_json_links.
Import Tk TkSpec TkInv TkJson TkJsonSpec.

Lemma find_id_member (f : nat → string) (l : list nat) (a : nat) :
  NoDup (map f l) → a ∈ l → List.find (λ b, String.eqb (f b) (f a)) l = Some a.
Proof.
  induction l as [|x l IH]; simpl; [by intros _ ?%elem_of_nil|].
  intros [Hx Hl]%NoDup_cons [->|Ha]%elem_of_cons.
  - by rewrite String.eqb_refl.
  - destruct (String.eqb (f x) (f a)) eqn:E; [|by apply IH].
    apply String.eqb_eq in E. destruct Hx. rewrite E. apply elem_of_map. eauto.
Qed.

Lemma relinked_refl (st : State) : relinked st st.
Proof. by repeat split. Qed.

Lemma relinked_trans (st st1 st2 : State) :
  relinked st st1 → relinked st1 st2 → relinked st st2.
Proof.
  intros (A1 & A2 & A3 & A4 & A5 & A6) (B1 & B2 & B3 & B4 & B5 & B6).
  split; [congruence|]. split; [congruence|]. split; [congruence|].
  split; [congruence|]. split.
  - intros a. by rewrite B5.
  - intros a. destruct (A6 a), (B6 a). split; congruence.
Qed.

Lemma relinked_facts (st st' : State) :
  relinked st st' →
  student_heads st' = student_heads st ∧
  instructor_heads st' = instructor_heads st ∧
  course_heads st' = course_heads st ∧
  assignments st' = assignments st ∧
  (∀ x, findstudent st' x = findstudent st x) ∧
  (∀ x, findcourse st' x = findcourse st x) ∧
  (tidy st → tidy st').
Proof.
  intros (A1 & A2 & A3 & A4 & A5 & A6).
  assert (HI : ∀ a, instructor_at st' a = instructor_at st a).
  { intros a. unfold instructor_at. by rewrite A4. }
  split; [|split; [|split; [|split; [|split; [|split]]]]].
  - unfold student_heads. rewrite A1. by apply map_ext.
  - unfold instructor_heads. rewrite A2. apply map_ext. intros a. by rewrite HI.
  - unfold course_heads. rewrite A3. apply map_ext. intros a. by destruct (A6 a).
  - unfold assignments. rewrite A3. apply flat_map_ext_in. intros a _.
    destruct (A6 a) as [[= -> _] ->].
    destruct (c_instructor (course_at st a)); [|done]. by rewrite HI.
  - intros x. unfold findstudent. rewrite A1. apply find_ext. intros a.
    pose proof (A5 a) as [= _ _ _ ->]. done.
  - intros x. unfold findcourse. rewrite A3. apply find_ext. intros a.
    by destruct (A6 a) as [[= -> _] _].
  - intros Ht i c. rewrite A2, A3, HI. intros Hi Hc.
    destruct (Ht i c Hi Hc) as [Hin Hci]. split; [done|].
    by destruct (A6 c) as [_ ->].
Qed.

Lemma elem_of_enrolments (st : State) (e : string * string) :
  e ∈ enrolments st ↔
  ∃ c s, c ∈ courses st ∧ s ∈ c_students (course_at st c) ∧
         e = (studentid (student_at st s), courseid (course_at st c)).
Proof.
  unfold enrolments. rewrite elem_of_flat_map. split.
  - intros (c & Hc & (s & -> & Hs)%elem_of_map). eauto.
  - intros (c & s & Hc & Hs & ->). exists c. split; [done|].
    apply elem_of_map. eauto.
Qed.

(** A setter that writes what is there changes nothing. *)
Lemma set_c_students_same (c : nat) (f : list nat → list nat) (st : State) :
  f (c_students (course_at st c)) = c_students (course_at st c) →
  set_c_students c f st = st.
Proof.
  intros Hf. unfold set_c_students. destruct st as [hs hi hc ss ins cs].
  cbn [heap_students heap_instructors heap_courses students instructors courses].
  f_equal. apply list_eq. intros j. destruct (decide (c = j)) as [<-|Hne].
  - rewrite list_lookup_alter_eq. unfold course_at in Hf. cbn [heap_courses] in Hf.
    destruct (hc !! c) as [o|]; [|done]. simpl in *. rewrite Hf. by destruct o.
  - by rewrite list_lookup_alter_ne.
Qed.

Lemma set_s_courses_same (s : nat) (f : list nat → list nat) (st : State) :
  f (s_courses (student_at st s)) = s_courses (student_at st s) →
  set_s_courses s f st = st.
Proof.
  intros Hf. unfold set_s_courses. destruct st as [hs hi hc ss ins cs].
  cbn [heap_students heap_instructors heap_courses students instructors courses].
  f_equal. apply list_eq. intros j. destruct (decide (s = j)) as [<-|Hne].
  - rewrite list_lookup_alter_eq. unfold student_at in Hf. cbn [heap_students] in Hf.
    destruct (hs !! s) as [o|]; [|done]. simpl in *. rewrite Hf. by destruct o.
  - by rewrite list_lookup_alter_ne.
Qed.

Lemma append_new_same (x : nat) (l : list nat) : x ∈ l → Py.append_new x l = l.
Proof. intros H%mem_true. unfold Py.append_new. by rewrite H. Qed.

(** The two calls that link a student and a course of the registry. *)
Lemma tk_link_effect (st : State) (s c : nat) :
  consistent st → s ∈ students st → c ∈ courses st →
  let st' := enroll s c (addstudent_to_course c s st) in
  consistent st' ∧ relinked st st' ∧
  ∀ e, e ∈ enrolments st' ↔
       e ∈ enrolments st ∨ e = (studentid (student_at st s), courseid (course_at st c)).
Proof.
  intros Hc Hs Hco st'.
  destruct (decide (s ∈ c_students (course_at st c))) as [Hin|Hnin].
  - assert (E : st' = st).
    { unfold st', enroll, addstudent_to_course.
      rewrite (set_c_students_same c _ st) by (by apply append_new_same).
      apply set_s_courses_same, append_new_same.
      destruct Hc as (_ & _ & _ & _ & _ & _ & _ & _ & L2 & _). by apply L2. }
    rewrite E. split; [done|]. split; [apply relinked_refl|].
    intros e. split; [auto|]. intros [| ->]; [done|].
    apply elem_of_enrolments. eauto.
  - pose proof Hc as (A & Sd & _ & Cd & _).
    assert (Hfs : findstudent st (studentid (student_at st s)) = Some s).
    { apply (find_id_member (λ a, studentid (student_at st a)) _ s Sd Hs). }
    assert (Hfc : findcourse st (courseid (course_at st c)) = Some c).
    { apply (find_id_member (λ a, courseid (course_at st a)) _ c Cd Hco). }
    pose proof (register_consistent st (studentid (student_at st s))
                  (courseid (course_at st c)) Hc) as Hc'.
    destruct (register_links st _ _ s c A Hfs Hfc Hnin)
      as (r & Hreg & Hcs & Hsc & R1 & R2 & R3 & R4 & R5 & R6 & R7 & R8 & R9 & R10
          & R11 & R12 & R13 & R14 & R15).
    rewrite Hreg in Hc'. cbn [snd] in Hc'.
    assert (E : st' = r).
    { unfold register in Hreg. rewrite Hfs, Hfc in Hreg. apply mem_false in Hnin. rewrite Hnin in Hreg.
      by injection Hreg as <-. }
    rewrite E. clear E st' Hreg.
    assert (Hsh : ∀ a, s_head (student_at r a) = s_head (student_at st a)).
    { intros a. destruct (decide (a = s)) as [->|Hne]; [|by rewrite R7].
      unfold s_head. by rewrite R9, R10, R11, R12. }
    assert (Hch : ∀ a, c_head (course_at r a) = c_head (course_at st a) ∧
                       c_instructor (course_at r a) = c_instructor (course_at st a)).
    { intros a. destruct (decide (a = c)) as [->|Hne]; [|by rewrite R8].
      unfold c_head. by rewrite R13, R14, R15. }
    split; [done|]. split; [done|].
    intros e. rewrite !elem_of_enrolments. split.
    + intros (c0 & s0 & Hc0 & Hs0 & ->). rewrite R3 in Hc0.
      pose proof (Hsh s0) as [= _ _ _ ->]. destruct (Hch c0) as [[= -> _] _].
      destruct (decide (c0 = c)) as [->|Hne].
      * rewrite Hcs in Hs0. apply elem_of_app in Hs0 as [Hs0 | ->%list_elem_of_singleton].
        -- left. eauto.
        -- by right.
      * rewrite R8 in Hs0 by done. left. eauto.
    + intros [(c0 & s0 & Hc0 & Hs0 & ->)| ->].
      * exists c0, s0. rewrite R3. split; [done|].
        pose proof (Hsh s0) as [= _ _ _ ->]. destruct (Hch c0) as [[= -> _] _].
        split; [|done]. destruct (decide (c0 = c)) as [->|Hne].
        -- rewrite Hcs. apply elem_of_app. by left.
        -- by rewrite R8.
      * exists c, s. rewrite R3. split; [done|]. rewrite Hcs.
        pose proof (Hsh s) as [= _ _ _ ->]. destruct (Hch c) as [[= -> _] _].
        split; [|done]. apply elem_of_app. right. by apply list_elem_of_singleton.
Qed.

End tk_json_links.

Section tk_json_link_loops.
Import Tk TkSpec TkInv TkJson TkJsonSpec.

Lemma relinked_agrees (m : gmap string nat) (st st' : State) :
  relinked st st' → agrees_students m st → agrees_students m st'.
Proof.
  intros Hr Hm x. destruct (relinked_facts st st' Hr) as (_ & _ & _ & _ & Hf & _).
  by rewrite Hf.
Qed.

(** One round of the inner loop of the fourth loop. *)
Lemma link_student_step (m : gmap string nat) (co : option nat) (st : State)
    (sid : string) :
  consistent st → agrees_students m st → (∀ c, co = Some c → c ∈ courses st) →
  consistent (link_student m co st sid) ∧ relinked st (link_student m co st sid) ∧
  ∀ e, e ∈ enrolments (link_student m co st sid) ↔
       e ∈ enrolments st ∨
       ∃ s c, m !! sid = Some s ∧ co = Some c ∧ e = (sid, courseid (course_at st c)).
Proof.
  intros Hc Hm Hco. unfold link_student.
  destruct (m !! sid) as [s|] eqn:Hs.
  - destruct co as [c|].
    + rewrite Hm in Hs.
      apply (find_id_Some (λ a, studentid (student_at st a))) in Hs as [Hs Hid].
      destruct (tk_link_effect st s c Hc Hs (Hco c eq_refl)) as (C & R & E).
      split; [done|]. split; [done|]. intros e. rewrite E, Hid. split.
      * intros [?| ->]; [by left|]. right. eauto.
      * intros [|(s' & c' & _ & [= <-] & ->)]; [by left | by right].
    + split; [done|]. split; [apply relinked_refl|]. intros e. split; [auto|].
      by intros [|(? & ? & _ & ? & _)].
  - split; [done|]. split; [apply relinked_refl|]. intros e. split; [auto|].
    by intros [|(? & ? & ? & _)].
Qed.

(** The inner loop. *)
Lemma link_students_loop (m : gmap string nat) (co : option nat) (sids : list string)
    (st : State) :
  consistent st → agrees_students m st → (∀ c, co = Some c → c ∈ courses st) →
  consistent (fold_left (link_student m co) sids st) ∧
  relinked st (fold_left (link_student m co) sids st) ∧
  ∀ e, e ∈ enrolments (fold_left (link_student m co) sids st) ↔
       e ∈ enrolments st ∨
       ∃ sid s c, sid ∈ sids ∧ m !! sid = Some s ∧ co = Some c ∧
                  e = (sid, courseid (course_at st c)).
Proof.
  revert st. induction sids as [|sid sids IH]; intros st Hc Hm Hco; simpl.
  - split; [done|]. split; [apply relinked_refl|]. intros e. split; [auto|].
    by intros [|(? & ? & ? & ?%elem_of_nil & _)].
  - destruct (link_student_step m co st sid Hc Hm Hco) as (C1 & R1 & E1).
    destruct (IH (link_student m co st sid) C1 (relinked_agrees _ _ _ R1 Hm))
      as (C & R & E).
    { intros c Hcc. destruct R1 as (_ & _ & -> & _). by apply Hco. }
    split; [done|]. split; [by apply (relinked_trans _ _ _ R1)|].
    intros e. rewrite E, E1.
    assert (Hid : ∀ c, courseid (course_at (link_student m co st sid) c)
                       = courseid (course_at st c)).
    { intros c. destruct R1 as (_ & _ & _ & _ & _ & H6).
      by destruct (H6 c) as [[= -> _] _]. }
    split.
    + intros [[|(s & c & Hs & Hcc & ->)]|(x & s & c & Hx & Hs & Hcc & ->)].
      * by left.
      * right. exists sid, s, c. split; [by left|]. done.
      * right. exists x, s, c. split; [by right|]. by rewrite Hid.
    + intros [|(x & s & c & [->|Hx]%elem_of_cons & Hs & Hcc & ->)].
      * left. by left.
      * left. right. eauto.
      * right. exists x, s, c. by rewrite Hid.
Qed.

(** The fourth loop. *)
Lemma link_courses_loop (m : gmap string nat) (ds : list course_dict) (st : State) :
  consistent st → agrees_students m st →
  consistent (fold_left (link_course m) ds st) ∧
  relinked st (fold_left (link_course m) ds st) ∧
  ∀ e, e ∈ enrolments (fold_left (link_course m) ds st) ↔
       e ∈ enrolments st ∨
       ∃ d sid, d ∈ ds ∧ sid ∈ cd_students d ∧ is_Some (m !! sid) ∧
                is_Some (findcourse st (cd_courseid d)) ∧ e = (sid, cd_courseid d).
Proof.
  revert st. induction ds as [|d ds IH]; intros st Hc Hm; simpl.
  - split; [done|]. split; [apply relinked_refl|]. intros e. split; [auto|].
    by intros [|(? & ? & ?%elem_of_nil & _)].
  - assert (Hco : ∀ c, findcourse st (cd_courseid d) = Some c → c ∈ courses st).
    { intros c Hf.
      by apply (find_id_Some (λ a, courseid (course_at st a))) in Hf as [? _]. }
    destruct (link_students_loop m _ (cd_students d) st Hc Hm Hco) as (C1 & R1 & E1).
    fold (link_course m st d) in C1, R1, E1.
    destruct (IH (link_course m st d) C1 (relinked_agrees _ _ _ R1 Hm)) as (C & R & E).
    split; [done|]. split; [by apply (relinked_trans _ _ _ R1)|].
    intros e. rewrite E, E1.
    destruct (relinked_facts _ _ R1) as (_ & _ & _ & _ & _ & Hfc & _).
    split.
    + intros [[|(x & s & c & Hx & Hs & Hcc & ->)]|(d' & x & Hd' & Hx & Hs & Hcc & ->)].
      * by left.
      * right. exists d, x. split; [by left|]. split; [done|]. split; [by eexists|].
        split; [by eexists|].
        by apply (find_id_Some (λ a, courseid (course_at st a))) in Hcc as [_ ->].
      * right. exists d', x. split; [by right|]. by rewrite <- Hfc.
    + intros [|(d' & x & [->|Hd']%elem_of_cons & Hx & [s Hs] & [c Hcc] & ->)].
      * left. by left.
      * left. right. exists x, s, c. split; [done|]. split; [done|]. split; [done|].
        by apply (find_id_Some (λ a, courseid (course_at st a))) in Hcc as [_ ->].
      * right. exists d', x. rewrite Hfc. split; [done|]. split; [done|].
        split; [by eexists|]. split; [by eexists|]. done.
Qed.

End tk_json_link_loops.

Section tk_json_round_trip.
Import Tk TkSpec TkInv TkJson TkJsonSpec.

Lemma saved_students (g : State) :
  valid_entities g → consistent g →
  NoDup (map sd_studentid (doc_students (tojson g))) ∧
  (∀ d, d ∈ doc_students (tojson g) →
        is_ok (Student_init (sd_name d) (PyInt (py_int (sd_age d))) (sd_email d)
                            (sd_studentid d)) = true) ∧
  map (λ d, s_head (student_obj d)) (doc_students (tojson g)) = student_heads g.
Proof.
  intros (Vs & _ & _) (_ & Sd & _). cbn [tojson doc_students].
  split; [by rewrite map_map|]. split.
  - intros d (a & -> & Ha)%elem_of_map. by apply Vs.
  - by rewrite map_map.
Qed.

Lemma saved_instructors (g : State) :
  valid_entities g → consistent g →
  NoDup (map id_instructorid (doc_instructors (tojson g))) ∧
  (∀ d, d ∈ doc_instructors (tojson g) →
        is_ok (Instructor_init (id_name d) (PyInt (py_int (id_age d))) (id_email d)
                               (id_instructorid d)) = true) ∧
  map (λ d, i_head (instructor_obj d)) (doc_instructors (tojson g))
  = instructor_heads g.
Proof.
  intros (_ & Vi & _) (_ & _ & Id & _). cbn [tojson doc_instructors].
  split; [by rewrite map_map|]. split.
  - intros d (a & -> & Ha)%elem_of_map. by apply Vi.
  - by rewrite map_map.
Qed.

Lemma saved_courses (g : State) :
  valid_entities g → consistent g →
  NoDup (map cd_courseid (doc_courses (tojson g))) ∧
  (∀ d, d ∈ doc_courses (tojson g) →
        is_ok (Course_init (cd_courseid d) (cd_coursename d) None) = true) ∧
  map (λ d, (cd_courseid d, cd_coursename d)) (doc_courses (tojson g))
  = course_heads g.
Proof.
  intros (_ & _ & Vc) (_ & _ & _ & Cd & _). cbn [tojson doc_courses].
  split; [by rewrite map_map|]. split.
  - intros d (a & -> & Ha)%elem_of_map. by apply Vc.
  - by rewrite map_map.
Qed.

Lemma findstudent_same (st st' : State) (x : string) :
  students st' = students st → heap_students st' = heap_students st →
  findstudent st' x = findstudent st x.
Proof. intros E1 E2. unfold findstudent, student_at. by rewrite E1, E2. Qed.

Lemma student_heads_same (st st' : State) :
  students st' = students st → heap_students st' = heap_students st →
  student_heads st' = student_heads st.
Proof. intros E1 E2. unfold student_heads, student_at. by rewrite E1, E2. Qed.

Lemma known_student (st : State) (x : string) :
  x ∈ map snd (student_heads st) → is_Some (findstudent st x).
Proof.
  rewrite <- heads_studentids. intros (a & -> & Ha)%elem_of_map.
  destruct (find_id_is_Some (λ a, studentid (student_at st a)) (students st)
              (studentid (student_at st a))) as [b Hb]; [eauto|].
  by exists b.
Qed.

Lemma known_course (st : State) (x : string) :
  x ∈ map fst (course_heads st) → is_Some (findcourse st x).
Proof.
  rewrite <- heads_courseids. intros (a & -> & Ha)%elem_of_map.
  destruct (find_id_is_Some (λ a, courseid (course_at st a)) (courses st)
              (courseid (course_at st a))) as [b Hb]; [eauto|].
  by exists b.
Qed.

Lemma Instructor_init_id (name : string) (age : pyval) (email iid : string) :
  is_ok (Instructor_init name age email iid) = true → iid ≠ "".
Proof.
  unfold Instructor_init. destruct (Person_init name age email); [|done]. simpl.
  by destruct (decide _).
Qed.

(** What the third loop finds for the entry of a course of [g], when the
    dictionary agrees with a registry [st] that has the instructors of
    [g]. *)
Lemma tojson_assignments (g st : State) (m : gmap string nat) :
  valid_entities g → consistent g → agrees_instructors m st →
  instructor_heads st = instructor_heads g →
  flat_map (λ d, match resolved m d with
                 | Some i => [(cd_courseid d, instructorid (instructor_at st i))]
                 | None => []
                 end) (doc_courses (tojson g))
  = assignments g.
Proof.
  intros (_ & Vi & _) Hg Hm Hh. cbn [tojson doc_courses]. unfold assignments.
  destruct Hg as (_ & _ & _ & _ & _ & _ & _ & _ & _ & L3).
  induction (courses g) as [|c l IH]; [done|]. simpl.
  rewrite IH by (intros c0 i Hc0; apply L3; by right). f_equal.
  unfold resolved. cbn [cd_instructor cd_courseid].
  destruct (c_instructor (course_at g c)) as [i|] eqn:Hi; [|done]. simpl.
  destruct (L3 c i) as [Hin _]; [by left | done |].
  rewrite bool_decide_false by (by apply (Instructor_init_id _ _ _ _ (Vi i Hin))).
  rewrite Hm.
  assert (Hk : instructorid (instructor_at g i)
               ∈ map (λ a, instructorid (instructor_at st a)) (instructors st)).
  { rewrite heads_instructorids, Hh, <- heads_instructorids. apply elem_of_map. eauto. }
  apply elem_of_map in Hk as (b & Hb & Hbin).
  destruct (find_id_is_Some (λ a, instructorid (instructor_at st a)) (instructors st)
              (instructorid (instructor_at g i))) as [j Hj]; [eauto|].
  unfold findinstructor. rewrite Hj.
  by apply (find_id_Some (λ a, instructorid (instructor_at st a))) in Hj as [_ ->].
Qed.

Lemma no_enrolments (st : State) :
  (∀ c, c ∈ courses st → c_students (course_at st c) = []) → enrolments st = [].
Proof.
  intros H. unfold enrolments. induction (courses st) as [|c l IH]; [done|]. simpl.
  rewrite (H c) by (by left). simpl. apply IH. intros c0 Hc0. apply H. by right.
Qed.

End tk_json_round_trip.

(** X19. Writing a consistent registry of entities that their
    constructors accept with [tojson] and reading the document with
    [fromjson] succeeds and gives the same school: the same students,
    instructors and courses with the same names, ages, e-mail addresses
    and ids, in the same order; the same (student, course) enrolments and
    the same (course, instructor) assignments; a consistent registry; and
    the list of every instructor holds only courses that have this
    instructor, also when it held others before. *)
Theorem tojson_then_fromjson (g : Tk.State) :
  TkJsonSpec.valid_entities g → TkInv.consistent g →
  ∃ g', TkJson.fromjson (TkJson.tojson g) = Ok g' ∧
        TkInv.consistent g' ∧ TkJsonSpec.tidy g' ∧
        TkJsonSpec.student_heads g' = TkJsonSpec.student_heads g ∧
        TkJsonSpec.instructor_heads g' = TkJsonSpec.instructor_heads g ∧
        TkJsonSpec.course_heads g' = TkJsonSpec.course_heads g ∧
        SyncSpec.same_set (TkJsonSpec.enrolments g') (TkJsonSpec.enrolments g) ∧
        TkJsonSpec.assignments g' = TkJsonSpec.assignments g.
Proof.
  intros Hvalid Hg.
  destruct (saved_students g Hvalid Hg) as (Ns & Vs & Hs).
  destruct (saved_instructors g Hvalid Hg) as (Ni & Vi & Hi).
  destruct (saved_courses g Hvalid Hg) as (Nc & Vc & Hco).
  destruct (load_students_phase (TkJson.doc_students (TkJson.tojson g)) Tk.empty ∅)
    as (r1 & H1 & C1 & M1 & A1 & A2 & A3 & A4 & A5);
    [apply consistent_empty | done | done | done |].
  destruct (load_instructors_phase (TkJson.doc_instructors (TkJson.tojson g)) r1.1 ∅)
    as (r2 & H2 & C2 & M2 & B1 & B2 & B3 & B4 & B5 & B6);
    [done | | | done |].
  { intros x. unfold Tk.findinstructor. by rewrite A1. }
  { by rewrite A1. }
  assert (Hr1 : TkJsonSpec.instructor_heads r1.1 = []).
  { unfold TkJsonSpec.instructor_heads. by rewrite A1. }
  rewrite Hr1 in B5. rewrite A1 in B6. cbn [app] in B5. specialize (B6 (λ i Hi, False_ind _ (proj1 (elem_of_nil i) Hi))).
  destruct (load_courses_phase r2.2 (TkJson.doc_courses (TkJson.tojson g)) r2.1)
    as (st3 & H3 & C3 & T3 & D1 & D2 & D3 & D4 & D5 & D6 & D7);
    [done | | done | | done |].
  { intros i c Hin Hc. rewrite B6 in Hc by done. by apply elem_of_nil in Hc. }
  { by rewrite B2, A2. }
  rewrite B2, A2 in D7.
  specialize (D7 (λ c Hc, False_ind _ (proj1 (elem_of_nil c) Hc))).
  assert (M3 : TkJsonSpec.agrees_students r1.2 st3).
  { intros x. rewrite M1. symmetry.
    rewrite (findstudent_same r2.1 st3) by done. by apply findstudent_same. }
  destruct (link_courses_loop r1.2 (TkJson.doc_courses (TkJson.tojson g)) st3 C3 M3)
    as (C4 & R4 & E4).
  destruct (relinked_facts _ _ R4) as (Q1 & Q2 & Q3 & Q4 & _ & _ & Q7).
  assert (Hsh : TkJsonSpec.student_heads st3 = TkJsonSpec.student_heads g).
  { rewrite (student_heads_same r2.1 st3) by done.
    rewrite (student_heads_same r1.1 r2.1) by done. by rewrite A5, Hs. }
  assert (Hih : TkJsonSpec.instructor_heads st3 = TkJsonSpec.instructor_heads g).
  { unfold TkJsonSpec.instructor_heads at 1. rewrite D3.
    rewrite (map_ext _ _ D4). fold (TkJsonSpec.instructor_heads r2.1).
    by rewrite B5, Hi. }
  assert (Hch : TkJsonSpec.course_heads st3 = TkJsonSpec.course_heads g).
  { rewrite D5, Hco. unfold TkJsonSpec.course_heads. by rewrite B2, A2. }
  eexists. split.
  { unfold TkJson.fromjson. rewrite H1. cbn [mbind result_bind]. rewrite H2.
    cbn [mbind result_bind]. rewrite H3. cbn [mbind result_bind]. done. }
  split; [done|]. split; [by apply Q7|]. split; [by rewrite Q1|].
  split; [by rewrite Q2|]. split; [by rewrite Q3|]. split.
  - intros e. rewrite E4, (no_enrolments st3 D7), elem_of_enrolments. split.
    + intros [?%elem_of_nil|(d & x & Hd & Hx & _ & _ & ->)]; [done|].
      cbn [TkJson.tojson TkJson.doc_courses] in Hd.
      apply elem_of_map in Hd as (c & -> & Hc).
      cbn [TkJson.cd_students TkJson.cd_courseid] in *.
      apply elem_of_map in Hx as (s & -> & Hin). eauto.
    + intros (c & s & Hc & Hin & ->). right.
      exists (TkJson.mkCourseDict
                (Tk.courseid (Tk.course_at g c)) (Tk.coursename (Tk.course_at g c))
                ((λ i, Tk.instructorid (Tk.instructor_at g i))
                   <$> Tk.c_instructor (Tk.course_at g c))
                (map (λ s, Tk.studentid (Tk.student_at g s))
                     (Tk.c_students (Tk.course_at g c)))),
             (Tk.studentid (Tk.student_at g s)).
      cbn [TkJson.cd_students TkJson.cd_courseid].
      split; [apply elem_of_map; eauto|]. split; [apply elem_of_map; eauto|].
      split; [|split; [|done]].
      * rewrite M3. apply known_student. rewrite Hsh, <- heads_studentids.
        apply elem_of_map. exists s. split; [done|].
        destruct Hg as (_ & _ & _ & _ & _ & _ & _ & _ & L2 & _).
        by destruct (L2 c s Hc Hin).
      * apply known_course. rewrite Hch, <- heads_courseids.
        apply elem_of_map. eauto.
  - rewrite Q4, D6.
    rewrite (tojson_assignments g r2.1 r2.2 Hvalid Hg M2) by (by rewrite B5, Hi).
    unfold TkJsonSpec.assignments at 1. by rewrite B2, A2.
Qed.

(** The school of a short session comes back from its document, without
    the course that the first instructor had kept. *)
Lemma tojson_then_fromjson_witness :
  ∃ g', TkJson.fromjson (TkJson.tojson TkJsonSpec.small_school) = Ok g' ∧
        TkInv.consistent g' ∧ TkJsonSpec.tidy g' ∧
        TkJsonSpec.student_heads g' = TkJsonSpec.student_heads TkJsonSpec.small_school ∧
        TkJsonSpec.instructor_heads g'
          = TkJsonSpec.instructor_heads TkJsonSpec.small_school ∧
        TkJsonSpec.course_heads g' = TkJsonSpec.course_heads TkJsonSpec.small_school ∧
        SyncSpec.same_set (TkJsonSpec.enrolments g')
                          (TkJsonSpec.enrolments TkJsonSpec.small_school) ∧
        TkJsonSpec.assignments g' = TkJsonSpec.assignments TkJsonSpec.small_school.
Proof.
  apply (tojson_then_fromjson TkJsonSpec.small_school).
  - split; [|split]; intros a Ha; vm_compute in Ha;
      repeat (apply elem_of_cons in Ha as [->|Ha]; [by vm_compute|]);
      by apply elem_of_nil in Ha.
  - apply session_consistent_from_empty.
Defined.

Section tk_json_any_document.
Import Tk TkSpec TkInv TkJson TkJsonSpec.

Lemma for_each_is_ok {A S} (p : A → bool) (step : S → A → result S) (l : list A)
    (st : S) :
  (∀ s x, is_ok (step s x) = p x) → is_ok (Db.for_each step l st) = forallb p l.
Proof.
  intros Hstep. revert st. induction l as [|x l IH]; intros st; simpl; [done|].
  rewrite <- (Hstep st x). destruct (step st x) as [s1|]; [|done]. simpl. apply IH.
Qed.

Lemma forallb_elem {A} (p : A → bool) (l : list A) :
  forallb p l = true ↔ ∀ x, x ∈ l → p x = true.
Proof.
  rewrite forallb_forall. split; intros H x Hx; apply H; by apply list_elem_of_In.
Qed.

Lemma load_student_is_ok (acc : State * gmap string nat) (d : student_dict) :
  is_ok (load_student acc d)
  = is_ok (Student_init (sd_name d) (PyInt (py_int (sd_age d))) (sd_email d)
                        (sd_studentid d)).
Proof.
  unfold load_student. destruct (Student_init _ _ _ _) as [o|]; [|done]. simpl.
  by destruct (new_student acc.1 o).
Qed.

Lemma load_instructor_is_ok (acc : State * gmap string nat) (d : instructor_dict) :
  is_ok (load_instructor acc d)
  = is_ok (Instructor_init (id_name d) (PyInt (py_int (id_age d))) (id_email d)
                           (id_instructorid d)).
Proof.
  unfold load_instructor. destruct (Instructor_init _ _ _ _) as [o|]; [|done]. simpl.
  by destruct (new_instructor acc.1 o).
Qed.

Lemma load_course_is_ok (m : gmap string nat) (st : State) (d : course_dict) :
  is_ok (load_course m st d) = is_ok (Course_init (cd_courseid d) (cd_coursename d) None).
Proof.
  unfold load_course. fold (resolved m d).
  rewrite (tk_Course_init_any _ _ None (resolved m d)).
  destruct (Course_init _ _ _) as [o|]; [|done]. cbn [mbind result_bind].
  by destruct (new_course st o).
Qed.

(** The first loop appends one object for every entry. *)
Lemma load_students_heads (ds : list student_dict) (st : State) (m : gmap string nat)
    (r : State * gmap string nat) :
  allocated st → Db.for_each load_student ds (st, m) = Ok r →
  allocated r.1 ∧ instructors r.1 = instructors st ∧ courses r.1 = courses st ∧
  heap_instructors r.1 = heap_instructors st ∧ heap_courses r.1 = heap_courses st ∧
  student_heads r.1 = student_heads st ++ map (λ d, s_head (student_obj d)) ds.
Proof.
  revert st m. induction ds as [|d ds IH]; intros st m Ha; simpl.
  - intros [= <-]. by rewrite app_nil_r.
  - destruct (load_student (st, m) d) as [r1|] eqn:Hstep; [|done].
    cbn [mbind result_bind]. intros Hrun.
    apply fromjson_student_inv in Hstep. destruct r1 as [st1 m1].
    injection Hstep as -> ->.
    set (n := length (heap_students st)) in *.
    set (st1 := set_students (students st ++ [n]) (new_student st (student_obj d)).2)
      in *.
    assert (Hat : ∀ a, student_at st1 a
                       = if decide (a = n) then student_obj d else student_at st a).
    { apply tk_student_at_new. }
    destruct Ha as (As & Ai & Ac).
    assert (Ha1 : allocated st1).
    { split; [|done]. intros a. cbn [st1 students set_students heap_students new_student snd].
      rewrite length_app. simpl.
      intros [Hin%As | ->%list_elem_of_singleton]%elem_of_app; unfold n; lia. }
    destruct (IH st1 _ Ha1 Hrun) as (A & E1 & E2 & E3 & E4 & E5).
    split; [done|]. split; [done|]. split; [done|]. split; [done|]. split; [done|].
    rewrite E5. cbn [map]. rewrite (cons_middle _ (student_heads st)), app_assoc.
    f_equal. unfold student_heads.
    change (students st1) with (students st ++ [n]). rewrite map_app. simpl.
    rewrite Hat, decide_True by done. f_equal.
    apply map_ext_elem. intros a Hin%As. rewrite Hat, decide_False; [done|].
    unfold n. lia.
Qed.

(** The second loop appends one object for every entry. *)
Lemma load_instructors_heads (ds : list instructor_dict) (st : State)
    (m : gmap string nat) (r : State * gmap string nat) :
  allocated st → Db.for_each load_instructor ds (st, m) = Ok r →
  allocated r.1 ∧ students r.1 = students st ∧ courses r.1 = courses st ∧
  heap_students r.1 = heap_students st ∧ heap_courses r.1 = heap_courses st ∧
  instructor_heads r.1 = instructor_heads st ++ map (λ d, i_head (instructor_obj d)) ds.
Proof.
  revert st m. induction ds as [|d ds IH]; intros st m Ha; simpl.
  - intros [= <-]. by rewrite app_nil_r.
  - destruct (load_instructor (st, m) d) as [r1|] eqn:Hstep; [|done].
    cbn [mbind result_bind]. intros Hrun.
    apply fromjson_instructor_inv in Hstep. destruct r1 as [st1 m1].
    injection Hstep as -> ->.
    set (n := length (heap_instructors st)) in *.
    set (st1 := set_instructors (instructors st ++ [n])
                  (new_instructor st (instructor_obj d)).2) in *.
    assert (Hat : ∀ a, instructor_at st1 a
                       = if decide (a = n) then instructor_obj d else instructor_at st a).
    { apply tk_instructor_at_new. }
    destruct Ha as (As & Ai & Ac).
    assert (Ha1 : allocated st1).
    { split; [done|]. split; [|done]. intros a.
      cbn [st1 instructors set_instructors heap_instructors new_instructor snd].
      rewrite length_app. simpl.
      intros [Hin%Ai | ->%list_elem_of_singleton]%elem_of_app; unfold n; lia. }
    destruct (IH st1 _ Ha1 Hrun) as (A & E1 & E2 & E3 & E4 & E5).
    split; [done|]. split; [done|]. split; [done|]. split; [done|]. split; [done|].
    rewrite E5. cbn [map]. rewrite (cons_middle _ (instructor_heads st)), app_assoc.
    f_equal. unfold instructor_heads.
    change (instructors st1) with (instructors st ++ [n]). rewrite map_app. simpl.
    rewrite Hat, decide_True by done. f_equal.
    apply map_ext_elem. intros a Hin%Ai. rewrite Hat, decide_False; [done|].
    unfold n. lia.
Qed.

End tk_json_any_document.

Section tk_json_any_document_2.
Import Tk TkSpec TkInv TkJson TkJsonSpec.

(** One round of the third loop, in any registry. *)
Lemma load_course_heads (m : gmap string nat) (st r : State) (d : course_dict) :
  allocated st → load_course m st d = Ok r →
  allocated r ∧ students r = students st ∧ heap_students r = heap_students st ∧
  instructors r = instructors st ∧
  (∀ a, i_head (instructor_at r a) = i_head (instructor_at st a)) ∧
  course_heads r = course_heads st ++ [(cd_courseid d, cd_coursename d)].
Proof.
  intros (As & Ai & Ac) Hinv%fromjson_course_inv.
  set (inst := resolved m d) in *.
  set (n := length (heap_courses st)) in *.
  set (o := mkCourse (cd_courseid d) (cd_coursename d) inst []).
  set (st2 := set_courses (courses st ++ [n]) (new_course st o).2).
  assert (E : r = match inst with Some i => take i n st2 | None => st2 end).
  { rewrite Hinv. unfold st2, o. by destruct inst. }
  clear Hinv.
  assert (E1 : students r = students st) by (rewrite E; by destruct inst).
  assert (E2 : heap_students r = heap_students st) by (rewrite E; by destruct inst).
  assert (E3 : instructors r = instructors st) by (rewrite E; by destruct inst).
  assert (E4 : courses r = courses st ++ [n]) by (rewrite E; by destruct inst).
  assert (E5 : heap_courses r = heap_courses st ++ [o]) by (rewrite E; by destruct inst).
  assert (E6 : length (heap_instructors r) = length (heap_instructors st)).
  { rewrite E. destruct inst; [|done]. simpl. by rewrite length_alter. }
  assert (E7 : ∀ a, i_head (instructor_at r a) = i_head (instructor_at st a)).
  { intros a. rewrite E. destruct inst as [i|]; [|done].
    unfold take. rewrite instructor_at_set_i_courses.
    change (instructor_at st2 a) with (instructor_at st a).
    by destruct (decide _). }
  assert (E8 : ∀ a, course_at r a = if decide (a = n) then o else course_at st a).
  { intros a. unfold course_at. rewrite E5. apply lookup_snoc_default. }
  split; [|split; [done|]; split; [done|]; split; [done|]; split; [done|]].
  - split; [|split].
    + intros a. rewrite E1, E2. apply As.
    + intros a. rewrite E3, E6. apply Ai.
    + intros a. rewrite E4, E5, length_app. simpl.
      intros [Hin%Ac | ->%list_elem_of_singleton]%elem_of_app; unfold n; lia.
  - unfold course_heads. rewrite E4, map_app. simpl.
    rewrite E8, decide_True by done. f_equal.
    apply map_ext_elem. intros a Hin%Ac. rewrite E8, decide_False; [done|].
    unfold n. lia.
Qed.

(** The third loop appends one object for every entry. *)
Lemma load_courses_heads (m : gmap string nat) (ds : list course_dict) (st r : State) :
  allocated st → Db.for_each (load_course m) ds st = Ok r →
  students r = students st ∧ heap_students r = heap_students st ∧
  instructors r = instructors st ∧
  (∀ a, i_head (instructor_at r a) = i_head (instructor_at st a)) ∧
  course_heads r = course_heads st ++ map (λ d, (cd_courseid d, cd_coursename d)) ds.
Proof.
  revert st. induction ds as [|d ds IH]; intros st Ha; simpl.
  - intros [= <-]. by rewrite app_nil_r.
  - destruct (load_course m st d) as [st1|] eqn:Hstep; [|done].
    cbn [mbind result_bind]. intros Hrun.
    destruct (load_course_heads m st st1 d Ha Hstep) as (A1 & F1 & F2 & F3 & F4 & F5).
    destruct (IH st1 A1 Hrun) as (G1 & G2 & G3 & G4 & G5).
    split; [congruence|]. split; [congruence|]. split; [congruence|].
    split; [intros a; by rewrite G4, F4|].
    by rewrite G5, F5, <- app_assoc.
Qed.

(** The two calls that link a student and a course change lists only. *)
Lemma link_relinked (st : State) (s c : nat) :
  relinked st (enroll s c (addstudent_to_course c s st)).
Proof.
  split; [done|]. split; [done|]. split; [done|]. split; [done|]. split.
  - intros a. unfold enroll. rewrite student_at_set_s_courses.
    change (student_at (addstudent_to_course c s st) a) with (student_at st a).
    destruct (decide (s = a)); [|done]. simpl. by destruct (decide _).
  - intros a.
    change (course_at (enroll s c (addstudent_to_course c s st)) a)
      with (course_at (addstudent_to_course c s st) a).
    unfold addstudent_to_course. rewrite course_at_set_c_students.
    destruct (decide (c = a)); [|done]. simpl. by destruct (decide _).
Qed.

Lemma link_student_relinked (m : gmap string nat) (co : option nat) (st : State)
    (sid : string) :
  relinked st (link_student m co st sid).
Proof.
  unfold link_student. destruct (m !! sid) as [s|]; [|apply relinked_refl].
  destruct co as [c|]; [apply link_relinked | apply relinked_refl].
Qed.

Lemma link_course_relinked (m : gmap string nat) (st : State) (d : course_dict) :
  relinked st (link_course m st d).
Proof.
  unfold link_course. generalize (findcourse st (cd_courseid d)). intros co.
  revert st. induction (cd_students d) as [|sid l IH]; intros st; simpl.
  - apply relinked_refl.
  - apply (relinked_trans _ (link_student m co st sid)); [|apply IH].
    apply link_student_relinked.
Qed.

Lemma link_courses_relinked (m : gmap string nat) (ds : list course_dict) (st : State) :
  relinked st (fold_left (link_course m) ds st).
Proof.
  revert st. induction ds as [|d ds IH]; intros st; simpl.
  - apply relinked_refl.
  - apply (relinked_trans _ (link_course m st d)); [|apply IH].
    apply link_course_relinked.
Qed.

End tk_json_any_document_2.

(** X20. [fromjson] succeeds exactly when every student and instructor
    entry is accepted by its constructor (with the age converted by
    [int]) and every course entry has a course id and a name; otherwise
    it raises. When it succeeds, the registry holds one object for every
    entry, in the order of the document, with the names, ages, e-mail
    addresses and ids of the entries: unlike [addstudent],
    [addinstructor] and [addcourse], it refuses no entry for an id that
    is already there. *)
Theorem fromjson_reads_every_entry (data : TkJson.document) :
  (is_ok (TkJson.fromjson data) = true ↔
   (∀ d, d ∈ TkJson.doc_students data →
         is_ok (Tk.Student_init (TkJson.sd_name d) (PyInt (TkJson.py_int (TkJson.sd_age d)))
                                (TkJson.sd_email d) (TkJson.sd_studentid d)) = true) ∧
   (∀ d, d ∈ TkJson.doc_instructors data →
         is_ok (Tk.Instructor_init (TkJson.id_name d)
                                   (PyInt (TkJson.py_int (TkJson.id_age d)))
                                   (TkJson.id_email d) (TkJson.id_instructorid d)) = true) ∧
   (∀ d, d ∈ TkJson.doc_courses data →
         is_ok (Tk.Course_init (TkJson.cd_courseid d) (TkJson.cd_coursename d) None)
         = true)) ∧
  (∀ g, TkJson.fromjson data = Ok g →
        TkJsonSpec.student_heads g
        = map (λ d, TkJsonSpec.s_head (TkJsonSpec.student_obj d))
              (TkJson.doc_students data) ∧
        TkJsonSpec.instructor_heads g
        = map (λ d, TkJsonSpec.i_head (TkJsonSpec.instructor_obj d))
              (TkJson.doc_instructors data) ∧
        TkJsonSpec.course_heads g
        = map (λ d, (TkJson.cd_courseid d, TkJson.cd_coursename d))
              (TkJson.doc_courses data)).
Proof.
  split.
  - rewrite <- !forallb_elem. unfold TkJson.fromjson.
    rewrite <- (for_each_is_ok _ TkJson.load_student _ (Tk.empty, ∅))
      by apply load_student_is_ok.
    destruct (Db.for_each TkJson.load_student _ _) as [r1|]; [|by split; [|intros []]].
    cbn [mbind result_bind].
    rewrite <- (for_each_is_ok _ TkJson.load_instructor _ (r1.1, ∅))
      by apply load_instructor_is_ok.
    destruct (Db.for_each TkJson.load_instructor _ _) as [r2|];
      [|by split; [|intros (_ & ? & _)]].
    cbn [mbind result_bind].
    rewrite <- (for_each_is_ok _ (TkJson.load_course r2.2) _ r2.1)
      by apply load_course_is_ok.
    destruct (Db.for_each (TkJson.load_course r2.2) _ _) as [st3|];
      [|by split; [|intros (_ & _ & ?)]].
    done.
  - intros g. unfold TkJson.fromjson.
    destruct (Db.for_each TkJson.load_student _ _) as [r1|] eqn:H1; [|done].
    cbn [mbind result_bind].
    destruct (Db.for_each TkJson.load_instructor _ _) as [r2|] eqn:H2; [|done].
    cbn [mbind result_bind].
    destruct (Db.for_each (TkJson.load_course r2.2) _ _) as [st3|] eqn:H3; [|done].
    cbn [mbind result_bind]. intros [= <-].
    assert (A0 : TkSpec.allocated Tk.empty).
    { repeat split; by intros a ?%elem_of_nil. }
    destruct (load_students_heads _ _ _ _ A0 H1) as (A1 & E1 & E2 & E3 & E4 & E5).
    destruct (load_instructors_heads _ _ _ _ A1 H2) as (A2 & F1 & F2 & F3 & F4 & F5).
    destruct (load_courses_heads _ _ _ _ A2 H3) as (G1 & G2 & G3 & G4 & G5).
    destruct (relinked_facts _ _ (link_courses_relinked r1.2 (TkJson.doc_courses data) st3))
      as (Q1 & Q2 & Q3 & _).
    rewrite Q1, Q2, Q3. split; [|split].
    + rewrite (student_heads_same r2.1 st3) by done.
      rewrite (student_heads_same r1.1 r2.1) by done. by rewrite E5.
    + unfold TkJsonSpec.instructor_heads at 1. rewrite G3, (map_ext _ _ G4).
      fold (TkJsonSpec.instructor_heads r2.1). rewrite F5.
      unfold TkJsonSpec.instructor_heads. by rewrite E1.
    + rewrite G5. unfold TkJsonSpec.course_heads. by rewrite F2, E2.
Qed.

(** ** The Tk window: sessions and the JSON file *)

Section tk_events.
Import Tk TkSpec TkInv.

(** A course added with an instructor while the store cannot write the
    file: the course is in the registry and has the instructor, and the
    instructor's list is as it was. *)
Lemma addcourse_unwritten (cid cname instid : string) (i : nat) (rewritten : bool)
    (st : State) :
  consistent st → instid ≠ "" → findinstructor st instid = Some i →
  is_ok (Course_init cid cname None) = true → findcourse st cid = None →
  App.addcourse cid cname instid false rewritten st
  = set_courses (courses st ++ [length (heap_courses st)])
      (new_course st (mkCourse cid cname (Some i) [])).2.
Proof.
  intros Hc Hne Hi Hok Hnew. unfold App.addcourse.
  rewrite decide_False by done. rewrite Hi.
  rewrite (tk_Course_init_any _ _ None (Some i)) in Hok.
  destruct (Course_init cid cname (Some i)) as [o|] eqn:Hinit; [|done].
  apply tk_Course_init_inv in Hinit as ->.
  change (new_course st (mkCourse cid cname (Some i) []))
    with (length (heap_courses st), (new_course st (mkCourse cid cname (Some i) [])).2).
  cbn beta iota.
  unfold App.store_addcourse, App.saving, App.save, addcourse.
  rewrite tk_course_at_new, decide_True by done. cbn [courseid].
  by rewrite (findcourse_new_course st _ cid (proj1 Hc)), Hnew.
Qed.

Lemma addcourse_unwritten_breaks (cid cname instid : string) (i : nat)
    (rewritten : bool) (st : State) :
  consistent st → instid ≠ "" → findinstructor st instid = Some i →
  is_ok (Course_init cid cname None) = true → findcourse st cid = None →
  length (heap_courses st) ∉ i_courses (instructor_at st i) →
  let st' := App.addcourse cid cname instid false rewritten st in
  findcourse st' cid = Some (length (heap_courses st)) ∧
  c_instructor (course_at st' (length (heap_courses st))) = Some i ∧
  i_courses (instructor_at st' i) = i_courses (instructor_at st i) ∧
  ¬ consistent st'.
Proof.
  intros Hc Hne Hi Hok Hnew Hout st'. unfold st'.
  rewrite (addcourse_unwritten cid cname instid i rewritten st Hc Hne Hi Hok Hnew).
  set (n := length (heap_courses st)).
  set (o := mkCourse cid cname (Some i) []).
  set (st2 := set_courses (courses st ++ [n]) (new_course st o).2).
  assert (Hat : ∀ a, course_at st2 a = if decide (a = n) then o else course_at st a).
  { apply tk_course_at_new. }
  assert (Hn : course_at st2 n = o) by (by rewrite Hat, decide_True).
  assert (Hfind : findcourse st2 cid = Some n).
  { unfold findcourse. change (courses st2) with (courses st ++ [n]).
    rewrite find_snoc.
    rewrite (find_ext_elem _ (λ a, String.eqb (courseid (course_at st a)) cid)).
    - fold (findcourse st cid). rewrite Hnew, Hn. cbn [courseid o].
      by rewrite String.eqb_refl.
    - intros a Ha. rewrite Hat, decide_False; [done|].
      apply (proj2 (proj2 (proj1 Hc))) in Ha. unfold n. lia. }
  split; [done|]. split; [by rewrite Hn|]. split; [done|].
  intros (_ & _ & _ & _ & _ & _ & _ & _ & _ & L3).
  destruct (L3 n i) as [_ Hin].
  - change (courses st2) with (courses st ++ [n]). apply elem_of_app. right.
    by apply list_elem_of_singleton.
  - by rewrite Hn.
  - by apply Hout.
Qed.

End tk_events.

(** X8. In the Tk window a consistent registry of [SchoolSystem] stays
    consistent through every session (add a student, an instructor or a
    course, register, assign, delete a student, an instructor or a course,
    in whatever order and whether or not the store can write the JSON
    file), as long as the file can be written whenever a course is added
    with an instructor chosen: the ids are unique within each kind, no list
    holds an object twice, a course is in a student's list exactly when the
    student is in the course's list, both lists hold only members of the
    registry, and the instructor of a course is a member of the registry
    and has the course in its list. When the store cannot write the file
    while a new course is added with an instructor, the course is in the
    registry with that instructor, the instructor's list is as it was, and
    the registry is not consistent any more. *)
Theorem session_keeps_consistency (l : list App.event) (st : Tk.State) :
  TkInv.consistent st →
  (forallb TkInv.links_whole l = true → TkInv.consistent (App.session l st)) ∧
  (∀ cid cname instid i rewritten,
     instid ≠ "" → Tk.findinstructor st instid = Some i →
     is_ok (Tk.Course_init cid cname None) = true → Tk.findcourse st cid = None →
     length (Tk.heap_courses st) ∉ Tk.i_courses (Tk.instructor_at st i) →
     let st' := App.handle (App.mkEvent (App.AddCourse cid cname instid) false rewritten)
                           st in
     ∃ c, Tk.findcourse st' cid = Some c ∧
          Tk.c_instructor (Tk.course_at st' c) = Some i ∧
          (c ∉ Tk.i_courses (Tk.instructor_at st' i)) ∧
          ¬ TkInv.consistent st').
Proof.
  intros Hc. split.
  - by apply session_consistent.
  - intros cid cname instid i rewritten Hne Hi Hok Hnew Hout st'.
    destruct (addcourse_unwritten_breaks cid cname instid i rewritten st
                Hc Hne Hi Hok Hnew Hout) as (H1 & H2 & H3 & H4).
    exists (length (Tk.heap_courses st)).
    split; [done|]. split; [done|]. split; [|done].
    unfold st'. cbn [App.handle App.ev_action App.ev_written App.ev_rewritten].
    by rewrite H3.
Qed.

(** A session from the empty registry during which the file cannot be
    written when a student is added, and the registry with instructor I1
    in which course C1 is added with I1 while the file cannot be written. *)
Lemma session_keeps_consistency_witness :
  TkInv.consistent
    (App.session [App.saved (App.AddInstructor "Ada" 40 "ada@x.com" "I1");
                  App.saved (App.AddCourse "C1" "Algorithms" "I1");
                  App.mkEvent (App.AddStudent "John Doe" 20 "doe@x.com" "S1") false false;
                  App.saved (App.Register "S1" "C1");
                  App.saved (App.DeleteCourse "C1")] Tk.empty) ∧
  ¬ TkInv.consistent
      (App.handle (App.mkEvent (App.AddCourse "C1" "Algorithms" "I1") false false)
         (App.session [App.saved (App.AddInstructor "Ada" 40 "ada@x.com" "I1")]
                      Tk.empty)).
Proof.
  split.
  - by apply (session_keeps_consistency _ Tk.empty consistent_empty).
  - assert (Hc : TkInv.consistent
                   (App.session [App.saved (App.AddInstructor "Ada" 40 "ada@x.com" "I1")]
                                Tk.empty)).
    { by apply (session_keeps_consistency _ Tk.empty consistent_empty). }
    destruct (session_keeps_consistency [] _ Hc) as [_ H].
    destruct (H "C1" "Algorithms" "I1" 0 false) as (c & _ & _ & _ & Hno);
      [done | reflexivity | reflexivity | reflexivity | | done].
    simpl. by intros ?%elem_of_nil.
Defined.
